(** * Course scheduling core: a shallow embedding and its verification

    The development follows the Python sources module by module:
    [models.py], [session_utils.py], [objective.py], [validation.py],
    [metrics.py], [heuristic.py], [solver.py] and the [compare] endpoint of
    [api/main.py].  Python values are modelled as follows.

    - [int] is [Z]; [str] is [string]; [list] and [tuple] are [list].
    - [dict] is an insertion-ordered association list ([PyDict]): the
      program iterates over [room_by_id.values()], over the usage maps of the
      validator and over the decision variables of the exact model, so the
      order of insertion is observable.
    - [set] is stdpp's [gset]; where a set is sorted before use the sort is
      written out.
    - [float] is the rational number a finite binary64 value denotes
      ([PyFloat]); every operation rounds to the nearest binary64 value.
    - a [KeyError] raised by [d[k]] is [None] in the option monad.

    Two kinds of exception have no counterpart here: the [OverflowError]
    that [float(n)], [int(x)] and the float operations raise once a value
    leaves the range of binary64, and the errors that the CP-SAT library
    raises on a coefficient, a bound or a worker count outside its integer
    ranges.  On such inputs the program raises and the functions below
    still give a value.  The theorems on [solve_with_heuristic],
    [_solve_with_cp_sat] past its early returns, [solve_schedule] and
    [compare] therefore speak of the results that are returned: they take
    the returned value as a hypothesis and do not assert that a call
    returns. *)

From stdpp Require Import gmap strings list pretty sorting.
From Stdlib Require Import Ascii QArith Lqa.
From Stdlib Require OrderedTypeEx.
Close Scope Q_scope.
Local Open Scope Z_scope.

(** ** Python floats *)

Module PyFloat.

(** A finite binary64 value, represented by the rational it denotes, in
    lowest terms.  Infinities and NaN are not represented, and the exponent
    is not bounded above: a value of magnitude [2^1024] or more, on which
    Python raises [OverflowError] or continues with an infinity, is rounded
    to 53 bits like any other.  The sign of zero is not represented either;
    Python compares [-0.0 == 0.0]. *)
Definition float : Type := Q.

(** Nearest integer, ties to the even one. *)
Definition round_half_even (q : Q) : Z :=
  let n := Qnum q in
  let d := Zpos (Qden q) in
  let f := n `div` d in
  match 2 * (n `mod` d) ?= d with
  | Lt => f
  | Gt => f + 1
  | Eq => if Z.even f then f else f + 1
  end.

Definition pow2 (e : Z) : Q :=
  match e with
  | Zneg p => (1 # (2 ^ p))%Q
  | _ => inject_Z (2 ^ e)
  end.

(** [floor (log2 |q|)] for a non-zero [q]. *)
Definition ilog2 (q : Q) : Z :=
  let n := Z.abs (Qnum q) in
  let l := Z.log2 n - Z.log2 (Zpos (Qden q)) in
  if Qle_bool (pow2 l) (n # Qden q) then l else l - 1.

(** Round to nearest binary64, ties to even: 53 bits of precision, least
    exponent [-1074]. *)
Definition binary64 (q : Q) : float :=
  if Qnum q =? 0 then 0%Q
  else
    let e := Z.max (ilog2 q - 52) (-1074) in
    Qred (inject_Z (round_half_even (q / pow2 e)) * pow2 e).

(** [float(z)], for [z] within the range of binary64; beyond it Python
    raises [OverflowError], which is not modelled. *)
Definition of_int (z : Z) : float := binary64 (inject_Z z).
(** [a / b] on two [int]s: the correctly rounded quotient. *)
Definition truediv (a b : Z) : float := binary64 (inject_Z a / inject_Z b).
Definition add (x y : float) : float := binary64 (x + y).
Definition sub (x y : float) : float := binary64 (x - y).
Definition mul (x y : float) : float := binary64 (x * y).
Definition div (x y : float) : float := binary64 (x / y).
Definition neg (x : float) : float := Qred (- x).
(** [int(x)]: truncation towards zero. *)
Definition trunc (x : float) : Z := Qnum x `quot` Zpos (Qden x).
(** [round(x, ndigits)] for [ndigits >= 0]: the decimal with [ndigits]
    fractional digits nearest to the exact value of [x] (ties to even),
    converted back to binary64. *)
Definition round (x : float) (ndigits : Z) : float :=
  let s := inject_Z (10 ^ ndigits) in
  binary64 (inject_Z (round_half_even (x * s)) / s).

Definition eqb (x y : float) : bool := Qeq_bool x y.
Definition ltb (x y : float) : bool := negb (Qle_bool y x).
Definition zero : float := 0%Q.
Definition hundred : float := 100%Q.

End PyFloat.

(** ** Python dictionaries *)

Module PyDict.
Section dict.
Context {K V : Type} `{EqDecision K}.

(** Keys in order of first insertion, each with its current value. *)
Definition t : Type := list (K * V).

Definition empty : t := [].

(** [d.get(k)] *)
Fixpoint get (d : t) (k : K) : option V :=
  match d with
  | [] => None
  | (k', v) :: d' => if decide (k' = k) then Some v else get d' k
  end.

(** [d.get(k, dflt)]; also a read of [d[k]] on a [defaultdict] (the
    empty entry such a read leaves behind is never observed: no
    [defaultdict] that is read this way is iterated). *)
Definition get_default (d : t) (k : K) (dflt : V) : V :=
  default dflt (get d k).

(** [d[k] = v]: an existing key keeps its position. *)
Fixpoint setitem (d : t) (k : K) (v : V) : t :=
  match d with
  | [] => [(k, v)]
  | (k', v') :: d' =>
      if decide (k' = k) then (k', v) :: d' else (k', v') :: setitem d' k v
  end.

(** [d[k] = f(d[k])] on a [defaultdict] with default [dflt], as in
    [d[k].append(x)], [d[k].add(x)] and [d[k] += 1]. *)
Definition update (d : t) (k : K) (dflt : V) (f : V → V) : t :=
  setitem d k (f (get_default d k dflt)).

Definition keys (d : t) : list K := d.*1.
Definition values (d : t) : list V := d.*2.
Definition items (d : t) : list (K * V) := d.
End dict.
Global Arguments t : clear implicits.

(** The comprehension [{key(x): val(x) for x in xs}]. *)
Definition comprehension {A K V : Type} `{EqDecision K}
    (key : A → K) (val : A → V) (xs : list A) : t K V :=
  foldl (λ d x, setitem d (key x) (val x)) empty xs.
End PyDict.

(** ** [sorted(xs, key=...)]

    Python's sort is stable and compares keys with [<] only; so does this
    insertion sort, which places an element after those already placed that
    are not greater. *)

Section sorted.
Context {A K : Type} (lt : K → K → bool) (key : A → K).

Fixpoint insort (x : A) (l : list A) : list A :=
  match l with
  | [] => [x]
  | y :: l' => if lt (key x) (key y) then x :: l else y :: insort x l'
  end.

Definition sorted (l : list A) : list A :=
  foldl (λ acc x, insort x acc) [] l.
End sorted.

(** Python compares tuples at the first position where they differ. *)
Definition tuple2_lt {A B : Type} (eqA : A → A → bool) (ltA : A → A → bool)
    (ltB : B → B → bool) (x y : A * B) : bool :=
  if eqA x.1 y.1 then ltB x.2 y.2 else ltA x.1 y.1.

Definition tuple3_lt {A B C : Type} (eqA : A → A → bool) (ltA : A → A → bool)
    (eqB : B → B → bool) (ltB : B → B → bool) (ltC : C → C → bool)
    (x y : A * B * C) : bool :=
  tuple2_lt eqA ltA (tuple2_lt eqB ltB ltC) (x.1.1, (x.1.2, x.2)) (y.1.1, (y.1.2, y.2)).

(** [range(a, b)] *)
Definition range (a b : Z) : list Z := seqZ a (b - a).

(** [sep.join(xs)] *)
Fixpoint join (sep : string) (xs : list string) : string :=
  match xs with
  | [] => ""
  | [x] => x
  | x :: xs' => x +:+ sep +:+ join sep xs'
  end.

(** [sorted(s)] for a set of strings. *)
Definition sorted_strings (s : gset string) : list string :=
  sorted String.ltb id (elements s).

(** * [models.py] *)

Inductive Day := Mon | Tue | Wed | Thu | Fri | Sat | Sun.

Global Instance Day_eq_dec : EqDecision Day.
Proof. solve_decision. Defined.

Definition Day_to_nat (d : Day) : nat :=
  match d with
  | Mon => 0 | Tue => 1 | Wed => 2 | Thu => 3 | Fri => 4 | Sat => 5 | Sun => 6
  end%nat.

Definition Day_of_nat (n : nat) : option Day :=
  match n with
  | 0 => Some Mon | 1 => Some Tue | 2 => Some Wed | 3 => Some Thu
  | 4 => Some Fri | 5 => Some Sat | 6 => Some Sun | _ => None
  end%nat.

Global Instance Day_countable : Countable Day.
Proof.
  apply (inj_countable Day_to_nat Day_of_nat).
  intros []; reflexivity.
Defined.

(** The string a [Day] stands for (the field is a [Literal] of these). *)
Definition Day_str (d : Day) : string :=
  match d with
  | Mon => "Mon" | Tue => "Tue" | Wed => "Wed" | Thu => "Thu"
  | Fri => "Fri" | Sat => "Sat" | Sun => "Sun"
  end.

Module TimeSlot.
Record t := mk {
  id : string;
  day : Day;
  start : string;
  end_ : string;
  order : Z;
}.
(** [order: int = Field(..., ge=0)] *)
Definition wf (s : t) : Prop := 0 ≤ order s.
End TimeSlot.

Module Room.
Record t := mk {
  id : string;
  name : string;
  capacity : Z;
  features : list string;
}.
(** [capacity: int = Field(..., ge=1)] *)
Definition wf (r : t) : Prop := 1 ≤ capacity r.
End Room.

Module Instructor.
Record t := mk {
  id : string;
  name : string;
  available_time_slots : list string;
  preferred_time_slots : list string;
  max_sessions_per_day : option Z;
}.
Definition wf (i : t) : Prop :=
  match max_sessions_per_day i with Some m => 1 ≤ m | None => True end.
End Instructor.

Module Course.
Record t := mk {
  id : string;
  name : string;
  instructor_id : string;
  enrollment : Z;
  sessions_per_week : Z;
  required_features : list string;
  preferred_time_slots : list string;
  allowed_time_slots : list string;
  cluster_tag : option string;
  priority : Z;
  avoid_same_day_sessions : bool;
}.
(** The [Field] constraints: [enrollment >= 1], [sessions_per_week >= 1],
    [1 <= priority <= 10]. *)
Definition wf (c : t) : Prop :=
  1 ≤ enrollment c ∧ 1 ≤ sessions_per_week c ∧ 1 ≤ priority c ≤ 10.
End Course.

Module ObjectiveWeights.
Record t := mk {
  instructor_preference : Z;
  room_efficiency : Z;
  cluster_compactness : Z;
  course_priority : Z;
}.
Definition default : t := mk 5 3 4 2.
End ObjectiveWeights.

Module SolverOptions.
Record t := mk {
  time_limit_seconds : Z;
  num_workers : Z;
  enable_fallback : bool;
  objective_weights : ObjectiveWeights.t;
}.
Definition default : t := mk 15 8 true ObjectiveWeights.default.
End SolverOptions.

Module SchedulingInput.
Record t := mk {
  courses : list Course.t;
  instructors : list Instructor.t;
  rooms : list Room.t;
  time_slots : list TimeSlot.t;
  options : SolverOptions.t;
}.
(** [scenario_input.options = options] on a copy of the input. *)
Definition with_options (d : t) (o : SolverOptions.t) : t :=
  mk (courses d) (instructors d) (rooms d) (time_slots d) o.
End SchedulingInput.

Module ScheduleAssignment.
Record t := mk {
  session_id : string;
  course_id : string;
  instructor_id : string;
  room_id : string;
  time_slot_id : string;
}.
Global Instance eq_dec : EqDecision t.
Proof. solve_decision. Defined.
End ScheduleAssignment.

Inductive IssueLevel := error | warning.

Global Instance IssueLevel_eq_dec : EqDecision IssueLevel.
Proof. solve_decision. Defined.

(** The values found in the [details] of an issue. *)
Inductive DetailValue :=
  | DStr (s : string)
  | DInt (z : Z)
  | DList (l : list string).

Module ValidationIssue.
Record t := mk {
  code : string;
  level : IssueLevel;
  message : string;
  details : PyDict.t string DetailValue;
}.
End ValidationIssue.

Module ValidationReport.
Record t := mk {
  valid : bool;
  issues : list ValidationIssue.t;
}.
End ValidationReport.

Module ScheduleMetrics.
Record t := mk {
  sessions_required : Z;
  sessions_scheduled : Z;
  coverage_pct : PyFloat.float;
  room_utilization_pct : PyFloat.float;
  instructor_preference_pct : PyFloat.float;
  hard_violations : Z;
  objective_breakdown : PyDict.t string PyFloat.float;
}.
End ScheduleMetrics.

Module ScheduleResult.
Record t := mk {
  status : string;
  solver : string;
  runtime_seconds : PyFloat.float;
  objective_value : PyFloat.float;
  assignments : list ScheduleAssignment.t;
  metrics : ScheduleMetrics.t;
  notes : list string;
}.
End ScheduleResult.

(** [Literal["auto", "cp_sat", "heuristic"]] *)
Inductive SolverMode := auto_mode | cp_sat_mode | heuristic_mode.

Global Instance SolverMode_eq_dec : EqDecision SolverMode.
Proof. solve_decision. Defined.

Module ScenarioConfig.
Record t := mk {
  name : string;
  options : SolverOptions.t;
  solver_mode : SolverMode;
}.
End ScenarioConfig.

Module CompareRequest.
Record t := mk {
  data : SchedulingInput.t;
  scenarios : list ScenarioConfig.t;
}.
End CompareRequest.

Module ScenarioResult.
Record t := mk {
  name : string;
  result : ScheduleResult.t;
  validation : ValidationReport.t;
}.
End ScenarioResult.

Module CompareResponse.
Record t := mk {
  scenarios : list ScenarioResult.t;
  best_scenario : option string;
}.
End CompareResponse.

(** * [session_utils.py] *)

Module CourseSession.
Record t := mk {
  session_id : string;
  course_id : string;
  instructor_id : string;
  enrollment : Z;
  priority : Z;
  cluster_tag : option string;
  required_features : list string;
  preferred_time_slots : list string;
  allowed_time_slots : list string;
  avoid_same_day_sessions : bool;
}.
End CourseSession.

(** The session built in the body of the inner loop. *)
Definition make_session (course : Course.t) (index : Z) : CourseSession.t :=
  {| CourseSession.session_id := Course.id course +:+ "::S" +:+ pretty index;
     CourseSession.course_id := Course.id course;
     CourseSession.instructor_id := Course.instructor_id course;
     CourseSession.enrollment := Course.enrollment course;
     CourseSession.priority := Course.priority course;
     CourseSession.cluster_tag := Course.cluster_tag course;
     CourseSession.required_features := Course.required_features course;
     CourseSession.preferred_time_slots := Course.preferred_time_slots course;
     CourseSession.allowed_time_slots := Course.allowed_time_slots course;
     CourseSession.avoid_same_day_sessions := Course.avoid_same_day_sessions course |}.

Definition expand_course_sessions (courses : list Course.t) : list CourseSession.t :=
  foldl (λ sessions course,
    foldl (λ sessions index, sessions ++ [make_session course index])
      sessions (range 1 (Course.sessions_per_week course + 1)))
    [] courses.


(** * [objective.py] *)

(** [x in xs] on a list or a set of strings. *)
Definition str_in (x : string) (xs : list string) : bool := bool_decide (x ∈ xs).

(** [xs and x in xs] *)
Definition nonempty_and_in (x : string) (xs : list string) : bool :=
  match xs with
  | [] => false
  | _ => str_in x xs
  end.

(** The tag of a session when [if session.cluster_tag:] holds: neither
    [None] nor the empty string. *)
Definition truthy_tag (tag : option string) : option string :=
  match tag with
  | Some t => if decide (t = "") then None else Some t
  | None => None
  end.

(** [int((enrollment / capacity) * 100)]: a binary64 quotient, a binary64
    product, then truncation.  Callers pass a capacity of at least 1
    ([Room.wf]) or guard the call with [room_capacity > 0]. *)
Definition utilization (enrollment capacity : Z) : Z :=
  PyFloat.trunc (PyFloat.mul (PyFloat.truediv enrollment capacity) (PyFloat.of_int 100)).

Definition assignment_local_score (session : CourseSession.t)
    (instructor_preferred_slots : list string) (room_capacity : Z)
    (time_slot_id : string) (slot_day : Day) (weights : ObjectiveWeights.t)
    (existing_cluster_days : gset Day) : Z :=
  let score := 0 in
  let score :=
    if str_in time_slot_id instructor_preferred_slots
    then score + 100 * ObjectiveWeights.instructor_preference weights
    else score in
  let score :=
    if bool_decide (room_capacity > 0)
    then score + utilization (CourseSession.enrollment session) room_capacity
                 * ObjectiveWeights.room_efficiency weights
    else score in
  let score :=
    if nonempty_and_in time_slot_id (CourseSession.preferred_time_slots session)
    then score + CourseSession.priority session * 20
                 * ObjectiveWeights.course_priority weights
    else score in
  match truthy_tag (CourseSession.cluster_tag session) with
  | Some _ =>
      if decide (existing_cluster_days = ∅) then score
      else if decide (slot_day ∈ existing_cluster_days)
      then score + 50 * ObjectiveWeights.cluster_compactness weights
      else score - 100 * ObjectiveWeights.cluster_compactness weights
  | None => score
  end.

(** The locals of [compute_objective_breakdown] that its loop updates. *)
Module Breakdown.
Record t := mk {
  instructor_component : Z;
  room_component : Z;
  priority_component : Z;
  cluster_days : PyDict.t string (gset Day);
  cluster_counts : PyDict.t string Z;
}.
Definition init : t := mk 0 0 0 PyDict.empty PyDict.empty.
End Breakdown.

Definition session_by_id (sessions : list CourseSession.t)
    : PyDict.t string CourseSession.t :=
  PyDict.comprehension CourseSession.session_id id sessions.
Definition instructor_by_id (data : SchedulingInput.t)
    : PyDict.t string Instructor.t :=
  PyDict.comprehension Instructor.id id (SchedulingInput.instructors data).
Definition room_by_id (data : SchedulingInput.t) : PyDict.t string Room.t :=
  PyDict.comprehension Room.id id (SchedulingInput.rooms data).
Definition slot_by_id (data : SchedulingInput.t) : PyDict.t string TimeSlot.t :=
  PyDict.comprehension TimeSlot.id id (SchedulingInput.time_slots data).

(** One iteration of the loop over [assignments]. *)
Definition breakdown_step (data : SchedulingInput.t)
    (weights : ObjectiveWeights.t) (acc : Breakdown.t)
    (assignment : ScheduleAssignment.t) : Breakdown.t :=
  let sessions := expand_course_sessions (SchedulingInput.courses data) in
  match PyDict.get (session_by_id sessions) (ScheduleAssignment.session_id assignment),
        PyDict.get (instructor_by_id data) (ScheduleAssignment.instructor_id assignment),
        PyDict.get (room_by_id data) (ScheduleAssignment.room_id assignment),
        PyDict.get (slot_by_id data) (ScheduleAssignment.time_slot_id assignment) with
  | Some session, Some instructor, Some room, Some slot =>
      let time_slot_id := ScheduleAssignment.time_slot_id assignment in
      let instructor_component :=
        if str_in time_slot_id (Instructor.preferred_time_slots instructor)
        then Breakdown.instructor_component acc
             + 100 * ObjectiveWeights.instructor_preference weights
        else Breakdown.instructor_component acc in
      let room_component :=
        Breakdown.room_component acc
        + utilization (CourseSession.enrollment session) (Room.capacity room)
          * ObjectiveWeights.room_efficiency weights in
      let priority_component :=
        if nonempty_and_in time_slot_id (CourseSession.preferred_time_slots session)
        then Breakdown.priority_component acc
             + CourseSession.priority session * 20
               * ObjectiveWeights.course_priority weights
        else Breakdown.priority_component acc in
      match truthy_tag (CourseSession.cluster_tag session) with
      | Some tag =>
          Breakdown.mk instructor_component room_component priority_component
            (PyDict.update (Breakdown.cluster_days acc) tag ∅
               (λ days, {[TimeSlot.day slot]} ∪ days))
            (PyDict.setitem (Breakdown.cluster_counts acc) tag
               (PyDict.get_default (Breakdown.cluster_counts acc) tag 0 + 1))
      | None =>
          Breakdown.mk instructor_component room_component priority_component
            (Breakdown.cluster_days acc) (Breakdown.cluster_counts acc)
      end
  | _, _, _, _ => acc
  end.

(** [sum(len(days) for tag, days in cluster_days.items()
         if cluster_counts.get(tag, 0) > 1)] *)
Definition cluster_penalty_units (acc : Breakdown.t) : Z :=
  foldr Z.add 0
    (map (λ item : string * gset Day, Z.of_nat (size item.2))
       (filter (λ item : string * gset Day,
                  PyDict.get_default (Breakdown.cluster_counts acc) item.1 0 > 1)
          (PyDict.items (Breakdown.cluster_days acc)))).

Definition compute_objective_breakdown (data : SchedulingInput.t)
    (assignments : list ScheduleAssignment.t) (weights : ObjectiveWeights.t)
    : PyDict.t string PyFloat.float :=
  let acc := foldl (breakdown_step data weights) Breakdown.init assignments in
  let instructor_component := Breakdown.instructor_component acc in
  let room_component := Breakdown.room_component acc in
  let priority_component := Breakdown.priority_component acc in
  let cluster_component :=
    - (cluster_penalty_units acc * 100
       * ObjectiveWeights.cluster_compactness weights) in
  let total :=
    instructor_component + room_component + priority_component
    + cluster_component in
  [ ("instructor_preference", PyFloat.of_int instructor_component);
    ("room_efficiency", PyFloat.of_int room_component);
    ("course_priority", PyFloat.of_int priority_component);
    ("cluster_compactness", PyFloat.of_int cluster_component);
    ("total", PyFloat.of_int total) ].


(** * [validation.py] *)

(** [set(xs).issubset(set(ys))] *)
Definition issubset (xs ys : list string) : bool :=
  bool_decide ((list_to_set xs : gset string) ⊆ list_to_set ys).

(** An issue at the default level, ["error"]. *)
Definition issue (code message : string) (details : PyDict.t string DetailValue)
    : ValidationIssue.t :=
  ValidationIssue.mk code error message details.

Definition unknown_session_issue (a : ScheduleAssignment.t) : ValidationIssue.t :=
  issue "UNKNOWN_SESSION"
    ("Session '" +:+ ScheduleAssignment.session_id a +:+ "' does not exist in input.")
    [("session_id", DStr (ScheduleAssignment.session_id a))].

Definition duplicate_session_issue (a : ScheduleAssignment.t) : ValidationIssue.t :=
  issue "DUPLICATE_SESSION_ASSIGNMENT"
    ("Session '" +:+ ScheduleAssignment.session_id a +:+ "' is assigned more than once.")
    [("session_id", DStr (ScheduleAssignment.session_id a))].

(** The two mismatch checks (lines 51-81). *)
Definition mismatch_issues (session : CourseSession.t) (a : ScheduleAssignment.t)
    : list ValidationIssue.t :=
  (if decide (ScheduleAssignment.course_id a ≠ CourseSession.course_id session)
   then [issue "COURSE_MISMATCH"
           ("Session '" +:+ ScheduleAssignment.session_id a +:+ "' references course '"
            +:+ ScheduleAssignment.course_id a +:+ "' but expected '"
            +:+ CourseSession.course_id session +:+ "'.")
           [("session_id", DStr (ScheduleAssignment.session_id a));
            ("expected_course_id", DStr (CourseSession.course_id session));
            ("provided_course_id", DStr (ScheduleAssignment.course_id a))]]
   else [])
  ++
  (if decide (ScheduleAssignment.instructor_id a ≠ CourseSession.instructor_id session)
   then [issue "INSTRUCTOR_MISMATCH"
           ("Session '" +:+ ScheduleAssignment.session_id a +:+ "' references instructor '"
            +:+ ScheduleAssignment.instructor_id a +:+ "' but expected '"
            +:+ CourseSession.instructor_id session +:+ "'.")
           [("session_id", DStr (ScheduleAssignment.session_id a));
            ("expected_instructor_id", DStr (CourseSession.instructor_id session));
            ("provided_instructor_id", DStr (ScheduleAssignment.instructor_id a))]]
   else []).

(** The room checks (lines 83-125). *)
Definition room_issues (data : SchedulingInput.t) (session : CourseSession.t)
    (a : ScheduleAssignment.t) : list ValidationIssue.t :=
  match PyDict.get (room_by_id data) (ScheduleAssignment.room_id a) with
  | None =>
      [issue "UNKNOWN_ROOM"
         ("Room '" +:+ ScheduleAssignment.room_id a +:+ "' does not exist.")
         [("room_id", DStr (ScheduleAssignment.room_id a))]]
  | Some room =>
      (if bool_decide (Room.capacity room < CourseSession.enrollment session)
       then [issue "ROOM_CAPACITY_VIOLATION"
               ("Room '" +:+ Room.id room +:+ "' capacity " +:+ pretty (Room.capacity room)
                +:+ " is lower than enrollment "
                +:+ pretty (CourseSession.enrollment session) +:+ " for session '"
                +:+ CourseSession.session_id session +:+ "'.")
               [("session_id", DStr (CourseSession.session_id session));
                ("room_id", DStr (Room.id room));
                ("room_capacity", DInt (Room.capacity room));
                ("enrollment", DInt (CourseSession.enrollment session))]]
       else [])
      ++
      (if negb (issubset (CourseSession.required_features session) (Room.features room))
       then [issue "ROOM_FEATURE_VIOLATION"
               ("Room '" +:+ Room.id room
                +:+ "' does not satisfy required features for session '"
                +:+ CourseSession.session_id session +:+ "'.")
               [("session_id", DStr (CourseSession.session_id session));
                ("room_id", DStr (Room.id room));
                ("missing_features",
                 DList (sorted_strings
                          (list_to_set (CourseSession.required_features session)
                           ∖ list_to_set (Room.features room))))]]
       else [])
  end.

Definition unknown_instructor_issue (instructor_id : string) : ValidationIssue.t :=
  issue "UNKNOWN_INSTRUCTOR"
    ("Instructor '" +:+ instructor_id +:+ "' does not exist.")
    [("instructor_id", DStr instructor_id)].

(** The checks that follow the lookup of the time slot (lines 127-179). *)
Definition slot_issues (data : SchedulingInput.t) (session : CourseSession.t)
    (a : ScheduleAssignment.t) : list ValidationIssue.t :=
  match PyDict.get (slot_by_id data) (ScheduleAssignment.time_slot_id a) with
  | None =>
      [issue "UNKNOWN_TIME_SLOT"
         ("Time slot '" +:+ ScheduleAssignment.time_slot_id a +:+ "' does not exist.")
         [("time_slot_id", DStr (ScheduleAssignment.time_slot_id a))]]
  | Some slot =>
      match PyDict.get (instructor_by_id data) (CourseSession.instructor_id session) with
      | None => [unknown_instructor_issue (CourseSession.instructor_id session)]
      | Some instructor =>
          match Instructor.available_time_slots instructor with
          | [] => []
          | available =>
              if negb (str_in (TimeSlot.id slot) available)
              then [issue "INSTRUCTOR_AVAILABILITY_VIOLATION"
                      ("Instructor '" +:+ Instructor.id instructor
                       +:+ "' is not available for slot '" +:+ TimeSlot.id slot +:+ "'.")
                      [("session_id", DStr (CourseSession.session_id session));
                       ("instructor_id", DStr (Instructor.id instructor));
                       ("time_slot_id", DStr (TimeSlot.id slot))]]
              else []
          end
      end
      ++
      match CourseSession.allowed_time_slots session with
      | [] => []
      | allowed =>
          if negb (str_in (TimeSlot.id slot) allowed)
          then [issue "COURSE_TIME_WINDOW_VIOLATION"
                  ("Session '" +:+ CourseSession.session_id session
                   +:+ "' is outside allowed time windows for course '"
                   +:+ CourseSession.course_id session +:+ "'.")
                  [("session_id", DStr (CourseSession.session_id session));
                   ("course_id", DStr (CourseSession.course_id session));
                   ("time_slot_id", DStr (TimeSlot.id slot))]]
          else []
      end
  end.

(** Everything appended to [issues] for a record that is neither unknown
    nor a duplicate. *)
Definition record_issues (data : SchedulingInput.t) (session : CourseSession.t)
    (a : ScheduleAssignment.t) : list ValidationIssue.t :=
  mismatch_issues session a ++ room_issues data session a ++ slot_issues data session a.

(** The locals of [validate_schedule] that its first loop updates. *)
Module Validation.
Record t := mk {
  issues : list ValidationIssue.t;
  seen_sessions : gset string;
  room_slot_usage : PyDict.t (string * string) (list string);
  instructor_slot_usage : PyDict.t (string * string) (list string);
}.
Definition init : t := mk [] ∅ PyDict.empty PyDict.empty.
End Validation.

(** One iteration of the loop over [assignments] (lines 25-186). *)
Definition validate_step (data : SchedulingInput.t) (st : Validation.t)
    (a : ScheduleAssignment.t) : Validation.t :=
  let sessions := expand_course_sessions (SchedulingInput.courses data) in
  match PyDict.get (session_by_id sessions) (ScheduleAssignment.session_id a) with
  | None =>
      Validation.mk (Validation.issues st ++ [unknown_session_issue a])
        (Validation.seen_sessions st)
        (Validation.room_slot_usage st) (Validation.instructor_slot_usage st)
  | Some session =>
      if decide (ScheduleAssignment.session_id a ∈ Validation.seen_sessions st)
      then
        Validation.mk (Validation.issues st ++ [duplicate_session_issue a])
          (Validation.seen_sessions st)
          (Validation.room_slot_usage st) (Validation.instructor_slot_usage st)
      else
        Validation.mk (Validation.issues st ++ record_issues data session a)
          ({[ScheduleAssignment.session_id a]} ∪ Validation.seen_sessions st)
          (PyDict.update (Validation.room_slot_usage st)
             (ScheduleAssignment.room_id a, ScheduleAssignment.time_slot_id a) []
             (λ ids, ids ++ [ScheduleAssignment.session_id a]))
          (PyDict.update (Validation.instructor_slot_usage st)
             (ScheduleAssignment.instructor_id a, ScheduleAssignment.time_slot_id a) []
             (λ ids, ids ++ [ScheduleAssignment.session_id a]))
  end.

Definition room_time_conflict_issue (room_id slot_id : string)
    (session_ids : list string) : ValidationIssue.t :=
  issue "ROOM_TIME_CONFLICT"
    ("Room '" +:+ room_id +:+ "' is assigned to multiple sessions at slot '"
     +:+ slot_id +:+ "'.")
    [("room_id", DStr room_id);
     ("time_slot_id", DStr slot_id);
     ("session_ids", DList session_ids)].

Definition instructor_time_conflict_issue (instructor_id slot_id : string)
    (session_ids : list string) : ValidationIssue.t :=
  issue "INSTRUCTOR_TIME_CONFLICT"
    ("Instructor '" +:+ instructor_id
     +:+ "' is assigned to multiple sessions at slot '" +:+ slot_id +:+ "'.")
    [("instructor_id", DStr instructor_id);
     ("time_slot_id", DStr slot_id);
     ("session_ids", DList session_ids)].

(** The loop over [room_slot_usage.items()] (lines 188-202). *)
Definition room_conflict_issues
    (usage : PyDict.t (string * string) (list string)) : list ValidationIssue.t :=
  flat_map (λ item : string * string * list string,
    let '(room_id, slot_id, session_ids) := item in
    if bool_decide (1 < length session_ids)%nat
    then [room_time_conflict_issue room_id slot_id session_ids]
    else []) (PyDict.items usage).

(** The loop over [instructor_slot_usage.items()] (lines 204-219). *)
Definition instructor_conflict_issues
    (usage : PyDict.t (string * string) (list string)) : list ValidationIssue.t :=
  flat_map (λ item : string * string * list string,
    let '(instructor_id, slot_id, session_ids) := item in
    if bool_decide (1 < length session_ids)%nat
    then [instructor_time_conflict_issue instructor_id slot_id session_ids]
    else []) (PyDict.items usage).

Definition missing_session_issue (session_id : string) : ValidationIssue.t :=
  issue "MISSING_SESSION_ASSIGNMENT"
    ("Session '" +:+ session_id +:+ "' is not assigned.")
    [("session_id", DStr session_id)].

(** The loop over [sorted(set(session_by_id) - seen_sessions)]. *)
Definition missing_session_issues (sessions : list CourseSession.t)
    (seen_sessions : gset string) : list ValidationIssue.t :=
  map missing_session_issue
    (sorted_strings (list_to_set (PyDict.keys (session_by_id sessions)) ∖ seen_sessions)).

Definition validate_schedule (data : SchedulingInput.t)
    (assignments : list ScheduleAssignment.t) : ValidationReport.t :=
  let sessions := expand_course_sessions (SchedulingInput.courses data) in
  let st := foldl (validate_step data) Validation.init assignments in
  let issues :=
    Validation.issues st
    ++ room_conflict_issues (Validation.room_slot_usage st)
    ++ instructor_conflict_issues (Validation.instructor_slot_usage st)
    ++ missing_session_issues sessions (Validation.seen_sessions st) in
  let has_errors :=
    existsb (λ i, bool_decide (ValidationIssue.level i = error)) issues in
  ValidationReport.mk (negb has_errors) issues.

(** * [metrics.py] *)

(** The locals of [build_metrics] that its loop updates. *)
Module MetricsAcc.
Record t := mk {
  utilization_sum : PyFloat.float;
  utilization_count : Z;
  preference_hits : Z;
}.
Definition init : t := mk PyFloat.zero 0 0.
End MetricsAcc.

Definition metrics_step (data : SchedulingInput.t) (acc : MetricsAcc.t)
    (a : ScheduleAssignment.t) : MetricsAcc.t :=
  let sessions := expand_course_sessions (SchedulingInput.courses data) in
  let session := PyDict.get (session_by_id sessions) (ScheduleAssignment.session_id a) in
  let room := PyDict.get (room_by_id data) (ScheduleAssignment.room_id a) in
  let instructor :=
    PyDict.get (instructor_by_id data) (ScheduleAssignment.instructor_id a) in
  let '(utilization_sum, utilization_count) :=
    match session, room with
    | Some session, Some room =>
        if bool_decide (Room.capacity room > 0)
        then (PyFloat.add (MetricsAcc.utilization_sum acc)
                (PyFloat.truediv (CourseSession.enrollment session) (Room.capacity room)),
              MetricsAcc.utilization_count acc + 1)
        else (MetricsAcc.utilization_sum acc, MetricsAcc.utilization_count acc)
    | _, _ => (MetricsAcc.utilization_sum acc, MetricsAcc.utilization_count acc)
    end in
  let preference_hits :=
    match instructor with
    | Some instructor =>
        if nonempty_and_in (ScheduleAssignment.time_slot_id a)
             (Instructor.preferred_time_slots instructor)
        then MetricsAcc.preference_hits acc + 1
        else MetricsAcc.preference_hits acc
    | None => MetricsAcc.preference_hits acc
    end in
  MetricsAcc.mk utilization_sum utilization_count preference_hits.

Definition build_metrics (data : SchedulingInput.t)
    (assignments : list ScheduleAssignment.t) (validation : ValidationReport.t)
    (objective_breakdown : PyDict.t string PyFloat.float) : ScheduleMetrics.t :=
  let sessions := expand_course_sessions (SchedulingInput.courses data) in
  let sessions_required := Z.of_nat (length sessions) in
  let sessions_scheduled := Z.of_nat (length assignments) in
  let coverage_pct :=
    if decide (sessions_required ≠ 0)
    then PyFloat.mul (PyFloat.truediv sessions_scheduled sessions_required)
           PyFloat.hundred
    else PyFloat.zero in
  let acc := foldl (metrics_step data) MetricsAcc.init assignments in
  let room_utilization_pct :=
    if decide (MetricsAcc.utilization_count acc ≠ 0)
    then PyFloat.mul
           (PyFloat.div (MetricsAcc.utilization_sum acc)
              (PyFloat.of_int (MetricsAcc.utilization_count acc)))
           PyFloat.hundred
    else PyFloat.zero in
  let instructor_preference_pct :=
    if decide (sessions_scheduled ≠ 0)
    then PyFloat.mul (PyFloat.truediv (MetricsAcc.preference_hits acc) sessions_scheduled)
           PyFloat.hundred
    else PyFloat.zero in
  let hard_violations :=
    Z.of_nat (length (filter (λ i, ValidationIssue.level i = error)
                        (ValidationReport.issues validation))) in
  ScheduleMetrics.mk sessions_required sessions_scheduled
    (PyFloat.round coverage_pct 2)
    (PyFloat.round room_utilization_pct 2)
    (PyFloat.round instructor_preference_pct 2)
    hard_violations objective_breakdown.

(** * [heuristic.py] *)

Module HeuristicSolveOutput.
Record t := mk {
  status : string;
  assignments : list ScheduleAssignment.t;
  notes : list string;
  objective_breakdown : PyDict.t string PyFloat.float;
  runtime_seconds : PyFloat.float;
}.
End HeuristicSolveOutput.

(** A loop whose body may raise. *)
Fixpoint foldlM {A B : Type} (f : A → B → option A) (a : A) (l : list B)
    : option A :=
  match l with
  | [] => Some a
  | x :: l' => a' ← f a x; foldlM f a' l'
  end.

(** [sorted(data.time_slots, key=lambda item: item.order)] *)
Definition slots_by_order (data : SchedulingInput.t) : list TimeSlot.t :=
  sorted Z.ltb TimeSlot.order (SchedulingInput.time_slots data).

(** The negation of [restriction and slot_id not in restriction]. *)
Definition slot_permitted (restriction : gset string) (slot_id : string) : bool :=
  negb (bool_decide (restriction ≠ ∅) && bool_decide (slot_id ∉ restriction)).

(** The list [options] built for one session whose instructor exists: the
    two nested loops over [room_by_id.values()] and [slots]. *)
Definition session_options (data : SchedulingInput.t)
    (instructor : Instructor.t) (session : CourseSession.t)
    : list (string * string) :=
  let instructor_available : gset string :=
    list_to_set (Instructor.available_time_slots instructor) in
  let allowed_slots : gset string :=
    list_to_set (CourseSession.allowed_time_slots session) in
  flat_map (λ room,
    if bool_decide (Room.capacity room < CourseSession.enrollment session) then []
    else if negb (issubset (CourseSession.required_features session) (Room.features room))
    then []
    else
      flat_map (λ slot,
        if negb (slot_permitted instructor_available (TimeSlot.id slot)) then []
        else if negb (slot_permitted allowed_slots (TimeSlot.id slot)) then []
        else [(Room.id room, TimeSlot.id slot)])
        (slots_by_order data))
    (PyDict.values (room_by_id data)).

(** The value stored in [feasible] for one session. *)
Definition session_candidates (data : SchedulingInput.t)
    (session : CourseSession.t) : list (string * string) :=
  match PyDict.get (instructor_by_id data) (CourseSession.instructor_id session) with
  | None => []
  | Some instructor => session_options data instructor session
  end.

Definition _build_feasible_candidates (data : SchedulingInput.t)
    (sessions : list CourseSession.t) : PyDict.t string (list (string * string)) :=
  foldl (λ feasible session,
    PyDict.setitem feasible (CourseSession.session_id session)
      (session_candidates data session))
    PyDict.empty sessions.

(** The locals of [solve_with_heuristic] that its loop updates. *)
Module Heuristic.
Record t := mk {
  occupied_room_slot : gset (string * string);
  occupied_instructor_slot : gset (string * string);
  course_days_used : PyDict.t string (gset Day);
  instructor_day_count : PyDict.t (string * Day) Z;
  cluster_days_used : PyDict.t string (gset Day);
  assignments : list ScheduleAssignment.t;
  unscheduled : list string;
}.
Definition init : t := mk ∅ ∅ PyDict.empty PyDict.empty PyDict.empty [] [].
(** [unscheduled.append(session_id); continue] *)
Definition skip (st : t) (session_id : string) : t :=
  mk (occupied_room_slot st) (occupied_instructor_slot st) (course_days_used st)
    (instructor_day_count st) (cluster_days_used st) (assignments st)
    (unscheduled st ++ [session_id]).
End Heuristic.

(** The four exclusion tests of the inner loop: [true] when the candidate
    is passed over. *)
Definition excluded (st : Heuristic.t) (session : CourseSession.t)
    (instructor : Instructor.t) (room_id slot_id : string) (slot : TimeSlot.t)
    : bool :=
  bool_decide ((room_id, slot_id) ∈ Heuristic.occupied_room_slot st)
  || bool_decide ((CourseSession.instructor_id session, slot_id)
                  ∈ Heuristic.occupied_instructor_slot st)
  || (CourseSession.avoid_same_day_sessions session
      && bool_decide (TimeSlot.day slot
                      ∈ PyDict.get_default (Heuristic.course_days_used st)
                          (CourseSession.course_id session) ∅))
  || match Instructor.max_sessions_per_day instructor with
     | Some max_per_day =>
         bool_decide (PyDict.get_default (Heuristic.instructor_day_count st)
                        (CourseSession.instructor_id session, TimeSlot.day slot) 0
                      >= max_per_day)
     | None => false
     end.

(** [cluster_days_used.get(session.cluster_tag, set())] *)
Definition cluster_days_of (st : Heuristic.t) (session : CourseSession.t)
    : gset Day :=
  match CourseSession.cluster_tag session with
  | Some tag => PyDict.get_default (Heuristic.cluster_days_used st) tag ∅
  | None => ∅
  end.

(** The score computed for a candidate that is not excluded. *)
Definition candidate_score (data : SchedulingInput.t) (st : Heuristic.t)
    (session : CourseSession.t) (instructor : Instructor.t)
    (room : Room.t) (slot_id : string) (slot : TimeSlot.t) : Z :=
  assignment_local_score session (Instructor.preferred_time_slots instructor)
    (Room.capacity room) slot_id (TimeSlot.day slot)
    (SolverOptions.objective_weights (SchedulingInput.options data))
    (cluster_days_of st session).

(** One iteration of the loop over [candidates]; [best] holds
    [best_option] and [best_score], which are set together. *)
Definition consider (data : SchedulingInput.t) (st : Heuristic.t)
    (session : CourseSession.t) (instructor : Instructor.t)
    (best : option (string * string * Z)) (candidate : string * string)
    : option (option (string * string * Z)) :=
  let '(room_id, slot_id) := candidate in
  slot ← PyDict.get (slot_by_id data) slot_id;
  room ← PyDict.get (room_by_id data) room_id;
  if excluded st session instructor room_id slot_id slot then Some best
  else
    let score := candidate_score data st session instructor room slot_id slot in
    match best with
    | None => Some (Some (room_id, slot_id, score))
    | Some (_, best_score) =>
        if bool_decide (score > best_score)
        then Some (Some (room_id, slot_id, score))
        else Some best
    end.

(** The bookkeeping after a session is placed (lines 132-150). *)
Definition commit (st : Heuristic.t) (session : CourseSession.t)
    (room_id slot_id : string) (slot : TimeSlot.t) : Heuristic.t :=
  Heuristic.mk
    ({[(room_id, slot_id)]} ∪ Heuristic.occupied_room_slot st)
    ({[(CourseSession.instructor_id session, slot_id)]}
     ∪ Heuristic.occupied_instructor_slot st)
    (PyDict.update (Heuristic.course_days_used st)
       (CourseSession.course_id session) ∅ (λ days, {[TimeSlot.day slot]} ∪ days))
    (PyDict.update (Heuristic.instructor_day_count st)
       (CourseSession.instructor_id session, TimeSlot.day slot) 0 (λ n, n + 1))
    (match truthy_tag (CourseSession.cluster_tag session) with
     | Some tag =>
         PyDict.update (Heuristic.cluster_days_used st) tag ∅
           (λ days, {[TimeSlot.day slot]} ∪ days)
     | None => Heuristic.cluster_days_used st
     end)
    (Heuristic.assignments st
     ++ [ScheduleAssignment.mk (CourseSession.session_id session)
           (CourseSession.course_id session) (CourseSession.instructor_id session)
           room_id slot_id])
    (Heuristic.unscheduled st).

(** One iteration of the loop over [sorted_sessions]. *)
Definition place_session (data : SchedulingInput.t)
    (feasible_candidates : PyDict.t string (list (string * string)))
    (st : Heuristic.t) (session : CourseSession.t) : option Heuristic.t :=
  candidates ← PyDict.get feasible_candidates (CourseSession.session_id session);
  match candidates with
  | [] => Some (Heuristic.skip st (CourseSession.session_id session))
  | _ =>
      match PyDict.get (instructor_by_id data) (CourseSession.instructor_id session) with
      | None => Some (Heuristic.skip st (CourseSession.session_id session))
      | Some instructor =>
          best ← foldlM (consider data st session instructor) None candidates;
          match best with
          | None => Some (Heuristic.skip st (CourseSession.session_id session))
          | Some (room_id, slot_id, _) =>
              slot ← PyDict.get (slot_by_id data) slot_id;
              Some (commit st session room_id slot_id slot)
          end
      end
  end.

(** [sorted(sessions, key=lambda session:
       (len(feasible_candidates[session.session_id]), -session.priority))] *)
Definition sort_sessions
    (feasible_candidates : PyDict.t string (list (string * string)))
    (sessions : list CourseSession.t) : option (list CourseSession.t) :=
  keyed ← mapM (λ session,
    candidates ← PyDict.get feasible_candidates (CourseSession.session_id session);
    Some ((Z.of_nat (length candidates), - CourseSession.priority session), session))
    sessions;
  Some (map snd (sorted (tuple2_lt Z.eqb Z.ltb Z.ltb) fst keyed)).

(** [runtime] stands for [perf_counter() - start]. *)
Definition solve_with_heuristic (runtime : PyFloat.float)
    (data : SchedulingInput.t) : option HeuristicSolveOutput.t :=
  let sessions := expand_course_sessions (SchedulingInput.courses data) in
  let feasible_candidates := _build_feasible_candidates data sessions in
  sorted_sessions ← sort_sessions feasible_candidates sessions;
  st ← foldlM (place_session data feasible_candidates) Heuristic.init sorted_sessions;
  let assignments := Heuristic.assignments st in
  let unscheduled := Heuristic.unscheduled st in
  let objective_breakdown :=
    compute_objective_breakdown data assignments
      (SolverOptions.objective_weights (SchedulingInput.options data)) in
  let notes :=
    [ "Fallback heuristic solver executed.";
      "Sessions are scheduled greedily by constrainedness and local weighted score." ] in
  let '(status, notes) :=
    match unscheduled with
    | [] => ("fallback", notes)
    | _ => ("fallback_partial",
            notes ++ [pretty (Z.of_nat (length unscheduled))
                      +:+ " session(s) were left unscheduled due to constraint overload."])
    end in
  Some (HeuristicSolveOutput.mk status assignments notes objective_breakdown runtime).

(** * [solver.py] *)

(** ** The constraint model handed to the external CP-SAT engine *)

Module cp_model.

Inductive Status := OPTIMAL | FEASIBLE | INFEASIBLE | MODEL_INVALID | UNKNOWN.

(** A Boolean variable made by [model.NewBoolVar(name)], identified by its
    position among the variables of the model. *)
Record IntVar := mkVar { index : nat; name : string }.

(** A sum of integer multiples of variables. *)
Definition LinearExpr : Type := list (Z * IntVar).

(** The shapes of constraint that [_solve_with_cp_sat] adds. *)
Inductive Constraint :=
  | SumEq (vars : list IntVar) (c : Z)
  | SumLe (vars : list IntVar) (c : Z)
  | VarLe (v u : IntVar)
  | SumGe (vars : list IntVar) (u : IntVar).

Record CpModel := mkModel {
  variables : list IntVar;
  constraints : list Constraint;
  objective : option LinearExpr;
}.

(** A truth assignment, by variable position. *)
Definition Solution : Type := nat → bool.

Definition value (sol : Solution) (v : IntVar) : Z :=
  if sol (index v) then 1 else 0.

Definition sum_vars (sol : Solution) (vars : list IntVar) : Z :=
  foldr Z.add 0 (map (value sol) vars).

Definition eval (sol : Solution) (e : LinearExpr) : Z :=
  foldr Z.add 0 (map (λ term : Z * IntVar, term.1 * value sol term.2) e).

Definition holds (sol : Solution) (c : Constraint) : Prop :=
  match c with
  | SumEq vars c => sum_vars sol vars = c
  | SumLe vars c => sum_vars sol vars ≤ c
  | VarLe v u => value sol v ≤ value sol u
  | SumGe vars u => value sol u ≤ sum_vars sol vars
  end.

(** [c * term] for each term of an expression. *)
Definition scale (c : Z) (e : LinearExpr) : LinearExpr :=
  map (λ term : Z * IntVar, (c * term.1, term.2)) e.

End cp_model.

Definition _cp_status_to_text (status : cp_model.Status) : string :=
  match status with
  | cp_model.OPTIMAL => "optimal"
  | cp_model.FEASIBLE => "feasible"
  | cp_model.INFEASIBLE => "infeasible"
  | cp_model.MODEL_INVALID => "model_invalid"
  | cp_model.UNKNOWN => "unknown"
  end.

(** [s.replace(":", "_")] *)
Fixpoint replace_colon (s : string) : string :=
  match s with
  | EmptyString => EmptyString
  | String c s' =>
      String (if decide (c = ":"%char) then "_"%char else c) (replace_colon s')
  end.

(** The locals of [_solve_with_cp_sat] that the construction of the
    decision variables updates (lines 91-153), with the variables of the
    model in order of creation. *)
Module Builder.
Record t := mk {
  variables : list cp_model.IntVar;
  x : PyDict.t ScheduleAssignment.t cp_model.IntVar;
  vars_by_session : PyDict.t string (list cp_model.IntVar);
  vars_by_room_slot : PyDict.t (string * string) (list cp_model.IntVar);
  vars_by_instructor_slot : PyDict.t (string * string) (list cp_model.IntVar);
  vars_by_course_day : PyDict.t (string * Day) (list cp_model.IntVar);
  vars_by_instructor_day : PyDict.t (string * Day) (list cp_model.IntVar);
  vars_by_cluster_day : PyDict.t (string * Day) (list cp_model.IntVar);
  instructor_pref_terms : cp_model.LinearExpr;
  room_eff_terms : cp_model.LinearExpr;
  priority_terms : cp_model.LinearExpr;
  cluster_session_count : PyDict.t string Z;
}.
Definition init : t :=
  mk [] PyDict.empty PyDict.empty PyDict.empty PyDict.empty PyDict.empty
    PyDict.empty PyDict.empty [] [] [] PyDict.empty.
End Builder.

(** [d[k].append(v)] on a [defaultdict(list)]. *)
Definition dict_append {K V : Type} `{EqDecision K}
    (d : PyDict.t K (list V)) (k : K) (v : V) : PyDict.t K (list V) :=
  PyDict.update d k [] (λ vs, vs ++ [v]).

(** The body of the innermost loop (lines 125-153): one decision variable
    for a feasible (session, room, slot) triple.  The key of [x] is the
    tuple of the five fields of an assignment. *)
Definition add_triple (b : Builder.t) (session : CourseSession.t)
    (instructor : Instructor.t) (room : Room.t) (slot : TimeSlot.t) : Builder.t :=
  let key :=
    ScheduleAssignment.mk (CourseSession.session_id session)
      (CourseSession.course_id session) (CourseSession.instructor_id session)
      (Room.id room) (TimeSlot.id slot) in
  let var :=
    cp_model.mkVar (length (Builder.variables b))
      (replace_colon ("x_" +:+ CourseSession.session_id session +:+ "_"
                      +:+ Room.id room +:+ "_" +:+ TimeSlot.id slot)) in
  Builder.mk
    (Builder.variables b ++ [var])
    (PyDict.setitem (Builder.x b) key var)
    (dict_append (Builder.vars_by_session b) (CourseSession.session_id session) var)
    (dict_append (Builder.vars_by_room_slot b) (Room.id room, TimeSlot.id slot) var)
    (dict_append (Builder.vars_by_instructor_slot b)
       (CourseSession.instructor_id session, TimeSlot.id slot) var)
    (dict_append (Builder.vars_by_course_day b)
       (CourseSession.course_id session, TimeSlot.day slot) var)
    (dict_append (Builder.vars_by_instructor_day b)
       (CourseSession.instructor_id session, TimeSlot.day slot) var)
    (match truthy_tag (CourseSession.cluster_tag session) with
     | Some tag =>
         dict_append (Builder.vars_by_cluster_day b) (tag, TimeSlot.day slot) var
     | None => Builder.vars_by_cluster_day b
     end)
    (if str_in (TimeSlot.id slot) (Instructor.preferred_time_slots instructor)
     then Builder.instructor_pref_terms b ++ [(1, var)]
     else Builder.instructor_pref_terms b)
    (Builder.room_eff_terms b
     ++ [(utilization (CourseSession.enrollment session) (Room.capacity room), var)])
    (if nonempty_and_in (TimeSlot.id slot) (CourseSession.preferred_time_slots session)
     then Builder.priority_terms b ++ [(CourseSession.priority session * 20, var)]
     else Builder.priority_terms b)
    (Builder.cluster_session_count b).

(** [cluster_session_count[session.cluster_tag] += 1] *)
Definition count_cluster_session (b : Builder.t) (session : CourseSession.t)
    : Builder.t :=
  match truthy_tag (CourseSession.cluster_tag session) with
  | Some tag =>
      Builder.mk (Builder.variables b) (Builder.x b) (Builder.vars_by_session b)
        (Builder.vars_by_room_slot b) (Builder.vars_by_instructor_slot b)
        (Builder.vars_by_course_day b) (Builder.vars_by_instructor_day b)
        (Builder.vars_by_cluster_day b) (Builder.instructor_pref_terms b)
        (Builder.room_eff_terms b) (Builder.priority_terms b)
        (PyDict.update (Builder.cluster_session_count b) tag 0 (λ n, n + 1))
  | None => b
  end.

(** One iteration of the loop over [sessions] (lines 105-153). *)
Definition add_session (data : SchedulingInput.t) (b : Builder.t)
    (session : CourseSession.t) : option Builder.t :=
  instructor ← PyDict.get (instructor_by_id data) (CourseSession.instructor_id session);
  let instructor_available : gset string :=
    list_to_set (Instructor.available_time_slots instructor) in
  let course_allowed_slots : gset string :=
    list_to_set (CourseSession.allowed_time_slots session) in
  Some (foldl (λ b room,
    if bool_decide (Room.capacity room < CourseSession.enrollment session) then b
    else if negb (issubset (CourseSession.required_features session) (Room.features room))
    then b
    else
      foldl (λ b slot,
        if negb (slot_permitted instructor_available (TimeSlot.id slot)) then b
        else if negb (slot_permitted course_allowed_slots (TimeSlot.id slot)) then b
        else add_triple b session instructor room slot)
        b (slots_by_order data))
    (count_cluster_session b session) (SchedulingInput.rooms data)).

(** [sorted({slot.day for slot in slots})]: the days in the order of their
    names. *)
Definition sorted_days (slots : list TimeSlot.t) : list Day :=
  sorted String.ltb Day_str (elements (list_to_set (map TimeSlot.day slots) : gset Day)).

(** The loop that requires one variable per session (lines 155-162): either
    the id of the first session without a variable, or the constraints. *)
Fixpoint exactly_one_constraints
    (vars_by_session : PyDict.t string (list cp_model.IntVar))
    (sessions : list CourseSession.t) : string + list cp_model.Constraint :=
  match sessions with
  | [] => inr []
  | session :: rest =>
      match PyDict.get_default vars_by_session (CourseSession.session_id session) [] with
      | [] => inl (CourseSession.session_id session)
      | vars_for_session =>
          match exactly_one_constraints vars_by_session rest with
          | inl session_id => inl session_id
          | inr constraints => inr (cp_model.SumEq vars_for_session 1 :: constraints)
          end
      end
  end.

(** The loops over [vars_by_room_slot.values()] and
    [vars_by_instructor_slot.values()] (lines 164-170). *)
Definition at_most_one_constraints {K : Type}
    (groups : PyDict.t K (list cp_model.IntVar)) : list cp_model.Constraint :=
  flat_map (λ vars,
    if bool_decide (1 < length vars)%nat then [cp_model.SumLe vars 1] else [])
    (PyDict.values groups).

(** The loop over [data.courses] (lines 172-178). *)
Definition course_day_constraints (data : SchedulingInput.t) (days : list Day)
    (b : Builder.t) : list cp_model.Constraint :=
  flat_map (λ course,
    if negb (Course.avoid_same_day_sessions course)
       || bool_decide (Course.sessions_per_week course ≤ 1)
    then []
    else
      flat_map (λ day,
        match PyDict.get_default (Builder.vars_by_course_day b) (Course.id course, day) [] with
        | [] => []
        | day_vars => [cp_model.SumLe day_vars 1]
        end) days)
    (SchedulingInput.courses data).

(** The loop over [data.instructors] (lines 180-186). *)
Definition instructor_day_constraints (data : SchedulingInput.t) (days : list Day)
    (b : Builder.t) : list cp_model.Constraint :=
  flat_map (λ instructor,
    match Instructor.max_sessions_per_day instructor with
    | None => []
    | Some max_sessions_per_day =>
        flat_map (λ day,
          match PyDict.get_default (Builder.vars_by_instructor_day b)
                  (Instructor.id instructor, day) [] with
          | [] => []
          | day_vars => [cp_model.SumLe day_vars max_sessions_per_day]
          end) days
    end)
    (SchedulingInput.instructors data).

(** The loop over [vars_by_cluster_day.items()] (lines 188-196), from the
    variables made so far: the variables of the model, the constraints added
    and [cluster_used_day_vars]. *)
Definition cluster_day_indicators (b : Builder.t)
    : list cp_model.IntVar * list cp_model.Constraint * list cp_model.IntVar :=
  foldl (λ acc (item : string * Day * list cp_model.IntVar),
    let '(variables, constraints, cluster_used_day_vars) := acc in
    let '(cluster_tag, day, day_vars) := item in
    if bool_decide (PyDict.get_default (Builder.cluster_session_count b) cluster_tag 0 ≤ 1)
    then acc
    else
      let used_var :=
        cp_model.mkVar (length variables)
          (replace_colon ("cluster_" +:+ cluster_tag +:+ "_" +:+ Day_str day)) in
      (variables ++ [used_var],
       constraints ++ map (λ var, cp_model.VarLe var used_var) day_vars
                   ++ [cp_model.SumGe day_vars used_var],
       cluster_used_day_vars ++ [used_var]))
    (Builder.variables b, [], [])
    (PyDict.items (Builder.vars_by_cluster_day b)).

(** [objective_terms] (lines 198-208), kept as its four groups. *)
Definition objective_groups (weights : ObjectiveWeights.t) (b : Builder.t)
    (cluster_used_day_vars : list cp_model.IntVar)
    : cp_model.LinearExpr * cp_model.LinearExpr * cp_model.LinearExpr * cp_model.LinearExpr :=
  (cp_model.scale (100 * ObjectiveWeights.instructor_preference weights)
     (Builder.instructor_pref_terms b),
   cp_model.scale (ObjectiveWeights.room_efficiency weights) (Builder.room_eff_terms b),
   cp_model.scale (ObjectiveWeights.course_priority weights) (Builder.priority_terms b),
   map (λ term, (-100 * ObjectiveWeights.cluster_compactness weights, term))
     cluster_used_day_vars).

Definition objective_terms (weights : ObjectiveWeights.t) (b : Builder.t)
    (cluster_used_day_vars : list cp_model.IntVar) : cp_model.LinearExpr :=
  let '(g1, g2, g3, g4) := objective_groups weights b cluster_used_day_vars in
  g1 ++ g2 ++ g3 ++ g4.

(** What [_solve_with_cp_sat] has done when it reaches [solver.Solve(model)],
    or the status and note with which it returned before. *)
Inductive Built :=
  | EarlyReturn (status : string) (notes : list string)
  | Model (b : Builder.t) (cluster_used_day_vars : list cp_model.IntVar)
      (model : cp_model.CpModel).

(** Lines 70-211 of [_solve_with_cp_sat]. *)
Definition build_model (data : SchedulingInput.t) : option Built :=
  let sessions := expand_course_sessions (SchedulingInput.courses data) in
  let slots := slots_by_order data in
  let days := sorted_days slots in
  let unknown_instructors : gset string :=
    list_to_set
      (map Course.instructor_id
         (filter (λ course,
                    PyDict.get (instructor_by_id data) (Course.instructor_id course) = None)
            (SchedulingInput.courses data))) in
  if decide (unknown_instructors ≠ ∅)
  then Some (EarlyReturn "model_invalid"
               ["Unknown instructor id(s) detected in course input: "
                +:+ join ", " (sorted_strings unknown_instructors)])
  else
    b ← foldlM (add_session data) Builder.init sessions;
    match exactly_one_constraints (Builder.vars_by_session b) sessions with
    | inl session_id =>
        Some (EarlyReturn "infeasible"
                ["No feasible assignment exists for session '" +:+ session_id +:+ "'."])
    | inr one_per_session =>
        let '(variables, cluster_constraints, cluster_used_day_vars) :=
          cluster_day_indicators b in
        let terms :=
          objective_terms (SolverOptions.objective_weights (SchedulingInput.options data))
            b cluster_used_day_vars in
        Some (Model b cluster_used_day_vars
          (cp_model.mkModel variables
             (one_per_session
              ++ at_most_one_constraints (Builder.vars_by_room_slot b)
              ++ at_most_one_constraints (Builder.vars_by_instructor_slot b)
              ++ course_day_constraints data days b
              ++ instructor_day_constraints data days b
              ++ cluster_constraints)
             (match terms with [] => None | _ => Some terms end)))
    end.

(** The decoding of a solution (lines 220-238). *)
Definition decode (b : Builder.t) (sol : cp_model.Solution)
    : list ScheduleAssignment.t :=
  flat_map (λ item : ScheduleAssignment.t * cp_model.IntVar,
    if sol (cp_model.index item.2) then [item.1] else [])
    (PyDict.items (Builder.x b)).

(** The engine behind [cp_model.CpSolver().Solve]: given the model, the
    time limit and the number of workers, a status and a truth
    assignment.  The library accepts coefficients and bounds of 64 bits and
    a worker count of 32 bits and raises [TypeError] on others; here they
    are integers of any size and the engine answers on all of them. *)
Definition Engine : Type :=
  cp_model.CpModel → Z → Z → cp_model.Status * cp_model.Solution.

(** [runtime] stands for [perf_counter() - start]. *)
Definition _solve_with_cp_sat (Solve : Engine) (runtime : PyFloat.float)
    (data : SchedulingInput.t)
    : option (string * PyFloat.float * list ScheduleAssignment.t * list string) :=
  built ← build_model data;
  match built with
  | EarlyReturn status notes => Some (status, runtime, [], notes)
  | Model b _ model =>
      let '(status_code, sol) :=
        Solve model
          (SolverOptions.time_limit_seconds (SchedulingInput.options data))
          (SolverOptions.num_workers (SchedulingInput.options data)) in
      let status := _cp_status_to_text status_code in
      let assignments :=
        if bool_decide (status ∈ ["optimal"; "feasible"]) then decode b sol else [] in
      Some (status, runtime, assignments, [])
  end.

Definition _build_result (status solver_name : string)
    (runtime_seconds : PyFloat.float) (assignments : list ScheduleAssignment.t)
    (notes : list string) (data : SchedulingInput.t)
    : ScheduleResult.t * ValidationReport.t :=
  let validation := validate_schedule data assignments in
  let objective_breakdown :=
    compute_objective_breakdown data assignments
      (SolverOptions.objective_weights (SchedulingInput.options data)) in
  let metrics := build_metrics data assignments validation objective_breakdown in
  let result :=
    ScheduleResult.mk status solver_name (PyFloat.round runtime_seconds 4)
      (PyDict.get_default objective_breakdown "total" PyFloat.zero)
      (sorted String.ltb ScheduleAssignment.session_id assignments)
      metrics notes in
  (result, validation).

(** The two readings of the clock in one call of [solve_schedule]: the
    runtime [_solve_with_cp_sat] reports and the one [solve_with_heuristic]
    reports. *)
Module Clock.
Record t := mk {
  cp_runtime : PyFloat.float;
  heuristic_runtime : PyFloat.float;
}.
End Clock.

Definition solve_schedule (Solve : Engine) (clock : Clock.t)
    (data : SchedulingInput.t) (solver_mode : SolverMode)
    : option (ScheduleResult.t * ValidationReport.t) :=
  match solver_mode with
  | heuristic_mode =>
      heuristic_output ← solve_with_heuristic (Clock.heuristic_runtime clock) data;
      Some (_build_result (HeuristicSolveOutput.status heuristic_output) "heuristic"
              (HeuristicSolveOutput.runtime_seconds heuristic_output)
              (HeuristicSolveOutput.assignments heuristic_output)
              (HeuristicSolveOutput.notes heuristic_output) data)
  | _ =>
      '(cp_status, cp_runtime, cp_assignments, cp_notes) ←
        _solve_with_cp_sat Solve (Clock.cp_runtime clock) data;
      if bool_decide (cp_status ∈ ["optimal"; "feasible"])
      then Some (_build_result cp_status "cp_sat" cp_runtime cp_assignments cp_notes data)
      else
        if bool_decide (solver_mode = auto_mode)
           && SolverOptions.enable_fallback (SchedulingInput.options data)
        then
          heuristic_output ← solve_with_heuristic (Clock.heuristic_runtime clock) data;
          let notes :=
            ["CP-SAT status: " +:+ cp_status +:+ ". Triggering fallback heuristic."]
            ++ cp_notes ++ HeuristicSolveOutput.notes heuristic_output in
          Some (_build_result (HeuristicSolveOutput.status heuristic_output) "heuristic"
                  (PyFloat.add cp_runtime
                     (HeuristicSolveOutput.runtime_seconds heuristic_output))
                  (HeuristicSolveOutput.assignments heuristic_output) notes data)
        else Some (_build_result cp_status "cp_sat" cp_runtime cp_assignments cp_notes data)
  end.

(** * [api/main.py]: the [compare] endpoint *)

(** The sort key of the ranking: [(hard_violations, -objective_value,
    -coverage_pct)]. *)
Definition ranking_key (item : ScenarioResult.t) : Z * PyFloat.float * PyFloat.float :=
  (ScheduleMetrics.hard_violations (ScheduleResult.metrics (ScenarioResult.result item)),
   PyFloat.neg (ScheduleResult.objective_value (ScenarioResult.result item)),
   PyFloat.neg (ScheduleMetrics.coverage_pct
                  (ScheduleResult.metrics (ScenarioResult.result item)))).

Definition ranking_lt : Z * PyFloat.float * PyFloat.float
    → Z * PyFloat.float * PyFloat.float → bool :=
  tuple3_lt Z.eqb Z.ltb PyFloat.eqb PyFloat.ltb PyFloat.ltb.

(** Lines 121-131: [None] for no scenario, else the name of [ranked[0]]. *)
Definition best_of (scenario_results : list ScenarioResult.t) : option string :=
  match scenario_results with
  | [] => None
  | _ => ScenarioResult.name <$> head (sorted ranking_lt ranking_key scenario_results)
  end.

(** [clocks i] gives the clock readings of the call of [solve_schedule] for
    the scenario at position [i]. *)
Definition compare (Solve : Engine) (clocks : nat → Clock.t)
    (payload : CompareRequest.t) : option CompareResponse.t :=
  scenario_results ← mapM (λ item : nat * ScenarioConfig.t,
    let scenario := item.2 in
    let scenario_input :=
      SchedulingInput.with_options (CompareRequest.data payload)
        (ScenarioConfig.options scenario) in
    '(result, validation) ←
      solve_schedule Solve (clocks item.1) scenario_input
        (ScenarioConfig.solver_mode scenario);
    Some (ScenarioResult.mk (ScenarioConfig.name scenario) result validation))
    (imap pair (CompareRequest.scenarios payload));
  Some (CompareResponse.mk scenario_results (best_of scenario_results)).

(** * Notions used in the statements *)

(** The character [c] occurs in [s]. *)
Fixpoint occurs (c : ascii) (s : string) : Prop :=
  match s with
  | EmptyString => False
  | String c' s' => c' = c ∨ occurs c s'
  end.

(** The sessions in stable order, as a comprehension: courses in input
    order, and for each course the occurrences 1, 2, ... in ascending
    order. *)
Definition sessions_in_order (courses : list Course.t) : list CourseSession.t :=
  flat_map (λ course,
    map (make_session course) (seqZ 1 (Course.sessions_per_week course))) courses.

(** What the head of the validator's loop decides for a record: its
    session does not exist, its session has been seen, or the record goes
    through the checks. *)
Inductive Outcome :=
  | UnknownSession (a : ScheduleAssignment.t)
  | DuplicateSession (a : ScheduleAssignment.t)
  | Accepted (a : ScheduleAssignment.t) (session : CourseSession.t).

Fixpoint classify (data : SchedulingInput.t) (seen : gset string)
    (assignments : list ScheduleAssignment.t) : list Outcome :=
  match assignments with
  | [] => []
  | a :: rest =>
      match PyDict.get
              (session_by_id (expand_course_sessions (SchedulingInput.courses data)))
              (ScheduleAssignment.session_id a) with
      | None => UnknownSession a :: classify data seen rest
      | Some session =>
          if decide (ScheduleAssignment.session_id a ∈ seen)
          then DuplicateSession a :: classify data seen rest
          else Accepted a session
               :: classify data ({[ScheduleAssignment.session_id a]} ∪ seen) rest
      end
  end.

Definition outcome_issues (data : SchedulingInput.t) (o : Outcome)
    : list ValidationIssue.t :=
  match o with
  | UnknownSession a => [unknown_session_issue a]
  | DuplicateSession a => [duplicate_session_issue a]
  | Accepted a session => record_issues data session a
  end.

Definition accepted_of (outcomes : list Outcome) : list ScheduleAssignment.t :=
  omap (λ o, match o with Accepted a _ => Some a | _ => None end) outcomes.

(** The records that are neither flagged [UNKNOWN_SESSION] nor
    [DUPLICATE_SESSION_ASSIGNMENT]: for each session that exists, the first
    record that names it. *)
Definition accepted_records (data : SchedulingInput.t)
    (assignments : list ScheduleAssignment.t) : list ScheduleAssignment.t :=
  accepted_of (classify data ∅ assignments).


(** The state of a [defaultdict(list)] after [d[key(a)].append(val(a))] for
    each [a] of a list. *)
Definition grouped {A K V : Type} `{EqDecision K} (key : A → K) (val : A → V)
    (d : PyDict.t K (list V)) (l : list A) : PyDict.t K (list V) :=
  foldl (λ d a, dict_append d (key a) (val a)) d l.

Definition room_slot_key (a : ScheduleAssignment.t) : string * string :=
  (ScheduleAssignment.room_id a, ScheduleAssignment.time_slot_id a).
Definition instructor_slot_key (a : ScheduleAssignment.t) : string * string :=
  (ScheduleAssignment.instructor_id a, ScheduleAssignment.time_slot_id a).

(** The codes of the issues a record can raise by itself. *)
Definition record_codes : list string :=
  [ "UNKNOWN_SESSION"; "DUPLICATE_SESSION_ASSIGNMENT"; "COURSE_MISMATCH";
    "INSTRUCTOR_MISMATCH"; "UNKNOWN_ROOM"; "ROOM_CAPACITY_VIOLATION";
    "ROOM_FEATURE_VIOLATION"; "UNKNOWN_TIME_SLOT"; "UNKNOWN_INSTRUCTOR";
    "INSTRUCTOR_AVAILABILITY_VIOLATION"; "COURSE_TIME_WINDOW_VIOLATION" ].

(** The issue raised at lines 128-135 for a time slot id that does not
    exist. *)
Definition unknown_time_slot_issue (time_slot_id : string) : ValidationIssue.t :=
  issue "UNKNOWN_TIME_SLOT"
    ("Time slot '" +:+ time_slot_id +:+ "' does not exist.")
    [("time_slot_id", DStr time_slot_id)].

(** The candidates of a list that pass the exclusion tests of the inner loop
    of the heuristic in state [st], each with its local score, in the order
    of the list. *)
Definition survivors (data : SchedulingInput.t) (st : Heuristic.t)
    (session : CourseSession.t) (instructor : Instructor.t)
    (candidates : list (string * string)) : list (string * string * Z) :=
  omap (λ c : string * string,
    match PyDict.get (slot_by_id data) c.2, PyDict.get (room_by_id data) c.1 with
    | Some slot, Some room =>
        if excluded st session instructor c.1 c.2 slot then None
        else Some (c.1, c.2, candidate_score data st session instructor room c.2 slot)
    | _, _ => None
    end) candidates.

(** The update of [best_option] and [best_score] by a scored candidate. *)
Definition keep_better (best : option (string * string * Z))
    (x : string * string * Z) : option (string * string * Z) :=
  match best with
  | None => Some x
  | Some (_, best_score) => if bool_decide (x.2 > best_score) then Some x else best
  end.

(** [x] is the first element of greatest score in [l]. *)
Definition first_of_greatest_score (x : string * string * Z)
    (l : list (string * string * Z)) : Prop :=
  ∃ before after,
    l = before ++ x :: after
    ∧ Forall (λ y : string * string * Z, y.2 < x.2) before
    ∧ Forall (λ y : string * string * Z, y.2 ≤ x.2) after.

(** What the loop of the heuristic maintains: every placed session holds
    its room and slot and its instructor and slot, no two placed sessions
    share either pair, and every placement is one of the candidates computed
    for its session id. *)
Definition heuristic_invariant (data : SchedulingInput.t) (st : Heuristic.t) : Prop :=
  let feasible :=
    _build_feasible_candidates data
      (expand_course_sessions (SchedulingInput.courses data)) in
  (∀ a, a ∈ Heuristic.assignments st →
     room_slot_key a ∈ Heuristic.occupied_room_slot st
     ∧ instructor_slot_key a ∈ Heuristic.occupied_instructor_slot st
     ∧ ∃ candidates,
         PyDict.get feasible (ScheduleAssignment.session_id a) = Some candidates
         ∧ room_slot_key a ∈ candidates)
  ∧ NoDup (map room_slot_key (Heuristic.assignments st))
  ∧ NoDup (map instructor_slot_key (Heuristic.assignments st)).



(** The ratios enrollment / capacity of the assignments whose session and
    room exist, the room having a positive capacity. *)
Definition utilization_ratios (data : SchedulingInput.t)
    (assignments : list ScheduleAssignment.t) : list PyFloat.float :=
  omap (λ a,
    match PyDict.get (session_by_id (expand_course_sessions (SchedulingInput.courses data)))
            (ScheduleAssignment.session_id a),
          PyDict.get (room_by_id data) (ScheduleAssignment.room_id a) with
    | Some session, Some room =>
        if bool_decide (Room.capacity room > 0)
        then Some (PyFloat.truediv (CourseSession.enrollment session) (Room.capacity room))
        else None
    | _, _ => None
    end) assignments.

(** The sum of a list of floats, added from left to right. *)
Definition float_sum (l : list PyFloat.float) : PyFloat.float :=
  foldl PyFloat.add PyFloat.zero l.

(** The slot of the assignment is one its instructor prefers. *)
Definition on_preferred_slot (data : SchedulingInput.t)
    (a : ScheduleAssignment.t) : Prop :=
  ∃ instructor,
    PyDict.get (instructor_by_id data) (ScheduleAssignment.instructor_id a)
    = Some instructor
    ∧ ScheduleAssignment.time_slot_id a ∈ Instructor.preferred_time_slots instructor.

Global Instance on_preferred_slot_dec data a : Decision (on_preferred_slot data a).
Proof.
  unfold on_preferred_slot.
  destruct (PyDict.get (instructor_by_id data) (ScheduleAssignment.instructor_id a))
    as [instructor|].
  - destruct (decide (ScheduleAssignment.time_slot_id a
                      ∈ Instructor.preferred_time_slots instructor)) as [Hin|Hnin].
    + left. by exists instructor.
    + right. intros (i & [= <-] & Hin). done.
  - right. by intros (i & [=] & _).
Defined.

(** A ratio as a percentage rounded to two decimal places. *)
Definition percentage (ratio : PyFloat.float) : PyFloat.float :=
  PyFloat.round (PyFloat.mul ratio PyFloat.hundred) 2.

(** [a] ranks strictly before [b]: fewer hard violations; then a greater
    objective value; then a greater coverage. *)
Definition ranks_before (a b : ScenarioResult.t) : Prop :=
  let hard r := ScheduleMetrics.hard_violations (ScheduleResult.metrics (ScenarioResult.result r)) in
  let objective r := ScheduleResult.objective_value (ScenarioResult.result r) in
  let coverage r := ScheduleMetrics.coverage_pct (ScheduleResult.metrics (ScenarioResult.result r)) in
  hard a < hard b
  ∨ (hard a = hard b
     ∧ ((objective b < objective a)%Q
        ∨ ((objective a == objective b)%Q ∧ (coverage b < coverage a)%Q))).

(** The head of a list sorted by [sorted]: the element kept by a scan that
    replaces the element held only by a strictly smaller one. *)
Definition running_least {A K : Type} (lt : K → K → bool) (key : A → K)
    (best : option A) (x : A) : option A :=
  match best with
  | None => Some x
  | Some y => if lt (key x) (key y) then Some x else Some y
  end.

(** A feasible (session, room, slot) triple, with the instructor of the
    session: what one iteration of the innermost loop of
    [_solve_with_cp_sat] works on. *)
Module Triple.
Record t := mk {
  session : CourseSession.t;
  instructor : Instructor.t;
  room : Room.t;
  slot : TimeSlot.t;
}.
(** The key of the triple in [x]. *)
Definition key (t : t) : ScheduleAssignment.t :=
  ScheduleAssignment.mk (CourseSession.session_id (session t))
    (CourseSession.course_id (session t)) (CourseSession.instructor_id (session t))
    (Room.id (room t)) (TimeSlot.id (slot t)).
(** The decision variable made for the triple when it is the [n]-th
    variable of the model. *)
Definition var (it : nat * t) : cp_model.IntVar :=
  cp_model.mkVar it.1
    (replace_colon ("x_" +:+ CourseSession.session_id (session it.2) +:+ "_"
                    +:+ Room.id (room it.2) +:+ "_" +:+ TimeSlot.id (slot it.2))).
Definition day (t : t) : Day := TimeSlot.day (slot t).
Definition tag (t : t) : option string := truthy_tag (CourseSession.cluster_tag (session t)).
Definition instructor_preferred (t : t) : Prop :=
  TimeSlot.id (slot t) ∈ Instructor.preferred_time_slots (instructor t).
Definition course_preferred (t : t) : Prop :=
  TimeSlot.id (slot t) ∈ CourseSession.preferred_time_slots (session t).
Definition utilization (t : t) : Z :=
  utilization (CourseSession.enrollment (session t)) (Room.capacity (room t)).
End Triple.

(** The triples of one session, in the order of the two nested loops over
    [rooms] and [slots]. *)
Definition session_triples (data : SchedulingInput.t)
    (instructor : Instructor.t) (session : CourseSession.t) : list Triple.t :=
  flat_map (λ room,
    if bool_decide (Room.capacity room < CourseSession.enrollment session) then []
    else if negb (issubset (CourseSession.required_features session) (Room.features room))
    then []
    else
      flat_map (λ slot,
        if negb (slot_permitted
                   (list_to_set (Instructor.available_time_slots instructor))
                   (TimeSlot.id slot)) then []
        else if negb (slot_permitted
                        (list_to_set (CourseSession.allowed_time_slots session))
                        (TimeSlot.id slot)) then []
        else [Triple.mk session instructor room slot])
        (slots_by_order data))
    (SchedulingInput.rooms data).

(** The triples of all sessions, in the order of the loop over
    [sessions]. *)
Definition all_triples (data : SchedulingInput.t)
    (sessions : list CourseSession.t) : list Triple.t :=
  flat_map (λ session,
    match PyDict.get (instructor_by_id data) (CourseSession.instructor_id session) with
    | Some instructor => session_triples data instructor session
    | None => []
    end) sessions.

(** The elements of a list with their positions, counted from [n]. *)
Fixpoint indexed_from {A : Type} (n : nat) (l : list A) : list (nat * A) :=
  match l with
  | [] => []
  | x :: l' => (n, x) :: indexed_from (S n) l'
  end.

(** The triples that carry a cluster tag, with the tag. *)
Definition tagged (its : list (nat * Triple.t)) : list (string * (nat * Triple.t)) :=
  omap (λ it : nat * Triple.t, tag ← Triple.tag it.2; Some (tag, it)) its.

(** The state of the builder after the variables of the indexed triples
    [its] are added to the state [b], with [counts] as
    [cluster_session_count]. *)
Definition builder_from (b : Builder.t) (its : list (nat * Triple.t))
    (counts : PyDict.t string Z) : Builder.t :=
  Builder.mk
    (Builder.variables b ++ map Triple.var its)
    (foldl (λ d it, PyDict.setitem d (Triple.key it.2) (Triple.var it)) (Builder.x b) its)
    (grouped (λ it : nat * Triple.t, CourseSession.session_id (Triple.session it.2))
       Triple.var (Builder.vars_by_session b) its)
    (grouped (λ it : nat * Triple.t,
                (Room.id (Triple.room it.2), TimeSlot.id (Triple.slot it.2)))
       Triple.var (Builder.vars_by_room_slot b) its)
    (grouped (λ it : nat * Triple.t,
                (CourseSession.instructor_id (Triple.session it.2),
                 TimeSlot.id (Triple.slot it.2)))
       Triple.var (Builder.vars_by_instructor_slot b) its)
    (grouped (λ it : nat * Triple.t,
                (CourseSession.course_id (Triple.session it.2), Triple.day it.2))
       Triple.var (Builder.vars_by_course_day b) its)
    (grouped (λ it : nat * Triple.t,
                (CourseSession.instructor_id (Triple.session it.2), Triple.day it.2))
       Triple.var (Builder.vars_by_instructor_day b) its)
    (grouped (λ tit : string * (nat * Triple.t), (tit.1, Triple.day tit.2.2))
       (λ tit, Triple.var tit.2) (Builder.vars_by_cluster_day b) (tagged its))
    (Builder.instructor_pref_terms b
     ++ map (λ it, (1, Triple.var it))
          (filter (λ it : nat * Triple.t, Triple.instructor_preferred it.2) its))
    (Builder.room_eff_terms b
     ++ map (λ it : nat * Triple.t, (Triple.utilization it.2, Triple.var it)) its)
    (Builder.priority_terms b
     ++ map (λ it : nat * Triple.t,
               (CourseSession.priority (Triple.session it.2) * 20, Triple.var it))
          (filter (λ it : nat * Triple.t, Triple.course_preferred it.2) its))
    counts.

(** [cluster_session_count] after the loop over [sessions]. *)
Definition cluster_counts_of (counts : PyDict.t string Z)
    (sessions : list CourseSession.t) : PyDict.t string Z :=
  foldl (λ counts session,
    match truthy_tag (CourseSession.cluster_tag session) with
    | Some tag => PyDict.update counts tag 0 (λ n, n + 1)
    | None => counts
    end) counts sessions.

(** ** The breakdown in the words of the specification *)

(** The session, instructor, room and time slot that an assignment names,
    when the four of them exist. *)
Definition resolve (data : SchedulingInput.t) (a : ScheduleAssignment.t)
    : option Triple.t :=
  session ←
    PyDict.get (session_by_id (expand_course_sessions (SchedulingInput.courses data)))
      (ScheduleAssignment.session_id a);
  instructor ← PyDict.get (instructor_by_id data) (ScheduleAssignment.instructor_id a);
  room ← PyDict.get (room_by_id data) (ScheduleAssignment.room_id a);
  slot ← PyDict.get (slot_by_id data) (ScheduleAssignment.time_slot_id a);
  Some (Triple.mk session instructor room slot).

(** The cluster tag and the day of each placed session that has a tag. *)
Definition tag_days (placed : list Triple.t) : list (string * Day) :=
  omap (λ t, tag ← Triple.tag t; Some (tag, Triple.day t)) placed.

(** The number of expanded sessions that carry a cluster tag. *)
Definition sessions_with_tag (data : SchedulingInput.t) (tag : string) : nat :=
  length (filter (λ s, truthy_tag (CourseSession.cluster_tag s) = Some tag)
            (expand_course_sessions (SchedulingInput.courses data))).

(** The distinct (tag, day) pairs in use, for the tags with more than one
    session. *)
Definition cluster_days_used (data : SchedulingInput.t) (placed : list Triple.t)
    : gset (string * Day) :=
  list_to_set
    (filter (λ td : string * Day, (1 < sessions_with_tag data td.1)%nat)
       (tag_days placed)).

Definition sum_Z (l : list Z) : Z := foldr Z.add 0 l.

(** [floor(100 × enrollment / capacity)] *)
Definition floor_percentage (enrollment capacity : Z) : Z :=
  (100 * enrollment) `div` capacity.

(** The four components and the total as the specification words them,
    with [filled enrollment capacity] for the percentage of a room that a
    session fills. *)
Definition breakdown_in_words (filled : Z → Z → Z) (data : SchedulingInput.t)
    (assignments : list ScheduleAssignment.t) (weights : ObjectiveWeights.t)
    : PyDict.t string PyFloat.float :=
  let placed := omap (resolve data) assignments in
  let instructor_component :=
    ObjectiveWeights.instructor_preference weights * 100
    * Z.of_nat (length (filter Triple.instructor_preferred placed)) in
  let room_component :=
    ObjectiveWeights.room_efficiency weights
    * sum_Z (map (λ t, filled (CourseSession.enrollment (Triple.session t))
                         (Room.capacity (Triple.room t))) placed) in
  let priority_component :=
    ObjectiveWeights.course_priority weights
    * sum_Z (map (λ t, CourseSession.priority (Triple.session t) * 20)
               (filter Triple.course_preferred placed)) in
  let cluster_component :=
    - (ObjectiveWeights.cluster_compactness weights * 100
       * Z.of_nat (size (cluster_days_used data placed))) in
  [ ("instructor_preference", PyFloat.of_int instructor_component);
    ("room_efficiency", PyFloat.of_int room_component);
    ("course_priority", PyFloat.of_int priority_component);
    ("cluster_compactness", PyFloat.of_int cluster_component);
    ("total",
     PyFloat.of_int
       (instructor_component + room_component + priority_component
        + cluster_component)) ].

(** [cluster_days] and [cluster_counts] of [compute_objective_breakdown]
    after the loop has gone through sessions with the given tags and
    days. *)
Definition days_from (d : PyDict.t string (gset Day)) (tds : list (string * Day))
    : PyDict.t string (gset Day) :=
  foldl (λ d td, PyDict.update d td.1 ∅ (λ days, {[td.2]} ∪ days)) d tds.
Definition counts_from (c : PyDict.t string Z) (tds : list (string * Day))
    : PyDict.t string Z :=
  foldl (λ c td, PyDict.setitem c td.1 (PyDict.get_default c td.1 0 + 1)) c tds.

(** The indicator variable made for an item of [vars_by_cluster_day] when it
    is the [n]-th variable of the model. *)
Definition used_var (n : nat) (item : string * Day * list cp_model.IntVar)
    : cp_model.IntVar :=
  cp_model.mkVar n
    (replace_colon ("cluster_" +:+ item.1.1 +:+ "_" +:+ Day_str item.1.2)).

(** What the engine promises: with the status [OPTIMAL] or [FEASIBLE] it
    returns a truth assignment that satisfies every constraint of the
    model. *)
Definition engine_sound (Solve : Engine) : Prop :=
  ∀ model time_limit workers,
    (Solve model time_limit workers).1 = cp_model.OPTIMAL
    ∨ (Solve model time_limit workers).1 = cp_model.FEASIBLE →
    Forall (cp_model.holds (Solve model time_limit workers).2)
      (cp_model.constraints model).

(** ** What the validator accepts *)

(** The checks the validator makes on one record, given the session the
    record names: the course and the instructor of the record are those of
    the session; the room exists, seats the enrollment and has the required
    features; the time slot exists; the instructor of the session exists and
    is available in the slot; the slot is one the course allows. *)
Definition record_ok (data : SchedulingInput.t) (session : CourseSession.t)
    (a : ScheduleAssignment.t) : Prop :=
  ScheduleAssignment.course_id a = CourseSession.course_id session
  ∧ ScheduleAssignment.instructor_id a = CourseSession.instructor_id session
  ∧ (∃ room,
       PyDict.get (room_by_id data) (ScheduleAssignment.room_id a) = Some room
       ∧ CourseSession.enrollment session ≤ Room.capacity room
       ∧ ∀ feature, feature ∈ CourseSession.required_features session →
           feature ∈ Room.features room)
  ∧ (∃ slot instructor,
       PyDict.get (slot_by_id data) (ScheduleAssignment.time_slot_id a) = Some slot
       ∧ PyDict.get (instructor_by_id data) (CourseSession.instructor_id session)
         = Some instructor
       ∧ (Instructor.available_time_slots instructor = []
          ∨ ScheduleAssignment.time_slot_id a
            ∈ Instructor.available_time_slots instructor)
       ∧ (CourseSession.allowed_time_slots session = []
          ∨ ScheduleAssignment.time_slot_id a
            ∈ CourseSession.allowed_time_slots session)).

(** A list of records in which every expanded session is named exactly
    once, every record passes the checks of [record_ok], and no two records
    share a room and slot or an instructor and slot. *)
Definition meets_hard_constraints (data : SchedulingInput.t)
    (assignments : list ScheduleAssignment.t) : Prop :=
  let sessions := expand_course_sessions (SchedulingInput.courses data) in
  NoDup (map ScheduleAssignment.session_id assignments)
  ∧ (∀ session, session ∈ sessions →
       CourseSession.session_id session
       ∈ map ScheduleAssignment.session_id assignments)
  ∧ (∀ a, a ∈ assignments →
       ∃ session,
         PyDict.get (session_by_id sessions) (ScheduleAssignment.session_id a)
         = Some session
         ∧ record_ok data session a)
  ∧ NoDup (map room_slot_key assignments)
  ∧ NoDup (map instructor_slot_key assignments).

(** ** The load of a schedule, day by day *)

(** The day of the time slot an assignment names. *)
Definition assignment_day (data : SchedulingInput.t) (a : ScheduleAssignment.t)
    : option Day :=
  TimeSlot.day <$> PyDict.get (slot_by_id data) (ScheduleAssignment.time_slot_id a).

(** The number of assignments of an instructor on a day. *)
Definition instructor_day_load (data : SchedulingInput.t)
    (assignments : list ScheduleAssignment.t) (instructor_id : string) (day : Day)
    : nat :=
  length (filter (λ a, ScheduleAssignment.instructor_id a = instructor_id
                       ∧ assignment_day data a = Some day) assignments).

(** The days of the assignments of a course, one entry per assignment. *)
Definition course_days (data : SchedulingInput.t)
    (assignments : list ScheduleAssignment.t) (course_id : string) : list Day :=
  omap (assignment_day data)
    (filter (λ a, ScheduleAssignment.course_id a = course_id) assignments).

(** What the loop of the heuristic keeps besides [heuristic_invariant],
    after the sessions [processed]: every processed session is either
    placed or listed as unscheduled; every assignment carries the ids of a
    session whose instructor exists, in a room and slot drawn from the
    candidates of that session; [instructor_day_count] counts the
    assignments of an instructor on a day, which stay within the
    instructor's daily maximum; [course_days_used] holds the days of the
    assignments of a course, which are pairwise distinct when every session
    of the course avoids same-day sessions. *)
Definition heuristic_ledger (data : SchedulingInput.t) (st : Heuristic.t)
    (processed : list CourseSession.t) : Prop :=
  let sessions := expand_course_sessions (SchedulingInput.courses data) in
  let feasible := _build_feasible_candidates data sessions in
  map ScheduleAssignment.session_id (Heuristic.assignments st)
    ++ Heuristic.unscheduled st
  ≡ₚ map CourseSession.session_id processed
  ∧ (∀ a, a ∈ Heuristic.assignments st →
       ∃ session instructor candidates,
         session ∈ sessions
         ∧ a = ScheduleAssignment.mk (CourseSession.session_id session)
                 (CourseSession.course_id session)
                 (CourseSession.instructor_id session)
                 (ScheduleAssignment.room_id a) (ScheduleAssignment.time_slot_id a)
         ∧ PyDict.get (instructor_by_id data) (CourseSession.instructor_id session)
           = Some instructor
         ∧ PyDict.get feasible (CourseSession.session_id session) = Some candidates
         ∧ room_slot_key a ∈ candidates)
  ∧ (∀ instructor_id day,
       PyDict.get_default (Heuristic.instructor_day_count st) (instructor_id, day) 0
       = Z.of_nat (instructor_day_load data (Heuristic.assignments st)
                     instructor_id day))
  ∧ (∀ instructor_id day instructor max_per_day,
       PyDict.get (instructor_by_id data) instructor_id = Some instructor →
       Instructor.max_sessions_per_day instructor = Some max_per_day →
       instructor_day_load data (Heuristic.assignments st) instructor_id day = 0%nat
       ∨ Z.of_nat (instructor_day_load data (Heuristic.assignments st)
                     instructor_id day) ≤ max_per_day)
  ∧ (∀ course_id day,
       day ∈ PyDict.get_default (Heuristic.course_days_used st) course_id ∅
       ↔ day ∈ course_days data (Heuristic.assignments st) course_id)
  ∧ (∀ course_id,
       (∀ session, session ∈ sessions →
          CourseSession.course_id session = course_id →
          CourseSession.avoid_same_day_sessions session = true) →
       NoDup (course_days data (Heuristic.assignments st) course_id)).

(** ** Rooms and slots that fit a session *)

(** The conditions under which the loops of [_solve_with_cp_sat] over [rooms]
    and [slots] reach [model.NewBoolVar] for a session (lines 113-123 of
    solver.py). *)
Definition fits (instructor : Instructor.t) (session : CourseSession.t)
    (room : Room.t) (slot : TimeSlot.t) : Prop :=
  CourseSession.enrollment session ≤ Room.capacity room
  ∧ (∀ feature, feature ∈ CourseSession.required_features session →
       feature ∈ Room.features room)
  ∧ (Instructor.available_time_slots instructor = []
     ∨ TimeSlot.id slot ∈ Instructor.available_time_slots instructor)
  ∧ (CourseSession.allowed_time_slots session = []
     ∨ TimeSlot.id slot ∈ CourseSession.allowed_time_slots session).

(** The (session, instructor, room, slot) combinations whose decision
    variable is true, in the order in which [_solve_with_cp_sat] creates the
    variables. *)
Definition true_triples (data : SchedulingInput.t) (sol : cp_model.Solution)
    : list Triple.t :=
  map snd
    (filter (λ it : nat * Triple.t, sol it.1 = true)
       (indexed_from 0
          (all_triples data (expand_course_sessions (SchedulingInput.courses data))))).

(** * Sample inputs *)

Module Sample.

Definition algorithms : Course.t :=
  Course.mk "CS101" "Algorithms" "I1" 30 2 [] [] [] None 5 true.
Definition calculus : Course.t :=
  Course.mk "MA201" "Calculus" "I1" 25 1 [] [] [] None 5 true.
(** A second course entered under the id of the first. *)
Definition algorithms_lab : Course.t :=
  Course.mk "CS101" "Algorithms lab" "I1" 12 1 [] [] [] None 5 true.


Definition ann : Instructor.t := Instructor.mk "I1" "Ann" [] [] None.
Definition r101 : Room.t := Room.mk "R101" "Room 101" 40 [].
Definition r102 : Room.t := Room.mk "R102" "Room 102" 40 [].
Definition mon9 : TimeSlot.t := TimeSlot.mk "T1" Mon "09:00" "10:15" 0.
Definition tue9 : TimeSlot.t := TimeSlot.mk "T2" Tue "09:00" "10:15" 1.

(** A course whose instructor is not in the input, and a record for its
    session in a time slot that is not in the input either. *)
Definition physics : Course.t :=
  Course.mk "PH301" "Physics" "I9" 20 1 [] [] [] None 5 true.
Definition physics_input : SchedulingInput.t :=
  SchedulingInput.mk [physics] [ann] [r101] [mon9] SolverOptions.default.
Definition physics_record : ScheduleAssignment.t :=
  ScheduleAssignment.mk "PH301::S1" "PH301" "I9" "R101" "T9".
(** The same record in a slot that exists. *)
Definition physics_record_mon : ScheduleAssignment.t :=
  ScheduleAssignment.mk "PH301::S1" "PH301" "I9" "R101" "T1".

(** Two courses, and three records: the first two share a room and a slot,
    the third repeats the session of the first. *)
Definition two_courses : SchedulingInput.t :=
  SchedulingInput.mk [algorithms_lab; calculus] [ann] [r101; r102] [mon9; tue9]
    SolverOptions.default.
Definition lab_record : ScheduleAssignment.t :=
  ScheduleAssignment.mk "CS101::S1" "CS101" "I1" "R101" "T1".
Definition calculus_record : ScheduleAssignment.t :=
  ScheduleAssignment.mk "MA201::S1" "MA201" "I1" "R101" "T1".



(** An engine that proposes a fixed truth assignment and reports it as
    [FEASIBLE] only after checking every constraint of the model. *)
Global Instance holds_dec sol c : Decision (cp_model.holds sol c).
Proof. destruct c; cbn; apply _. Defined.

Definition cautious_engine (guess : cp_model.Solution) : Engine :=
  λ model _ _,
    if decide (Forall (cp_model.holds guess) (cp_model.constraints model))
    then (cp_model.FEASIBLE, guess)
    else (cp_model.UNKNOWN, guess).

(** For [two_courses]: the first course in room R101 on Monday (variable 0)
    and the second in room R102 on Tuesday (variable 7). *)
Definition two_courses_guess : cp_model.Solution :=
  λ i, bool_decide (i = 0 ∨ i = 7)%nat.

(** An engine that gives up. *)
Definition idle_engine : Engine := λ _ _ _, (cp_model.UNKNOWN, λ _, false).

Definition quick_clock : Clock.t := Clock.mk (1 # 512)%Q (1 # 1024)%Q.

(** A session of 29 students in a room of 100 seats. *)
Definition seminar : Course.t :=
  Course.mk "SE401" "Seminar" "I1" 29 1 [] [] [] None 5 true.
Definition hall : Room.t := Room.mk "H1" "Hall" 100 [].
Definition seminar_input : SchedulingInput.t :=
  SchedulingInput.mk [seminar] [ann] [hall] [mon9] SolverOptions.default.
Definition seminar_record : ScheduleAssignment.t :=
  ScheduleAssignment.mk "SE401::S1" "SE401" "I1" "H1" "T1".

(** Two courses of the cluster [core], taught by an instructor who prefers
    Tuesday; the first course prefers Monday. *)
Definition logic : Course.t :=
  Course.mk "CS210" "Logic" "I2" 29 1 [] ["T1"] [] (Some "core") 5 true.
Definition sets : Course.t :=
  Course.mk "CS220" "Sets" "I2" 30 1 [] [] [] (Some "core") 7 true.
Definition bea : Instructor.t := Instructor.mk "I2" "Bea" [] ["T2"] None.
Definition core_courses : SchedulingInput.t :=
  SchedulingInput.mk [logic; sets] [bea] [r101; hall] [mon9; tue9]
    SolverOptions.default.
(** Logic in the hall on Monday (variable 2), Sets in room R101 on Tuesday
    (variable 5), and the indicators of the two days of the cluster
    (variables 8 and 9). *)
Definition core_courses_guess : cp_model.Solution :=
  λ i, bool_decide (i ∈ [2; 5; 8; 9]%nat).

(** A course of two sessions a week and a course of one, with one room and
    two days. *)
Definition week_input : SchedulingInput.t :=
  SchedulingInput.mk [algorithms; calculus] [ann] [r101] [mon9; tue9]
    SolverOptions.default.

(** A course too large for the only room. *)
Definition lecture : Course.t :=
  Course.mk "BI100" "Lecture" "I1" 500 1 [] [] [] None 5 true.
Definition crowded_input : SchedulingInput.t :=
  SchedulingInput.mk [lecture] [ann] [r101] [mon9] SolverOptions.default.

(** A request that compares the exact path with the heuristic on
    [two_courses]. *)
Definition two_scenarios : CompareRequest.t :=
  CompareRequest.mk two_courses
    [ ScenarioConfig.mk "exact" SolverOptions.default cp_sat_mode;
      ScenarioConfig.mk "greedy" SolverOptions.default heuristic_mode ].

(** An instructor who teaches at most one session a day, two Monday slots
    followed by a Tuesday slot, and a course of two sessions a week that
    may share a day ([drawing]) or may not ([painting]). *)
Definition cara : Instructor.t := Instructor.mk "I3" "Cara" [] [] (Some 1).
Definition mon11 : TimeSlot.t := TimeSlot.mk "T3" Mon "11:00" "12:15" 2.
Definition tue11 : TimeSlot.t := TimeSlot.mk "T4" Tue "11:00" "12:15" 3.
Definition drawing : Course.t :=
  Course.mk "AR110" "Drawing" "I3" 10 2 [] [] [] None 5 false.
Definition painting : Course.t :=
  Course.mk "AR120" "Painting" "I3" 10 2 [] [] [] None 5 true.
Definition studio_input : SchedulingInput.t :=
  SchedulingInput.mk [drawing] [cara] [r101] [mon9; mon11; tue11] SolverOptions.default.
Definition atelier_input : SchedulingInput.t :=
  SchedulingInput.mk [painting] [cara] [r101] [mon9; mon11; tue11]
    SolverOptions.default.
(** For [atelier_input]: the first session on Monday at 9 (variable 0), the
    second on Tuesday (variable 5). *)
Definition atelier_guess : cp_model.Solution :=
  λ i, bool_decide (i = 0 ∨ i = 5)%nat.

(** For [core_courses]: both courses in the hall on Monday (variables 2 and
    6), with the indicator of Monday for the cluster (variable 8). *)
Definition core_clash : list ScheduleAssignment.t :=
  [ ScheduleAssignment.mk "CS210::S1" "CS210" "I2" "H1" "T1";
    ScheduleAssignment.mk "CS220::S1" "CS220" "I2" "H1" "T1" ].
Definition core_clash_guess : cp_model.Solution :=
  λ i, bool_decide (i ∈ [2; 6; 8]%nat).
(** For [two_courses]: both courses in room R101 on Monday (variables 0 and
    4). *)
Definition two_courses_clash_guess : cp_model.Solution :=
  λ i, bool_decide (i = 0 ∨ i = 4)%nat.

End Sample.

(** * Verification *)

(** ** Lists, loops and strings *)

Lemma foldl_snoc_map {A B : Type} (g : B → A) (l : list B) (acc : list A) :
  foldl (λ acc x, acc ++ [g x]) acc l = acc ++ map g l.
Proof.
  revert acc. induction l as [|x l IH]; intros acc; simpl.
  - by rewrite app_nil_r.
  - rewrite IH. by rewrite <- app_assoc.
Qed.

Lemma foldl_flat_map {A B : Type} (g : B → list A) (l : list B) (acc : list A) :
  foldl (λ acc x, acc ++ g x) acc l = acc ++ flat_map g l.
Proof.
  revert acc. induction l as [|x l IH]; intros acc; simpl.
  - by rewrite app_nil_r.
  - rewrite IH. by rewrite <- app_assoc.
Qed.

Lemma foldl_nested_snoc {A B C : Type} (g : B → C → A) (h : B → list C)
    (l : list B) (acc : list A) :
  foldl (λ acc b, foldl (λ acc c, acc ++ [g b c]) acc (h b)) acc l
  = acc ++ flat_map (λ b, map (g b) (h b)) l.
Proof.
  revert acc. induction l as [|b l IH]; intros acc.
  - by rewrite app_nil_r.
  - cbn [foldl flat_map]. rewrite IH, foldl_snoc_map. by rewrite <- app_assoc.
Qed.

Lemma elem_of_flat_map {A B : Type} (f : A → list B) (l : list A) (y : B) :
  y ∈ flat_map f l ↔ ∃ x, x ∈ l ∧ y ∈ f x.
Proof.
  rewrite list_elem_of_In, in_flat_map.
  split; intros (x & Hx & Hy); exists x.
  - by rewrite !list_elem_of_In.
  - by rewrite <- !list_elem_of_In.
Qed.

Lemma append_String (a : ascii) (s t : string) :
  String a s +:+ t = String a (s +:+ t).
Proof. reflexivity. Qed.

Lemma append_assoc (s1 s2 s3 : string) :
  (s1 +:+ s2) +:+ s3 = s1 +:+ s2 +:+ s3.
Proof.
  induction s1 as [|a s1 IH]; [done|]. by rewrite !append_String, IH.
Qed.

Lemma occurs_app c s1 s2 : occurs c (s1 +:+ s2) ↔ occurs c s1 ∨ occurs c s2.
Proof. induction s1 as [|a s1 IH]; simpl; [tauto | rewrite IH; tauto]. Qed.

(** A string is split in one way only at the last occurrence of a
    character. *)
Lemma split_at_last c s1 s2 d1 d2 :
  ¬ occurs c d1 → ¬ occurs c d2 →
  s1 +:+ String c d1 = s2 +:+ String c d2 → s1 = s2 ∧ d1 = d2.
Proof.
  intros H1 H2. revert s2.
  induction s1 as [|a s1 IH]; intros [|b s2]; simpl; intros Heq.
  - by injection Heq.
  - injection Heq as -> ->. destruct H1. apply occurs_app. right. by left.
  - injection Heq as -> <-. destruct H2. apply occurs_app. right. by left.
  - injection Heq as -> Heq. destruct (IH _ Heq) as [-> ->]. done.
Qed.

Lemma pretty_N_go_no_S x s : ¬ occurs "S" s → ¬ occurs "S" (pretty_N_go x s).
Proof.
  revert s. induction (N.lt_wf_0 x) as [x _ IH]; intros s Hs.
  destruct (decide (x = 0)%N) as [->|Hx].
  - by rewrite pretty_N_go_0.
  - rewrite pretty_N_go_step by lia. apply IH.
    + apply N.div_lt; lia.
    + simpl. intros [Hc|Hc]; [|done].
      unfold pretty_N_char in Hc. by repeat case_match.
Qed.

Lemma pretty_Z_no_S (z : Z) : ¬ occurs "S" (pretty z).
Proof.
  assert (∀ p : positive, ¬ occurs "S" (pretty p)) as Hpos.
  { intros p. unfold pretty, pretty_positive, pretty, pretty_N.
    case_decide; [discriminate|]. apply pretty_N_go_no_S. by intros []. }
  destruct z as [|p|p]; unfold pretty, pretty_Z; simpl.
  - intros [?|[]]; discriminate.
  - apply Hpos.
  - intros [?|?]; [discriminate|]. by apply (Hpos p).
Qed.

(** The session id determines the course id and the occurrence index. *)
Lemma session_id_inj (c1 c2 : string) (i1 i2 : Z) :
  c1 +:+ "::S" +:+ pretty i1 = c2 +:+ "::S" +:+ pretty i2 → c1 = c2 ∧ i1 = i2.
Proof.
  intros Heq.
  change (c1 +:+ "::" +:+ String "S" (pretty i1)
          = c2 +:+ "::" +:+ String "S" (pretty i2)) in Heq.
  rewrite <- !append_assoc in Heq.
  apply split_at_last in Heq as [Hc Hi]; [|apply pretty_Z_no_S..].
  apply (inj pretty) in Hi.
  change (c1 +:+ ":" +:+ String ":" "" = c2 +:+ ":" +:+ String ":" "") in Hc.
  rewrite <- !append_assoc in Hc.
  apply split_at_last in Hc as [Hc _]; [|simpl; tauto..].
  apply (split_at_last ":" c1 c2 "" "") in Hc as [Hc _]; [done|simpl; tauto..].
Qed.

(** ** [expand_course_sessions] *)

Lemma expand_course_sessions_flat_map (courses : list Course.t) :
  expand_course_sessions courses = sessions_in_order courses.
Proof.
  unfold expand_course_sessions, sessions_in_order.
  rewrite foldl_nested_snoc. cbn [app].
  apply flat_map_ext. intros c. unfold range.
  by replace (Course.sessions_per_week c + 1 - 1) with (Course.sessions_per_week c) by lia.
Qed.

Lemma length_sessions_in_order (courses : list Course.t) :
  Forall Course.wf courses →
  Z.of_nat (length (sessions_in_order courses))
  = foldr Z.add 0 (map Course.sessions_per_week courses).
Proof.
  induction 1 as [|c courses Hc _ IH]; simpl; [done|].
  rewrite length_app, length_map, length_seqZ, Nat2Z.inj_add, IH.
  destruct Hc as (_ & ? & _). lia.
Qed.

Lemma session_id_make_session c i :
  CourseSession.session_id (make_session c i) = Course.id c +:+ "::S" +:+ pretty i.
Proof. done. Qed.

Lemma elem_of_sessions_in_order s courses :
  s ∈ sessions_in_order courses ↔
  ∃ c i, c ∈ courses ∧ 1 ≤ i ≤ Course.sessions_per_week c ∧ s = make_session c i.
Proof.
  unfold sessions_in_order. rewrite elem_of_flat_map. split.
  - intros (c & Hc & Hs). apply list_elem_of_fmap in Hs as (i & -> & Hi).
    apply elem_of_seqZ in Hi. exists c, i. split; [done|]. split; [lia|done].
  - intros (c & i & Hc & Hi & ->). exists c. split; [done|].
    apply list_elem_of_fmap. exists i. split; [done|]. apply elem_of_seqZ. lia.
Qed.

Lemma NoDup_session_ids (courses : list Course.t) :
  NoDup (map Course.id courses) →
  NoDup (map CourseSession.session_id (sessions_in_order courses)).
Proof.
  induction courses as [|c courses IH]; simpl; intros Hnd; [constructor|].
  apply NoDup_cons in Hnd as [Hc Hnd].
  rewrite map_app. apply NoDup_app. split; [|split].
  - rewrite map_map. apply NoDup_fmap_2_strong; [|apply NoDup_seqZ].
    intros i j _ _ Hij. rewrite !session_id_make_session in Hij.
    by apply session_id_inj in Hij as [_ ?].
  - intros sid H1 H2.
    apply list_elem_of_fmap in H1 as (s1 & -> & H1).
    apply list_elem_of_fmap in H1 as (i & -> & _).
    apply list_elem_of_fmap in H2 as (s2 & Heq & H2).
    apply elem_of_sessions_in_order in H2 as (c2 & j & Hc2 & _ & ->).
    rewrite !session_id_make_session in Heq.
    apply session_id_inj in Heq as [Heq _].
    apply Hc. rewrite Heq. apply list_elem_of_fmap. by exists c2.
  - by apply IH.
Qed.

(** Courses that share an id share the id of their first session. *)
Lemma NoDup_course_ids (courses : list Course.t) :
  Forall Course.wf courses →
  NoDup (map CourseSession.session_id (sessions_in_order courses)) →
  NoDup (map Course.id courses).
Proof.
  induction 1 as [|c courses Hc Hwf IH]; simpl; intros Hnd; [constructor|].
  rewrite map_app in Hnd. apply NoDup_app in Hnd as (_ & Hdisjoint & Hrest).
  apply NoDup_cons. split; [|by apply IH].
  intros (c' & Hid & Hc')%list_elem_of_fmap.
  apply (Hdisjoint (CourseSession.session_id (make_session c 1))).
  - apply list_elem_of_fmap. exists (make_session c 1). split; [done|].
    apply list_elem_of_fmap. exists 1. split; [done|].
    apply elem_of_seqZ. destruct Hc as (_ & ? & _). lia.
  - apply list_elem_of_fmap. exists (make_session c' 1). split.
    + rewrite !session_id_make_session. by rewrite Hid.
    + apply elem_of_sessions_in_order. exists c', 1. split; [done|]. split; [|done].
      pose proof (proj1 (Forall_forall _ _) Hwf c' Hc') as (_ & ? & _). lia.
Qed.

(** C3 (as amended): for every list of well-formed courses,
    [expand_course_sessions] returns the sessions in stable order (courses
    in input order, occurrence indices ascending), as many as the sum of
    [sessions_per_week]; their session ids are pairwise distinct exactly
    when the course ids are. *)
Theorem expand_course_sessions_spec (courses : list Course.t) :
  Forall Course.wf courses →
  expand_course_sessions courses = sessions_in_order courses
  ∧ Z.of_nat (length (expand_course_sessions courses))
    = foldr Z.add 0 (map Course.sessions_per_week courses)
  ∧ (NoDup (map CourseSession.session_id (expand_course_sessions courses))
     ↔ NoDup (map Course.id courses)).
Proof.
  intros Hwf. rewrite expand_course_sessions_flat_map.
  split; [done|]. split.
  - by apply length_sessions_in_order.
  - split; [by apply NoDup_course_ids|apply NoDup_session_ids].
Qed.

Lemma expand_course_sessions_spec_witness :
  let courses := [Sample.algorithms; Sample.calculus] in
  Forall Course.wf courses
  ∧ expand_course_sessions courses
    = [make_session Sample.algorithms 1; make_session Sample.algorithms 2;
       make_session Sample.calculus 1]
  ∧ expand_course_sessions courses = sessions_in_order courses
  ∧ Z.of_nat (length (expand_course_sessions courses))
    = foldr Z.add 0 (map Course.sessions_per_week courses)
  ∧ (NoDup (map CourseSession.session_id (expand_course_sessions courses))
     ↔ NoDup (map Course.id courses)).
Proof.
  assert (Forall Course.wf [Sample.algorithms; Sample.calculus]) as Hwf.
  { repeat constructor; simpl; lia. }
  split; [exact Hwf|]. split; [reflexivity|].
  exact (expand_course_sessions_spec [Sample.algorithms; Sample.calculus] Hwf).
Defined.

(** C3 as stated fails: two well-formed courses entered under one id expand
    to two sessions with the same session id. *)
Lemma expand_course_sessions_shared_id :
  let courses := [Sample.algorithms_lab; Sample.algorithms_lab] in
  Forall Course.wf courses
  ∧ ¬ NoDup (map CourseSession.session_id (expand_course_sessions courses)).
Proof.
  split.
  - repeat constructor; simpl; lia.
  - intros H%(bool_decide_pack _). by vm_compute in H.
Qed.

(** ** Dictionaries *)

Section PyDict_facts.
Context {K V : Type} `{EqDecision K}.
Implicit Types (d : PyDict.t K V) (k : K) (v : V).

Lemma get_setitem d k k' v :
  PyDict.get (PyDict.setitem d k v) k'
  = if decide (k = k') then Some v else PyDict.get d k'.
Proof.
  induction d as [|[k0 v0] d IH]; simpl.
  - repeat case_decide; done.
  - destruct (decide (k0 = k)) as [->|Hne]; simpl.
    + repeat case_decide; done.
    + rewrite IH. repeat case_decide; congruence.
Qed.

Lemma get_setitem_eq d k v : PyDict.get (PyDict.setitem d k v) k = Some v.
Proof. rewrite get_setitem. by case_decide. Qed.

Lemma get_setitem_ne d k k' v :
  k ≠ k' → PyDict.get (PyDict.setitem d k v) k' = PyDict.get d k'.
Proof. intros. rewrite get_setitem. by case_decide. Qed.

Lemma get_update d k k' dflt (f : V → V) :
  PyDict.get (PyDict.update d k dflt f) k'
  = if decide (k = k') then Some (f (PyDict.get_default d k dflt))
    else PyDict.get d k'.
Proof. apply get_setitem. Qed.

Lemma get_Some_elem_of d k v : PyDict.get d k = Some v → (k, v) ∈ d.
Proof.
  induction d as [|[k0 v0] d IH]; simpl; [done|].
  case_decide; intros Hg.
  - injection Hg as ->. subst. apply list_elem_of_here.
  - apply list_elem_of_further. by apply IH.
Qed.

Lemma get_None_not_in_keys d k : PyDict.get d k = None ↔ k ∉ PyDict.keys d.
Proof.
  unfold PyDict.keys. induction d as [|[k0 v0] d IH]; simpl.
  - split; [intros _; apply not_elem_of_nil | done].
  - rewrite not_elem_of_cons. case_decide; subst.
    + split; [done | intros [? _]; done].
    + rewrite IH. split; [by split | by intros [_ ?]].
Qed.

Lemma get_is_Some_in_keys d k : is_Some (PyDict.get d k) ↔ k ∈ PyDict.keys d.
Proof.
  destruct (decide (k ∈ PyDict.keys d)) as [Hin|Hnin].
  - split; [done|]. intros _.
    destruct (PyDict.get d k) eqn:Hg; [done|].
    by apply get_None_not_in_keys in Hg.
  - split; [|done]. apply get_None_not_in_keys in Hnin. rewrite Hnin.
    by intros [? ?].
Qed.

Lemma keys_setitem d k v :
  PyDict.keys (PyDict.setitem d k v)
  = if decide (k ∈ PyDict.keys d) then PyDict.keys d else PyDict.keys d ++ [k].
Proof.
  unfold PyDict.keys. induction d as [|[k0 v0] d IH]; csimpl.
  - destruct (decide (k ∈ [])) as [Hin|Hin]; [by apply elem_of_nil in Hin | done].
  - destruct (decide (k0 = k)) as [->|Hne]; csimpl.
    + destruct (decide (k ∈ k :: d.*1)) as [Hin|Hin]; [done|].
      destruct Hin. apply list_elem_of_here.
    + rewrite IH.
      destruct (decide (k ∈ d.*1)) as [Hin|Hin];
        destruct (decide (k ∈ k0 :: d.*1)) as [Hin'|Hin']; try done.
      * destruct Hin'. by apply list_elem_of_further.
      * apply elem_of_cons in Hin' as [->|?]; done.
Qed.

Lemma NoDup_keys_setitem d k v :
  NoDup (PyDict.keys d) → NoDup (PyDict.keys (PyDict.setitem d k v)).
Proof.
  intros Hnd. rewrite keys_setitem. case_decide; [done|].
  apply NoDup_app. split; [done|]. split; [|apply NoDup_singleton].
  intros x Hx Hx'. apply list_elem_of_singleton in Hx'. by subst.
Qed.

Lemma elem_of_get d k v :
  NoDup (PyDict.keys d) → (k, v) ∈ d → PyDict.get d k = Some v.
Proof.
  unfold PyDict.keys. induction d as [|[k0 v0] d IH]; simpl; intros Hnd Hin.
  - by apply elem_of_nil in Hin.
  - apply NoDup_cons in Hnd as [Hk0 Hnd].
    apply elem_of_cons in Hin as [Heq|Hin].
    + injection Heq as -> ->. by case_decide.
    + case_decide; [|by apply IH]. subst. destruct Hk0.
      apply list_elem_of_fmap. by exists (k, v).
Qed.

Lemma setitem_existing d k v :
  PyDict.get d k = Some v → PyDict.setitem d k v = d.
Proof.
  induction d as [|[k0 v0] d IH]; simpl; [done|].
  case_decide; intros Hg.
  - by injection Hg as ->.
  - by rewrite IH.
Qed.

Lemma setitem_fresh d k v :
  PyDict.get d k = None → PyDict.setitem d k v = d ++ [(k, v)].
Proof.
  induction d as [|[k0 v0] d IH]; simpl; [done|].
  case_decide; [done|]. intros Hg. by rewrite IH.
Qed.

End PyDict_facts.

Lemma comprehension_snoc {A K V : Type} `{EqDecision K}
    (key : A → K) (val : A → V) (l : list A) (x : A) :
  PyDict.comprehension key val (l ++ [x])
  = PyDict.setitem (PyDict.comprehension key val l) (key x) (val x).
Proof. unfold PyDict.comprehension. by rewrite foldl_snoc. Qed.

Section comprehension_facts.
Context {A K V : Type} `{EqDecision K} (key : A → K) (val : A → V).

Lemma NoDup_keys_comprehension (l : list A) :
  NoDup (PyDict.keys (PyDict.comprehension key val l)).
Proof.
  induction l as [|x l IH] using rev_ind.
  - apply NoDup_nil_2.
  - rewrite comprehension_snoc. by apply NoDup_keys_setitem.
Qed.

(** The value under a key is that of the last element with the key. *)
Lemma get_comprehension_fmap (l : list A) (k : K) :
  PyDict.get (PyDict.comprehension key val l) k
  = val <$> PyDict.get (PyDict.comprehension key id l) k.
Proof.
  induction l as [|x l IH] using rev_ind; [done|].
  rewrite !comprehension_snoc, !get_setitem. by case_decide.
Qed.

Lemma get_comprehension_Some (l : list A) (k : K) (x : A) :
  PyDict.get (PyDict.comprehension key id l) k = Some x → x ∈ l ∧ key x = k.
Proof.
  induction l as [|y l IH] using rev_ind; [done|].
  rewrite comprehension_snoc, get_setitem. case_decide.
  - intros [= <-]. split; [|done]. apply elem_of_app. right. apply list_elem_of_here.
  - intros [??]%IH. split; [|done]. apply elem_of_app. by left.
Qed.

Lemma get_comprehension_is_Some (l : list A) (x : A) :
  x ∈ l → is_Some (PyDict.get (PyDict.comprehension key val l) (key x)).
Proof.
  induction l as [|y l IH] using rev_ind; [by intros ?%elem_of_nil|].
  rewrite comprehension_snoc, get_setitem. intros Hin. case_decide; [done|].
  apply elem_of_app in Hin as [Hin|Hin]; [by apply IH|].
  apply list_elem_of_singleton in Hin. by subst.
Qed.

Lemma keys_comprehension_subseteq (l : list A) (k : K) :
  k ∈ PyDict.keys (PyDict.comprehension key val l) ↔ k ∈ map key l.
Proof.
  induction l as [|y l IH] using rev_ind; [done|].
  rewrite comprehension_snoc, keys_setitem, map_app. simpl.
  destruct (decide _) as [Hin|Hin]; rewrite !elem_of_app, ?IH, ?list_elem_of_singleton.
  - split; [by left|]. intros [?| ->]; [done|]. by apply IH.
  - done.
Qed.

(** With pairwise distinct keys the dictionary lists the elements in
    input order. *)
Lemma comprehension_NoDup (l : list A) :
  NoDup (map key l) →
  PyDict.comprehension key val l = map (λ x, (key x, val x)) l.
Proof.
  induction l as [|y l IH] using rev_ind; [done|].
  rewrite map_app. intros [Hnd [Hy _]]%NoDup_app.
  rewrite comprehension_snoc, IH, map_app by done. simpl.
  apply setitem_fresh. apply get_None_not_in_keys.
  rewrite <- IH by done. rewrite keys_comprehension_subseteq.
  intros Hin. apply (Hy _ Hin). apply list_elem_of_here.
Qed.

End comprehension_facts.

(** ** [defaultdict(list)] as a grouping *)

Section grouped_facts.
Context {A K V : Type} `{EqDecision K} (key : A → K) (val : A → V).

Lemma get_grouped (d : PyDict.t K (list V)) (l : list A) (k : K) :
  PyDict.get (grouped key val d l) k
  = match filter (λ a, key a = k) l with
    | [] => PyDict.get d k
    | group => Some (PyDict.get_default d k [] ++ map val group)
    end.
Proof.
  revert d. induction l as [|a l IH]; intros d; [done|].
  unfold grouped in *. cbn [foldl]. rewrite IH. unfold dict_append.
  rewrite filter_cons. unfold PyDict.get_default.
  rewrite !get_update. destruct (decide (key a = k)) as [<-|Hne]; [|done].
  cbn [default]. unfold PyDict.get_default.
  destruct (filter _ l); cbn [map id]; [done|].
  by rewrite <- app_assoc.
Qed.

Lemma NoDup_keys_grouped (d : PyDict.t K (list V)) (l : list A) :
  NoDup (PyDict.keys d) → NoDup (PyDict.keys (grouped key val d l)).
Proof.
  revert d. induction l as [|a l IH]; intros d Hd; [done|].
  apply IH. by apply NoDup_keys_setitem.
Qed.

(** Every entry lists the values of the elements with its key, in order. *)
Lemma elem_of_grouped (l : list A) (k : K) (vs : list V) :
  (k, vs) ∈ grouped key val PyDict.empty l →
  vs = map val (filter (λ a, key a = k) l).
Proof.
  intros Hin. apply elem_of_get in Hin; [|apply NoDup_keys_grouped, NoDup_nil_2].
  rewrite get_grouped in Hin. destruct (filter _ l); [done|].
  by injection Hin.
Qed.

End grouped_facts.

(** ** The validator's loop *)

Section validation_facts.
Context (data : SchedulingInput.t).

Lemma validate_loop (l : list ScheduleAssignment.t) (st : Validation.t) :
  foldl (validate_step data) st l
  = let outcomes := classify data (Validation.seen_sessions st) l in
    Validation.mk
      (Validation.issues st ++ flat_map (outcome_issues data) outcomes)
      (list_to_set (map ScheduleAssignment.session_id (accepted_of outcomes))
       ∪ Validation.seen_sessions st)
      (grouped room_slot_key ScheduleAssignment.session_id
         (Validation.room_slot_usage st) (accepted_of outcomes))
      (grouped instructor_slot_key ScheduleAssignment.session_id
         (Validation.instructor_slot_usage st) (accepted_of outcomes)).
Proof.
  revert st. induction l as [|a l IH]; intros [issues seen ru iu]; cbn.
  - rewrite app_nil_r. f_equal. set_solver.
  - unfold validate_step at 2. cbn.
    destruct (PyDict.get _ _) as [session|]; [destruct (decide _)|];
      rewrite IH; cbn; rewrite <- ?app_assoc; try done.
    f_equal. set_solver.
Qed.

Lemma validate_schedule_issues (l : list ScheduleAssignment.t) :
  ValidationReport.issues (validate_schedule data l)
  = flat_map (outcome_issues data) (classify data ∅ l)
    ++ room_conflict_issues
         (grouped room_slot_key ScheduleAssignment.session_id PyDict.empty
            (accepted_records data l))
    ++ instructor_conflict_issues
         (grouped instructor_slot_key ScheduleAssignment.session_id PyDict.empty
            (accepted_records data l))
    ++ missing_session_issues (expand_course_sessions (SchedulingInput.courses data))
         (list_to_set (map ScheduleAssignment.session_id (accepted_records data l)) ∪ ∅).
Proof. unfold validate_schedule. rewrite validate_loop. done. Qed.

Lemma accepted_of_sublist (seen : gset string) (l : list ScheduleAssignment.t) :
  accepted_of (classify data seen l) `sublist_of` l.
Proof.
  revert seen. induction l as [|a l IH]; intros seen; cbn; [done|].
  destruct (PyDict.get _ _) as [session|]; [destruct (decide _)|]; cbn.
  - by apply sublist_cons.
  - by apply sublist_skip.
  - by apply sublist_cons.
Qed.

Lemma elem_of_accepted_of (seen : gset string) (l : list ScheduleAssignment.t)
    (a : ScheduleAssignment.t) :
  a ∈ accepted_of (classify data seen l) ↔
  ∃ session, Accepted a session ∈ classify data seen l.
Proof.
  unfold accepted_of. rewrite list_elem_of_omap. split.
  - intros ([] & Hin & Heq); try done. injection Heq as ->. eauto.
  - intros (session & Hin). by exists (Accepted a session).
Qed.

Lemma classify_Accepted (seen : gset string) (l : list ScheduleAssignment.t)
    (a : ScheduleAssignment.t) (session : CourseSession.t) :
  Accepted a session ∈ classify data seen l →
  a ∈ l
  ∧ PyDict.get (session_by_id (expand_course_sessions (SchedulingInput.courses data)))
      (ScheduleAssignment.session_id a) = Some session
  ∧ ScheduleAssignment.session_id a ∉ seen.
Proof.
  revert seen. induction l as [|b l IH]; intros seen; cbn.
  - by intros ?%elem_of_nil.
  - destruct (PyDict.get _ (ScheduleAssignment.session_id b)) as [s|] eqn:Hs;
      [destruct (decide _)|]; intros [Heq|Hin]%elem_of_cons; try done.
    + apply IH in Hin as (? & ? & ?). split; [by apply list_elem_of_further|done].
    + injection Heq as -> ->. split; [apply list_elem_of_here|done].
    + apply IH in Hin as (? & ? & ?).
      split; [by apply list_elem_of_further|]. split; [done|set_solver].
    + apply IH in Hin as (? & ? & ?). split; [by apply list_elem_of_further|done].
Qed.

Lemma accepted_not_seen (seen : gset string) (l : list ScheduleAssignment.t)
    (a : ScheduleAssignment.t) :
  a ∈ accepted_of (classify data seen l) → ScheduleAssignment.session_id a ∉ seen.
Proof.
  intros (session & Hin)%elem_of_accepted_of. by apply classify_Accepted in Hin as (_ & _ & ?).
Qed.

Lemma NoDup_accepted_session_ids (seen : gset string)
    (l : list ScheduleAssignment.t) :
  NoDup (map ScheduleAssignment.session_id (accepted_of (classify data seen l))).
Proof.
  revert seen. induction l as [|a l IH]; intros seen; cbn; [constructor|].
  destruct (PyDict.get _ _) as [session|]; [destruct (decide _)|]; cbn; try done.
  apply NoDup_cons. split; [|done].
  intros (b & Heq & Hb%accepted_not_seen)%list_elem_of_fmap.
  rewrite <- Heq in Hb. set_solver.
Qed.

End validation_facts.

(** ** Which part of the report an issue comes from *)

Ltac issue_cases H :=
  repeat match type of H with
  | _ ∈ _ ++ _ => apply elem_of_app in H as [H|H]
  | _ ∈ [] => by apply elem_of_nil in H
  | _ ∈ [_] => apply list_elem_of_singleton in H
  | _ ∈ (if ?c then _ else _) => destruct c eqn:?
  | _ ∈ match ?x with _ => _ end => destruct x eqn:?
  end.

Lemma elem_of_room_conflict_issues usage (i : ValidationIssue.t) :
  i ∈ room_conflict_issues usage ↔
  ∃ room_id slot_id session_ids,
    (room_id, slot_id, session_ids) ∈ usage
    ∧ (1 < length session_ids)%nat
    ∧ i = room_time_conflict_issue room_id slot_id session_ids.
Proof.
  unfold room_conflict_issues, PyDict.items. rewrite elem_of_flat_map. split.
  - intros ([[r t] ids] & Hin & Hi). case_bool_decide; issue_cases Hi.
    by exists r, t, ids.
  - intros (r & t & ids & Hin & Hlen & ->). exists (r, t, ids). split; [done|].
    rewrite bool_decide_true by done. apply list_elem_of_here.
Qed.

Lemma elem_of_instructor_conflict_issues usage (i : ValidationIssue.t) :
  i ∈ instructor_conflict_issues usage ↔
  ∃ instructor_id slot_id session_ids,
    (instructor_id, slot_id, session_ids) ∈ usage
    ∧ (1 < length session_ids)%nat
    ∧ i = instructor_time_conflict_issue instructor_id slot_id session_ids.
Proof.
  unfold instructor_conflict_issues, PyDict.items. rewrite elem_of_flat_map. split.
  - intros ([[r t] ids] & Hin & Hi). case_bool_decide; issue_cases Hi.
    by exists r, t, ids.
  - intros (r & t & ids & Hin & Hlen & ->). exists (r, t, ids). split; [done|].
    rewrite bool_decide_true by done. apply list_elem_of_here.
Qed.

Lemma outcome_issue_code (data : SchedulingInput.t) (o : Outcome)
    (i : ValidationIssue.t) :
  i ∈ outcome_issues data o → ValidationIssue.code i ∈ record_codes.
Proof.
  intros Hi. destruct o as [a|a|a session]; cbn in Hi.
  - issue_cases Hi. subst. set_solver.
  - issue_cases Hi. subst. set_solver.
  - unfold record_issues, mismatch_issues, room_issues, slot_issues in Hi.
    issue_cases Hi; subst; cbn; unfold record_codes; set_solver.
Qed.

Lemma missing_session_issue_code sessions seen (i : ValidationIssue.t) :
  i ∈ missing_session_issues sessions seen →
  ValidationIssue.code i = "MISSING_SESSION_ASSIGNMENT".
Proof.
  unfold missing_session_issues. by intros (sid & -> & _)%list_elem_of_fmap.
Qed.

(** An issue of the report belongs to one of its four parts. *)
Lemma validate_schedule_issue_cases (data : SchedulingInput.t)
    (l : list ScheduleAssignment.t) (i : ValidationIssue.t) :
  i ∈ ValidationReport.issues (validate_schedule data l) →
  (∃ o, o ∈ classify data ∅ l ∧ i ∈ outcome_issues data o)
  ∨ (∃ room_id slot_id session_ids,
       (room_id, slot_id, session_ids)
         ∈ grouped room_slot_key ScheduleAssignment.session_id PyDict.empty
             (accepted_records data l)
       ∧ (1 < length session_ids)%nat
       ∧ i = room_time_conflict_issue room_id slot_id session_ids)
  ∨ (∃ instructor_id slot_id session_ids,
       (instructor_id, slot_id, session_ids)
         ∈ grouped instructor_slot_key ScheduleAssignment.session_id PyDict.empty
             (accepted_records data l)
       ∧ (1 < length session_ids)%nat
       ∧ i = instructor_time_conflict_issue instructor_id slot_id session_ids)
  ∨ ValidationIssue.code i = "MISSING_SESSION_ASSIGNMENT".
Proof.
  rewrite validate_schedule_issues, !elem_of_app.
  intros [Hi|[Hi|[Hi|Hi]]].
  - left. by apply elem_of_flat_map.
  - right; left. by apply elem_of_room_conflict_issues.
  - right; right; left. by apply elem_of_instructor_conflict_issues.
  - right; right; right. by eapply missing_session_issue_code.
Qed.

(** ** C6: when [UNKNOWN_INSTRUCTOR] is reported *)

(** C6 (as amended): [UNKNOWN_INSTRUCTOR] is reported for an instructor id
    exactly when some record that is neither unknown nor a duplicate names a
    time slot that exists and belongs to a session whose instructor does not
    exist.  For a record that is neither unknown nor a duplicate and whose
    time slot does not exist, the checks that follow the lookup of the slot
    add the [UNKNOWN_TIME_SLOT] issue and nothing else to the report: the
    instructor is not looked up. *)
Theorem unknown_instructor_reported (data : SchedulingInput.t)
    (l : list ScheduleAssignment.t) :
  (∀ instructor_id,
     unknown_instructor_issue instructor_id
       ∈ ValidationReport.issues (validate_schedule data l)
     ↔ ∃ a session,
         a ∈ accepted_records data l
         ∧ PyDict.get
             (session_by_id (expand_course_sessions (SchedulingInput.courses data)))
             (ScheduleAssignment.session_id a) = Some session
         ∧ CourseSession.instructor_id session = instructor_id
         ∧ PyDict.get (instructor_by_id data) instructor_id = None
         ∧ is_Some (PyDict.get (slot_by_id data) (ScheduleAssignment.time_slot_id a)))
  ∧ (∀ a session,
       a ∈ accepted_records data l →
       PyDict.get (session_by_id (expand_course_sessions (SchedulingInput.courses data)))
         (ScheduleAssignment.session_id a) = Some session →
       PyDict.get (slot_by_id data) (ScheduleAssignment.time_slot_id a) = None →
       slot_issues data session a
       = [unknown_time_slot_issue (ScheduleAssignment.time_slot_id a)]
       ∧ unknown_time_slot_issue (ScheduleAssignment.time_slot_id a)
           ∈ ValidationReport.issues (validate_schedule data l)).
Proof.
  split; [intros instructor_id; split|].
  - intros [(o & Ho & Hi)|[Hi|[Hi|Hi]]]%validate_schedule_issue_cases.
    + destruct o as [a|a|a session]; cbn in Hi.
      * issue_cases Hi. discriminate.
      * issue_cases Hi. discriminate.
      * exists a, session.
        split; [apply elem_of_accepted_of; eauto|].
        apply classify_Accepted in Ho as (_ & Hs & _). split; [done|].
        unfold record_issues, mismatch_issues, room_issues, slot_issues in Hi.
        issue_cases Hi; try discriminate.
        apply (f_equal ValidationIssue.details) in Hi. cbn in Hi.
        injection Hi as ->. eauto.
    + destruct Hi as (? & ? & ? & _ & _ & ?). discriminate.
    + destruct Hi as (? & ? & ? & _ & _ & ?). discriminate.
    + discriminate.
  - intros (a & session & Ha & Hs & <- & Hi & [slot Hslot]).
    apply elem_of_accepted_of in Ha as (session' & Ha).
    pose proof (classify_Accepted _ _ _ _ _ Ha) as (_ & Hs' & _).
    rewrite Hs in Hs'. injection Hs' as <-.
    rewrite validate_schedule_issues. apply elem_of_app. left.
    apply elem_of_flat_map. exists (Accepted a session). split; [done|].
    cbn. unfold record_issues, slot_issues. rewrite Hslot, Hi.
    rewrite !elem_of_app. right; right; left. apply list_elem_of_here.
  - intros a session Ha Hs Hslot.
    assert (slot_issues data session a
            = [unknown_time_slot_issue (ScheduleAssignment.time_slot_id a)]) as Hstage
      by (unfold slot_issues; by rewrite Hslot).
    split; [exact Hstage|].
    apply elem_of_accepted_of in Ha as (session' & Ha).
    pose proof (classify_Accepted _ _ _ _ _ Ha) as (_ & Hs' & _).
    rewrite Hs in Hs'. injection Hs' as <-.
    rewrite validate_schedule_issues. apply elem_of_app. left.
    apply elem_of_flat_map. exists (Accepted a session). split; [done|].
    cbn. unfold record_issues. rewrite Hstage, !elem_of_app. right; right.
    apply list_elem_of_here.
Qed.

(** C6 as stated fails: the record is the first for its session, the
    session exists and its instructor does not, yet no issue of the report
    has the code [UNKNOWN_INSTRUCTOR], because the time slot of the record
    does not exist. *)
Lemma unknown_instructor_not_reported :
  let data := Sample.physics_input in
  let l := [Sample.physics_record] in
  (∃ session,
     Sample.physics_record ∈ accepted_records data l
     ∧ PyDict.get (session_by_id (expand_course_sessions (SchedulingInput.courses data)))
         (ScheduleAssignment.session_id Sample.physics_record) = Some session
     ∧ PyDict.get (instructor_by_id data) (CourseSession.instructor_id session) = None)
  ∧ Forall (λ i, ValidationIssue.code i ≠ "UNKNOWN_INSTRUCTOR")
      (ValidationReport.issues (validate_schedule data l)).
Proof.
  split.
  - eexists. split; [|split].
    + apply (bool_decide_unpack _). by vm_compute.
    + vm_compute. reflexivity.
    + vm_compute. reflexivity.
  - apply (bool_decide_unpack _). by vm_compute.
Qed.

(** ** C10: flagged records and the conflict pass *)





(** A record on a slot that exists reports the unknown instructor; the same
    record on a slot that does not exist reports the slot alone. *)
Lemma unknown_instructor_reported_witness :
  let data := Sample.physics_input in
  unknown_instructor_issue "I9"
    ∈ ValidationReport.issues (validate_schedule data [Sample.physics_record_mon])
  ∧ ValidationReport.issues (validate_schedule data [Sample.physics_record])
    = [unknown_time_slot_issue "T9"]
  ∧ slot_issues data (make_session Sample.physics 1) Sample.physics_record
    = [unknown_time_slot_issue "T9"].
Proof.
  intros data. split; [|split; [reflexivity|]].
  - apply (proj1 (unknown_instructor_reported data [Sample.physics_record_mon]) "I9").
    exists Sample.physics_record_mon. eexists.
    split; [vm_compute; apply list_elem_of_here|].
    split; [vm_compute; reflexivity|].
    split; [reflexivity|]. split; [reflexivity|]. vm_compute. eauto.
  - apply (proj2 (unknown_instructor_reported data [Sample.physics_record])
             Sample.physics_record (make_session Sample.physics 1)).
    + vm_compute. apply list_elem_of_here.
    + vm_compute. reflexivity.
    + reflexivity.
Defined.

(** ** Sorting and loops that may raise *)

Section sorted_facts.
Context {A K : Type} (lt : K → K → bool) (key : A → K).

Lemma insort_Permutation (x : A) (l : list A) : insort lt key x l ≡ₚ x :: l.
Proof.
  induction l as [|y l IH]; cbn; [done|].
  destruct (lt (key x) (key y)); [done|].
  rewrite IH. apply Permutation_swap.
Qed.

Lemma sorted_Permutation (l : list A) : sorted lt key l ≡ₚ l.
Proof.
  unfold sorted.
  assert (∀ acc, foldl (λ acc x, insort lt key x acc) acc l ≡ₚ acc ++ l) as H.
  { induction l as [|x l IH]; intros acc; cbn.
    - by rewrite app_nil_r.
    - rewrite IH, insort_Permutation. apply Permutation_middle. }
  apply H.
Qed.

Lemma length_sorted (l : list A) : length (sorted lt key l) = length l.
Proof. by rewrite sorted_Permutation. Qed.

Lemma elem_of_sorted (x : A) (l : list A) : x ∈ sorted lt key l ↔ x ∈ l.
Proof. by rewrite sorted_Permutation. Qed.

End sorted_facts.

(** A loop that may raise runs to its end when every iteration preserves an
    invariant under which the body does not raise. *)
Lemma foldlM_invariant {A B : Type} (f : A → B → option A) (P : A → Prop)
    (l : list B) (a : A) :
  P a →
  (∀ a x, x ∈ l → P a → ∃ a', f a x = Some a' ∧ P a') →
  ∃ a', foldlM f a l = Some a' ∧ P a'.
Proof.
  revert a. induction l as [|x l IH]; intros a Ha Hstep; cbn.
  - eauto.
  - destruct (Hstep a x) as (a1 & -> & Ha1); [apply list_elem_of_here|done|].
    cbn. apply IH; [done|]. intros a2 y Hy. apply Hstep. by apply list_elem_of_further.
Qed.

Lemma foldlM_Some_invariant {A B : Type} (f : A → B → option A) (P : A → Prop)
    (l : list B) (a a' : A) :
  P a →
  (∀ a x a', x ∈ l → P a → f a x = Some a' → P a') →
  foldlM f a l = Some a' → P a'.
Proof.
  revert a. induction l as [|x l IH]; intros a Ha Hstep; cbn.
  - by intros [= <-].
  - destruct (f a x) as [a1|] eqn:Hf; [|done]. cbn. apply IH.
    + eapply Hstep; [apply list_elem_of_here|done..].
    + intros a2 y a3 Hy. apply Hstep. by apply list_elem_of_further.
Qed.

Lemma length_filter_key_NoDup {A K : Type} `{EqDecision K} (key : A → K)
    (k : K) (l : list A) :
  NoDup (map key l) → (length (filter (λ a, key a = k) l) ≤ 1)%nat.
Proof.
  induction l as [|a l IH]; [cbn; lia|].
  cbn [map]. intros [Ha Hnd]%NoDup_cons. rewrite filter_cons.
  destruct (decide (key a = k)) as [<-|]; [|by apply IH].
  destruct (filter (λ b, key b = key a) l) as [|b bs] eqn:Hf; [cbn; lia|].
  destruct Ha. assert (b ∈ filter (λ b, key b = key a) l) as Hb.
  { rewrite Hf. apply list_elem_of_here. }
  apply list_elem_of_filter in Hb as [Heq Hb].
  rewrite <- Heq. apply list_elem_of_fmap. by exists b.
Qed.

(** ** The inner loop of the heuristic *)

Lemma keep_better_first (l : list (string * string * Z))
    (b x : string * string * Z) :
  foldl keep_better (Some b) l = Some x →
  (x = b ∧ Forall (λ y : string * string * Z, y.2 ≤ b.2) l)
  ∨ (∃ before after,
       l = before ++ x :: after
       ∧ b.2 < x.2
       ∧ Forall (λ y : string * string * Z, y.2 < x.2) before
       ∧ Forall (λ y : string * string * Z, y.2 ≤ x.2) after).
Proof.
  revert b. induction l as [|y l IH]; intros [bc bs]; cbn.
  - intros [= <-]. left. by split.
  - case_bool_decide as Hy; intros [Hx|Hx]%IH.
    + destruct Hx as [-> Hall]. right. exists [], l. cbn.
      split; [done|]. split; [lia|]. split; [constructor|done].
    + destruct Hx as (before & after & -> & Hlt & Hb & Ha). right.
      exists (y :: before), after. split; [done|]. cbn in *.
      split; [lia|]. split; [|done]. constructor; [lia|done].
    + destruct Hx as [-> Hall]. left. split; [done|]. constructor; [cbn; lia|done].
    + destruct Hx as (before & after & -> & Hlt & Hb & Ha). right.
      exists (y :: before), after. split; [done|]. cbn in *.
      split; [lia|]. split; [|done]. constructor; [lia|done].
Qed.

Lemma keep_better_None (l : list (string * string * Z)) :
  match foldl keep_better None l with
  | None => l = []
  | Some x => first_of_greatest_score x l
  end.
Proof.
  destruct l as [|y l]; cbn; [done|].
  destruct (foldl keep_better (Some y) l) as [x|] eqn:Hx.
  - apply keep_better_first in Hx as [[-> Hall]|(before & after & -> & Hlt & Hb & Ha)].
    + exists [], l. split; [done|]. split; [constructor|done].
    + exists (y :: before), after. split; [done|]. split; [|done].
      constructor; [done|done].
  - exfalso. revert y Hx. induction l as [|z l IH]; intros y; cbn; [done|].
    destruct y as [yc ys]. case_bool_decide; apply IH.
Qed.

Section inner_loop.
Context (data : SchedulingInput.t) (st : Heuristic.t)
  (session : CourseSession.t) (instructor : Instructor.t).

(** When the inner loop does not raise, it folds [keep_better] over the
    surviving candidates. *)
Lemma inner_loop_survivors (candidates : list (string * string))
    (best best' : option (string * string * Z)) :
  foldlM (consider data st session instructor) best candidates = Some best' →
  best' = foldl keep_better best (survivors data st session instructor candidates).
Proof.
  revert best. induction candidates as [|[r t] cands IH]; intros best; cbn.
  - by intros [= <-].
  - unfold survivors. cbn.
    destruct (PyDict.get (slot_by_id data) t) as [slot|]; [|done]. cbn.
    destruct (PyDict.get (room_by_id data) r) as [room|]; [|done]. cbn.
    destruct (excluded st session instructor r t slot); cbn.
    + apply IH.
    + destruct best as [[? best_score]|]; cbn; [case_bool_decide|];
        cbn; intros Hloop; apply IH in Hloop; rewrite Hloop; unfold survivors;
        f_equal; cbn; by rewrite ?bool_decide_true, ?bool_decide_false by done.
Qed.

(** The loop does not raise when every candidate names a room and a slot
    of the input. *)
Lemma inner_loop_total (candidates : list (string * string))
    (best : option (string * string * Z)) :
  (∀ r t, (r, t) ∈ candidates →
     is_Some (PyDict.get (room_by_id data) r)
     ∧ is_Some (PyDict.get (slot_by_id data) t)) →
  is_Some (foldlM (consider data st session instructor) best candidates).
Proof.
  revert best. induction candidates as [|[r t] cands IH]; intros best Hres; cbn.
  - done.
  - destruct (Hres r t) as [[room ->] [slot ->]]; [apply list_elem_of_here|]. cbn.
    destruct (excluded _ _ _ _ _ _).
    + apply IH. intros r' t' Hin. apply Hres. by apply list_elem_of_further.
    + destruct best as [[? ?]|]; [case_bool_decide|];
        apply IH; intros r' t' Hin; apply Hres; by apply list_elem_of_further.
Qed.

Lemma elem_of_survivors (candidates : list (string * string))
    (r t : string) (score : Z) :
  (r, t, score) ∈ survivors data st session instructor candidates →
  (r, t) ∈ candidates
  ∧ ∃ slot room,
      PyDict.get (slot_by_id data) t = Some slot
      ∧ PyDict.get (room_by_id data) r = Some room
      ∧ excluded st session instructor r t slot = false
      ∧ score = candidate_score data st session instructor room t slot.
Proof.
  unfold survivors. rewrite list_elem_of_omap. intros ([r' t'] & Hin & Hc). cbn in Hc.
  destruct (PyDict.get (slot_by_id data) t') as [slot|] eqn:Hslot; [|done].
  destruct (PyDict.get (room_by_id data) r') as [room|] eqn:Hroom; [|done].
  destruct (excluded _ _ _ _ _ _) eqn:Hex; [done|].
  injection Hc as -> -> <-. split; [done|]. by exists slot, room.
Qed.

End inner_loop.

(** ** Feasible candidates *)

Lemma values_comprehension_get {A K : Type} `{EqDecision K} (key : A → K)
    (l : list A) (v : A) :
  v ∈ PyDict.values (PyDict.comprehension key id l) →
  PyDict.get (PyDict.comprehension key id l) (key v) = Some v.
Proof.
  unfold PyDict.values. intros ([k v'] & -> & Hin)%list_elem_of_fmap.
  apply elem_of_get in Hin; [|apply NoDup_keys_comprehension].
  pose proof (get_comprehension_Some _ _ _ _ Hin) as [_ Hk]. cbn in *. by rewrite Hk.
Qed.

Lemma feasible_candidates_get (data : SchedulingInput.t)
    (sessions : list CourseSession.t) (session_id : string) :
  PyDict.get (_build_feasible_candidates data sessions) session_id
  = session_candidates data <$> PyDict.get (session_by_id sessions) session_id.
Proof. apply (get_comprehension_fmap CourseSession.session_id). Qed.

(** A candidate names a room of the input that is large enough and has the
    required features, and a slot of the input. *)
Lemma session_candidates_feasible (data : SchedulingInput.t)
    (session : CourseSession.t) (r t : string) :
  (r, t) ∈ session_candidates data session →
  ∃ room,
    PyDict.get (room_by_id data) r = Some room
    ∧ is_Some (PyDict.get (slot_by_id data) t)
    ∧ ¬ Room.capacity room < CourseSession.enrollment session
    ∧ issubset (CourseSession.required_features session) (Room.features room) = true.
Proof.
  unfold session_candidates.
  destruct (PyDict.get (instructor_by_id data) _) as [instructor|];
    [|by intros ?%elem_of_nil].
  unfold session_options. intros (room & Hroom & Hin)%elem_of_flat_map.
  case_bool_decide as Hcap; [by apply elem_of_nil in Hin|].
  destruct (issubset _ _) eqn:Hsub; cbn in Hin; [|by apply elem_of_nil in Hin].
  apply elem_of_flat_map in Hin as (slot & Hslot & Hin).
  issue_cases Hin. injection Hin as -> ->.
  exists room. split; [|split; [|done]].
  - by apply (values_comprehension_get Room.id).
  - apply (get_comprehension_is_Some TimeSlot.id id).
    unfold slots_by_order in Hslot. by apply elem_of_sorted in Hslot.
Qed.

(** ** One iteration of the heuristic *)

Section place_session_facts.
Context (data : SchedulingInput.t)
  (feasible : PyDict.t string (list (string * string))).

Lemma place_session_cases (st st' : Heuristic.t) (session : CourseSession.t) :
  place_session data feasible st session = Some st' →
  ∃ candidates,
    PyDict.get feasible (CourseSession.session_id session) = Some candidates
    ∧ ((st' = Heuristic.skip st (CourseSession.session_id session)
        ∧ (PyDict.get (instructor_by_id data) (CourseSession.instructor_id session) = None
           ∨ ∃ instructor,
               PyDict.get (instructor_by_id data) (CourseSession.instructor_id session)
               = Some instructor
               ∧ survivors data st session instructor candidates = []))
       ∨ ∃ instructor r t score slot,
           PyDict.get (instructor_by_id data) (CourseSession.instructor_id session)
           = Some instructor
           ∧ first_of_greatest_score (r, t, score)
               (survivors data st session instructor candidates)
           ∧ PyDict.get (slot_by_id data) t = Some slot
           ∧ st' = commit st session r t slot).
Proof.
  unfold place_session.
  destruct (PyDict.get feasible _) as [candidates|]; [|done]. cbn.
  intros Hplace. exists candidates. split; [done|].
  destruct (PyDict.get (instructor_by_id data) _) as [instructor|] eqn:Hinstr.
  - assert (match candidates with
            | [] => Some (Heuristic.skip st (CourseSession.session_id session))
            | _ =>
              best ← foldlM (consider data st session instructor) None candidates;
              match best with
              | None => Some (Heuristic.skip st (CourseSession.session_id session))
              | Some (room_id, slot_id, _) =>
                  slot ← PyDict.get (slot_by_id data) slot_id;
                  Some (commit st session room_id slot_id slot)
              end
            end = Some st') as Hplace' by (by destruct candidates).
    clear Hplace.
    assert (∃ best,
      foldlM (consider data st session instructor) None candidates = Some best
      ∧ match best with
        | None => Some (Heuristic.skip st (CourseSession.session_id session))
        | Some (room_id, slot_id, _) =>
            slot ← PyDict.get (slot_by_id data) slot_id;
            Some (commit st session room_id slot_id slot)
        end = Some st') as (best & Hloop & Hbest).
    { destruct candidates; [by exists None|].
      destruct (foldlM _ _ _) as [best|]; [|done]. by exists best. }
    clear Hplace'. apply inner_loop_survivors in Hloop.
    pose proof (keep_better_None (survivors data st session instructor candidates))
      as Hfirst.
    rewrite <- Hloop in Hfirst. destruct best as [[[r t] score]|].
    + right. destruct (PyDict.get (slot_by_id data) t) as [slot|] eqn:Hslot; [|done].
      injection Hbest as <-. by exists instructor, r, t, score, slot.
    + left. injection Hbest as <-. split; [done|]. right. by exists instructor.
  - left. split; [|by left]. destruct candidates; by injection Hplace as <-.
Qed.

(** The iteration does not raise for a session whose candidates name rooms
    and slots of the input. *)
Lemma place_session_total (st : Heuristic.t) (session : CourseSession.t)
    (candidates : list (string * string)) :
  PyDict.get feasible (CourseSession.session_id session) = Some candidates →
  (∀ r t, (r, t) ∈ candidates →
     is_Some (PyDict.get (room_by_id data) r)
     ∧ is_Some (PyDict.get (slot_by_id data) t)) →
  is_Some (place_session data feasible st session).
Proof.
  intros Hc Hres. unfold place_session. rewrite Hc. cbn.
  destruct candidates as [|c cands]; [done|].
  destruct (PyDict.get (instructor_by_id data) _) as [instructor|]; [|done].
  destruct (inner_loop_total data st session instructor (c :: cands) None Hres)
    as [best Hloop].
  rewrite Hloop. cbn. apply inner_loop_survivors in Hloop.
  pose proof (keep_better_None (survivors data st session instructor (c :: cands)))
    as Hfirst.
  rewrite <- Hloop in Hfirst. destruct best as [[[r t] score]|]; [|done].
  destruct Hfirst as (before & after & Heq & _).
  assert ((r, t, score) ∈ survivors data st session instructor (c :: cands)) as Hin.
  { rewrite Heq. apply elem_of_app. right. apply list_elem_of_here. }
  apply elem_of_survivors in Hin as (_ & slot & _ & -> & _). done.
Qed.

End place_session_facts.

(** ** The run of the heuristic *)

Lemma excluded_false (st : Heuristic.t) (session : CourseSession.t)
    (instructor : Instructor.t) (r t : string) (slot : TimeSlot.t) :
  excluded st session instructor r t slot = false →
  ((r, t) ∉ Heuristic.occupied_room_slot st)
  ∧ ((CourseSession.instructor_id session, t) ∉ Heuristic.occupied_instructor_slot st).
Proof.
  unfold excluded. intros H.
  apply orb_false_elim in H as [H _]. apply orb_false_elim in H as [H _].
  apply orb_false_elim in H as [H1 H2].
  by apply bool_decide_eq_false in H1, H2.
Qed.

Lemma place_session_invariant (data : SchedulingInput.t)
    (st st' : Heuristic.t) (session : CourseSession.t) :
  heuristic_invariant data st →
  place_session data
    (_build_feasible_candidates data
       (expand_course_sessions (SchedulingInput.courses data))) st session = Some st' →
  heuristic_invariant data st'.
Proof.
  intros (Hall & Hrs & His) Hplace.
  apply place_session_cases in Hplace as (candidates & Hc & [[-> _]|Hcommit]).
  { done. }
  destruct Hcommit as (instructor & r & t & score & slot & Hinstr & Hfirst & Hslot & ->).
  destruct Hfirst as (before & after & Heq & _).
  assert ((r, t, score) ∈ survivors data st session instructor candidates) as Hin.
  { rewrite Heq. apply elem_of_app. right. apply list_elem_of_here. }
  apply elem_of_survivors in Hin as (Hcand & slot' & room & Hslot' & _ & Hex & _).
  rewrite Hslot in Hslot'. injection Hslot' as <-.
  apply excluded_false in Hex as [Hr Hi].
  unfold heuristic_invariant. cbn. split; [|split].
  - intros a [Ha| ->%list_elem_of_singleton]%elem_of_app.
    + destruct (Hall a Ha) as (? & ? & ?). split; [set_solver|]. split; [set_solver|done].
    + unfold room_slot_key, instructor_slot_key. cbn.
      split; [set_solver|]. split; [set_solver|]. by exists candidates.
  - rewrite map_app. apply NoDup_app. split; [done|]. split; [|apply NoDup_singleton].
    intros k (a & -> & Ha)%list_elem_of_fmap Hk%list_elem_of_singleton.
    destruct (Hall a Ha) as (Hocc & _). rewrite Hk in Hocc. done.
  - rewrite map_app. apply NoDup_app. split; [done|]. split; [|apply NoDup_singleton].
    intros k (a & -> & Ha)%list_elem_of_fmap Hk%list_elem_of_singleton.
    destruct (Hall a Ha) as (_ & Hocc & _). rewrite Hk in Hocc. done.
Qed.

Lemma heuristic_invariant_init (data : SchedulingInput.t) :
  heuristic_invariant data Heuristic.init.
Proof.
  split; [|split]; cbn; [|constructor..]. by intros a ?%elem_of_nil.
Qed.

(** The sort does not raise and returns a permutation of the sessions. *)
Lemma sort_sessions_Permutation (data : SchedulingInput.t)
    (sessions : list CourseSession.t) :
  ∃ sorted_sessions,
    sort_sessions (_build_feasible_candidates data sessions) sessions
    = Some sorted_sessions
    ∧ sorted_sessions ≡ₚ sessions.
Proof.
  unfold sort_sessions.
  match goal with |- context [mapM ?f sessions] => set (key := f) end.
  assert (is_Some (mapM key sessions)) as [keyed Hkeyed].
  { apply mapM_is_Some_2, Forall_forall. intros s Hs. unfold key, compose.
    rewrite feasible_candidates_get.
    destruct (get_comprehension_is_Some CourseSession.session_id id sessions s Hs)
      as [s' Hs'].
    unfold session_by_id. rewrite Hs'. done. }
  rewrite Hkeyed. cbn. eexists. split; [done|].
  rewrite sorted_Permutation.
  erewrite (mapM_fmap_Some_inv key snd); [done..|].
  intros s [k s'] Hk. unfold key in Hk.
  destruct (PyDict.get _ _); [|done]. by injection Hk as _ ->.
Qed.

(** The heuristic does not raise, and its final state satisfies the
    invariant. *)
Lemma solve_with_heuristic_run (runtime : PyFloat.float) (data : SchedulingInput.t) :
  ∃ out st,
    solve_with_heuristic runtime data = Some out
    ∧ HeuristicSolveOutput.assignments out = Heuristic.assignments st
    ∧ HeuristicSolveOutput.runtime_seconds out = runtime
    ∧ heuristic_invariant data st
    ∧ (length (Heuristic.assignments st)
       ≤ length (expand_course_sessions (SchedulingInput.courses data)))%nat.
Proof.
  unfold solve_with_heuristic.
  set (sessions := expand_course_sessions (SchedulingInput.courses data)).
  destruct (sort_sessions_Permutation data sessions) as (sorted_sessions & -> & Hperm).
  cbn.
  set (feasible := _build_feasible_candidates data sessions).
  assert (∃ st,
    foldlM (place_session data feasible) Heuristic.init sorted_sessions = Some st
    ∧ heuristic_invariant data st) as (st & Hrun & Hinv).
  { apply foldlM_invariant; [apply heuristic_invariant_init|].
    intros st s Hs Hst. rewrite Hperm in Hs.
    assert (is_Some (place_session data feasible st s)) as [st' Hst'].
    { destruct (get_comprehension_is_Some CourseSession.session_id id sessions s Hs)
        as [s' Hs'].
      eapply (place_session_total _ _ _ _ (session_candidates data s')).
      - unfold feasible. rewrite feasible_candidates_get.
        unfold session_by_id. by rewrite Hs'.
      - intros r t Hin. apply session_candidates_feasible in Hin
          as (room & -> & ? & _). done. }
    exists st'. split; [done|]. by eapply place_session_invariant. }
  assert (length (Heuristic.assignments st) ≤ length sorted_sessions)%nat as Hlen.
  { assert (∀ l st0 st1,
      foldlM (place_session data feasible) st0 l = Some st1 →
      (length (Heuristic.assignments st1)
       ≤ length (Heuristic.assignments st0) + length l)%nat) as Hcount.
    { induction l as [|s l IH]; intros st0 st1; cbn.
      - intros [= <-]. lia.
      - destruct (place_session data feasible st0 s) as [st0'|] eqn:Hs; [|done].
        cbn. intros Hl%IH.
        apply place_session_cases in Hs as (c & _ & [[-> _]|Hs]).
        + cbn in Hl. lia.
        + destruct Hs as (? & ? & ? & ? & ? & _ & _ & _ & ->).
          cbn in Hl. rewrite length_app in Hl. cbn in Hl. lia. }
    apply Hcount in Hrun. cbn in Hrun. lia. }
  rewrite Hrun. cbn.
  destruct (Heuristic.unscheduled st); eexists _, st; cbn;
    (split; [done|]); (split; [done|]); (split; [done|]);
    (split; [done|]); by rewrite <- Hperm.
Qed.

(** ** C1: the validator finds no hard conflict in a heuristic schedule *)

Lemma conflict_code_not_record_code (i : ValidationIssue.t) :
  ValidationIssue.code i ∈ record_codes →
  ValidationIssue.code i ≠ "ROOM_TIME_CONFLICT"
  ∧ ValidationIssue.code i ≠ "INSTRUCTOR_TIME_CONFLICT".
Proof.
  intros Hin. split; intros Heq; rewrite Heq in Hin;
    apply (bool_decide_pack _) in Hin; by vm_compute in Hin.
Qed.

(** Records that pairwise differ in room and slot raise no
    [ROOM_TIME_CONFLICT]. *)
Lemma no_room_time_conflict (data : SchedulingInput.t)
    (l : list ScheduleAssignment.t) (i : ValidationIssue.t) :
  NoDup (map room_slot_key l) →
  i ∈ ValidationReport.issues (validate_schedule data l) →
  ValidationIssue.code i ≠ "ROOM_TIME_CONFLICT".
Proof.
  intros Hnd [(o & _ & Hi)|[Hi|[Hi|Hi]]]%validate_schedule_issue_cases.
  - by apply outcome_issue_code, conflict_code_not_record_code in Hi as [? _].
  - destruct Hi as (r & t & ids & Hin & Hlen & _).
    apply elem_of_grouped in Hin. rewrite Hin, length_map in Hlen.
    assert (NoDup (map room_slot_key (accepted_records data l))) as Hnd'.
    { eapply sublist_NoDup; [done|]. apply fmap_sublist, accepted_of_sublist. }
    pose proof (length_filter_key_NoDup room_slot_key (r, t) _ Hnd'). lia.
  - by destruct Hi as (? & ? & ? & _ & _ & ->).
  - by rewrite Hi.
Qed.

Lemma no_instructor_time_conflict (data : SchedulingInput.t)
    (l : list ScheduleAssignment.t) (i : ValidationIssue.t) :
  NoDup (map instructor_slot_key l) →
  i ∈ ValidationReport.issues (validate_schedule data l) →
  ValidationIssue.code i ≠ "INSTRUCTOR_TIME_CONFLICT".
Proof.
  intros Hnd [(o & _ & Hi)|[Hi|[Hi|Hi]]]%validate_schedule_issue_cases.
  - by apply outcome_issue_code, conflict_code_not_record_code in Hi as [_ ?].
  - by destruct Hi as (? & ? & ? & _ & _ & ->).
  - destruct Hi as (r & t & ids & Hin & Hlen & _).
    apply elem_of_grouped in Hin. rewrite Hin, length_map in Hlen.
    assert (NoDup (map instructor_slot_key (accepted_records data l))) as Hnd'.
    { eapply sublist_NoDup; [done|]. apply fmap_sublist, accepted_of_sublist. }
    pose proof (length_filter_key_NoDup instructor_slot_key (r, t) _ Hnd'). lia.
  - by rewrite Hi.
Qed.

(** Records drawn from the candidates of their session raise neither
    [ROOM_CAPACITY_VIOLATION] nor [ROOM_FEATURE_VIOLATION]. *)
Lemma no_room_violation (data : SchedulingInput.t)
    (l : list ScheduleAssignment.t) (i : ValidationIssue.t) :
  (∀ a, a ∈ l →
     ∃ candidates,
       PyDict.get
         (_build_feasible_candidates data
            (expand_course_sessions (SchedulingInput.courses data)))
         (ScheduleAssignment.session_id a) = Some candidates
       ∧ room_slot_key a ∈ candidates) →
  i ∈ ValidationReport.issues (validate_schedule data l) →
  ValidationIssue.code i ≠ "ROOM_CAPACITY_VIOLATION"
  ∧ ValidationIssue.code i ≠ "ROOM_FEATURE_VIOLATION".
Proof.
  intros Hcand [(o & Ho & Hi)|[Hi|[Hi|Hi]]]%validate_schedule_issue_cases.
  - destruct o as [a|a|a session]; cbn in Hi.
    + issue_cases Hi. by subst.
    + issue_cases Hi. by subst.
    + apply classify_Accepted in Ho as (Ha & Hs & _).
      destruct (Hcand a Ha) as (candidates & Hc & Hin).
      rewrite feasible_candidates_get, Hs in Hc. injection Hc as <-.
      apply session_candidates_feasible in Hin as (room & Hroom & _ & Hcap & Hsub).
      unfold record_issues, mismatch_issues, room_issues, slot_issues in Hi.
      unfold room_slot_key in Hroom. cbn in Hroom. rewrite Hroom in Hi.
      rewrite (bool_decide_false _ Hcap), Hsub in Hi. cbn in Hi.
      issue_cases Hi; by subst.
  - by destruct Hi as (? & ? & ? & _ & _ & ->).
  - by destruct Hi as (? & ? & ? & _ & _ & ->).
  - by rewrite Hi.
Qed.

(** C1: for every input and every assignment list the heuristic returns,
    the report of [validate_schedule] on that list against the same input
    holds no issue with code [ROOM_TIME_CONFLICT],
    [INSTRUCTOR_TIME_CONFLICT], [ROOM_CAPACITY_VIOLATION] or
    [ROOM_FEATURE_VIOLATION]. *)
Theorem heuristic_schedule_validates (runtime : PyFloat.float)
    (data : SchedulingInput.t) (out : HeuristicSolveOutput.t) :
  solve_with_heuristic runtime data = Some out →
  ∀ i,
    i ∈ ValidationReport.issues
          (validate_schedule data (HeuristicSolveOutput.assignments out)) →
    ValidationIssue.code i
      ∉ [ "ROOM_TIME_CONFLICT"; "INSTRUCTOR_TIME_CONFLICT";
          "ROOM_CAPACITY_VIOLATION"; "ROOM_FEATURE_VIOLATION" ].
Proof.
  destruct (solve_with_heuristic_run runtime data)
    as (out' & st & Hout & Hassign & _ & (Hall & Hrs & His) & _).
  rewrite Hout. intros [= <-]. rewrite Hassign. intros i Hi.
  pose proof (no_room_time_conflict data _ i Hrs Hi).
  pose proof (no_instructor_time_conflict data _ i His Hi).
  assert (ValidationIssue.code i ≠ "ROOM_CAPACITY_VIOLATION"
          ∧ ValidationIssue.code i ≠ "ROOM_FEATURE_VIOLATION") as [? ?].
  { apply (no_room_violation data (Heuristic.assignments st)); [|done].
    intros a Ha. by destruct (Hall a Ha) as (_ & _ & ?). }
  rewrite !not_elem_of_cons. repeat split; try done. apply not_elem_of_nil.
Qed.

(** On [two_courses] the heuristic places both sessions. *)
Lemma heuristic_schedule_validates_witness :
  ∃ out,
    solve_with_heuristic (Clock.heuristic_runtime Sample.quick_clock) Sample.two_courses
    = Some out
    ∧ length (HeuristicSolveOutput.assignments out) = 2%nat
    ∧ ∀ i,
        i ∈ ValidationReport.issues
              (validate_schedule Sample.two_courses
                 (HeuristicSolveOutput.assignments out)) →
        ValidationIssue.code i
          ∉ [ "ROOM_TIME_CONFLICT"; "INSTRUCTOR_TIME_CONFLICT";
              "ROOM_CAPACITY_VIOLATION"; "ROOM_FEATURE_VIOLATION" ].
Proof.
  assert ((λ out, length (HeuristicSolveOutput.assignments out))
            <$> solve_with_heuristic (Clock.heuristic_runtime Sample.quick_clock)
                  Sample.two_courses
          = Some 2%nat) as Hlength by (vm_compute; reflexivity).
  destruct (solve_with_heuristic (Clock.heuristic_runtime Sample.quick_clock)
              Sample.two_courses) as [out|] eqn:Hout; [|done].
  cbn in Hlength. injection Hlength as Hlength.
  exists out. split; [done|]. split; [exact Hlength|].
  exact (heuristic_schedule_validates (Clock.heuristic_runtime Sample.quick_clock)
           Sample.two_courses out Hout).
Defined.

(** ** C5: which candidate the heuristic selects *)






Section sorted_ascending.
Context {A : Type} (key : A → Z).



End sorted_ascending.


Section run_facts.
Context (data : SchedulingInput.t).
Let feasible :=
  _build_feasible_candidates data (expand_course_sessions (SchedulingInput.courses data)).





End run_facts.




(** ** C8: the metrics *)

Lemma nonempty_and_in_str_in (x : string) (xs : list string) :
  nonempty_and_in x xs = str_in x xs.
Proof.
  destruct xs; [|done]. cbn. unfold str_in. symmetry.
  apply bool_decide_eq_false. apply not_elem_of_nil.
Qed.

Lemma metrics_step_single (data : SchedulingInput.t) (a : ScheduleAssignment.t)
    (acc : MetricsAcc.t) :
  metrics_step data acc a
  = MetricsAcc.mk
      (foldl PyFloat.add (MetricsAcc.utilization_sum acc) (utilization_ratios data [a]))
      (MetricsAcc.utilization_count acc
       + Z.of_nat (length (utilization_ratios data [a])))
      (MetricsAcc.preference_hits acc
       + Z.of_nat (length (filter (on_preferred_slot data) [a]))).
Proof.
  destruct acc as [s c h]. unfold metrics_step, utilization_ratios.
  cbn [omap list_omap MetricsAcc.utilization_sum MetricsAcc.utilization_count
       MetricsAcc.preference_hits].
  rewrite filter_cons, filter_nil.
  assert (match PyDict.get (instructor_by_id data) (ScheduleAssignment.instructor_id a) with
          | Some instructor =>
              if nonempty_and_in (ScheduleAssignment.time_slot_id a)
                   (Instructor.preferred_time_slots instructor)
              then h + 1 else h
          | None => h
          end
          = h + Z.of_nat (length (if decide (on_preferred_slot data a) then [a] else [])))
    as ->.
  { destruct (decide (on_preferred_slot data a)) as [(i & Hi & Hin)|Hnot].
    - rewrite Hi, nonempty_and_in_str_in. unfold str_in.
      by rewrite bool_decide_true by done.
    - destruct (PyDict.get (instructor_by_id data) _) as [i|] eqn:Hi; [|cbn; lia].
      rewrite nonempty_and_in_str_in. unfold str_in.
      rewrite bool_decide_false; [cbn; lia|]. intros Hin. apply Hnot. by exists i. }
  destruct (PyDict.get (session_by_id _) _) as [session|]; [|cbn; f_equal; lia].
  destruct (PyDict.get (room_by_id data) _) as [room|]; [|cbn; f_equal; lia].
  case_bool_decide; cbn; f_equal; lia.
Qed.

Lemma metrics_loop (data : SchedulingInput.t) (l : list ScheduleAssignment.t)
    (acc : MetricsAcc.t) :
  foldl (metrics_step data) acc l
  = MetricsAcc.mk
      (foldl PyFloat.add (MetricsAcc.utilization_sum acc) (utilization_ratios data l))
      (MetricsAcc.utilization_count acc
       + Z.of_nat (length (utilization_ratios data l)))
      (MetricsAcc.preference_hits acc
       + Z.of_nat (length (filter (on_preferred_slot data) l))).
Proof.
  revert acc. induction l as [|a l IH]; intros acc.
  - destruct acc. cbn. f_equal; lia.
  - cbn [foldl]. rewrite IH, metrics_step_single.
    cbn [MetricsAcc.utilization_sum MetricsAcc.utilization_count
         MetricsAcc.preference_hits].
    change (a :: l) with ([a] ++ l).
    unfold utilization_ratios. rewrite omap_app, filter_app, foldl_app, !length_app.
    f_equal; lia.
Qed.

Lemma round_two_decimals (x : PyFloat.float) :
  PyFloat.round x 2 = PyFloat.truediv (PyFloat.round_half_even (x * 100)) 100.
Proof. reflexivity. Qed.

Lemma round_zero (ndigits : Z) : PyFloat.round PyFloat.zero ndigits = PyFloat.zero.
Proof.
  unfold PyFloat.round, PyFloat.zero. cbn.
  destruct (10 ^ ndigits); reflexivity.
Qed.

(** C8: [build_metrics] reports the number of expanded sessions and of
    assignments; as [coverage_pct] the percentage scheduled / required (0
    when nothing is required); as [room_utilization_pct] the percentage of
    the mean of enrollment / capacity over the assignments whose session and
    room exist with a positive capacity (0 when there are none); as
    [instructor_preference_pct] the percentage of the assignments on a slot
    their instructor prefers among all assignments (0 when there are none);
    as [hard_violations] the number of issues of level error.  Each
    percentage is rounded to two decimal places: it is the binary64 quotient
    of an integer by 100. *)
Theorem build_metrics_spec (data : SchedulingInput.t)
    (assignments : list ScheduleAssignment.t) (validation : ValidationReport.t)
    (objective_breakdown : PyDict.t string PyFloat.float) :
  let m := build_metrics data assignments validation objective_breakdown in
  let required :=
    Z.of_nat (length (expand_course_sessions (SchedulingInput.courses data))) in
  let scheduled := Z.of_nat (length assignments) in
  let ratios := utilization_ratios data assignments in
  let hits := Z.of_nat (length (filter (on_preferred_slot data) assignments)) in
  ScheduleMetrics.sessions_required m = required
  ∧ ScheduleMetrics.sessions_scheduled m = scheduled
  ∧ ScheduleMetrics.coverage_pct m
    = (if decide (required = 0) then PyFloat.zero
       else percentage (PyFloat.truediv scheduled required))
  ∧ ScheduleMetrics.room_utilization_pct m
    = (match ratios with
       | [] => PyFloat.zero
       | _ => percentage (PyFloat.div (float_sum ratios)
                            (PyFloat.of_int (Z.of_nat (length ratios))))
       end)
  ∧ ScheduleMetrics.instructor_preference_pct m
    = (if decide (scheduled = 0) then PyFloat.zero
       else percentage (PyFloat.truediv hits scheduled))
  ∧ ScheduleMetrics.hard_violations m
    = Z.of_nat (length (filter (λ i, ValidationIssue.level i = error)
                          (ValidationReport.issues validation)))
  ∧ ∃ n1 n2 n3 : Z,
      ScheduleMetrics.coverage_pct m = PyFloat.truediv n1 100
      ∧ ScheduleMetrics.room_utilization_pct m = PyFloat.truediv n2 100
      ∧ ScheduleMetrics.instructor_preference_pct m = PyFloat.truediv n3 100.
Proof.
  intros m required scheduled ratios hits. subst m. unfold build_metrics.
  rewrite metrics_loop. cbn.
  fold required scheduled ratios hits.
  split; [done|]. split; [done|]. split; [|split; [|split; [|split]]].
  - destruct (decide (required = 0)) as [->|Hreq].
    + apply round_zero.
    + by destruct (decide (required ≠ 0)).
  - destruct ratios as [|r ratios]; cbn [length].
    + apply round_zero.
    + destruct (decide _) as [_|Hne]; [done|]. lia.
  - destruct (decide (scheduled = 0)) as [->|Hs].
    + apply round_zero.
    + by destruct (decide (scheduled ≠ 0)).
  - done.
  - eexists _, _, _. split; [|split]; apply round_two_decimals.
Qed.

(** ** C7: the ranking of scenarios *)

Section head_of_sorted.
Context {A K : Type} (lt : K → K → bool) (key : A → K).

Lemma head_insort (x : A) (l : list A) :
  head (insort lt key x l) = running_least lt key (head l) x.
Proof. destruct l as [|y l]; cbn; [done|]. by destruct (lt (key x) (key y)). Qed.

Lemma head_sorted (l : list A) :
  head (sorted lt key l) = foldl (running_least lt key) None l.
Proof.
  unfold sorted.
  assert (∀ acc, head (foldl (λ acc x, insort lt key x acc) acc l)
                 = foldl (running_least lt key) (head acc) l) as H.
  { induction l as [|x l IH]; intros acc; cbn; [done|].
    by rewrite IH, head_insort. }
  apply H.
Qed.

(** For an order in which an element smaller than one that is not above a
    third is smaller than the third, the scan keeps the first least
    element. *)
Lemma running_least_first (before : A → A → Prop) (l : list A) (m r : A) :
  (∀ x y, lt (key x) (key y) = true ↔ before x y) →
  (∀ x y z, before x y → before y z → before x z) →
  (∀ x y z, before x y → ¬ before z y → before x z) →
  foldl (running_least lt key) (Some m) l = Some r →
  (r = m ∧ Forall (λ x, ¬ before x m) l)
  ∨ ∃ l1 l2,
      l = l1 ++ r :: l2
      ∧ before r m
      ∧ Forall (λ x, before r x) l1
      ∧ Forall (λ x, ¬ before x r) l2.
Proof.
  intros Hlt Htrans Hneg. revert m.
  induction l as [|x l IH]; intros m; cbn.
  - intros [= <-]. left. by split.
  - destruct (lt (key x) (key m)) eqn:Hx.
    + apply Hlt in Hx. intros [[-> Hall]|(l1 & l2 & -> & Hr & H1 & H2)]%IH.
      * right. exists [], l. split; [done|]. split; [done|]. split; [constructor|done].
      * right. exists (x :: l1), l2. split; [done|].
        split; [by eapply Htrans|]. split; [|done]. by constructor.
    + assert (¬ before x m) as Hx'. { rewrite <- Hlt. by rewrite Hx. }
      intros [[-> Hall]|(l1 & l2 & -> & Hr & H1 & H2)]%IH.
      * left. split; [done|]. by constructor.
      * right. exists (x :: l1), l2. split; [done|]. split; [done|].
        split; [|done]. constructor; [|done]. by eapply Hneg.
Qed.

End head_of_sorted.

Lemma PyFloat_neg_eqb (x y : PyFloat.float) :
  PyFloat.eqb (PyFloat.neg x) (PyFloat.neg y) = true ↔ (x == y)%Q.
Proof.
  unfold PyFloat.eqb, PyFloat.neg. rewrite Qeq_bool_iff, !Qred_correct.
  split; intros H; lra.
Qed.

Lemma PyFloat_neg_ltb (x y : PyFloat.float) :
  PyFloat.ltb (PyFloat.neg x) (PyFloat.neg y) = true ↔ (y < x)%Q.
Proof.
  unfold PyFloat.ltb, PyFloat.neg. rewrite negb_true_iff.
  rewrite <- not_true_iff_false, Qle_bool_iff, !Qred_correct.
  split; intros H; lra.
Qed.

Lemma ranking_lt_ranks_before (a b : ScenarioResult.t) :
  ranking_lt (ranking_key a) (ranking_key b) = true ↔ ranks_before a b.
Proof.
  unfold ranking_lt, ranking_key, tuple3_lt, tuple2_lt, ranks_before. cbn.
  destruct (Z.eqb_spec
    (ScheduleMetrics.hard_violations (ScheduleResult.metrics (ScenarioResult.result a)))
    (ScheduleMetrics.hard_violations (ScheduleResult.metrics (ScenarioResult.result b))))
    as [Heq|Hne].
  - destruct (PyFloat.eqb _ _) eqn:Hobj.
    + apply PyFloat_neg_eqb in Hobj. rewrite PyFloat_neg_ltb. split.
      * intros Hcov. right. split; [done|]. right. by split.
      * intros [?|[_ [?|[_ ?]]]]; [lia|lra|done].
    + assert (¬ (ScheduleResult.objective_value (ScenarioResult.result a)
                 == ScheduleResult.objective_value (ScenarioResult.result b))%Q) as Hobj'.
      { rewrite <- PyFloat_neg_eqb. by rewrite Hobj. }
      rewrite PyFloat_neg_ltb. split.
      * intros Hlt. right. split; [done|]. by left.
      * intros [?|[_ [?|[? _]]]]; [lia|done|done].
  - rewrite Z.ltb_lt. split.
    + by left.
    + intros [?|[? _]]; done.
Qed.

Lemma ranks_before_trans (x y z : ScenarioResult.t) :
  ranks_before x y → ranks_before y z → ranks_before x z.
Proof.
  unfold ranks_before. cbn. intros H1 H2. intuition (try lia; try lra).
Qed.

Lemma ranks_before_negative (x y z : ScenarioResult.t) :
  ranks_before x y → ¬ ranks_before z y → ranks_before x z.
Proof.
  unfold ranks_before. cbn. intros H1 H2.
  set (hx := ScheduleMetrics.hard_violations _) in *.
  destruct (Z.lt_trichotomy
    (ScheduleMetrics.hard_violations (ScheduleResult.metrics (ScenarioResult.result z)))
    (ScheduleMetrics.hard_violations (ScheduleResult.metrics (ScenarioResult.result y))))
    as [Hlt|[Heq|Hgt]].
  - destruct H2. by left.
  - destruct (Qlt_le_dec
      (ScheduleResult.objective_value (ScenarioResult.result y))
      (ScheduleResult.objective_value (ScenarioResult.result z))) as [Ho|Ho].
    { destruct H2. right. split; [done|]. by left. }
    destruct (Qlt_le_dec
      (ScheduleMetrics.coverage_pct (ScheduleResult.metrics (ScenarioResult.result y)))
      (ScheduleMetrics.coverage_pct (ScheduleResult.metrics (ScenarioResult.result z))))
      as [Hc|Hc].
    { destruct (Qlt_le_dec
        (ScheduleResult.objective_value (ScenarioResult.result z))
        (ScheduleResult.objective_value (ScenarioResult.result y))) as [Ho'|Ho'].
      - destruct H1 as [?|[? [?|[? ?]]]]; [left; lia|right..].
        + split; [lia|]. left. lra.
        + split; [lia|]. left. lra.
      - destruct H2. right. split; [done|]. right. split; [lra|done]. }
    destruct H1 as [?|[? [?|[? ?]]]]; [left; lia|right..].
    + split; [lia|].
      destruct (Qlt_le_dec
        (ScheduleResult.objective_value (ScenarioResult.result z))
        (ScheduleResult.objective_value (ScenarioResult.result x))) as [?|?];
        [by left|]. left. lra.
    + split; [lia|].
      destruct (Qlt_le_dec
        (ScheduleResult.objective_value (ScenarioResult.result z))
        (ScheduleResult.objective_value (ScenarioResult.result y))) as [?|?].
      * left. lra.
      * right. split; lra.
  - destruct H1 as [?|[? _]]; left; lia.
Qed.

Lemma best_of_first_least (results : list ScenarioResult.t) :
  results ≠ [] →
  ∃ l1 best l2,
    results = l1 ++ best :: l2
    ∧ best_of results = Some (ScenarioResult.name best)
    ∧ Forall (λ r, ranks_before best r) l1
    ∧ Forall (λ r, ¬ ranks_before r best) l2.
Proof.
  destruct results as [|m l]; [done|]. intros _.
  unfold best_of. rewrite head_sorted. cbn [foldl running_least].
  destruct (foldl (running_least ranking_lt ranking_key) (Some m) l) as [r|] eqn:Hr.
  - apply (running_least_first _ _ ranks_before) in Hr
      as [[-> Hall]|(l1 & l2 & -> & Hrm & H1 & H2)];
      [| |apply ranking_lt_ranks_before|apply ranks_before_trans
       |apply ranks_before_negative].
    + exists [], m, l. split; [done|]. split; [done|]. split; [constructor|done].
    + exists (m :: l1), r, l2. split; [done|]. split; [done|].
      split; [|done]. by constructor.
  - exfalso. revert m Hr. induction l as [|x l IH]; intros m; cbn; [done|].
    destruct (ranking_lt _ _); apply IH.
Qed.

(** C7: [compare] returns exactly when [solve_schedule] returns for every
    scenario, on the data of the request with the options of the scenario
    and in the mode of the scenario; the response then lists, in the order
    of the scenarios, the result and the report of each under the name of
    the scenario, and reports as [best_scenario] what [best_of] selects
    among them.  That is [None] for no scenario, and otherwise the name of
    the first result that no other result ranks before, where a result ranks
    before another when it has fewer hard violations, or as many and a
    greater objective value, or as many, an equal objective value and a
    greater coverage.  In particular a result with 0 hard violations is
    selected over one with 1 hard violation whatever their objective values
    (100 against 500, say) and whichever comes first. *)
Theorem compare_selects_best_ranked :
  (∀ Solve clocks payload response,
     compare Solve clocks payload = Some response
     ↔ Forall2 (λ (item : nat * ScenarioConfig.t) (r : ScenarioResult.t),
          solve_schedule Solve (clocks item.1)
            (SchedulingInput.with_options (CompareRequest.data payload)
               (ScenarioConfig.options item.2))
            (ScenarioConfig.solver_mode item.2)
          = Some (ScenarioResult.result r, ScenarioResult.validation r)
          ∧ ScenarioResult.name r = ScenarioConfig.name item.2)
         (imap pair (CompareRequest.scenarios payload))
         (CompareResponse.scenarios response)
       ∧ CompareResponse.best_scenario response
         = best_of (CompareResponse.scenarios response))
  ∧ best_of [] = None
  ∧ (∀ results,
       results ≠ [] →
       ∃ l1 best l2,
         results = l1 ++ best :: l2
         ∧ best_of results = Some (ScenarioResult.name best)
         ∧ Forall (λ r, ranks_before best r) l1
         ∧ Forall (λ r, ¬ ranks_before r best) l2)
  ∧ (∀ a b,
       ScheduleMetrics.hard_violations (ScheduleResult.metrics (ScenarioResult.result a)) = 0 →
       ScheduleMetrics.hard_violations (ScheduleResult.metrics (ScenarioResult.result b)) = 1 →
       best_of [a; b] = Some (ScenarioResult.name a)
       ∧ best_of [b; a] = Some (ScenarioResult.name a)).
Proof.
  split; [|split; [done|split; [apply best_of_first_least|]]].
  - intros Solve clocks payload response. unfold compare.
    set (solve := λ item : nat * ScenarioConfig.t,
      solve_schedule Solve (clocks item.1)
        (SchedulingInput.with_options (CompareRequest.data payload)
           (ScenarioConfig.options item.2))
        (ScenarioConfig.solver_mode item.2)).
    assert (∀ item r,
      (solve item ≫= λ '(result, validation),
         Some (ScenarioResult.mk (ScenarioConfig.name item.2) result validation))
      = Some r
      ↔ solve item = Some (ScenarioResult.result r, ScenarioResult.validation r)
        ∧ ScenarioResult.name r = ScenarioConfig.name item.2) as Hitem.
    { intros item r. destruct (solve item) as [[result validation]|]; cbn.
      - split.
        + intros [= <-]. done.
        + destruct r as [name result' validation']. cbn. intros [[= -> ->] ->]. done.
      - split; [done|]. by intros [? _]. }
    split.
    + destruct (mapM _ _) as [scenario_results|] eqn:Hresults; [|done].
      cbn. intros [= <-]. cbn. split; [|done].
      apply mapM_Some in Hresults.
      eapply Forall2_impl; [exact Hresults|].
      intros item r Hr. by apply Hitem.
    + destruct response as [scenario_results best]. cbn. intros [Hall ->].
      assert (mapM (λ item : nat * ScenarioConfig.t,
                 solve item ≫= λ '(result, validation),
                   Some (ScenarioResult.mk (ScenarioConfig.name item.2) result
                           validation))
                (imap pair (CompareRequest.scenarios payload))
              = Some scenario_results) as Hresults.
      { apply mapM_Some. eapply Forall2_impl; [exact Hall|].
        intros item r Hr. by apply Hitem. }
      unfold solve in Hresults. rewrite Hresults. done.
  - intros a b Ha Hb. unfold best_of, sorted. cbn.
    unfold ranking_lt, ranking_key, tuple3_lt, tuple2_lt. cbn.
    rewrite Ha, Hb. done.
Qed.

(** Two scenarios on [two_courses] with an engine that gives up: the exact
    scenario schedules nothing and misses both sessions, the greedy one
    places both, and is the best. *)
Lemma compare_selects_best_ranked_witness :
  let clocks := λ _ : nat, Sample.quick_clock in
  ∃ response exact greedy,
    compare Sample.idle_engine clocks Sample.two_scenarios = Some response
    ∧ CompareResponse.scenarios response = [exact; greedy]
    ∧ ScenarioResult.name exact = "exact"
    ∧ ScenarioResult.name greedy = "greedy"
    ∧ ScheduleMetrics.hard_violations
        (ScheduleResult.metrics (ScenarioResult.result exact)) = 2
    ∧ ScheduleMetrics.hard_violations
        (ScheduleResult.metrics (ScenarioResult.result greedy)) = 0
    ∧ CompareResponse.best_scenario response = Some "greedy"
    ∧ Forall2 (λ (item : nat * ScenarioConfig.t) (r : ScenarioResult.t),
         solve_schedule Sample.idle_engine (clocks item.1)
           (SchedulingInput.with_options (CompareRequest.data Sample.two_scenarios)
              (ScenarioConfig.options item.2))
           (ScenarioConfig.solver_mode item.2)
         = Some (ScenarioResult.result r, ScenarioResult.validation r)
         ∧ ScenarioResult.name r = ScenarioConfig.name item.2)
        (imap pair (CompareRequest.scenarios Sample.two_scenarios))
        (CompareResponse.scenarios response).
Proof.
  intros clocks.
  destruct (compare Sample.idle_engine clocks Sample.two_scenarios)
    as [response|] eqn:Hcompare; [|by vm_compute in Hcompare].
  pose proof (proj1 (proj1 compare_selects_best_ranked
                       Sample.idle_engine clocks Sample.two_scenarios response)
                Hcompare) as [Hall Hbest].
  pose proof Hcompare as Hvalue. vm_compute in Hvalue.
  injection Hvalue as Hvalue. rewrite <- Hvalue in Hall |- *.
  eexists _, _, _. split; [reflexivity|]. split; [reflexivity|].
  do 5 (split; [reflexivity|]). exact Hall.
Defined.

(** ** The variables of the exact model *)

(** The body of the innermost loop of [_solve_with_cp_sat] on a triple. *)
Local Notation register := (λ (b : Builder.t) (t : Triple.t),
  add_triple b (Triple.session t) (Triple.instructor t) (Triple.room t) (Triple.slot t)).

Lemma foldl_flat_map_nested {A B C : Type} (f : A → C → A) (h : B → list C)
    (l : list B) (a : A) :
  foldl f a (flat_map h l) = foldl (λ a x, foldl f a (h x)) a l.
Proof.
  revert a. induction l as [|x l IH]; intros a; cbn; [done|].
  by rewrite foldl_app, IH.
Qed.

Lemma foldl_ext_elem_of {A B : Type} (f g : A → B → A) (l : list B) (a : A) :
  (∀ a x, x ∈ l → f a x = g a x) → foldl f a l = foldl g a l.
Proof.
  revert a. induction l as [|x l IH]; intros a Hfg; cbn; [done|].
  rewrite Hfg by apply list_elem_of_here. apply IH.
  intros a' y Hy. apply Hfg. by apply list_elem_of_further.
Qed.

Lemma add_session_triples (data : SchedulingInput.t) (b : Builder.t)
    (session : CourseSession.t) (instructor : Instructor.t) :
  PyDict.get (instructor_by_id data) (CourseSession.instructor_id session)
  = Some instructor →
  add_session data b session
  = Some (foldl register (count_cluster_session b session)
            (session_triples data instructor session)).
Proof.
  intros Hi. unfold add_session, session_triples. rewrite Hi. cbn. f_equal.
  rewrite foldl_flat_map_nested. apply foldl_ext_elem_of. intros b' room _.
  case_bool_decide; [done|]. destruct (negb (issubset _ _)); [done|].
  rewrite foldl_flat_map_nested. apply foldl_ext_elem_of. intros b'' slot _.
  destruct (negb (slot_permitted (list_to_set (Instructor.available_time_slots _)) _));
    [done|].
  by destruct (negb (slot_permitted (list_to_set (CourseSession.allowed_time_slots _)) _)).
Qed.

Lemma indexed_from_app {A : Type} (n : nat) (l1 l2 : list A) :
  indexed_from n (l1 ++ l2)
  = indexed_from n l1 ++ indexed_from (n + length l1) l2.
Proof.
  revert n. induction l1 as [|x l1 IH]; intros n; cbn.
  - by rewrite Nat.add_0_r.
  - rewrite IH. by rewrite Nat.add_succ_r.
Qed.

Lemma length_indexed_from {A : Type} (n : nat) (l : list A) :
  length (indexed_from n l) = length l.
Proof. revert n. induction l as [|x l IH]; intros n; cbn; [done|]. by rewrite IH. Qed.

Lemma elem_of_indexed_from {A : Type} (n : nat) (l : list A) (i : nat) (x : A) :
  (i, x) ∈ indexed_from n l → (n ≤ i < n + length l)%nat ∧ x ∈ l.
Proof.
  revert n. induction l as [|y l IH]; intros n; cbn.
  - by intros ?%elem_of_nil.
  - intros [[= -> ->]|Hin]%elem_of_cons.
    + split; [lia|apply list_elem_of_here].
    + apply IH in Hin as [? ?]. split; [lia|by apply list_elem_of_further].
Qed.

Lemma NoDup_indexed_from {A : Type} (n : nat) (l : list A) :
  NoDup (map fst (indexed_from n l)).
Proof.
  revert n. induction l as [|y l IH]; intros n; cbn; [constructor|].
  apply NoDup_cons. split; [|apply IH].
  intros ([i x] & Heq & Hin)%list_elem_of_fmap. cbn in Heq. subst i.
  apply elem_of_indexed_from in Hin as [? _]. lia.
Qed.

Lemma builder_from_nil (b : Builder.t) :
  builder_from b [] (Builder.cluster_session_count b) = b.
Proof. destruct b. unfold builder_from. cbn. by rewrite !app_nil_r. Qed.

Lemma builder_from_cons (b : Builder.t) (t : Triple.t)
    (its : list (nat * Triple.t)) (counts : PyDict.t string Z) :
  builder_from (register b t) its counts
  = builder_from b ((length (Builder.variables b), t) :: its) counts.
Proof.
  unfold builder_from, add_triple, tagged, Triple.var, Triple.key, grouped,
    Triple.utilization, Triple.tag, Triple.day.
  rewrite !filter_cons.
  cbn [foldl omap list_omap Builder.variables Builder.x Builder.vars_by_session
       Builder.vars_by_room_slot Builder.vars_by_instructor_slot
       Builder.vars_by_course_day Builder.vars_by_instructor_day
       Builder.vars_by_cluster_day Builder.instructor_pref_terms
       Builder.room_eff_terms Builder.priority_terms Builder.cluster_session_count
       map fst snd Triple.session Triple.room Triple.slot Triple.instructor].
  rewrite nonempty_and_in_str_in. unfold str_in.
  f_equal; rewrite <- ?app_assoc; try done.
  - by destruct (truthy_tag _).
  - unfold Triple.instructor_preferred. cbn [snd].
    case_bool_decide; destruct (decide _); try done;
      cbn [map]; by rewrite <- app_assoc.
  - unfold Triple.course_preferred. cbn [snd].
    case_bool_decide; destruct (decide _); try done;
      cbn [map]; by rewrite <- app_assoc.
Qed.

Lemma register_all (b : Builder.t) (ts : list Triple.t) :
  foldl register b ts
  = builder_from b (indexed_from (length (Builder.variables b)) ts)
      (Builder.cluster_session_count b).
Proof.
  revert b. induction ts as [|t ts IH]; intros b.
  - cbn. by rewrite builder_from_nil.
  - cbn [foldl indexed_from]. rewrite IH, builder_from_cons.
    assert (length (Builder.variables (register b t))
            = S (length (Builder.variables b))) as ->.
    { cbn. rewrite length_app. cbn. lia. }
    done.
Qed.

Lemma builder_from_app (b : Builder.t) (its1 its2 : list (nat * Triple.t))
    (counts1 counts2 : PyDict.t string Z) :
  builder_from (builder_from b its1 counts1) its2 counts2
  = builder_from b (its1 ++ its2) counts2.
Proof.
  unfold builder_from, tagged, grouped. cbn.
  rewrite !foldl_app, !map_app, !filter_app, !omap_app, !foldl_app, !map_app.
  by rewrite <- !app_assoc.
Qed.

Lemma builder_from_count (b : Builder.t) (session : CourseSession.t)
    (its : list (nat * Triple.t)) (counts : PyDict.t string Z) :
  builder_from (count_cluster_session b session) its counts = builder_from b its counts.
Proof. unfold count_cluster_session. by destruct (truthy_tag _). Qed.

(** The loop over the sessions, when it does not raise, leaves the builder
    in the state determined by the list of all triples. *)
Lemma add_sessions_builder (data : SchedulingInput.t)
    (sessions : list CourseSession.t) (b b' : Builder.t) :
  foldlM (add_session data) b sessions = Some b' →
  b' = builder_from b
         (indexed_from (length (Builder.variables b)) (all_triples data sessions))
         (cluster_counts_of (Builder.cluster_session_count b) sessions).
Proof.
  revert b. induction sessions as [|s sessions IH]; intros b.
  - cbn. intros [= <-]. by rewrite builder_from_nil.
  - cbn [foldlM all_triples flat_map cluster_counts_of foldl].
    destruct (PyDict.get (instructor_by_id data) (CourseSession.instructor_id s))
      as [i|] eqn:Hi.
    + rewrite (add_session_triples _ _ _ _ Hi). cbn [mbind option_bind].
      intros Hrest%IH.
      rewrite Hrest, register_all, builder_from_app, builder_from_count.
      assert (Builder.variables (count_cluster_session b s) = Builder.variables b)
        as Hv by (unfold count_cluster_session; by destruct (truthy_tag _)).
      assert (Builder.cluster_session_count (count_cluster_session b s)
              = match truthy_tag (CourseSession.cluster_tag s) with
                | Some tag =>
                    PyDict.update (Builder.cluster_session_count b) tag 0 (λ n, n + 1)
                | None => Builder.cluster_session_count b
                end)
        as Hc by (unfold count_cluster_session; by destruct (truthy_tag _)).
      unfold builder_from at 2 3.
      cbn [Builder.variables Builder.cluster_session_count].
      rewrite Hv, Hc, length_app, length_map, length_indexed_from, indexed_from_app.
      done.
    + unfold add_session. rewrite Hi. done.
Qed.

Lemma add_sessions_total (data : SchedulingInput.t)
    (sessions : list CourseSession.t) (b : Builder.t) :
  (∀ s, s ∈ sessions →
     is_Some (PyDict.get (instructor_by_id data) (CourseSession.instructor_id s))) →
  is_Some (foldlM (add_session data) b sessions).
Proof.
  revert b. induction sessions as [|s sessions IH]; intros b Hall; cbn; [done|].
  destruct (Hall s) as [i Hi]; [apply list_elem_of_here|].
  rewrite (add_session_triples _ _ _ _ Hi). cbn. apply IH.
  intros s' Hs'. apply Hall. by apply list_elem_of_further.
Qed.

(** ** The exact path: the model is built, and a solution is decoded *)

Lemma elem_of_all_triples (data : SchedulingInput.t)
    (sessions : list CourseSession.t) (t : Triple.t) :
  t ∈ all_triples data sessions →
  Triple.session t ∈ sessions
  ∧ PyDict.get (instructor_by_id data) (CourseSession.instructor_id (Triple.session t))
    = Some (Triple.instructor t)
  ∧ Triple.room t ∈ SchedulingInput.rooms data
  ∧ Triple.slot t ∈ SchedulingInput.time_slots data.
Proof.
  unfold all_triples. intros (s & Hs & Ht)%elem_of_flat_map.
  destruct (PyDict.get (instructor_by_id data) _) as [i|] eqn:Hi;
    [|by apply elem_of_nil in Ht].
  unfold session_triples in Ht. apply elem_of_flat_map in Ht as (room & Hroom & Ht).
  case_bool_decide; [by apply elem_of_nil in Ht|].
  destruct (negb (issubset _ _)); [by apply elem_of_nil in Ht|].
  apply elem_of_flat_map in Ht as (slot & Hslot & Ht).
  issue_cases Ht. subst t. cbn. split; [done|]. split; [done|]. split; [done|].
  unfold slots_by_order in Hslot. by apply elem_of_sorted in Hslot.
Qed.

Lemma sessions_have_instructors (data : SchedulingInput.t) :
  (list_to_set
     (map Course.instructor_id
        (filter (λ course,
                   PyDict.get (instructor_by_id data) (Course.instructor_id course) = None)
           (SchedulingInput.courses data))) : gset string) = ∅ →
  ∀ s, s ∈ expand_course_sessions (SchedulingInput.courses data) →
    is_Some (PyDict.get (instructor_by_id data) (CourseSession.instructor_id s)).
Proof.
  intros Hempty s Hs. rewrite expand_course_sessions_flat_map in Hs.
  apply elem_of_sessions_in_order in Hs as (c & i & Hc & _ & ->). cbn.
  destruct (PyDict.get (instructor_by_id data) (Course.instructor_id c)) eqn:Hg; [done|].
  assert (Course.instructor_id c ∈ (∅ : gset string)) as Hin; [|set_solver].
  rewrite <- Hempty. apply elem_of_list_to_set, list_elem_of_fmap.
  exists c. split; [done|]. by apply list_elem_of_filter.
Qed.

Lemma build_model_total (data : SchedulingInput.t) : is_Some (build_model data).
Proof.
  unfold build_model. destruct (decide _) as [|Hempty]; [done|].
  apply dec_stable in Hempty.
  destruct (add_sessions_total data
    (expand_course_sessions (SchedulingInput.courses data)) Builder.init
    (sessions_have_instructors data Hempty)) as [b ->].
  cbn. destruct (exactly_one_constraints _ _); [done|].
  by destruct (cluster_day_indicators b) as [[? ?] ?].
Qed.

(** The exact path does not raise. *)
Lemma solve_with_cp_sat_total (Solve : Engine) (runtime : PyFloat.float)
    (data : SchedulingInput.t) :
  ∃ status assignments notes,
    _solve_with_cp_sat Solve runtime data = Some (status, runtime, assignments, notes).
Proof.
  unfold _solve_with_cp_sat. destruct (build_model_total data) as [built ->]. cbn.
  destruct built as [status notes|b used model]; [by eexists _, _, _|].
  destruct (Solve model _ _) as [status_code sol]. by eexists _, _, _.
Qed.

Lemma exactly_one_constraints_elem (vars_by_session : PyDict.t string (list cp_model.IntVar))
    (sessions : list CourseSession.t) (constraints : list cp_model.Constraint) :
  exactly_one_constraints vars_by_session sessions = inr constraints →
  ∀ s, s ∈ sessions →
    cp_model.SumEq
      (PyDict.get_default vars_by_session (CourseSession.session_id s) []) 1
    ∈ constraints.
Proof.
  revert constraints. induction sessions as [|s0 sessions IH]; intros constraints; cbn.
  - intros _ s ?%elem_of_nil. done.
  - destruct (PyDict.get_default vars_by_session (CourseSession.session_id s0) [])
      as [|v vs] eqn:Hv; [done|].
    destruct (exactly_one_constraints vars_by_session sessions) as [|cs]; [done|].
    intros [= <-] s [->|Hs]%elem_of_cons.
    + rewrite Hv. apply list_elem_of_here.
    + apply list_elem_of_further. by apply IH.
Qed.

Lemma get_default_grouped {A K V : Type} `{EqDecision K} (key : A → K)
    (val : A → V) (l : list A) (k : K) :
  PyDict.get_default (grouped key val PyDict.empty l) k []
  = map val (filter (λ a, key a = k) l).
Proof.
  unfold PyDict.get_default. rewrite get_grouped. by destruct (filter _ l).
Qed.

Lemma sum_vars_triples (sol : cp_model.Solution) (its : list (nat * Triple.t)) :
  cp_model.sum_vars sol (map Triple.var its)
  = Z.of_nat (length (filter (λ it : nat * Triple.t, sol it.1 = true) its)).
Proof.
  induction its as [|[i t] its IH]; [done|].
  rewrite filter_cons. cbn [map]. unfold cp_model.sum_vars in *. cbn [foldr map].
  rewrite IH. unfold cp_model.value. cbn.
  destruct (sol i); destruct (decide _); try done; cbn [length]; lia.
Qed.

Lemma filter_none {A : Type} (P : A → Prop) `{∀ x, Decision (P x)} (l : list A) :
  (∀ x, x ∈ l → ¬ P x) → filter P l = [].
Proof.
  induction l as [|x l IH]; intros Hl; [done|]. rewrite filter_cons.
  destruct (decide (P x)) as [Hx|_].
  - by destruct (Hl x (list_elem_of_here _ _)).
  - apply IH. intros y Hy. apply Hl. by apply list_elem_of_further.
Qed.

Lemma length_le_keys {A K : Type} `{EqDecision K} (f : A → K) (ks : list K)
    (l : list A) :
  (∀ x, x ∈ l → f x ∈ ks) →
  (∀ k, (length (filter (λ x, f x = k) l) ≤ 1)%nat) →
  (length l ≤ length ks)%nat.
Proof.
  revert l. induction ks as [|k ks IH]; intros l Hin Hone.
  - destruct l as [|x l]; [done|].
    by destruct (not_elem_of_nil (f x) (Hin x (list_elem_of_here _ _))).
  - rewrite <- (filter_app_complement (λ x, f x = k) l), length_app. cbn.
    pose proof (Hone k).
    assert (length (filter (λ x, ¬ f x = k) l) ≤ length ks)%nat; [|lia].
    apply IH.
    + intros x [Hne Hx]%list_elem_of_filter.
      apply Hin in Hx. apply elem_of_cons in Hx as [?|?]; done.
    + intros k'. rewrite list_filter_filter.
      etrans; [|apply (Hone k')].
      apply sublist_length. clear.
      induction l as [|x l IHl]; [done|]. rewrite !filter_cons.
      destruct (decide (f x = k' ∧ ¬ f x = k)) as [[? ?]|];
        destruct (decide (f x = k')); try done.
      * by apply sublist_skip.
      * by apply sublist_cons.
Qed.

(** A truth assignment with one true variable per session decodes to at
    most as many assignments as there are sessions. *)
Lemma length_decode (data : SchedulingInput.t) (sessions : list CourseSession.t)
    (counts : PyDict.t string Z) (sol : cp_model.Solution) :
  let b := builder_from Builder.init (indexed_from 0 (all_triples data sessions)) counts in
  (∀ s, s ∈ sessions →
     cp_model.sum_vars sol
       (PyDict.get_default (Builder.vars_by_session b) (CourseSession.session_id s) [])
     = 1) →
  (length (decode b sol) ≤ length sessions)%nat.
Proof.
  intros b Hone.
  set (its := indexed_from 0 (all_triples data sessions)) in *.
  set (trues := filter (λ it : nat * Triple.t, sol it.1 = true) its).
  assert (length trues ≤ length sessions)%nat as Htrues.
  { rewrite <- (length_map CourseSession.session_id sessions).
    apply (length_le_keys
      (λ it : nat * Triple.t, CourseSession.session_id (Triple.session it.2))).
    - intros [i t] [_ Hit]%list_elem_of_filter.
      apply elem_of_indexed_from in Hit as [_ Ht].
      apply elem_of_all_triples in Ht as (Hs & _). cbn.
      apply list_elem_of_fmap. by exists (Triple.session t).
    - intros k. unfold trues. rewrite list_filter_filter.
      destruct (decide (k ∈ map CourseSession.session_id sessions)) as [Hk|Hk].
      + apply list_elem_of_fmap in Hk as (s & -> & Hs). specialize (Hone s Hs).
        unfold b, builder_from, Builder.init in Hone.
        cbn [Builder.vars_by_session] in Hone.
        rewrite get_default_grouped, sum_vars_triples, list_filter_filter in Hone.
        assert (filter (λ x : nat * Triple.t,
                  CourseSession.session_id (Triple.session x.2) = CourseSession.session_id s
                  ∧ sol x.1 = true) its
                = filter (λ x : nat * Triple.t,
                    sol x.1 = true
                    ∧ CourseSession.session_id (Triple.session x.2)
                      = CourseSession.session_id s) its) as ->.
        { apply list_filter_iff. tauto. }
        lia.
      + rewrite filter_none; [cbn; lia|].
        intros [i t] Hit [<- _].
        apply elem_of_indexed_from in Hit as [_ Ht].
        apply elem_of_all_triples in Ht as (Hs & _). destruct Hk.
        apply list_elem_of_fmap. by exists (Triple.session t). }
  etrans; [|exact Htrues].
  rewrite <- (length_map (λ it : nat * Triple.t, Triple.key it.2) trues).
  apply submseteq_length, NoDup_submseteq.
  - unfold decode, PyDict.items.
    assert (∀ d : PyDict.t ScheduleAssignment.t cp_model.IntVar,
      flat_map (λ item : ScheduleAssignment.t * cp_model.IntVar,
        if sol (cp_model.index item.2) then [item.1] else []) d
      `sublist_of` PyDict.keys d) as Hsub.
    { induction d as [|[k v] d IHd]; cbn; [done|].
      destruct (sol _); cbn; [by apply sublist_skip|by apply sublist_cons]. }
    eapply sublist_NoDup; [|apply Hsub].
    apply (NoDup_keys_comprehension (λ it : nat * Triple.t, Triple.key it.2) Triple.var).
  - intros k Hk. unfold decode in Hk. apply elem_of_flat_map in Hk as ([k' v] & Hin & Hk).
    cbn in Hk. destruct (sol (cp_model.index v)) eqn:Hsol; issue_cases Hk. subst k'.
    unfold PyDict.items in Hin.
    apply elem_of_get in Hin;
      [|apply (NoDup_keys_comprehension (λ it : nat * Triple.t, Triple.key it.2)
                 Triple.var)].
    change (Builder.x b)
      with (PyDict.comprehension (λ it : nat * Triple.t, Triple.key it.2) Triple.var its)
      in Hin.
    rewrite get_comprehension_fmap in Hin.
    destruct (PyDict.get _ k) as [it|] eqn:Hit; [|done]. injection Hin as <-.
    apply get_comprehension_Some in Hit as [Hit <-].
    apply list_elem_of_fmap. exists it. split; [done|].
    apply list_elem_of_filter. split; [|done]. done.
Qed.

(** ** C9: no more assignments than sessions *)

Lemma build_model_Model (data : SchedulingInput.t) (b : Builder.t)
    (used : list cp_model.IntVar) (model : cp_model.CpModel) :
  build_model data = Some (Model b used model) →
  let sessions := expand_course_sessions (SchedulingInput.courses data) in
  b = builder_from Builder.init (indexed_from 0 (all_triples data sessions))
        (cluster_counts_of PyDict.empty sessions)
  ∧ ∃ one_per_session variables cluster_constraints,
      exactly_one_constraints (Builder.vars_by_session b) sessions = inr one_per_session
      ∧ cluster_day_indicators b = (variables, cluster_constraints, used)
      ∧ model
        = cp_model.mkModel variables
            (one_per_session
             ++ at_most_one_constraints (Builder.vars_by_room_slot b)
             ++ at_most_one_constraints (Builder.vars_by_instructor_slot b)
             ++ course_day_constraints data (sorted_days (slots_by_order data)) b
             ++ instructor_day_constraints data (sorted_days (slots_by_order data)) b
             ++ cluster_constraints)
            (let terms :=
               objective_terms
                 (SolverOptions.objective_weights (SchedulingInput.options data))
                 b used in
             match terms with
             | [] => None
             | _ => Some terms
             end).
Proof.
  unfold build_model. destruct (decide _); [done|].
  destruct (foldlM _ _ _) as [b'|] eqn:Hb; [|done]. cbn.
  destruct (exactly_one_constraints _ _) as [|one_per_session] eqn:Hone; [done|].
  destruct (cluster_day_indicators b') as [[variables cluster_constraints] used'] eqn:Hc.
  intros [= <- <- <-]. split.
  - by apply add_sessions_builder in Hb.
  - by exists one_per_session, variables, cluster_constraints.
Qed.

Lemma cp_status_text_ok (status_code : cp_model.Status) :
  _cp_status_to_text status_code ∈ ["optimal"; "feasible"] →
  status_code = cp_model.OPTIMAL ∨ status_code = cp_model.FEASIBLE.
Proof.
  destruct status_code; cbn; intros Hin; try (by left); try (by right);
    apply (bool_decide_pack _) in Hin; by vm_compute in Hin.
Qed.

Lemma solve_with_cp_sat_bound (Solve : Engine) (runtime runtime' : PyFloat.float)
    (data : SchedulingInput.t) (status : string)
    (assignments : list ScheduleAssignment.t) (notes : list string) :
  engine_sound Solve →
  _solve_with_cp_sat Solve runtime data = Some (status, runtime', assignments, notes) →
  (length assignments
   ≤ length (expand_course_sessions (SchedulingInput.courses data)))%nat.
Proof.
  intros Hsound. unfold _solve_with_cp_sat.
  destruct (build_model data) as [[status' notes'|b used model]|] eqn:Hbuilt; [| |done].
  - cbn. intros [= _ _ <- _]. cbn. lia.
  - cbn. pose proof (Hsound model
      (SolverOptions.time_limit_seconds (SchedulingInput.options data))
      (SolverOptions.num_workers (SchedulingInput.options data))) as Hs.
    destruct (Solve model _ _) as [status_code sol]. cbn in Hs.
    intros [= _ _ <- _]. case_bool_decide as Hok; [|cbn; lia].
    apply cp_status_text_ok in Hok. specialize (Hs Hok).
    apply build_model_Model in Hbuilt as (Hb & one & vars & cc & Hone & _ & ->).
    rewrite Hb. apply length_decode. intros s Hs'.
    rewrite <- Hb.
    pose proof (exactly_one_constraints_elem _ _ _ Hone s Hs') as Hin.
    rewrite Forall_forall in Hs. cbn in Hs.
    apply (Hs (cp_model.SumEq
      (PyDict.get_default (Builder.vars_by_session b) (CourseSession.session_id s) [])
      1)).
    apply elem_of_app. by left.
Qed.

Lemma coverage_of_nothing (required : Z) :
  PyFloat.round
    (if decide (required ≠ 0)
     then PyFloat.mul (PyFloat.truediv 0 required) PyFloat.hundred
     else PyFloat.zero) 2
  = PyFloat.zero.
Proof.
  assert (PyFloat.truediv 0 required = 0%Q) as Hdiv by reflexivity.
  destruct (decide _); [rewrite Hdiv|]; reflexivity.
Qed.

Lemma build_result_metrics status solver_name runtime assignments notes data :
  let m := ScheduleResult.metrics
             (_build_result status solver_name runtime assignments notes data).1 in
  ScheduleMetrics.sessions_scheduled m = Z.of_nat (length assignments)
  ∧ ScheduleMetrics.sessions_required m
    = Z.of_nat (length (expand_course_sessions (SchedulingInput.courses data)))
  ∧ (ScheduleMetrics.sessions_scheduled m = 0 →
     ScheduleMetrics.coverage_pct m = PyFloat.zero).
Proof.
  cbn. split; [done|]. split; [done|]. intros Hz.
  replace (Z.of_nat (length assignments)) with 0 by lia. apply coverage_of_nothing.
Qed.

(** C9: with an engine that keeps its promise, every result that
    [solve_schedule] returns, in any mode, reports no more scheduled
    sessions than required ones, and a coverage of 0 when no session is
    scheduled. *)
Theorem scheduled_within_required (Solve : Engine) (clock : Clock.t)
    (data : SchedulingInput.t) (solver_mode : SolverMode)
    (result : ScheduleResult.t) (validation : ValidationReport.t) :
  engine_sound Solve →
  solve_schedule Solve clock data solver_mode = Some (result, validation) →
  ScheduleMetrics.sessions_scheduled (ScheduleResult.metrics result)
  ≤ ScheduleMetrics.sessions_required (ScheduleResult.metrics result)
  ∧ (ScheduleMetrics.sessions_scheduled (ScheduleResult.metrics result) = 0 →
     ScheduleMetrics.coverage_pct (ScheduleResult.metrics result) = PyFloat.zero).
Proof.
  intros Hsound Hsolve.
  assert (∀ status solver_name runtime assignments notes,
    (length assignments
     ≤ length (expand_course_sessions (SchedulingInput.courses data)))%nat →
    Some (_build_result status solver_name runtime assignments notes data)
    = Some (result, validation) →
    ScheduleMetrics.sessions_scheduled (ScheduleResult.metrics result)
    ≤ ScheduleMetrics.sessions_required (ScheduleResult.metrics result)
    ∧ (ScheduleMetrics.sessions_scheduled (ScheduleResult.metrics result) = 0 →
       ScheduleMetrics.coverage_pct (ScheduleResult.metrics result) = PyFloat.zero))
    as Hbuild.
  { intros status solver_name runtime assignments notes Hlen Hres.
    destruct (build_result_metrics status solver_name runtime assignments notes data)
      as (Hs & Hr & Hc).
    apply (inj Some) in Hres. rewrite Hres in Hs, Hr, Hc. cbn in *.
    split; [lia|done]. }
  assert (∀ out,
    solve_with_heuristic (Clock.heuristic_runtime clock) data = Some out →
    (length (HeuristicSolveOutput.assignments out)
     ≤ length (expand_course_sessions (SchedulingInput.courses data)))%nat) as Hheuristic.
  { destruct (solve_with_heuristic_run (Clock.heuristic_runtime clock) data)
      as (out' & st & Hout & Hassign & _ & _ & Hlen).
    intros out. rewrite Hout. intros [= <-]. by rewrite Hassign. }
  unfold solve_schedule in Hsolve. destruct solver_mode.
  - destruct (_solve_with_cp_sat _ _ _)
      as [[[[cp_status cp_runtime] cp_assignments] cp_notes]|] eqn:Hcp; [|done].
    pose proof (solve_with_cp_sat_bound _ _ _ _ _ _ _ Hsound Hcp) as Hcplen.
    cbn [mbind option_bind] in Hsolve.
    case_bool_decide; [exact (Hbuild _ _ _ _ _ Hcplen Hsolve)|].
    rewrite bool_decide_eq_true_2 in Hsolve by done. cbn [andb] in Hsolve.
    destruct (SolverOptions.enable_fallback _);
      [|exact (Hbuild _ _ _ _ _ Hcplen Hsolve)].
    destruct (solve_with_heuristic _ _) as [out|] eqn:Hout; [|done].
    cbn [mbind option_bind] in Hsolve.
    exact (Hbuild _ _ _ _ _ (Hheuristic out eq_refl) Hsolve).
  - destruct (_solve_with_cp_sat _ _ _)
      as [[[[cp_status cp_runtime] cp_assignments] cp_notes]|] eqn:Hcp; [|done].
    pose proof (solve_with_cp_sat_bound _ _ _ _ _ _ _ Hsound Hcp) as Hcplen.
    cbn [mbind option_bind] in Hsolve.
    case_bool_decide; [exact (Hbuild _ _ _ _ _ Hcplen Hsolve)|].
    rewrite bool_decide_eq_false_2 in Hsolve by done. cbn [andb] in Hsolve.
    exact (Hbuild _ _ _ _ _ Hcplen Hsolve).
  - destruct (solve_with_heuristic _ _) as [out|] eqn:Hout; [|done].
    cbn [mbind option_bind] in Hsolve.
    exact (Hbuild _ _ _ _ _ (Hheuristic out eq_refl) Hsolve).
Qed.

Lemma cautious_engine_sound (guess : cp_model.Solution) :
  engine_sound (Sample.cautious_engine guess).
Proof.
  intros model time_limit workers. unfold Sample.cautious_engine.
  destruct (decide _) as [Hall|_]; cbn; [done|]. by intros [?|?].
Qed.

(** On [two_courses] the exact path schedules both sessions. *)
Lemma scheduled_within_required_witness :
  let Solve := Sample.cautious_engine Sample.two_courses_guess in
  engine_sound Solve
  ∧ ∃ result validation,
      solve_schedule Solve Sample.quick_clock Sample.two_courses auto_mode
      = Some (result, validation)
      ∧ ScheduleResult.solver result = "cp_sat"
      ∧ ScheduleMetrics.sessions_scheduled (ScheduleResult.metrics result) = 2
      ∧ ScheduleMetrics.sessions_scheduled (ScheduleResult.metrics result)
        ≤ ScheduleMetrics.sessions_required (ScheduleResult.metrics result)
      ∧ (ScheduleMetrics.sessions_scheduled (ScheduleResult.metrics result) = 0 →
         ScheduleMetrics.coverage_pct (ScheduleResult.metrics result) = PyFloat.zero).
Proof.
  intros Solve.
  assert (engine_sound Solve) as Hsound by apply cautious_engine_sound.
  split; [exact Hsound|].
  assert ((λ rv : ScheduleResult.t * ValidationReport.t,
             (ScheduleResult.solver rv.1,
              ScheduleMetrics.sessions_scheduled (ScheduleResult.metrics rv.1)))
            <$> solve_schedule Solve Sample.quick_clock Sample.two_courses auto_mode
          = Some ("cp_sat", 2)) as Hvalue by (vm_compute; reflexivity).
  destruct (solve_schedule Solve Sample.quick_clock Sample.two_courses auto_mode)
    as [[result validation]|] eqn:Hsolve; [|done].
  cbn in Hvalue. injection Hvalue as Hsolver Hscheduled.
  exists result, validation. split; [done|]. split; [exact Hsolver|].
  split; [exact Hscheduled|].
  exact (scheduled_within_required Solve Sample.quick_clock Sample.two_courses
           auto_mode result validation Hsound Hsolve).
Defined.

(** ** C2: the [auto] mode *)

(** C2 (amended): a result that [solve_schedule] returns in [auto] mode
    comes about in one of three ways.  The exact path has returned a status
    [optimal] or [feasible], and its result is the final one.  Or the exact
    path has returned another status and [enable_fallback] is off, and the
    result of the exact path is built as it is.  Or the exact path has
    returned another status, [enable_fallback] is on and the heuristic has
    returned; the result then carries the heuristic's status, the solver
    name [heuristic], the heuristic's assignments sorted by session id, the
    sum of the two runtimes rounded to four decimals, and the notes: the
    line on the exact status, the exact path's notes, the heuristic's
    notes. *)
Theorem solve_schedule_auto (Solve : Engine) (clock : Clock.t)
    (data : SchedulingInput.t) (result : ScheduleResult.t)
    (validation : ValidationReport.t) :
  solve_schedule Solve clock data auto_mode = Some (result, validation) →
  ∃ cp_status cp_runtime cp_assignments cp_notes,
    _solve_with_cp_sat Solve (Clock.cp_runtime clock) data
    = Some (cp_status, cp_runtime, cp_assignments, cp_notes)
    ∧ ((cp_status ∈ ["optimal"; "feasible"]
        ∧ (result, validation)
          = _build_result cp_status "cp_sat" cp_runtime cp_assignments cp_notes data)
       ∨ (cp_status ∉ ["optimal"; "feasible"]
          ∧ SolverOptions.enable_fallback (SchedulingInput.options data) = false
          ∧ (result, validation)
            = _build_result cp_status "cp_sat" cp_runtime cp_assignments cp_notes data)
       ∨ (cp_status ∉ ["optimal"; "feasible"]
          ∧ SolverOptions.enable_fallback (SchedulingInput.options data) = true
          ∧ ∃ heuristic_output,
              solve_with_heuristic (Clock.heuristic_runtime clock) data
              = Some heuristic_output
              ∧ ScheduleResult.status result
                = HeuristicSolveOutput.status heuristic_output
              ∧ ScheduleResult.solver result = "heuristic"
              ∧ ScheduleResult.assignments result
                = sorted String.ltb ScheduleAssignment.session_id
                    (HeuristicSolveOutput.assignments heuristic_output)
              ∧ ScheduleResult.runtime_seconds result
                = PyFloat.round
                    (PyFloat.add cp_runtime
                       (HeuristicSolveOutput.runtime_seconds heuristic_output)) 4
              ∧ ScheduleResult.notes result
                = ["CP-SAT status: " +:+ cp_status
                   +:+ ". Triggering fallback heuristic."]
                  ++ cp_notes ++ HeuristicSolveOutput.notes heuristic_output
              ∧ validation
                = validate_schedule data
                    (HeuristicSolveOutput.assignments heuristic_output))).
Proof.
  unfold solve_schedule.
  destruct (_solve_with_cp_sat _ _ _)
    as [[[[cp_status cp_runtime] cp_assignments] cp_notes]|] eqn:Hcp; [|done].
  cbn [mbind option_bind]. intros Hsolve.
  exists cp_status, cp_runtime, cp_assignments, cp_notes. split; [done|].
  case_bool_decide as Hok.
  - left. split; [done|]. by apply (inj Some) in Hsolve.
  - right. rewrite bool_decide_eq_true_2 in Hsolve by done. cbn [andb] in Hsolve.
    destruct (SolverOptions.enable_fallback _) eqn:Hfallback.
    + right. split; [done|]. split; [done|].
      destruct (solve_with_heuristic _ _) as [heuristic_output|] eqn:Hout; [|done].
      cbn [mbind option_bind] in Hsolve. apply (inj Some) in Hsolve.
      exists heuristic_output. split; [done|].
      unfold _build_result in Hsolve. injection Hsolve as <- <-. done.
    + left. split; [done|]. split; [done|]. by apply (inj Some) in Hsolve.
Qed.

(** With an engine that gives up and [enable_fallback] on, the result is
    the one of the heuristic. *)
Lemma solve_schedule_auto_witness :
  let data := Sample.two_courses in
  let clock := Sample.quick_clock in
  ∃ result validation,
    solve_schedule Sample.idle_engine clock data auto_mode = Some (result, validation)
    ∧ ScheduleResult.solver result = "heuristic"
    ∧ ∃ cp_status cp_runtime cp_assignments cp_notes,
        _solve_with_cp_sat Sample.idle_engine (Clock.cp_runtime clock) data
        = Some (cp_status, cp_runtime, cp_assignments, cp_notes)
        ∧ ((cp_status ∈ ["optimal"; "feasible"]
            ∧ (result, validation)
              = _build_result cp_status "cp_sat" cp_runtime cp_assignments cp_notes
                  data)
           ∨ (cp_status ∉ ["optimal"; "feasible"]
              ∧ SolverOptions.enable_fallback (SchedulingInput.options data) = false
              ∧ (result, validation)
                = _build_result cp_status "cp_sat" cp_runtime cp_assignments cp_notes
                    data)
           ∨ (cp_status ∉ ["optimal"; "feasible"]
              ∧ SolverOptions.enable_fallback (SchedulingInput.options data) = true
              ∧ ∃ heuristic_output,
                  solve_with_heuristic (Clock.heuristic_runtime clock) data
                  = Some heuristic_output
                  ∧ ScheduleResult.status result
                    = HeuristicSolveOutput.status heuristic_output
                  ∧ ScheduleResult.solver result = "heuristic"
                  ∧ ScheduleResult.assignments result
                    = sorted String.ltb ScheduleAssignment.session_id
                        (HeuristicSolveOutput.assignments heuristic_output)
                  ∧ ScheduleResult.runtime_seconds result
                    = PyFloat.round
                        (PyFloat.add cp_runtime
                           (HeuristicSolveOutput.runtime_seconds heuristic_output)) 4
                  ∧ ScheduleResult.notes result
                    = ["CP-SAT status: " +:+ cp_status
                       +:+ ". Triggering fallback heuristic."]
                      ++ cp_notes ++ HeuristicSolveOutput.notes heuristic_output
                  ∧ validation
                    = validate_schedule data
                        (HeuristicSolveOutput.assignments heuristic_output))).
Proof.
  intros data clock.
  assert ((λ rv : ScheduleResult.t * ValidationReport.t, ScheduleResult.solver rv.1)
            <$> solve_schedule Sample.idle_engine clock data auto_mode
          = Some "heuristic") as Hvalue by (vm_compute; reflexivity).
  destruct (solve_schedule Sample.idle_engine clock data auto_mode)
    as [[result validation]|] eqn:Hsolve; [|done].
  cbn in Hvalue. injection Hvalue as Hsolver.
  exists result, validation. split; [done|]. split; [exact Hsolver|].
  exact (solve_schedule_auto Sample.idle_engine clock data result validation Hsolve).
Defined.

(** C2 as stated fails: the exact path gives up after 1/512 s, the
    heuristic takes 1/1024 s, and the result reports a runtime of 0.0029 s,
    which is not their sum, 3/1024 s = 0.0029296875 s. *)
Lemma fallback_runtime_is_rounded :
  let data := Sample.two_courses in
  let clock := Sample.quick_clock in
  SolverOptions.enable_fallback (SchedulingInput.options data) = true
  ∧ _solve_with_cp_sat Sample.idle_engine (Clock.cp_runtime clock) data
    = Some ("unknown", Clock.cp_runtime clock, [], [])
  ∧ ∃ out result validation,
      solve_with_heuristic (Clock.heuristic_runtime clock) data = Some out
      ∧ solve_schedule Sample.idle_engine clock data auto_mode
        = Some (result, validation)
      ∧ ScheduleResult.solver result = "heuristic"
      ∧ PyFloat.eqb
          (PyFloat.add (Clock.cp_runtime clock)
             (HeuristicSolveOutput.runtime_seconds out))
          (3 # 1024)%Q = true
      ∧ PyFloat.eqb (ScheduleResult.runtime_seconds result)
          (PyFloat.binary64 (29 # 10000)%Q) = true
      ∧ PyFloat.eqb (ScheduleResult.runtime_seconds result)
          (PyFloat.add (Clock.cp_runtime clock)
             (HeuristicSolveOutput.runtime_seconds out)) = false.
Proof.
  intros data clock. split; [reflexivity|]. split; [vm_compute; reflexivity|].
  eexists _, _, _. split; [vm_compute; reflexivity|].
  split; [vm_compute; reflexivity|].
  repeat split; vm_compute; reflexivity.
Qed.
(** ** C4: the breakdown and the objective of the model *)

Lemma resolve_Some (data : SchedulingInput.t) (a : ScheduleAssignment.t)
    (t : Triple.t) :
  resolve data a = Some t →
  PyDict.get (session_by_id (expand_course_sessions (SchedulingInput.courses data)))
    (ScheduleAssignment.session_id a) = Some (Triple.session t)
  ∧ PyDict.get (instructor_by_id data) (ScheduleAssignment.instructor_id a)
    = Some (Triple.instructor t)
  ∧ PyDict.get (room_by_id data) (ScheduleAssignment.room_id a) = Some (Triple.room t)
  ∧ PyDict.get (slot_by_id data) (ScheduleAssignment.time_slot_id a)
    = Some (Triple.slot t)
  ∧ TimeSlot.id (Triple.slot t) = ScheduleAssignment.time_slot_id a.
Proof.
  unfold resolve.
  destruct (PyDict.get (session_by_id _) _) as [session|]; [|done].
  destruct (PyDict.get (instructor_by_id _) _) as [instructor|]; [|done].
  destruct (PyDict.get (room_by_id _) _) as [room|]; [|done].
  destruct (PyDict.get (slot_by_id _) _) as [slot|] eqn:Hslot; [|done].
  cbn. intros [= <-]. cbn. repeat split.
  by apply get_comprehension_Some in Hslot as [_ ?].
Qed.

Lemma breakdown_step_resolved (data : SchedulingInput.t)
    (weights : ObjectiveWeights.t) (acc : Breakdown.t)
    (a : ScheduleAssignment.t) (t : Triple.t) :
  resolve data a = Some t →
  breakdown_step data weights acc a
  = Breakdown.mk
      (Breakdown.instructor_component acc
       + (if decide (Triple.instructor_preferred t)
          then 100 * ObjectiveWeights.instructor_preference weights else 0))
      (Breakdown.room_component acc
       + Triple.utilization t * ObjectiveWeights.room_efficiency weights)
      (Breakdown.priority_component acc
       + (if decide (Triple.course_preferred t)
          then CourseSession.priority (Triple.session t) * 20
               * ObjectiveWeights.course_priority weights
          else 0))
      (days_from (Breakdown.cluster_days acc) (tag_days [t]))
      (counts_from (Breakdown.cluster_counts acc) (tag_days [t])).
Proof.
  intros (Hs & Hi & Hr & Ht & Hid)%resolve_Some.
  unfold breakdown_step. rewrite Hs, Hi, Hr, Ht, <- Hid.
  rewrite nonempty_and_in_str_in. unfold str_in.
  unfold tag_days, Triple.tag. cbn [omap list_omap].
  unfold Triple.instructor_preferred, Triple.course_preferred, Triple.utilization,
    Triple.day.
  destruct (truthy_tag _) as [tag|]; cbn;
    do 2 (case_bool_decide; destruct (decide _); try done);
    f_equal; lia.
Qed.

Lemma breakdown_step_unresolved (data : SchedulingInput.t)
    (weights : ObjectiveWeights.t) (acc : Breakdown.t) (a : ScheduleAssignment.t) :
  resolve data a = None → breakdown_step data weights acc a = acc.
Proof.
  unfold resolve, breakdown_step.
  destruct (PyDict.get (session_by_id _) _) as [session|]; [|done].
  destruct (PyDict.get (instructor_by_id _) _) as [instructor|]; [|done].
  destruct (PyDict.get (room_by_id _) _) as [room|]; [|done].
  by destruct (PyDict.get (slot_by_id _) _) as [slot|].
Qed.

Lemma tag_days_cons (t : Triple.t) (placed : list Triple.t) :
  tag_days (t :: placed) = tag_days [t] ++ tag_days placed.
Proof. unfold tag_days. cbn [omap list_omap]. by destruct (_ ≫= _). Qed.

Lemma breakdown_loop (data : SchedulingInput.t) (weights : ObjectiveWeights.t)
    (assignments : list ScheduleAssignment.t) (acc : Breakdown.t) :
  let placed := omap (resolve data) assignments in
  foldl (breakdown_step data weights) acc assignments
  = Breakdown.mk
      (Breakdown.instructor_component acc
       + ObjectiveWeights.instructor_preference weights * 100
         * Z.of_nat (length (filter Triple.instructor_preferred placed)))
      (Breakdown.room_component acc
       + ObjectiveWeights.room_efficiency weights
         * sum_Z (map Triple.utilization placed))
      (Breakdown.priority_component acc
       + ObjectiveWeights.course_priority weights
         * sum_Z (map (λ t, CourseSession.priority (Triple.session t) * 20)
                    (filter Triple.course_preferred placed)))
      (days_from (Breakdown.cluster_days acc) (tag_days placed))
      (counts_from (Breakdown.cluster_counts acc) (tag_days placed)).
Proof.
  revert acc. induction assignments as [|a assignments IH]; intros acc placed.
  - destruct acc. cbn. f_equal; lia.
  - cbn [foldl]. rewrite IH. subst placed. cbn [omap list_omap].
    destruct (resolve data a) as [t|] eqn:Ht.
    + rewrite (breakdown_step_resolved _ _ _ _ _ Ht). cbn [Breakdown.instructor_component
        Breakdown.room_component Breakdown.priority_component Breakdown.cluster_days
        Breakdown.cluster_counts].
      rewrite (tag_days_cons t (omap _ _)). unfold days_from, counts_from. rewrite !foldl_app.
      rewrite !filter_cons.
      destruct (decide (Triple.instructor_preferred t));
        destruct (decide (Triple.course_preferred t));
        unfold sum_Z; cbn [map length foldr]; f_equal; lia.
    + by rewrite (breakdown_step_unresolved _ _ _ _ Ht).
Qed.

Lemma get_default_counts_from (c : PyDict.t string Z) (tds : list (string * Day))
    (tag : string) :
  PyDict.get_default (counts_from c tds) tag 0
  = PyDict.get_default c tag 0
    + Z.of_nat (length (filter (λ td : string * Day, td.1 = tag) tds)).
Proof.
  revert c. induction tds as [|td tds IH]; intros c.
  { unfold counts_from. cbn [foldl]. rewrite filter_nil. cbn [length]. lia. }
  change (counts_from c (td :: tds))
    with (counts_from (PyDict.setitem c td.1 (PyDict.get_default c td.1 0 + 1)) tds).
  rewrite IH, filter_cons. unfold PyDict.get_default at 1. rewrite get_setitem.
  destruct (decide (td.1 = tag)) as [->|]; cbn [length default]; [|done].
  fold (PyDict.get_default c tag 0). unfold id. lia.
Qed.

(** A dictionary of sets read as the dictionary of the lists of their
    elements. *)
Lemma get_fmap_values {K V W : Type} `{EqDecision K} (h : V → W)
    (d : PyDict.t K V) (k : K) :
  PyDict.get (map (prod_map id h) d) k = h <$> PyDict.get d k.
Proof.
  induction d as [|[k' v] d IH]; [done|]. cbn. by destruct (decide (k' = k)).
Qed.

Lemma setitem_fmap_values {K V W : Type} `{EqDecision K} (h : V → W)
    (d : PyDict.t K V) (k : K) (v : V) :
  PyDict.setitem (map (prod_map id h) d) k (h v)
  = map (prod_map id h) (PyDict.setitem d k v).
Proof.
  induction d as [|[k' v'] d IH]; [done|]. cbn.
  destruct (decide (k' = k)); cbn; [done|]. by rewrite IH.
Qed.

Lemma days_from_grouped (g : PyDict.t string (list Day)) (tds : list (string * Day)) :
  days_from (map (prod_map id (list_to_set (C:=gset Day))) g) tds
  = map (prod_map id (list_to_set (C:=gset Day))) (grouped fst snd g tds).
Proof.
  revert g. induction tds as [|[tag day] tds IH]; intros g; [done|].
  unfold days_from, grouped in *. cbn [foldl fst snd]. rewrite <- IH. f_equal.
  unfold dict_append, PyDict.update. rewrite <- setitem_fmap_values. f_equal.
  unfold PyDict.get_default. rewrite get_fmap_values.
  destruct (PyDict.get g tag) as [days|]; cbn; set_solver.
Qed.

Lemma size_list_to_set_NoDup {A : Type} `{Countable A} (l k : list A) :
  NoDup l → (∀ x, x ∈ l ↔ x ∈ k) → size (list_to_set k : gset A) = length l.
Proof.
  intros Hl Hlk. rewrite <- (size_list_to_set (C:=gset A) l) by done.
  f_equal. apply set_eq. intros x. rewrite !elem_of_list_to_set. by rewrite Hlk.
Qed.

Lemma sum_Z_lengths {A B : Type} (f : A → list B) (l : list A) :
  sum_Z (map (λ x, Z.of_nat (length (f x))) l) = Z.of_nat (length (flat_map f l)).
Proof.
  induction l as [|x l IH]; [done|]. cbn. rewrite length_app.
  unfold sum_Z in IH. rewrite IH. lia.
Qed.

Lemma NoDup_flat_map_by {A B K : Type} (f : A → list B) (g : B → K) (k : A → K)
    (l : list A) :
  NoDup (map k l) →
  (∀ x y, x ∈ l → y ∈ f x → g y = k x) →
  (∀ x, x ∈ l → NoDup (f x)) →
  NoDup (flat_map f l).
Proof.
  induction l as [|a l IH]; intros Hl Hg Hf; [constructor|]. cbn.
  apply NoDup_cons in Hl as [Ha Hl]. apply NoDup_app. split; [|split].
  - apply Hf, list_elem_of_here.
  - intros y Hy (x & Hx & Hyx)%elem_of_flat_map. apply Ha.
    apply list_elem_of_fmap. exists x. split; [|done].
    rewrite <- (Hg a y), <- (Hg x y); try done.
    + by apply list_elem_of_further.
    + apply list_elem_of_here.
  - apply IH; [done| |].
    + intros x y Hx. apply Hg. by apply list_elem_of_further.
    + intros x Hx. apply Hf. by apply list_elem_of_further.
Qed.

Lemma filter_fmap_values {K V W : Type} (h : V → W) (P : K → Prop)
    `{∀ k, Decision (P k)} (d : list (K * V)) :
  filter (λ item : K * W, P item.1) (map (prod_map id h) d)
  = map (prod_map id h) (filter (λ item : K * V, P item.1) d).
Proof.
  induction d as [|[k v] d IH]; [done|]. cbn [map]. rewrite !filter_cons. cbn.
  destruct (decide (P k)); cbn; by rewrite IH.
Qed.

Lemma elem_of_grouped_iff {A K V : Type} `{EqDecision K} (key : A → K)
    (val : A → V) (l : list A) (k : K) (vs : list V) :
  (k, vs) ∈ grouped key val PyDict.empty l
  ↔ vs = map val (filter (λ a, key a = k) l) ∧ ∃ a, a ∈ l ∧ key a = k.
Proof.
  split.
  - intros Hin. pose proof (elem_of_grouped key val l k vs Hin) as Hvs.
    split; [done|].
    apply elem_of_get in Hin; [|apply NoDup_keys_grouped; constructor].
    rewrite get_grouped in Hin.
    destruct (filter (λ a, key a = k) l) as [|a group] eqn:Hf; [done|].
    exists a. apply and_comm, (list_elem_of_filter (λ a, key a = k)). rewrite Hf.
    apply list_elem_of_here.
  - intros [-> (a & Ha & Hk)]. apply get_Some_elem_of. rewrite get_grouped.
    destruct (filter (λ a, key a = k) l) as [|a' group] eqn:Hf; [|done].
    assert (a ∈ filter (λ a, key a = k) l) as Hin by by apply list_elem_of_filter.
    rewrite Hf in Hin. by apply elem_of_nil in Hin.
Qed.

(** The sum of the sizes of the sets of days, over the tags that satisfy
    [P], counts the distinct (tag, day) pairs of those tags. *)
Lemma sum_sizes_grouped (P : string → Prop) `{∀ tag, Decision (P tag)}
    (tds : list (string * Day)) :
  sum_Z (map (λ item : string * gset Day, Z.of_nat (size item.2))
           (filter (λ item : string * gset Day, P item.1)
              (map (prod_map id (list_to_set (C:=gset Day)))
                 (grouped fst snd PyDict.empty tds))))
  = Z.of_nat (size (list_to_set (filter (λ td : string * Day, P td.1) tds)
                    : gset (string * Day))).
Proof.
  rewrite filter_fmap_values, map_map.
  set (G := filter (λ item : string * list Day, P item.1)
              (grouped fst snd PyDict.empty tds)).
  set (f := λ kv : string * list Day, map (pair kv.1) (remove_dups kv.2)).
  rewrite (map_ext _ (λ kv, Z.of_nat (length (f kv)))).
  2:{ intros [k vs]. cbn. unfold f. rewrite length_map. f_equal.
      apply size_list_to_set_NoDup; [apply NoDup_remove_dups|].
      intros x. apply elem_of_remove_dups. }
  rewrite sum_Z_lengths. f_equal. symmetry. apply size_list_to_set_NoDup.
  - apply (NoDup_flat_map_by f fst fst).
    + eapply sublist_NoDup; [|apply fmap_sublist, sublist_filter].
      apply (NoDup_keys_grouped fst snd PyDict.empty tds). constructor.
    + intros [k vs] [k' v] _ Hin. unfold f in Hin. cbn in Hin.
      apply list_elem_of_fmap in Hin as (v' & [= -> ->] & _). done.
    + intros [k vs] _. unfold f. cbn. apply NoDup_fmap_2; [|apply NoDup_remove_dups].
      by intros ? ? [= ->].
  - intros [k v]. rewrite elem_of_flat_map, list_elem_of_filter. cbn. split.
    + intros ([k' vs] & [HP Hin]%list_elem_of_filter & Hv). unfold f in Hv.
      cbn in *. apply list_elem_of_fmap in Hv as (v' & [= <- <-] & Hv).
      rewrite elem_of_remove_dups in Hv. split; [done|].
      apply elem_of_grouped_iff in Hin as [-> _].
      apply list_elem_of_fmap in Hv as ([k'' v''] & -> & [Hk Htd]%list_elem_of_filter).
      cbn in Hk. by subst k''.
    + intros [HP Hin].
      exists (k, map snd (filter (λ td : string * Day, td.1 = k) tds)). split.
      * apply list_elem_of_filter. split; [done|]. apply elem_of_grouped_iff.
        split; [done|]. by exists (k, v).
      * unfold f. cbn. apply list_elem_of_fmap. exists v. split; [done|].
        apply elem_of_remove_dups. apply list_elem_of_fmap. exists (k, v).
        split; [done|]. by apply list_elem_of_filter.
Qed.

Lemma cluster_penalty_units_used (data : SchedulingInput.t)
    (placed : list Triple.t) (i r p : Z) :
  (∀ tag,
     length (filter (λ td : string * Day, td.1 = tag) (tag_days placed))
     = sessions_with_tag data tag) →
  cluster_penalty_units
    (Breakdown.mk i r p (days_from PyDict.empty (tag_days placed))
       (counts_from PyDict.empty (tag_days placed)))
  = Z.of_nat (size (cluster_days_used data placed)).
Proof.
  intros Hcount. unfold cluster_penalty_units, PyDict.items.
  cbn [Breakdown.cluster_days Breakdown.cluster_counts].
  change (days_from PyDict.empty (tag_days placed))
    with (days_from (map (prod_map id (list_to_set (C:=gset Day))) PyDict.empty)
            (tag_days placed)).
  rewrite days_from_grouped.
  rewrite (list_filter_iff _
    (λ item : string * gset Day, (1 < sessions_with_tag data item.1)%nat)).
  - unfold cluster_days_used.
    pose proof (sum_sizes_grouped (λ tag, (1 < sessions_with_tag data tag)%nat) (tag_days placed)) as Hs. cbv beta in Hs. unfold sum_Z in Hs. exact Hs.
  - intros [tag days]. cbn [fst]. rewrite get_default_counts_from, Hcount.
    unfold PyDict.get_default. cbn. lia.
Qed.

(** On a list of assignments that places as many sessions of each cluster
    tag as the input has, [compute_objective_breakdown] returns what the
    specification words, with [utilization] for the percentage. *)
Lemma breakdown_in_words_eq (data : SchedulingInput.t)
    (assignments : list ScheduleAssignment.t) (weights : ObjectiveWeights.t) :
  (∀ tag,
     length (filter (λ td : string * Day, td.1 = tag)
               (tag_days (omap (resolve data) assignments)))
     = sessions_with_tag data tag) →
  compute_objective_breakdown data assignments weights
  = breakdown_in_words utilization data assignments weights.
Proof.
  intros Hcount. unfold compute_objective_breakdown, breakdown_in_words.
  rewrite breakdown_loop.
  cbn [Breakdown.instructor_component Breakdown.room_component
       Breakdown.priority_component Breakdown.init].
  rewrite (cluster_penalty_units_used data _ _ _ _ Hcount).
  change (map Triple.utilization (omap (resolve data) assignments))
    with (map (λ t, utilization (CourseSession.enrollment (Triple.session t))
                      (Room.capacity (Triple.room t)))
            (omap (resolve data) assignments)).
  repeat (f_equal; try lia).
Qed.

Lemma NoDup_fmap_inj_on {A K : Type} (f : A → K) (l : list A) (x y : A) :
  NoDup (map f l) → x ∈ l → y ∈ l → f x = f y → x = y.
Proof.
  induction l as [|a l IH]; intros Hl Hx Hy Hxy; [by apply elem_of_nil in Hx|].
  cbn in Hl. apply NoDup_cons in Hl as [Ha Hl].
  apply elem_of_cons in Hx as [->|Hx]; apply elem_of_cons in Hy as [->|Hy].
  - done.
  - destruct Ha. rewrite Hxy. apply list_elem_of_fmap. by exists y.
  - destruct Ha. rewrite <- Hxy. apply list_elem_of_fmap. by exists x.
  - by apply IH.
Qed.

Lemma get_comprehension_NoDup {A K : Type} `{EqDecision K} (key : A → K)
    (l : list A) (x : A) :
  NoDup (map key l) → x ∈ l →
  PyDict.get (PyDict.comprehension key id l) (key x) = Some x.
Proof.
  intros Hl Hx.
  destruct (get_comprehension_is_Some key id l x Hx) as [x' Hx'].
  rewrite Hx'. f_equal. apply get_comprehension_Some in Hx' as [Hin Hk].
  by apply (NoDup_fmap_inj_on key l).
Qed.

Lemma map_snd_indexed_from {A : Type} (n : nat) (l : list A) :
  map snd (indexed_from n l) = l.
Proof.
  revert n. induction l as [|x l IH]; intros n; [done|]. cbn. by rewrite IH.
Qed.

Lemma NoDup_slots_by_order (data : SchedulingInput.t) :
  NoDup (map TimeSlot.id (SchedulingInput.time_slots data)) →
  NoDup (map TimeSlot.id (slots_by_order data)).
Proof.
  intros Hslots. unfold slots_by_order.
  by rewrite (sorted_Permutation Z.ltb TimeSlot.order).
Qed.

Section distinct_ids.
Variable data : SchedulingInput.t.
Let sessions := expand_course_sessions (SchedulingInput.courses data).
Hypothesis courses_distinct : NoDup (map Course.id (SchedulingInput.courses data)).
Hypothesis rooms_distinct : NoDup (map Room.id (SchedulingInput.rooms data)).
Hypothesis slots_distinct : NoDup (map TimeSlot.id (SchedulingInput.time_slots data)).

Lemma sessions_distinct : NoDup (map CourseSession.session_id sessions).
Proof.
  unfold sessions. rewrite expand_course_sessions_flat_map.
  by apply NoDup_session_ids.
Qed.

Lemma NoDup_session_triples (instructor : Instructor.t) (session : CourseSession.t) :
  NoDup (session_triples data instructor session).
Proof.
  unfold session_triples.
  apply (NoDup_flat_map_by _ (λ t, Room.id (Triple.room t)) Room.id);
    [done| |].
  - intros room t _ Ht. repeat (destruct (_ : bool); [by apply elem_of_nil in Ht|]).
    apply elem_of_flat_map in Ht as (slot & _ & Ht).
    repeat (destruct (negb _); [by apply elem_of_nil in Ht|]).
    by apply list_elem_of_singleton in Ht as ->.
  - intros room _. repeat (destruct (_ : bool); [constructor|]).
    apply (NoDup_flat_map_by _ (λ t, TimeSlot.id (Triple.slot t)) TimeSlot.id).
    + by apply NoDup_slots_by_order.
    + intros slot t _ Ht.
      repeat (destruct (negb _); [by apply elem_of_nil in Ht|]).
      by apply list_elem_of_singleton in Ht as ->.
    + intros slot _. repeat (destruct (negb _); [constructor|]).
      apply NoDup_singleton.
Qed.

Lemma elem_of_session_triples (instructor : Instructor.t)
    (session : CourseSession.t) (t : Triple.t) :
  t ∈ session_triples data instructor session →
  Triple.session t = session ∧ Triple.instructor t = instructor.
Proof.
  unfold session_triples. intros (room & _ & Ht)%elem_of_flat_map.
  repeat (destruct (_ : bool); [by apply elem_of_nil in Ht|]).
  apply elem_of_flat_map in Ht as (slot & _ & Ht).
  repeat (destruct (negb _); [by apply elem_of_nil in Ht|]).
  by apply list_elem_of_singleton in Ht as ->.
Qed.

Lemma NoDup_all_triples : NoDup (all_triples data sessions).
Proof.
  unfold all_triples.
  apply (NoDup_flat_map_by _
    (λ t, CourseSession.session_id (Triple.session t)) CourseSession.session_id).
  - apply sessions_distinct.
  - intros session t _ Ht. destruct (PyDict.get _ _); [|by apply elem_of_nil in Ht].
    by apply elem_of_session_triples in Ht as [-> _].
  - intros session _. destruct (PyDict.get _ _); [|constructor].
    apply NoDup_session_triples.
Qed.

Lemma resolve_key (t : Triple.t) :
  t ∈ all_triples data sessions → resolve data (Triple.key t) = Some t.
Proof.
  intros (Hs & Hi & Hr & Ht)%elem_of_all_triples. unfold resolve, Triple.key.
  cbn [ScheduleAssignment.session_id ScheduleAssignment.instructor_id
       ScheduleAssignment.room_id ScheduleAssignment.time_slot_id].
  unfold session_by_id, room_by_id, slot_by_id.
  rewrite (get_comprehension_NoDup CourseSession.session_id _ _ sessions_distinct Hs).
  cbn [mbind option_bind]. rewrite Hi. cbn [mbind option_bind].
  rewrite (get_comprehension_NoDup Room.id _ _ rooms_distinct Hr).
  cbn [mbind option_bind].
  rewrite (get_comprehension_NoDup TimeSlot.id _ _ slots_distinct Ht).
  cbn [mbind option_bind]. by destruct t.
Qed.

Lemma key_inj (t1 t2 : Triple.t) :
  t1 ∈ all_triples data sessions → t2 ∈ all_triples data sessions →
  Triple.key t1 = Triple.key t2 → t1 = t2.
Proof.
  intros H1%resolve_key H2%resolve_key Hkey. rewrite Hkey in H1. congruence.
Qed.

Lemma NoDup_keys_all_triples : NoDup (map Triple.key (all_triples data sessions)).
Proof.
  apply NoDup_fmap_2_strong; [|apply NoDup_all_triples].
  intros t1 t2. apply key_inj.
Qed.

End distinct_ids.

Lemma omap_fmap_Some {A B : Type} (f : B → option A) (g : A → B) (l : list A) :
  (∀ x, x ∈ l → f (g x) = Some x) → omap f (map g l) = l.
Proof.
  induction l as [|x l IH]; intros Hl; [done|]. cbn [map omap list_omap].
  rewrite (Hl x (list_elem_of_here _ _)). f_equal. apply IH.
  intros y Hy. apply Hl. by apply list_elem_of_further.
Qed.

Lemma NoDup_fmap_at_most_one {A K : Type} `{EqDecision K} (f : A → K) (l : list A) :
  (∀ k, (length (filter (λ x, f x = k) l) ≤ 1)%nat) → NoDup (map f l).
Proof.
  induction l as [|a l IH]; intros Hone; [constructor|]. cbn. apply NoDup_cons. split.
  - intros (x & Hfx & Hx)%list_elem_of_fmap. specialize (Hone (f a)).
    rewrite filter_cons in Hone. destruct (decide (f a = f a)); [|done].
    cbn in Hone.
    assert (x ∈ filter (λ x, f x = f a) l) as Hin by by apply list_elem_of_filter.
    destruct (filter (λ x, f x = f a) l); [by apply elem_of_nil in Hin|].
    cbn in Hone. lia.
  - apply IH. intros k. specialize (Hone k). rewrite filter_cons in Hone.
    destruct (decide (f a = k)); cbn in Hone; lia.
Qed.

(** The triples whose variable is true. *)
Lemma decode_builder_from (data : SchedulingInput.t)
    (sessions : list CourseSession.t) (counts : PyDict.t string Z)
    (sol : cp_model.Solution) :
  let its := indexed_from 0 (all_triples data sessions) in
  NoDup (map Triple.key (all_triples data sessions)) →
  decode (builder_from Builder.init its counts) sol
  = map Triple.key (map snd (filter (λ it : nat * Triple.t, sol it.1 = true) its)).
Proof.
  intros its Hkeys. unfold decode, PyDict.items.
  change (Builder.x (builder_from Builder.init its counts))
    with (PyDict.comprehension (λ it : nat * Triple.t, Triple.key it.2) Triple.var its).
  rewrite comprehension_NoDup.
  2:{ rewrite <- (map_map snd Triple.key). unfold its.
      by rewrite map_snd_indexed_from. }
  clear Hkeys. induction its as [|[i t] its' IH]; [done|].
  cbn [map flat_map]. rewrite filter_cons, IH. cbn.
  by destruct (sol i); destruct (decide _).
Qed.

Lemma one_true_per_session (data : SchedulingInput.t)
    (sessions : list CourseSession.t) (counts : PyDict.t string Z)
    (sol : cp_model.Solution) (k : string) :
  let its := indexed_from 0 (all_triples data sessions) in
  let b := builder_from Builder.init its counts in
  (∀ s, s ∈ sessions →
     cp_model.sum_vars sol
       (PyDict.get_default (Builder.vars_by_session b) (CourseSession.session_id s) [])
     = 1) →
  length (filter (λ t, CourseSession.session_id (Triple.session t) = k)
            (map snd (filter (λ it : nat * Triple.t, sol it.1 = true) its)))
  = if decide (k ∈ map CourseSession.session_id sessions) then 1%nat else 0%nat.
Proof.
  intros its b Hone.
  assert (∀ l : list (nat * Triple.t),
    length (filter (λ t, CourseSession.session_id (Triple.session t) = k)
              (map snd (filter (λ it : nat * Triple.t, sol it.1 = true) l)))
    = length (filter (λ it : nat * Triple.t, sol it.1 = true)
                (filter (λ it : nat * Triple.t,
                           CourseSession.session_id (Triple.session it.2) = k) l)))
    as Hswap.
  { induction l as [|[i t] l IH]; [done|].
    rewrite (filter_cons (λ it : nat * Triple.t, sol it.1 = true)).
    rewrite (filter_cons (λ it : nat * Triple.t,
               CourseSession.session_id (Triple.session it.2) = k)).
    cbn [fst snd].
    destruct (decide (sol i = true));
      destruct (decide (CourseSession.session_id (Triple.session t) = k));
      cbn [map]; rewrite ?filter_cons; cbn [fst snd];
      repeat (destruct (decide _); try done); cbn [length]; by rewrite IH. }
  rewrite Hswap. clear Hswap.
  destruct (decide (k ∈ map CourseSession.session_id sessions)) as [Hk|Hk].
  - apply list_elem_of_fmap in Hk as (s & -> & Hs). specialize (Hone s Hs).
    unfold b, builder_from, Builder.init in Hone.
    cbn [Builder.vars_by_session] in Hone.
    rewrite get_default_grouped, sum_vars_triples in Hone. lia.
  - rewrite (filter_none (λ it : nat * Triple.t,
               CourseSession.session_id (Triple.session it.2) = k)); [done|].
    intros [i t] Hit <-. apply elem_of_indexed_from in Hit as [_ Ht].
    apply elem_of_all_triples in Ht as (Hs & _). destruct Hk.
    apply list_elem_of_fmap. by exists (Triple.session t).
Qed.

Lemma elem_of_placed (data : SchedulingInput.t) (sessions : list CourseSession.t)
    (sol : cp_model.Solution) (t : Triple.t) :
  t ∈ map snd (filter (λ it : nat * Triple.t, sol it.1 = true)
                 (indexed_from 0 (all_triples data sessions))) →
  t ∈ all_triples data sessions.
Proof.
  intros ([i t'] & -> & [_ Hit]%list_elem_of_filter)%list_elem_of_fmap.
  by apply elem_of_indexed_from in Hit as [_ ?].
Qed.

(** With one true variable per session, the sessions placed are the
    expanded sessions, each once. *)
Lemma placed_sessions_Permutation (data : SchedulingInput.t)
    (sessions : list CourseSession.t) (counts : PyDict.t string Z)
    (sol : cp_model.Solution) :
  let its := indexed_from 0 (all_triples data sessions) in
  let b := builder_from Builder.init its counts in
  NoDup (map CourseSession.session_id sessions) →
  (∀ s, s ∈ sessions →
     cp_model.sum_vars sol
       (PyDict.get_default (Builder.vars_by_session b) (CourseSession.session_id s) [])
     = 1) →
  map Triple.session (map snd (filter (λ it : nat * Triple.t, sol it.1 = true) its))
  ≡ₚ sessions.
Proof.
  intros its b Hids Hone.
  pose proof (λ k, one_true_per_session data sessions counts sol k Hone) as Hcount.
  cbn zeta in Hcount. fold its in Hcount.
  set (placed := map snd (filter (λ it : nat * Triple.t, sol it.1 = true) its)) in *.
  apply NoDup_Permutation.
  - apply (NoDup_fmap_1 CourseSession.session_id). rewrite <- list_fmap_compose.
    apply NoDup_fmap_at_most_one. intros k. cbn. rewrite (Hcount k).
    destruct (decide _); lia.
  - by apply (NoDup_fmap_1 CourseSession.session_id).
  - intros s. split.
    + intros (t & -> & Ht)%list_elem_of_fmap. apply elem_of_placed in Ht.
      by apply elem_of_all_triples in Ht as (? & _).
    + intros Hs. specialize (Hcount (CourseSession.session_id s)).
      rewrite decide_True in Hcount by (apply list_elem_of_fmap; by exists s).
      destruct (filter _ placed) as [|t ts] eqn:Hf; [done|].
      assert (t ∈ filter (λ t, CourseSession.session_id (Triple.session t)
                               = CourseSession.session_id s) placed) as Ht.
      { rewrite Hf. apply list_elem_of_here. }
      apply list_elem_of_filter in Ht as [Hid Ht].
      apply list_elem_of_fmap. exists t. split; [|done].
      apply elem_of_placed, elem_of_all_triples in Ht as (Hin & _).
      symmetry. by apply (NoDup_fmap_inj_on CourseSession.session_id sessions).
Qed.

Lemma length_filter_tag_days (placed : list Triple.t) (tag : string) :
  length (filter (λ td : string * Day, td.1 = tag) (tag_days placed))
  = length (filter (λ s, truthy_tag (CourseSession.cluster_tag s) = Some tag)
              (map Triple.session placed)).
Proof.
  induction placed as [|t placed IH]; [done|].
  rewrite tag_days_cons, filter_app, length_app, IH. cbn [map].
  rewrite (filter_cons _ (Triple.session t)).
  unfold tag_days, Triple.tag. cbn [omap list_omap].
  destruct (truthy_tag (CourseSession.cluster_tag (Triple.session t))) as [tag'|];
    cbn [mbind option_bind].
  - rewrite filter_cons, filter_nil. cbn [fst].
    destruct (decide (tag' = tag)) as [->|Hne].
    + by rewrite decide_True.
    + rewrite decide_False by congruence. done.
  - rewrite filter_nil. by rewrite decide_False.
Qed.

(** *** The value of the objective of the model *)

Lemma eval_app (sol : cp_model.Solution) (e1 e2 : cp_model.LinearExpr) :
  cp_model.eval sol (e1 ++ e2) = cp_model.eval sol e1 + cp_model.eval sol e2.
Proof.
  unfold cp_model.eval. induction e1 as [|term e1 IH]; [done|]. cbn in *. lia.
Qed.

Lemma eval_scale (sol : cp_model.Solution) (c : Z) (e : cp_model.LinearExpr) :
  cp_model.eval sol (cp_model.scale c e) = c * cp_model.eval sol e.
Proof.
  unfold cp_model.eval, cp_model.scale.
  induction e as [|term e IH]; cbn in *; lia.
Qed.

Lemma eval_triples (sol : cp_model.Solution) (k : Triple.t → Z)
    (its : list (nat * Triple.t)) :
  cp_model.eval sol (map (λ it : nat * Triple.t, (k it.2, Triple.var it)) its)
  = sum_Z (map k (map snd (filter (λ it : nat * Triple.t, sol it.1 = true) its))).
Proof.
  unfold cp_model.eval, sum_Z. induction its as [|[i t] its IH]; [done|].
  rewrite filter_cons. cbn [map foldr fst snd]. rewrite IH.
  unfold cp_model.value. cbn [Triple.var cp_model.index fst].
  destruct (sol i); destruct (decide _); try done; cbn [map foldr snd]; lia.
Qed.

Lemma eval_indicators (sol : cp_model.Solution) (c : Z) (us : list cp_model.IntVar) :
  cp_model.eval sol (map (λ term, (c, term)) us) = c * cp_model.sum_vars sol us.
Proof.
  unfold cp_model.eval, cp_model.sum_vars.
  induction us as [|u us IH]; cbn in *; lia.
Qed.

Lemma placed_filter (sol : cp_model.Solution) (P : Triple.t → Prop)
    `{∀ t, Decision (P t)} (its : list (nat * Triple.t)) :
  map snd (filter (λ it : nat * Triple.t, sol it.1 = true)
             (filter (λ it : nat * Triple.t, P it.2) its))
  = filter P (map snd (filter (λ it : nat * Triple.t, sol it.1 = true) its)).
Proof.
  induction its as [|[i t] its IH]; [done|].
  rewrite (filter_cons (λ it : nat * Triple.t, P it.2)).
  rewrite (filter_cons (λ it : nat * Triple.t, sol it.1 = true) (i, t) its).
  cbn [fst snd].
  destruct (decide (P t)); destruct (decide (sol i = true));
    cbn [map]; rewrite ?filter_cons; cbn [fst snd];
    repeat (destruct (decide _); try done); cbn [map]; by rewrite IH.
Qed.

Lemma sum_Z_ones {A : Type} (l : list A) :
  sum_Z (map (λ _, 1) l) = Z.of_nat (length l).
Proof. unfold sum_Z. induction l as [|x l IH]; cbn in *; lia. Qed.

(** The first three groups of the objective, at a truth assignment. *)
Lemma objective_groups_eval (weights : ObjectiveWeights.t)
    (its : list (nat * Triple.t)) (counts : PyDict.t string Z)
    (used : list cp_model.IntVar) (sol : cp_model.Solution) :
  let b := builder_from Builder.init its counts in
  let placed := map snd (filter (λ it : nat * Triple.t, sol it.1 = true) its) in
  let groups := objective_groups weights b used in
  cp_model.eval sol groups.1.1.1
  = ObjectiveWeights.instructor_preference weights * 100
    * Z.of_nat (length (filter Triple.instructor_preferred placed))
  ∧ cp_model.eval sol groups.1.1.2
    = ObjectiveWeights.room_efficiency weights
      * sum_Z (map Triple.utilization placed)
  ∧ cp_model.eval sol groups.1.2
    = ObjectiveWeights.course_priority weights
      * sum_Z (map (λ t, CourseSession.priority (Triple.session t) * 20)
                 (filter Triple.course_preferred placed))
  ∧ cp_model.eval sol groups.2
    = - (ObjectiveWeights.cluster_compactness weights * 100
         * cp_model.sum_vars sol used).
Proof.
  intros b placed groups. unfold groups, objective_groups, b, builder_from.
  cbn [fst snd Builder.instructor_pref_terms Builder.room_eff_terms
       Builder.priority_terms Builder.init app].
  rewrite !eval_scale, eval_indicators.
  rewrite (eval_triples sol (λ _, 1)), (eval_triples sol Triple.utilization),
    (eval_triples sol (λ t, CourseSession.priority (Triple.session t) * 20)).
  rewrite sum_Z_ones.
  pose proof (placed_filter sol Triple.instructor_preferred its) as Hi.
  pose proof (placed_filter sol Triple.course_preferred its) as Hc.
  cbv beta in Hi, Hc. rewrite Hi, Hc. fold placed.
  repeat split; lia.
Qed.

(** *** The indicator variables of the cluster days *)

Lemma value_range (sol : cp_model.Solution) (v : cp_model.IntVar) :
  0 ≤ cp_model.value sol v ≤ 1.
Proof. unfold cp_model.value. destruct (sol _); lia. Qed.

Lemma sum_vars_cons (sol : cp_model.Solution) (v : cp_model.IntVar)
    (vs : list cp_model.IntVar) :
  cp_model.sum_vars sol (v :: vs) = cp_model.value sol v + cp_model.sum_vars sol vs.
Proof. reflexivity. Qed.

Lemma sum_vars_nonneg (sol : cp_model.Solution) (vs : list cp_model.IntVar) :
  0 ≤ cp_model.sum_vars sol vs.
Proof.
  induction vs as [|v vs IH]; [done|]. rewrite sum_vars_cons.
  pose proof (value_range sol v). lia.
Qed.

Lemma sum_vars_pos (sol : cp_model.Solution) (vs : list cp_model.IntVar) :
  0 < cp_model.sum_vars sol vs ↔ ∃ v, v ∈ vs ∧ sol (cp_model.index v) = true.
Proof.
  induction vs as [|v vs IH].
  - split; [done|]. by intros (v & ?%elem_of_nil & _).
  - rewrite sum_vars_cons. pose proof (sum_vars_nonneg sol vs) as Hvs. split.
    + intros Hpos. destruct (sol (cp_model.index v)) eqn:Hv.
      * exists v. split; [apply list_elem_of_here|done].
      * unfold cp_model.value in Hpos. rewrite Hv in Hpos.
        destruct IH as [IH _]. destruct IH as (v' & Hin & Hv'); [lia|].
        exists v'. split; [by apply list_elem_of_further|done].
    + intros (v' & [->|Hin]%elem_of_cons & Hv').
      * unfold cp_model.value. rewrite Hv'. lia.
      * pose proof (value_range sol v). destruct IH as [_ IH].
        assert (0 < cp_model.sum_vars sol vs) by (apply IH; by exists v'). lia.
Qed.

(** The constraints that tie an indicator to the variables of its day. *)
Lemma cluster_day_indicators_made (b : Builder.t) :
  let selected :=
    filter (λ item : string * Day * list cp_model.IntVar,
              ¬ PyDict.get_default (Builder.cluster_session_count b) item.1.1 0 ≤ 1)
      (PyDict.items (Builder.vars_by_cluster_day b)) in
  let made := indexed_from (length (Builder.variables b)) selected in
  cluster_day_indicators b
  = (Builder.variables b
     ++ map (λ p : nat * (string * Day * list cp_model.IntVar), used_var p.1 p.2) made,
     flat_map (λ p : nat * (string * Day * list cp_model.IntVar),
       map (λ var, cp_model.VarLe var (used_var p.1 p.2)) p.2.2
       ++ [cp_model.SumGe p.2.2 (used_var p.1 p.2)]) made,
     map (λ p : nat * (string * Day * list cp_model.IntVar), used_var p.1 p.2) made).
Proof.
  assert (∀ (items : list (string * Day * list cp_model.IntVar))
            (vars : list cp_model.IntVar) (cs : list cp_model.Constraint)
            (us : list cp_model.IntVar),
    let made :=
      indexed_from (length vars)
        (filter (λ item : string * Day * list cp_model.IntVar,
                   ¬ PyDict.get_default (Builder.cluster_session_count b) item.1.1 0 ≤ 1)
           items) in
    foldl (λ acc (item : string * Day * list cp_model.IntVar),
      let '(variables, constraints, cluster_used_day_vars) := acc in
      let '(cluster_tag, day, day_vars) := item in
      if bool_decide (PyDict.get_default (Builder.cluster_session_count b) cluster_tag 0 ≤ 1)
      then acc
      else
        let used_var :=
          cp_model.mkVar (length variables)
            (replace_colon ("cluster_" +:+ cluster_tag +:+ "_" +:+ Day_str day)) in
        (variables ++ [used_var],
         constraints ++ map (λ var, cp_model.VarLe var used_var) day_vars
                     ++ [cp_model.SumGe day_vars used_var],
         cluster_used_day_vars ++ [used_var]))
      (vars, cs, us) items
    = (vars ++ map (λ p : nat * (string * Day * list cp_model.IntVar),
                      used_var p.1 p.2) made,
       cs ++ flat_map (λ p : nat * (string * Day * list cp_model.IntVar),
               map (λ var, cp_model.VarLe var (used_var p.1 p.2)) p.2.2
               ++ [cp_model.SumGe p.2.2 (used_var p.1 p.2)]) made,
       us ++ map (λ p : nat * (string * Day * list cp_model.IntVar),
                    used_var p.1 p.2) made)) as Hloop.
  { induction items as [|[[tag day] dvs] items IH]; intros vars cs us made.
    - cbn. by rewrite !app_nil_r.
    - subst made. cbn [foldl]. rewrite filter_cons. cbn [fst snd].
      case_bool_decide as Hcount.
      + rewrite decide_False by tauto. apply IH.
      + rewrite decide_True by done. rewrite IH.
        rewrite length_app, Nat.add_1_r. cbn [indexed_from map flat_map fst snd].
        unfold used_var at 1 3 5. cbn [fst snd].
        by rewrite <- !app_assoc. }
  intros selected made. unfold cluster_day_indicators. by rewrite Hloop.
Qed.

Lemma used_values (sol : cp_model.Solution) (n : nat)
    (selected : list (string * Day * list cp_model.IntVar)) :
  Forall (cp_model.holds sol)
    (flat_map (λ p : nat * (string * Day * list cp_model.IntVar),
       map (λ var, cp_model.VarLe var (used_var p.1 p.2)) p.2.2
       ++ [cp_model.SumGe p.2.2 (used_var p.1 p.2)]) (indexed_from n selected)) →
  cp_model.sum_vars sol
    (map (λ p : nat * (string * Day * list cp_model.IntVar), used_var p.1 p.2)
       (indexed_from n selected))
  = Z.of_nat (length (filter (λ item : string * Day * list cp_model.IntVar,
                                0 < cp_model.sum_vars sol item.2) selected)).
Proof.
  revert n. induction selected as [|item selected IH]; intros n; [done|].
  cbn [indexed_from flat_map map fst snd]. rewrite sum_vars_cons, filter_cons.
  intros [[Hle [Hge _]%Forall_cons]%Forall_app Hrest]%Forall_app.
  rewrite (IH _ Hrest).
  change (cp_model.value sol (used_var n item) ≤ cp_model.sum_vars sol item.2) in Hge.
  pose proof (value_range sol (used_var n item)) as Hrange.
  destruct (decide (0 < cp_model.sum_vars sol item.2)) as [Hpos|Hzero].
  - apply sum_vars_pos in Hpos as (v & Hv & Htrue).
    rewrite Forall_forall in Hle.
    specialize (Hle (cp_model.VarLe v (used_var n item))). cbn in Hle.
    unfold cp_model.value at 1 in Hle. rewrite Htrue in Hle.
    assert (1 ≤ cp_model.value sol (used_var n item)).
    { apply Hle. apply list_elem_of_fmap. by exists v. }
    cbn [length]. lia.
  - pose proof (sum_vars_nonneg sol item.2). lia.
Qed.

Lemma get_default_cluster_counts_of (counts : PyDict.t string Z)
    (sessions : list CourseSession.t) (tag : string) :
  PyDict.get_default (cluster_counts_of counts sessions) tag 0
  = PyDict.get_default counts tag 0
    + Z.of_nat (length (filter (λ s, truthy_tag (CourseSession.cluster_tag s) = Some tag)
                          sessions)).
Proof.
  revert counts. induction sessions as [|s sessions IH]; intros counts.
  { unfold cluster_counts_of. cbn [foldl]. rewrite filter_nil. cbn [length]. lia. }
  unfold cluster_counts_of in *. cbn [foldl]. rewrite IH, filter_cons.
  destruct (truthy_tag (CourseSession.cluster_tag s)) as [tag'|]; [|by rewrite decide_False].
  unfold PyDict.get_default at 1. rewrite get_update.
  destruct (decide (tag' = tag)) as [->|Hne].
  - rewrite decide_True by done. cbn [length default]. unfold id. lia.
  - rewrite decide_False by congruence. done.
Qed.

Lemma elem_of_tag_days_placed (sol : cp_model.Solution)
    (its : list (nat * Triple.t)) (tag : string) (day : Day) :
  (tag, day) ∈ tag_days (map snd (filter (λ it : nat * Triple.t, sol it.1 = true) its))
  ↔ ∃ it : nat * Triple.t,
      it ∈ its ∧ sol it.1 = true ∧ Triple.tag it.2 = Some tag ∧ Triple.day it.2 = day.
Proof.
  unfold tag_days. rewrite list_elem_of_omap. split.
  - intros (t & ([i t'] & -> & [Hsol Hit]%list_elem_of_filter)%list_elem_of_fmap & Ht).
    cbn [snd] in Ht. destruct (Triple.tag t') as [tag'|] eqn:Htag; [|done].
    cbn in Ht. injection Ht as -> <-. by exists (i, t').
  - intros ([i t] & Hit & Hsol & Htag & Hday). cbn [fst snd] in *. exists t. split.
    + apply list_elem_of_fmap. exists (i, t). split; [done|].
      by apply list_elem_of_filter.
    + rewrite Htag. cbn. by rewrite Hday.
Qed.

Lemma elem_of_tagged (its : list (nat * Triple.t)) (tag : string)
    (it : nat * Triple.t) :
  (tag, it) ∈ tagged its ↔ it ∈ its ∧ Triple.tag it.2 = Some tag.
Proof.
  unfold tagged. rewrite list_elem_of_omap. split.
  - intros (it' & Hin & Hsome). destruct (Triple.tag it'.2) as [tag'|] eqn:Htag; [|done].
    cbn in Hsome. injection Hsome as -> ->. done.
  - intros [Hin Htag]. exists it. split; [done|]. rewrite Htag. done.
Qed.

(** The indicators that are true count the distinct (tag, day) pairs in
    use, for the tags with more than one session. *)
Lemma length_used_days (data : SchedulingInput.t) (sol : cp_model.Solution)
    (its : list (nat * Triple.t)) :
  let sessions := expand_course_sessions (SchedulingInput.courses data) in
  let b := builder_from Builder.init its (cluster_counts_of PyDict.empty sessions) in
  let placed := map snd (filter (λ it : nat * Triple.t, sol it.1 = true) its) in
  length (filter (λ item : string * Day * list cp_model.IntVar,
                    0 < cp_model.sum_vars sol item.2)
            (filter (λ item : string * Day * list cp_model.IntVar,
                       ¬ PyDict.get_default (Builder.cluster_session_count b) item.1.1 0 ≤ 1)
               (PyDict.items (Builder.vars_by_cluster_day b))))
  = size (cluster_days_used data placed).
Proof.
  intros sessions b placed. rewrite list_filter_filter. unfold PyDict.items.
  set (G := Builder.vars_by_cluster_day b).
  match goal with |- length ?l = _ => pose (F := l); change (length F = size (cluster_days_used data placed)) end.
  rewrite <- (length_map fst F). symmetry.
  unfold cluster_days_used. apply size_list_to_set_NoDup.
  - eapply sublist_NoDup; [|apply fmap_sublist, sublist_filter].
    apply (NoDup_keys_grouped
      (λ tit : string * (nat * Triple.t), (tit.1, Triple.day tit.2.2))
      (λ tit, Triple.var tit.2) PyDict.empty (tagged its)). constructor.
  - intros [tag day]. rewrite list_elem_of_filter. cbn [fst].
    unfold placed. rewrite elem_of_tag_days_placed.
    assert (∀ dvs, (tag, day, dvs) ∈ F ↔
      (tag, day, dvs) ∈ G ∧ 0 < cp_model.sum_vars sol dvs
      ∧ (1 < sessions_with_tag data tag)%nat) as HF.
    { intros dvs. unfold F. rewrite list_elem_of_filter. cbn [fst snd].
      unfold b, builder_from. cbn [Builder.cluster_session_count].
      rewrite get_default_cluster_counts_of. unfold PyDict.get_default at 1.
      cbn [PyDict.get PyDict.empty default]. fold sessions.
      unfold sessions_with_tag. fold sessions. split.
      - intros [[? ?] ?]. repeat split; [done|done|lia].
      - intros (? & ? & ?). repeat split; [done|lia|done]. }
    assert (∀ dvs, (tag, day, dvs) ∈ G →
      (0 < cp_model.sum_vars sol dvs ↔
       ∃ it : nat * Triple.t,
         it ∈ its ∧ sol it.1 = true ∧ Triple.tag it.2 = Some tag
         ∧ Triple.day it.2 = day)) as HG.
    { intros dvs Hin. unfold G, b, builder_from in Hin.
      cbn [Builder.vars_by_cluster_day Builder.init] in Hin.
      apply elem_of_grouped_iff in Hin as [-> _]. rewrite sum_vars_pos. split.
      - intros (v & ([tag' it] & -> & [Hkey Hit]%list_elem_of_filter)%list_elem_of_fmap
                & Hsol).
        cbn [fst snd] in *. injection Hkey as -> <-.
        apply elem_of_tagged in Hit as [Hit Htag]. by exists it.
      - intros (it & Hit & Hsol & Htag & Hday). exists (Triple.var it). split; [|done].
        apply list_elem_of_fmap. exists (tag, it). split; [done|].
        apply list_elem_of_filter. cbn [fst snd]. split; [by rewrite Hday|].
        by apply elem_of_tagged. }
    split.
    + intros ([[tag' day'] dvs] & [= <- <-] & Hin)%list_elem_of_fmap.
      apply HF in Hin as (Hin & Hpos & Hmany). split; [done|]. by apply (HG dvs).
    + intros [Hmany (it & Hit & Hsol & Htag & Hday)].
      set (dvs := map (λ tit : string * (nat * Triple.t), Triple.var tit.2)
                    (filter (λ tit : string * (nat * Triple.t),
                               (tit.1, Triple.day tit.2.2) = (tag, day))
                       (tagged its))).
      assert ((tag, day, dvs) ∈ G) as Hin.
      { unfold G, b, builder_from. cbn [Builder.vars_by_cluster_day Builder.init].
        apply elem_of_grouped_iff. split; [done|]. exists (tag, it).
        split; [by apply elem_of_tagged|]. cbn [fst snd]. by rewrite Hday. }
      apply list_elem_of_fmap. exists (tag, day, dvs). split; [done|].
      apply HF. split; [done|]. split; [|done]. apply (HG dvs Hin). by exists it.
Qed.

Lemma sum_Z_Permutation (l l' : list Z) : l ≡ₚ l' → sum_Z l = sum_Z l'.
Proof.
  unfold sum_Z. induction 1 as [|x l l' _ IH|x y l|l l' l'' _ IH1 _ IH2]; cbn; lia.
Qed.

Lemma cluster_days_used_Permutation (data : SchedulingInput.t)
    (placed placed' : list Triple.t) :
  placed ≡ₚ placed' → cluster_days_used data placed = cluster_days_used data placed'.
Proof.
  intros Hperm. unfold cluster_days_used. apply set_eq. intros td.
  rewrite !elem_of_list_to_set, !list_elem_of_filter. unfold tag_days.
  by rewrite Hperm.
Qed.

(** For distinct ids, the records decoded from a truth assignment name the
    combinations whose variable is true. *)
Lemma resolve_decode (data : SchedulingInput.t) (b : Builder.t)
    (used : list cp_model.IntVar) (model : cp_model.CpModel)
    (sol : cp_model.Solution) :
  NoDup (map Course.id (SchedulingInput.courses data)) →
  NoDup (map Room.id (SchedulingInput.rooms data)) →
  NoDup (map TimeSlot.id (SchedulingInput.time_slots data)) →
  build_model data = Some (Model b used model) →
  decode b sol = map Triple.key (true_triples data sol)
  ∧ omap (resolve data) (decode b sol) = true_triples data sol.
Proof.
  intros Hcourses Hrooms Hslots Hbuilt.
  apply build_model_Model in Hbuilt as (Hb & _).
  assert (decode b sol = map Triple.key (true_triples data sol)) as Hdecode.
  { rewrite Hb. apply decode_builder_from. by apply NoDup_keys_all_triples. }
  split; [done|]. rewrite Hdecode. apply omap_fmap_Some.
  intros t Ht%elem_of_placed. by apply resolve_key.
Qed.

(** For distinct ids, the records decoded from a truth assignment that
    satisfies the constraints of the model cover exactly the expanded
    sessions, with all referenced ids existing. *)
Lemma decoded_assignments_cover (data : SchedulingInput.t) (b : Builder.t)
    (used : list cp_model.IntVar) (model : cp_model.CpModel)
    (sol : cp_model.Solution) :
  NoDup (map Course.id (SchedulingInput.courses data)) →
  NoDup (map Room.id (SchedulingInput.rooms data)) →
  NoDup (map TimeSlot.id (SchedulingInput.time_slots data)) →
  build_model data = Some (Model b used model) →
  Forall (cp_model.holds sol) (cp_model.constraints model) →
  Forall (λ a, is_Some (resolve data a)) (decode b sol)
  ∧ map Triple.session (omap (resolve data) (decode b sol))
    ≡ₚ expand_course_sessions (SchedulingInput.courses data).
Proof.
  intros Hcourses Hrooms Hslots Hbuilt Hholds.
  destruct (resolve_decode data b used model sol Hcourses Hrooms Hslots Hbuilt)
    as [Hdecode Hplaced].
  apply build_model_Model in Hbuilt as (Hb & one & vars & cc & Hone & Hc & ->).
  set (sessions := expand_course_sessions (SchedulingInput.courses data)) in *.
  cbn [cp_model.constraints] in Hholds.
  apply Forall_app in Hholds as [Hones _].
  split.
  - rewrite Hdecode. apply Forall_forall. intros a (t & -> & Ht)%list_elem_of_fmap.
    apply elem_of_placed in Ht. exists t. by apply resolve_key.
  - rewrite Hplaced.
    apply (placed_sessions_Permutation data sessions
             (cluster_counts_of PyDict.empty sessions) sol);
      [by apply sessions_distinct|].
    intros s Hs. rewrite <- Hb. rewrite Forall_forall in Hones.
    apply (Hones (cp_model.SumEq
      (PyDict.get_default (Builder.vars_by_session b) (CourseSession.session_id s) [])
      1)).
    by apply (exactly_one_constraints_elem _ _ _ Hone).
Qed.

(** C4 (amended): take an input and an assignment list that covers exactly
    the expanded sessions with all referenced ids existing: every record
    names a session, an instructor, a room and a time slot of the input, and
    the sessions named are the expanded sessions, each once.  Then, for any
    weights, [compute_objective_breakdown] returns the four components and
    the total of the specification, with [int((enrollment / capacity) * 100)]
    in binary64 arithmetic for the share of the room that a session fills:
    100 times the instructor weight per assignment on an instructor-preferred
    slot, the room weight times that share per assignment, the priority
    weight times priority times 20 per assignment on a course-preferred
    slot, minus 100 times the cluster weight per distinct day used by each
    cluster tag with more than one session.  With the weights of the input,
    these are the values of the four groups and of the whole objective that
    [_solve_with_cp_sat] emits, at every truth assignment whose true decision
    variables are the combinations that the records name and whose
    cluster-day indicators satisfy the constraints that tie them to the
    variables of their day; no other constraint of the model is asked of it.
    For distinct course, room and time-slot ids, these are the truth
    assignments from which the loop over [x.items()] decodes the list. *)
Theorem objective_breakdown_matches_model (data : SchedulingInput.t)
    (assignments : list ScheduleAssignment.t) :
  Forall (λ a, is_Some (resolve data a)) assignments →
  map Triple.session (omap (resolve data) assignments)
  ≡ₚ expand_course_sessions (SchedulingInput.courses data) →
  (∀ weights,
     compute_objective_breakdown data assignments weights
     = breakdown_in_words utilization data assignments weights)
  ∧ (∀ b used model sol,
       build_model data = Some (Model b used model) →
       omap (resolve data) assignments ≡ₚ true_triples data sol →
       Forall (cp_model.holds sol) (cluster_day_indicators b).1.2 →
       let weights := SolverOptions.objective_weights (SchedulingInput.options data) in
       let groups := objective_groups weights b used in
       compute_objective_breakdown data assignments weights
       = [ ("instructor_preference", PyFloat.of_int (cp_model.eval sol groups.1.1.1));
           ("room_efficiency", PyFloat.of_int (cp_model.eval sol groups.1.1.2));
           ("course_priority", PyFloat.of_int (cp_model.eval sol groups.1.2));
           ("cluster_compactness", PyFloat.of_int (cp_model.eval sol groups.2));
           ("total",
            PyFloat.of_int
              (cp_model.eval sol (default [] (cp_model.objective model)))) ])
  ∧ (∀ b used model sol,
       NoDup (map Course.id (SchedulingInput.courses data)) →
       NoDup (map Room.id (SchedulingInput.rooms data)) →
       NoDup (map TimeSlot.id (SchedulingInput.time_slots data)) →
       build_model data = Some (Model b used model) →
       decode b sol ≡ₚ assignments →
       omap (resolve data) assignments ≡ₚ true_triples data sol).
Proof.
  intros _ Hcover.
  assert (∀ weights,
            compute_objective_breakdown data assignments weights
            = breakdown_in_words utilization data assignments weights) as Hwords.
  { intros weights. apply breakdown_in_words_eq. intros tag.
    rewrite length_filter_tag_days. unfold sessions_with_tag. by rewrite Hcover. }
  split; [exact Hwords|]. split.
  - intros b used model sol Hbuilt Hnamed Hindicators weights groups.
    apply build_model_Model in Hbuilt as (Hb & one & vars & cc & Hone & Hc & ->).
    set (sessions := expand_course_sessions (SchedulingInput.courses data)) in *.
    set (its := indexed_from 0 (all_triples data sessions)) in *.
    set (counts := cluster_counts_of PyDict.empty sessions) in *.
    set (placed := true_triples data sol) in *.
    rewrite Hc in Hindicators. cbn [fst snd] in Hindicators.
    assert (cp_model.sum_vars sol used
            = Z.of_nat (size (cluster_days_used data placed))) as Hused.
    { rewrite cluster_day_indicators_made in Hc. injection Hc as _ <- <-.
      rewrite (used_values sol _ _ Hindicators). f_equal. rewrite Hb.
      apply (length_used_days data sol its). }
    rewrite Hwords. unfold breakdown_in_words.
    rewrite (cluster_days_used_Permutation data _ _ Hnamed).
    rewrite (sum_Z_Permutation
               (map (λ t, utilization (CourseSession.enrollment (Triple.session t))
                            (Room.capacity (Triple.room t)))
                  (omap (resolve data) assignments))
               (map Triple.utilization placed)) by (by rewrite Hnamed).
    rewrite (sum_Z_Permutation
               (map (λ t, CourseSession.priority (Triple.session t) * 20)
                  (filter Triple.course_preferred (omap (resolve data) assignments)))
               (map (λ t, CourseSession.priority (Triple.session t) * 20)
                  (filter Triple.course_preferred placed))) by (by rewrite Hnamed).
    assert (length (filter Triple.instructor_preferred
                      (omap (resolve data) assignments))
            = length (filter Triple.instructor_preferred placed)) as ->
      by (by rewrite Hnamed).
    destruct (objective_groups_eval weights its counts used sol)
      as (Hg1 & Hg2 & Hg3 & Hg4).
    change (map snd (filter (λ it : nat * Triple.t, sol it.1 = true) its))
      with placed in Hg1, Hg2, Hg3.
    rewrite <- Hb in Hg1, Hg2, Hg3, Hg4.
    fold groups in Hg1, Hg2, Hg3, Hg4. rewrite Hused in Hg4.
    assert (∀ terms : cp_model.LinearExpr,
      default [] (match terms with [] => None | _ :: _ => Some terms end) = terms)
      as Hdefault by (by intros []).
    cbn [cp_model.objective]. cbv zeta. rewrite Hdefault.
    unfold objective_terms. fold weights. fold groups.
    assert (cp_model.eval sol
              (let '(g1, g2, g3, g4) := groups in g1 ++ g2 ++ g3 ++ g4)
            = cp_model.eval sol groups.1.1.1 + cp_model.eval sol groups.1.1.2
              + cp_model.eval sol groups.1.2 + cp_model.eval sol groups.2) as ->.
    { destruct groups as [[[g1 g2] g3] g4]. cbn [fst snd]. rewrite !eval_app. lia. }
    rewrite Hg1, Hg2, Hg3, Hg4. done.
  - intros b used model sol Hcourses Hrooms Hslots Hbuilt Hdecode.
    rewrite <- Hdecode.
    by rewrite (proj2 (resolve_decode data b used model sol Hcourses Hrooms Hslots
                         Hbuilt)).
Qed.

(** Two lists that cover the expanded sessions and double-book a room: on
    [core_courses], both courses of the cluster in the hall on Monday; on
    [two_courses], both courses in room R101 on Monday. *)
Lemma objective_breakdown_matches_model_witness :
  (let data := Sample.core_courses in
   let assignments := Sample.core_clash in
   let sol := Sample.core_clash_guess in
   let weights := SolverOptions.objective_weights (SchedulingInput.options data) in
   Forall (λ a, is_Some (resolve data a)) assignments
   ∧ map Triple.session (omap (resolve data) assignments)
     ≡ₚ expand_course_sessions (SchedulingInput.courses data)
   ∧ ∃ b used model,
       build_model data = Some (Model b used model)
       ∧ decode b sol = assignments
       ∧ omap (resolve data) assignments ≡ₚ true_triples data sol
       ∧ Forall (cp_model.holds sol) (cluster_day_indicators b).1.2
       ∧ ¬ Forall (cp_model.holds sol) (cp_model.constraints model)
       ∧ compute_objective_breakdown data assignments weights
         = breakdown_in_words utilization data assignments weights
       ∧ compute_objective_breakdown data assignments weights
         = [ ("instructor_preference", PyFloat.of_int 0);
             ("room_efficiency", PyFloat.of_int (3 * (28 + 30)));
             ("course_priority", PyFloat.of_int (2 * (5 * 20)));
             ("cluster_compactness", PyFloat.of_int (- (4 * 100 * 1)));
             ("total", PyFloat.of_int (-26)) ]
       ∧ PyDict.get (compute_objective_breakdown data assignments weights) "total"
         = Some (PyFloat.of_int
                   (cp_model.eval sol (default [] (cp_model.objective model)))))
  ∧ (let data := Sample.two_courses in
     let assignments := [Sample.lab_record; Sample.calculus_record] in
     let sol := Sample.two_courses_clash_guess in
     let weights := SolverOptions.objective_weights (SchedulingInput.options data) in
     Forall (λ a, is_Some (resolve data a)) assignments
     ∧ map Triple.session (omap (resolve data) assignments)
       ≡ₚ expand_course_sessions (SchedulingInput.courses data)
     ∧ ∃ b used model,
         build_model data = Some (Model b used model)
         ∧ decode b sol = assignments
         ∧ PyDict.get (compute_objective_breakdown data assignments weights) "total"
           = Some (PyFloat.of_int 276)
         ∧ PyDict.get (compute_objective_breakdown data assignments weights) "total"
           = Some (PyFloat.of_int
                     (cp_model.eval sol (default [] (cp_model.objective model))))).
Proof.
  split.
  - intros data assignments sol weights.
    assert (Forall (λ a, is_Some (resolve data a)) assignments) as Hexist.
    { repeat constructor; eexists; vm_compute; reflexivity. }
    assert (map Triple.session (omap (resolve data) assignments)
            ≡ₚ expand_course_sessions (SchedulingInput.courses data)) as Hcover.
    { vm_compute. reflexivity. }
    split; [exact Hexist|]. split; [exact Hcover|].
    destruct (build_model data) as [[status notes|b used model]|] eqn:Hbuilt;
      [by vm_compute in Hbuilt| |by vm_compute in Hbuilt].
    pose proof Hbuilt as Hvalue. vm_compute in Hvalue. injection Hvalue as Hb Hu Hm.
    assert (omap (resolve data) assignments ≡ₚ true_triples data sol) as Hnamed.
    { vm_compute. reflexivity. }
    assert (Forall (cp_model.holds sol) (cluster_day_indicators b).1.2) as Hindicators.
    { rewrite <- Hb. apply (bool_decide_unpack _). vm_compute. reflexivity. }
    destruct (objective_breakdown_matches_model data assignments Hexist Hcover)
      as (Hwords & Hmodel & _).
    specialize (Hmodel b used model sol Hbuilt Hnamed Hindicators).
    exists b, used, model. split; [done|].
    split; [rewrite <- Hb; vm_compute; reflexivity|].
    split; [exact Hnamed|]. split; [exact Hindicators|].
    split.
    { rewrite <- Hm. intros Hall. apply (bool_decide_pack _) in Hall.
      vm_compute in Hall. done. }
    split; [apply Hwords|]. split; [vm_compute; reflexivity|].
    cbv zeta in Hmodel. fold weights in Hmodel. rewrite Hmodel. reflexivity.
  - intros data assignments sol weights.
    assert (Forall (λ a, is_Some (resolve data a)) assignments) as Hexist.
    { repeat constructor; eexists; vm_compute; reflexivity. }
    assert (map Triple.session (omap (resolve data) assignments)
            ≡ₚ expand_course_sessions (SchedulingInput.courses data)) as Hcover.
    { vm_compute. reflexivity. }
    split; [exact Hexist|]. split; [exact Hcover|].
    destruct (build_model data) as [[status notes|b used model]|] eqn:Hbuilt;
      [by vm_compute in Hbuilt| |by vm_compute in Hbuilt].
    pose proof Hbuilt as Hvalue. vm_compute in Hvalue. injection Hvalue as Hb Hu Hm.
    assert (omap (resolve data) assignments ≡ₚ true_triples data sol) as Hnamed.
    { vm_compute. reflexivity. }
    assert (Forall (cp_model.holds sol) (cluster_day_indicators b).1.2) as Hindicators.
    { rewrite <- Hb. apply (bool_decide_unpack _). vm_compute. reflexivity. }
    destruct (objective_breakdown_matches_model data assignments Hexist Hcover)
      as (_ & Hmodel & _).
    specialize (Hmodel b used model sol Hbuilt Hnamed Hindicators).
    exists b, used, model. split; [done|].
    split; [rewrite <- Hb; vm_compute; reflexivity|].
    split; [vm_compute; reflexivity|].
    cbv zeta in Hmodel. fold weights in Hmodel. rewrite Hmodel. reflexivity.
Defined.

(** C4 as stated fails: a session of 29 students in a room of 100 seats
    counts as [int((29 / 100) * 100) = 28] in [compute_objective_breakdown]
    and in the objective of the model, not as [floor(100 * 29 / 100) = 29]. *)
Lemma room_efficiency_not_floor :
  let data := Sample.seminar_input in
  let assignments := [Sample.seminar_record] in
  let weights := SolverOptions.objective_weights (SchedulingInput.options data) in
  map ScheduleAssignment.session_id assignments
  = map CourseSession.session_id (expand_course_sessions (SchedulingInput.courses data))
  ∧ Forall (λ a, is_Some (resolve data a)) assignments
  ∧ utilization 29 100 = 28
  ∧ floor_percentage 29 100 = 29
  ∧ PyDict.get (compute_objective_breakdown data assignments weights) "room_efficiency"
    = Some (PyFloat.of_int (3 * 28))
  ∧ PyDict.get (breakdown_in_words floor_percentage data assignments weights)
      "room_efficiency"
    = Some (PyFloat.of_int (3 * 29))
  ∧ PyFloat.eqb (PyFloat.of_int (3 * 28)) (PyFloat.of_int (3 * 29)) = false
  ∧ (∃ b used model,
       build_model data = Some (Model b used model)
       ∧ Builder.room_eff_terms b = [(28, cp_model.mkVar 0 "x_SE401__S1_H1_T1")]).
Proof.
  intros data assignments weights.
  split; [vm_compute; reflexivity|]. split.
  { apply Forall_singleton. eexists. vm_compute. reflexivity. }
  split; [vm_compute; reflexivity|]. split; [vm_compute; reflexivity|].
  split; [vm_compute; reflexivity|]. split; [vm_compute; reflexivity|].
  split; [vm_compute; reflexivity|].
  eexists _, _, _. split; vm_compute; reflexivity.
Qed.

(** * Further properties of the code *)

(** ** The validator: what a report without issues means *)

Lemma outcome_issue_level (data : SchedulingInput.t) (o : Outcome)
    (i : ValidationIssue.t) :
  i ∈ outcome_issues data o → ValidationIssue.level i = error.
Proof.
  intros Hi. destruct o as [a|a|a session]; cbn in Hi.
  - issue_cases Hi. by subst.
  - issue_cases Hi. by subst.
  - unfold record_issues, mismatch_issues, room_issues, slot_issues in Hi.
    issue_cases Hi; by subst.
Qed.

Lemma issue_level_error (data : SchedulingInput.t)
    (l : list ScheduleAssignment.t) (i : ValidationIssue.t) :
  i ∈ ValidationReport.issues (validate_schedule data l) →
  ValidationIssue.level i = error.
Proof.
  rewrite validate_schedule_issues. rewrite !elem_of_app.
  intros [Hi|[Hi|[Hi|Hi]]].
  - apply elem_of_flat_map in Hi as (o & _ & Hi). by apply outcome_issue_level in Hi.
  - by apply elem_of_room_conflict_issues in Hi as (? & ? & ? & _ & _ & ->).
  - by apply elem_of_instructor_conflict_issues in Hi as (? & ? & ? & _ & _ & ->).
  - unfold missing_session_issues in Hi.
    by apply list_elem_of_fmap in Hi as (? & -> & _).
Qed.

Lemma existsb_all {A : Type} (f : A → bool) (l : list A) :
  (∀ x, x ∈ l → f x = true) → existsb f l = negb (bool_decide (l = [])).
Proof.
  destruct l as [|x l]; [done|]. intros Hall. cbn.
  by rewrite (Hall x (list_elem_of_here _ _)).
Qed.

Lemma valid_iff_no_issue (data : SchedulingInput.t)
    (l : list ScheduleAssignment.t) :
  ValidationReport.valid (validate_schedule data l) = true
  ↔ ValidationReport.issues (validate_schedule data l) = [].
Proof.
  pose proof (issue_level_error data l) as Hlevel.
  unfold validate_schedule in *. cbn [ValidationReport.valid ValidationReport.issues] in *.
  rewrite existsb_all.
  - rewrite negb_involutive. apply bool_decide_eq_true.
  - intros i Hi. apply bool_decide_eq_true. by apply Hlevel.
Qed.

Lemma filter_all {A : Type} (P : A → Prop) `{∀ x, Decision (P x)} (l : list A) :
  (∀ x, x ∈ l → P x) → filter P l = l.
Proof.
  induction l as [|x l IH]; intros Hl; [done|]. rewrite filter_cons.
  rewrite decide_True by apply Hl, list_elem_of_here. f_equal. apply IH.
  intros y Hy. by apply Hl, list_elem_of_further.
Qed.

(** X1: every issue of a report has the level [error]; so the report is
    valid exactly when it has no issue, and [build_metrics] counts every
    issue of the report as a hard violation. *)
Theorem report_valid_iff_no_issue (data : SchedulingInput.t)
    (l : list ScheduleAssignment.t)
    (objective_breakdown : PyDict.t string PyFloat.float) :
  let report := validate_schedule data l in
  Forall (λ i, ValidationIssue.level i = error) (ValidationReport.issues report)
  ∧ (ValidationReport.valid report = true ↔ ValidationReport.issues report = [])
  ∧ ScheduleMetrics.hard_violations (build_metrics data l report objective_breakdown)
    = Z.of_nat (length (ValidationReport.issues report)).
Proof.
  intros report. split; [|split].
  - apply Forall_forall. apply issue_level_error.
  - apply valid_iff_no_issue.
  - unfold build_metrics. cbn [ScheduleMetrics.hard_violations].
    rewrite filter_all; [done|]. apply issue_level_error.
Qed.

Lemma issubset_spec (xs ys : list string) :
  issubset xs ys = true ↔ ∀ x, x ∈ xs → x ∈ ys.
Proof.
  unfold issubset. rewrite bool_decide_eq_true. split.
  - intros Hsub x Hx. apply (elem_of_list_to_set (C:=gset string)).
    apply Hsub. by apply elem_of_list_to_set.
  - intros Hsub x Hx%elem_of_list_to_set. apply elem_of_list_to_set. by apply Hsub.
Qed.

Lemma mismatch_issues_nil (session : CourseSession.t) (a : ScheduleAssignment.t) :
  mismatch_issues session a = [] ↔
  ScheduleAssignment.course_id a = CourseSession.course_id session
  ∧ ScheduleAssignment.instructor_id a = CourseSession.instructor_id session.
Proof.
  unfold mismatch_issues.
  destruct (decide (ScheduleAssignment.course_id a ≠ _)) as [Hc|Hc];
    destruct (decide (ScheduleAssignment.instructor_id a ≠ _)) as [Hi|Hi]; cbn;
    split; try done; try (intros [? ?]; done).
  intros _. split; by apply dec_stable.
Qed.

Lemma room_issues_nil (data : SchedulingInput.t) (session : CourseSession.t)
    (a : ScheduleAssignment.t) :
  room_issues data session a = [] ↔
  ∃ room,
    PyDict.get (room_by_id data) (ScheduleAssignment.room_id a) = Some room
    ∧ CourseSession.enrollment session ≤ Room.capacity room
    ∧ ∀ feature, feature ∈ CourseSession.required_features session →
        feature ∈ Room.features room.
Proof.
  unfold room_issues.
  destruct (PyDict.get (room_by_id data) _) as [room|]; [|split; [done|by intros (? & ? & _)]].
  case_bool_decide as Hcap;
    destruct (issubset _ _) eqn:Hsub; cbn; split; try done.
  - intros (room' & [= <-] & ? & _). lia.
  - intros (room' & [= <-] & ? & _). lia.
  - intros _. exists room. split; [done|]. split; [lia|]. by apply issubset_spec.
  - intros (room' & [= <-] & _ & Hall%issubset_spec). congruence.
Qed.

Lemma slot_issues_nil (data : SchedulingInput.t) (session : CourseSession.t)
    (a : ScheduleAssignment.t) :
  slot_issues data session a = [] ↔
  ∃ slot instructor,
    PyDict.get (slot_by_id data) (ScheduleAssignment.time_slot_id a) = Some slot
    ∧ PyDict.get (instructor_by_id data) (CourseSession.instructor_id session)
      = Some instructor
    ∧ (Instructor.available_time_slots instructor = []
       ∨ ScheduleAssignment.time_slot_id a ∈ Instructor.available_time_slots instructor)
    ∧ (CourseSession.allowed_time_slots session = []
       ∨ ScheduleAssignment.time_slot_id a ∈ CourseSession.allowed_time_slots session).
Proof.
  unfold slot_issues.
  destruct (PyDict.get (slot_by_id data) _) as [slot|] eqn:Hslot;
    [|split; [done|by intros (? & ? & ? & _)]].
  assert (TimeSlot.id slot = ScheduleAssignment.time_slot_id a) as Hid.
  { by apply get_comprehension_Some in Hslot as [_ ?]. }
  rewrite Hid. clear Hid.
  destruct (PyDict.get (instructor_by_id data) _) as [instructor|];
    [|split; [done|by intros (? & ? & _ & ? & _)]].
  unfold str_in.
  split.
  - intros [Havail Hallowed]%app_nil. exists slot, instructor.
    split; [done|]. split; [done|]. split.
    + destruct (Instructor.available_time_slots instructor) as [|x xs]; [by left|].
      right. by case_bool_decide.
    + destruct (CourseSession.allowed_time_slots session) as [|x xs]; [by left|].
      right. by case_bool_decide.
  - intros (slot' & instructor' & [= <-] & [= <-] & Havail & Hallowed).
    apply app_nil. split.
    + destruct (Instructor.available_time_slots instructor) as [|x xs]; [done|].
      destruct Havail as [?|Hin]; [done|]. by rewrite bool_decide_eq_true_2.
    + destruct (CourseSession.allowed_time_slots session) as [|x xs]; [done|].
      destruct Hallowed as [?|Hin]; [done|]. by rewrite bool_decide_eq_true_2.
Qed.

Lemma record_issues_nil (data : SchedulingInput.t) (session : CourseSession.t)
    (a : ScheduleAssignment.t) :
  record_issues data session a = [] ↔ record_ok data session a.
Proof.
  unfold record_issues, record_ok. split.
  - intros [Hm [Hr Hs]%app_nil]%app_nil.
    apply mismatch_issues_nil in Hm as [? ?]. apply room_issues_nil in Hr.
    apply slot_issues_nil in Hs. done.
  - intros (Hc & Hi & Hr & Hs). apply app_nil. split; [by apply mismatch_issues_nil|].
    apply app_nil. split; [by apply room_issues_nil|by apply slot_issues_nil].
Qed.

Lemma flat_map_nil_iff {A B : Type} (f : A → list B) (l : list A) :
  flat_map f l = [] ↔ ∀ x, x ∈ l → f x = [].
Proof.
  induction l as [|a l IH]; cbn.
  - split; [|done]. by intros _ x ?%elem_of_nil.
  - rewrite app_nil, IH. split.
    + intros [Ha Hl] x [->|Hx]%elem_of_cons; [done|by apply Hl].
    + intros Hl. split; [apply Hl, list_elem_of_here|].
      intros x Hx. by apply Hl, list_elem_of_further.
Qed.

Section clean_records.
Context (data : SchedulingInput.t).
Let sessions := expand_course_sessions (SchedulingInput.courses data).

Lemma classify_clean (seen : gset string) (l : list ScheduleAssignment.t) :
  flat_map (outcome_issues data) (classify data seen l) = [] →
  accepted_of (classify data seen l) = l
  ∧ ∀ a, a ∈ l →
      ∃ session,
        PyDict.get (session_by_id sessions) (ScheduleAssignment.session_id a)
        = Some session
        ∧ record_ok data session a.
Proof.
  revert seen. induction l as [|a l IH]; intros seen.
  - intros _. split; [done|]. by intros a ?%elem_of_nil.
  - cbn [classify]. fold sessions.
    destruct (PyDict.get (session_by_id sessions) _) as [session|] eqn:Hsession;
      [|done].
    destruct (decide (ScheduleAssignment.session_id a ∈ seen)); [done|].
    cbn [flat_map outcome_issues]. intros [Ha Hl]%app_nil.
    apply IH in Hl as [Haccepted Hl]. split.
    + unfold accepted_of in *. cbn [omap list_omap]. by rewrite Haccepted.
    + intros a' [->|Ha']%elem_of_cons; [|by apply Hl].
      exists session. split; [done|]. by apply record_issues_nil.
Qed.

Lemma clean_classify (seen : gset string) (l : list ScheduleAssignment.t) :
  NoDup (map ScheduleAssignment.session_id l) →
  (∀ a, a ∈ l → ScheduleAssignment.session_id a ∉ seen) →
  (∀ a, a ∈ l →
     ∃ session,
       PyDict.get (session_by_id sessions) (ScheduleAssignment.session_id a)
       = Some session
       ∧ record_ok data session a) →
  flat_map (outcome_issues data) (classify data seen l) = []
  ∧ accepted_of (classify data seen l) = l.
Proof.
  revert seen. induction l as [|a l IH]; intros seen Hids Hseen Hok; [done|].
  cbn in Hids. apply NoDup_cons in Hids as [Ha Hids].
  destruct (Hok a (list_elem_of_here _ _)) as (session & Hsession & Hrecord).
  cbn [classify]. fold sessions. rewrite Hsession.
  rewrite decide_False by (apply Hseen, list_elem_of_here).
  destruct (IH ({[ScheduleAssignment.session_id a]} ∪ seen)) as [Hissues Haccepted].
  - done.
  - intros a' Ha'. apply not_elem_of_union. split.
    + intros Heq%elem_of_singleton. apply Ha. rewrite <- Heq.
      apply list_elem_of_fmap. by exists a'.
    + by apply Hseen, list_elem_of_further.
  - intros a' Ha'. by apply Hok, list_elem_of_further.
  - cbn [flat_map outcome_issues]. rewrite Hissues. split.
    + apply app_nil. split; [by apply record_issues_nil|done].
    + unfold accepted_of in *. cbn [omap list_omap]. by rewrite Haccepted.
Qed.

End clean_records.

Lemma groups_at_most_one {A K V : Type} `{EqDecision K} (key : A → K)
    (val : A → V) (l : list A) :
  (∀ k vs, (k, vs) ∈ grouped key val PyDict.empty l → (length vs ≤ 1)%nat)
  ↔ NoDup (map key l).
Proof.
  split.
  - intros Hgroups. apply NoDup_fmap_at_most_one. intros k.
    destruct (filter (λ a, key a = k) l) as [|a group] eqn:Hf; [cbn; lia|].
    rewrite <- Hf, <- (length_map val). apply (Hgroups k).
    apply elem_of_grouped_iff. split; [done|]. exists a.
    apply and_comm, (list_elem_of_filter (λ a, key a = k)). rewrite Hf.
    apply list_elem_of_here.
  - intros Hkeys k vs [-> _]%elem_of_grouped_iff. rewrite length_map.
    by apply length_filter_key_NoDup.
Qed.

Lemma room_conflict_issues_nil (l : list ScheduleAssignment.t) :
  room_conflict_issues
    (grouped room_slot_key ScheduleAssignment.session_id PyDict.empty l) = []
  ↔ NoDup (map room_slot_key l).
Proof.
  rewrite <- (groups_at_most_one room_slot_key ScheduleAssignment.session_id).
  unfold room_conflict_issues, PyDict.items. rewrite flat_map_nil_iff. split.
  - intros Hnil k ids Hin. specialize (Hnil (k, ids) Hin). destruct k as [r t].
    cbn in Hnil. case_bool_decide; [done|lia].
  - intros Hle [[r t] ids] Hin. specialize (Hle (r, t) ids Hin).
    rewrite bool_decide_eq_false_2; [done|lia].
Qed.

Lemma instructor_conflict_issues_nil (l : list ScheduleAssignment.t) :
  instructor_conflict_issues
    (grouped instructor_slot_key ScheduleAssignment.session_id PyDict.empty l) = []
  ↔ NoDup (map instructor_slot_key l).
Proof.
  rewrite <- (groups_at_most_one instructor_slot_key ScheduleAssignment.session_id).
  unfold instructor_conflict_issues, PyDict.items. rewrite flat_map_nil_iff. split.
  - intros Hnil k ids Hin. specialize (Hnil (k, ids) Hin). destruct k as [r t].
    cbn in Hnil. case_bool_decide; [done|lia].
  - intros Hle [[r t] ids] Hin. specialize (Hle (r, t) ids Hin).
    rewrite bool_decide_eq_false_2; [done|lia].
Qed.

Lemma elem_of_sorted_strings (s : gset string) (x : string) :
  x ∈ sorted_strings s ↔ x ∈ s.
Proof.
  unfold sorted_strings. rewrite (elem_of_sorted String.ltb id). apply elem_of_elements.
Qed.

Lemma elem_of_missing_session_issues (sessions : list CourseSession.t)
    (seen : gset string) (session_id : string) :
  missing_session_issue session_id ∈ missing_session_issues sessions seen
  ↔ session_id ∈ map CourseSession.session_id sessions ∧ session_id ∉ seen.
Proof.
  unfold missing_session_issues. rewrite list_elem_of_fmap. split.
  - intros (s & Heq & Hs). apply (f_equal ValidationIssue.details) in Heq.
    injection Heq as <-. apply elem_of_sorted_strings in Hs.
    apply elem_of_difference in Hs as [Hs Hseen]. split; [|done].
    apply elem_of_list_to_set in Hs.
    by apply (keys_comprehension_subseteq CourseSession.session_id id) in Hs.
  - intros [Hs Hseen]. exists session_id. split; [done|].
    apply elem_of_sorted_strings, elem_of_difference. split; [|done].
    apply elem_of_list_to_set.
    by apply (keys_comprehension_subseteq CourseSession.session_id id).
Qed.

Lemma missing_session_issues_nil (sessions : list CourseSession.t)
    (seen : gset string) :
  missing_session_issues sessions seen = []
  ↔ ∀ session, session ∈ sessions → CourseSession.session_id session ∈ seen.
Proof.
  split.
  - intros Hnil session Hsession.
    destruct (decide (CourseSession.session_id session ∈ seen)) as [?|Hseen]; [done|].
    assert (missing_session_issue (CourseSession.session_id session)
            ∈ missing_session_issues sessions seen) as Hin.
    { apply elem_of_missing_session_issues. split; [|done].
      apply list_elem_of_fmap. by exists session. }
    rewrite Hnil in Hin. by apply elem_of_nil in Hin.
  - intros Hall. destruct (missing_session_issues sessions seen) as [|i rest] eqn:Hm; [done|].
    assert (i ∈ missing_session_issues sessions seen) as Hi.
    { rewrite Hm. apply list_elem_of_here. }
    unfold missing_session_issues in Hi.
    apply list_elem_of_fmap in Hi as (s & -> & Hs).
    assert (missing_session_issue s ∈ missing_session_issues sessions seen) as Hin.
    { rewrite Hm. apply list_elem_of_here. }
    apply elem_of_missing_session_issues in Hin as [Hknown Hseen].
    apply list_elem_of_fmap in Hknown as (session & -> & Hsession).
    destruct Hseen. by apply Hall.
Qed.

Lemma valid_meets_hard_constraints (data : SchedulingInput.t)
    (l : list ScheduleAssignment.t) :
  ValidationReport.valid (validate_schedule data l) = true
  ↔ meets_hard_constraints data l.
Proof.
  rewrite valid_iff_no_issue, validate_schedule_issues, !app_nil.
  unfold meets_hard_constraints, accepted_records. split.
  - intros (Hrecords & Hroom & Hinstructor & Hmissing).
    apply classify_clean in Hrecords as [Haccepted Hrecords].
    rewrite Haccepted in Hroom, Hinstructor, Hmissing.
    split; [|split; [|split; [|split]]].
    + rewrite <- Haccepted. apply NoDup_accepted_session_ids.
    + intros session Hsession.
      pose proof (proj1 (missing_session_issues_nil _ _) Hmissing session Hsession)
        as Hseen.
      apply elem_of_union in Hseen as [Hseen|Hseen]; [|by apply elem_of_empty in Hseen].
      by apply elem_of_list_to_set in Hseen.
    + done.
    + by apply room_conflict_issues_nil.
    + by apply instructor_conflict_issues_nil.
  - intros (Hids & Hcover & Hrecords & Hroom & Hinstructor).
    destruct (clean_classify data ∅ l Hids) as [Hissues Haccepted]; [set_solver|done|].
    rewrite Haccepted. split; [done|]. split; [by apply room_conflict_issues_nil|].
    split; [by apply instructor_conflict_issues_nil|].
    apply missing_session_issues_nil. intros session Hsession.
    apply elem_of_union. left. apply elem_of_list_to_set. by apply Hcover.
Qed.

(** X2: [validate_schedule] reports a schedule as valid exactly when every
    expanded session is named by exactly one record, every record names the
    course and instructor of its session, an existing room that seats the
    enrollment and has the required features, an existing time slot in
    which the (existing) instructor is available and which the course
    allows, and no two records share a room and slot or an instructor and
    slot. *)
Theorem validate_schedule_accepts (data : SchedulingInput.t)
    (assignments : list ScheduleAssignment.t) :
  ValidationReport.valid (validate_schedule data assignments) = true
  ↔ meets_hard_constraints data assignments.
Proof. apply valid_meets_hard_constraints. Qed.

Lemma elem_of_accepted_ids (data : SchedulingInput.t) (seen : gset string)
    (l : list ScheduleAssignment.t) (s : string) :
  s ∈ map ScheduleAssignment.session_id (accepted_of (classify data seen l))
  ↔ s ∈ map ScheduleAssignment.session_id l
    ∧ is_Some (PyDict.get
                 (session_by_id (expand_course_sessions (SchedulingInput.courses data)))
                 s)
    ∧ s ∉ seen.
Proof.
  revert seen. induction l as [|a l IH]; intros seen.
  - cbn. split; [by intros ?%elem_of_nil|by intros [?%elem_of_nil _]].
  - cbn [classify].
    destruct (PyDict.get _ (ScheduleAssignment.session_id a)) as [session|] eqn:Hsession.
    + destruct (decide (ScheduleAssignment.session_id a ∈ seen)) as [Hseen|Hseen].
      * unfold accepted_of in *. cbn [omap list_omap map]. rewrite IH.
        rewrite elem_of_cons. split; [tauto|].
        intros ([->|?] & ? & ?); [done|tauto].
      * unfold accepted_of in *. cbn [omap list_omap map]. rewrite !elem_of_cons, IH.
        rewrite not_elem_of_union, not_elem_of_singleton. split.
        -- intros [->|(? & ? & ? & ?)]; [|tauto].
           split; [by left|]. by rewrite Hsession.
        -- intros ([->|?] & ? & ?); [by left|].
           destruct (decide (s = ScheduleAssignment.session_id a)); [by left|].
           right. tauto.
    + unfold accepted_of in *. cbn [omap list_omap map]. rewrite IH, elem_of_cons.
      split; [tauto|]. intros ([->|?] & Hsome & ?); [|tauto].
      rewrite Hsession in Hsome. by destruct Hsome.
Qed.

Lemma missing_code_not_record_code : "MISSING_SESSION_ASSIGNMENT" ∉ record_codes.
Proof. intros H%(bool_decide_pack _). by vm_compute in H. Qed.

(** X3: the report holds a [MISSING_SESSION_ASSIGNMENT] issue for a session
    id exactly when the id is that of an expanded session and no record of
    the schedule names it. *)
Theorem missing_session_reported (data : SchedulingInput.t)
    (assignments : list ScheduleAssignment.t) (session_id : string) :
  missing_session_issue session_id
    ∈ ValidationReport.issues (validate_schedule data assignments)
  ↔ session_id
      ∈ map CourseSession.session_id
          (expand_course_sessions (SchedulingInput.courses data))
    ∧ session_id ∉ map ScheduleAssignment.session_id assignments.
Proof.
  rewrite validate_schedule_issues, !elem_of_app, elem_of_missing_session_issues.
  unfold accepted_records.
  assert (session_id
            ∈ map CourseSession.session_id
                (expand_course_sessions (SchedulingInput.courses data)) →
          (session_id
             ∉ (list_to_set (map ScheduleAssignment.session_id
                               (accepted_of (classify data ∅ assignments)))
                ∪ ∅ : gset string)
           ↔ session_id ∉ map ScheduleAssignment.session_id assignments)) as Hseen.
  { intros Hknown. rewrite not_elem_of_union, elem_of_list_to_set, elem_of_accepted_ids.
    apply list_elem_of_fmap in Hknown as (session & -> & Hsession).
    pose proof (get_comprehension_is_Some CourseSession.session_id id _ _ Hsession).
    set_solver. }
  split.
  - intros [Hi|[Hi|[Hi|[Hknown Hi]]]].
    + apply elem_of_flat_map in Hi as (o & _ & Hi). apply outcome_issue_code in Hi.
      by destruct missing_code_not_record_code.
    + by apply elem_of_room_conflict_issues in Hi as (? & ? & ? & _ & _ & ?).
    + by apply elem_of_instructor_conflict_issues in Hi as (? & ? & ? & _ & _ & ?).
    + split; [done|]. by apply Hseen.
  - intros [Hknown Hi]. right. right. right. split; [done|]. by apply Hseen.
Qed.

Lemma conflict_codes_not_record_codes :
  ("ROOM_TIME_CONFLICT" ∉ record_codes) ∧ ("INSTRUCTOR_TIME_CONFLICT" ∉ record_codes).
Proof. split; intros H%(bool_decide_pack _); by vm_compute in H. Qed.

(** X4: the report holds a [ROOM_TIME_CONFLICT] issue for a room and slot
    exactly when more than one of the records that are neither unknown nor
    duplicates names that room and slot, and an [INSTRUCTOR_TIME_CONFLICT]
    issue for an instructor and slot exactly when more than one of them
    names that instructor and slot. *)
Theorem time_conflicts_reported (data : SchedulingInput.t)
    (assignments : list ScheduleAssignment.t) (id slot_id : string) :
  ((∃ session_ids,
      room_time_conflict_issue id slot_id session_ids
        ∈ ValidationReport.issues (validate_schedule data assignments))
   ↔ (1 < length (filter (λ a, room_slot_key a = (id, slot_id))
                    (accepted_records data assignments)))%nat)
  ∧ ((∃ session_ids,
        instructor_time_conflict_issue id slot_id session_ids
          ∈ ValidationReport.issues (validate_schedule data assignments))
     ↔ (1 < length (filter (λ a, instructor_slot_key a = (id, slot_id))
                      (accepted_records data assignments)))%nat).
Proof.
  destruct conflict_codes_not_record_codes as [Hroom Hinstructor].
  rewrite validate_schedule_issues. split; split.
  - intros (ids & Hi). rewrite !elem_of_app in Hi. destruct Hi as [Hi|[Hi|[Hi|Hi]]].
    + apply elem_of_flat_map in Hi as (o & _ & Hi). apply outcome_issue_code in Hi.
      by destruct Hroom.
    + apply elem_of_room_conflict_issues in Hi as (r & t & ids' & Hin & Hlen & Heq).
      apply (f_equal ValidationIssue.details) in Heq. injection Heq as <- <- <-.
      apply elem_of_grouped_iff in Hin as [-> _]. by rewrite length_map in Hlen.
    + by apply elem_of_instructor_conflict_issues in Hi as (? & ? & ? & _ & _ & ?).
    + by apply missing_session_issue_code in Hi.
  - intros Hlen.
    set (ids := map ScheduleAssignment.session_id
                  (filter (λ a, room_slot_key a = (id, slot_id))
                     (accepted_records data assignments))).
    exists ids.
    rewrite !elem_of_app. right. left. apply elem_of_room_conflict_issues.
    exists id, slot_id, ids. unfold ids. split; [|split; [by rewrite length_map|done]].
    apply elem_of_grouped_iff. split; [done|].
    destruct (filter _ (accepted_records data assignments)) as [|a group] eqn:Hf;
      [cbn in Hlen; lia|].
    exists a. apply and_comm, (list_elem_of_filter (λ a, room_slot_key a = (id, slot_id))).
    rewrite Hf. apply list_elem_of_here.
  - intros (ids & Hi). rewrite !elem_of_app in Hi. destruct Hi as [Hi|[Hi|[Hi|Hi]]].
    + apply elem_of_flat_map in Hi as (o & _ & Hi). apply outcome_issue_code in Hi.
      by destruct Hinstructor.
    + by apply elem_of_room_conflict_issues in Hi as (? & ? & ? & _ & _ & ?).
    + apply elem_of_instructor_conflict_issues in Hi
        as (r & t & ids' & Hin & Hlen & Heq).
      apply (f_equal ValidationIssue.details) in Heq. injection Heq as <- <- <-.
      apply elem_of_grouped_iff in Hin as [-> _]. by rewrite length_map in Hlen.
    + by apply missing_session_issue_code in Hi.
  - intros Hlen.
    set (ids := map ScheduleAssignment.session_id
                  (filter (λ a, instructor_slot_key a = (id, slot_id))
                     (accepted_records data assignments))).
    exists ids.
    rewrite !elem_of_app. right. right. left. apply elem_of_instructor_conflict_issues.
    exists id, slot_id, ids. unfold ids. split; [|split; [by rewrite length_map|done]].
    apply elem_of_grouped_iff. split; [done|].
    destruct (filter _ (accepted_records data assignments)) as [|a group] eqn:Hf;
      [cbn in Hlen; lia|].
    exists a.
    apply and_comm, (list_elem_of_filter (λ a, instructor_slot_key a = (id, slot_id))).
    rewrite Hf. apply list_elem_of_here.
Qed.

Lemma meets_hard_constraints_Permutation (data : SchedulingInput.t)
    (l l' : list ScheduleAssignment.t) :
  l ≡ₚ l' → meets_hard_constraints data l → meets_hard_constraints data l'.
Proof.
  intros Hperm (Hids & Hcover & Hrecords & Hroom & Hinstructor).
  unfold meets_hard_constraints. rewrite <- Hperm. split; [done|].
  split; [|split; [|done]].
  - intros session Hsession. rewrite <- Hperm. by apply Hcover.
  - intros a Ha. apply Hrecords. by rewrite Hperm.
Qed.

Lemma valid_Permutation (data : SchedulingInput.t)
    (l l' : list ScheduleAssignment.t) :
  l ≡ₚ l' →
  ValidationReport.valid (validate_schedule data l')
  = ValidationReport.valid (validate_schedule data l).
Proof.
  intros Hperm.
  pose proof (valid_meets_hard_constraints data l) as Hl.
  pose proof (valid_meets_hard_constraints data l') as Hl'.
  destruct (ValidationReport.valid (validate_schedule data l)) eqn:Hv.
  - apply Hl'. eapply meets_hard_constraints_Permutation; [done|]. by apply Hl.
  - apply not_true_is_false. intros Hv'. apply Hl' in Hv'.
    assert (meets_hard_constraints data l) as Hm.
    { eapply meets_hard_constraints_Permutation; [symmetry; done|done]. }
    apply Hl in Hm. congruence.
Qed.

Section sorted_strings.
Context {A : Type} (key : A → string).

Lemma ltb_false_leb (s1 s2 : string) : String.ltb s2 s1 = false ↔ String.leb s1 s2 = true.
Proof.
  unfold String.ltb, String.leb. rewrite (String.compare_antisym s1 s2).
  destruct (String.compare s2 s1); cbn; split; congruence.
Qed.

Lemma leb_trans (s1 s2 s3 : string) :
  String.leb s1 s2 = true → String.leb s2 s3 = true → String.leb s1 s3 = true.
Proof.
  unfold String.leb. intros H12 H23.
  destruct (String.compare s1 s3) eqn:H13; try done.
  assert (String.compare s3 s1 = Lt) as H31
    by (rewrite String.compare_antisym, H13; done).
  apply OrderedTypeEx.String_as_OT.cmp_lt in H31.
  destruct (String.compare s1 s2) eqn:Hc12; [| |done].
  - apply String.compare_eq_iff in Hc12 as ->.
    assert (String.compare s3 s2 = Lt) as H32
      by (by apply OrderedTypeEx.String_as_OT.cmp_lt).
    rewrite String.compare_antisym, H32 in H23. done.
  - apply OrderedTypeEx.String_as_OT.cmp_lt in Hc12.
    pose proof (OrderedTypeEx.String_as_OT.lt_trans _ _ _ H31 Hc12) as H32.
    apply OrderedTypeEx.String_as_OT.cmp_lt in H32.
    unfold OrderedTypeEx.String_as_OT.cmp in H32.
    rewrite String.compare_antisym, H32 in H23. done.
Qed.

Lemma insort_string_sorted (x : A) (l : list A) :
  StronglySorted (λ a b, String.leb (key a) (key b) = true) l →
  StronglySorted (λ a b, String.leb (key a) (key b) = true) (insort String.ltb key x l).
Proof.
  induction 1 as [|y l Hl IH Hy]; cbn.
  - repeat constructor.
  - destruct (String.ltb (key x) (key y)) eqn:Hlt.
    + assert (String.leb (key x) (key y) = true) as Hle.
      { unfold String.ltb in Hlt. unfold String.leb.
        by destruct (String.compare (key x) (key y)). }
      constructor; [by constructor|]. constructor; [done|].
      eapply Forall_impl; [done|]. cbn. intros z Hz. by eapply leb_trans.
    + constructor; [done|].
      assert (insort String.ltb key x l ≡ₚ x :: l) as -> by apply insort_Permutation.
      constructor; [|done]. by apply ltb_false_leb.
Qed.

Lemma sorted_string_sorted (l : list A) :
  StronglySorted (λ a b, String.leb (key a) (key b) = true) (sorted String.ltb key l).
Proof.
  unfold sorted.
  assert (∀ acc, StronglySorted (λ a b, String.leb (key a) (key b) = true) acc →
    StronglySorted (λ a b, String.leb (key a) (key b) = true)
      (foldl (λ acc x, insort String.ltb key x acc) acc l)) as H.
  { induction l as [|x l IH]; intros acc Hacc; cbn; [done|].
    by apply IH, insort_string_sorted. }
  apply H. constructor.
Qed.

End sorted_strings.

(** X5: the schedule a result carries is the list [_build_result] was
    given, sorted by session id in ascending order, and it gets the verdict
    of the report that comes with the result: validating the assignments of
    the result again gives the same [valid]. *)
Theorem build_result_revalidates (status solver_name : string)
    (runtime_seconds : PyFloat.float) (assignments : list ScheduleAssignment.t)
    (notes : list string) (data : SchedulingInput.t) :
  let built :=
    _build_result status solver_name runtime_seconds assignments notes data in
  ScheduleResult.assignments built.1 ≡ₚ assignments
  ∧ StronglySorted
      (λ a b, String.leb (ScheduleAssignment.session_id a)
                (ScheduleAssignment.session_id b) = true)
      (ScheduleResult.assignments built.1)
  ∧ ValidationReport.valid
      (validate_schedule data (ScheduleResult.assignments built.1))
    = ValidationReport.valid built.2.
Proof.
  unfold _build_result. cbn [ScheduleResult.assignments fst snd].
  pose proof (sorted_Permutation String.ltb ScheduleAssignment.session_id assignments)
    as Hperm.
  split; [done|]. split; [apply sorted_string_sorted|].
  apply valid_Permutation. by symmetry.
Qed.

(** ** The heuristic: what its loop keeps *)

Lemma foldlM_prefix_invariant {A B : Type} (f : A → B → option A)
    (P : A → list B → Prop) (l : list B) (a : A) :
  P a [] →
  (∀ a pre x, x ∈ l → P a pre → ∃ a', f a x = Some a' ∧ P a' (pre ++ [x])) →
  ∃ a', foldlM f a l = Some a' ∧ P a' l.
Proof.
  intros Ha Hstep.
  assert (∀ pre a, P a pre →
    (∀ a pre x, x ∈ l → P a pre → ∃ a', f a x = Some a' ∧ P a' (pre ++ [x])) →
    ∃ a', foldlM f a l = Some a' ∧ P a' (pre ++ l)) as Hgen.
  { clear. induction l as [|x l IH]; intros pre a Ha Hstep.
    - exists a. by rewrite app_nil_r.
    - destruct (Hstep a pre x (list_elem_of_here _ _) Ha) as (a' & Hfa & Ha').
      destruct (IH (pre ++ [x]) a' Ha') as (a'' & Hrun & Ha'').
      { intros a0 pre0 y Hy. apply Hstep. by apply list_elem_of_further. }
      exists a''. cbn. rewrite Hfa. cbn. split; [done|].
      by rewrite <- app_assoc in Ha''. }
  by apply (Hgen [] a).
Qed.

(** The run of [solve_with_heuristic], with a property that every
    iteration of its loop keeps. *)
Lemma heuristic_run_with (runtime : PyFloat.float) (data : SchedulingInput.t)
    (P : Heuristic.t → list CourseSession.t → Prop) :
  let sessions := expand_course_sessions (SchedulingInput.courses data) in
  let feasible := _build_feasible_candidates data sessions in
  P Heuristic.init [] →
  (∀ st pre s st',
     s ∈ sessions → P st pre → place_session data feasible st s = Some st' →
     P st' (pre ++ [s])) →
  ∃ out st sorted_sessions,
    solve_with_heuristic runtime data = Some out
    ∧ sorted_sessions ≡ₚ sessions
    ∧ P st sorted_sessions
    ∧ HeuristicSolveOutput.assignments out = Heuristic.assignments st
    ∧ HeuristicSolveOutput.status out
      = (if decide (Heuristic.unscheduled st = []) then "fallback"
         else "fallback_partial")
    ∧ HeuristicSolveOutput.notes out
      = [ "Fallback heuristic solver executed.";
          "Sessions are scheduled greedily by constrainedness and local weighted score." ]
        ++ (if decide (Heuristic.unscheduled st = []) then []
            else [pretty (Z.of_nat (length (Heuristic.unscheduled st)))
                  +:+ " session(s) were left unscheduled due to constraint overload."]).
Proof.
  intros sessions feasible Hinit Hstep. unfold solve_with_heuristic.
  fold sessions. fold feasible.
  destruct (sort_sessions_Permutation data sessions) as (sorted_sessions & Hsort & Hperm).
  fold feasible in Hsort. rewrite Hsort. cbn [mbind option_bind].
  destruct (foldlM_prefix_invariant (place_session data feasible) P sorted_sessions
              Heuristic.init Hinit) as (st & Hrun & Hst).
  { intros st pre s Hs Hpre. rewrite Hperm in Hs.
    assert (is_Some (place_session data feasible st s)) as [st' Hst'].
    { destruct (get_comprehension_is_Some CourseSession.session_id id sessions s Hs)
        as [s' Hs'].
      eapply (place_session_total _ _ _ _ (session_candidates data s')).
      - unfold feasible. rewrite feasible_candidates_get.
        unfold session_by_id. by rewrite Hs'.
      - intros r t Hin. apply session_candidates_feasible in Hin
          as (room & -> & ? & _). done. }
    exists st'. split; [done|]. by eapply Hstep. }
  rewrite Hrun. cbn [mbind option_bind].
  destruct (Heuristic.unscheduled st) as [|u us] eqn:Hu.
  - eexists _, st, sorted_sessions. split; [done|]. split; [done|]. split; [done|].
    cbn. rewrite Hu. done.
  - eexists _, st, sorted_sessions. split; [done|]. split; [done|]. split; [done|].
    cbn. rewrite Hu. done.
Qed.

Lemma place_session_outcome (data : SchedulingInput.t)
    (feasible : PyDict.t string (list (string * string)))
    (st st' : Heuristic.t) (session : CourseSession.t) :
  place_session data feasible st session = Some st' →
  ∃ candidates,
    PyDict.get feasible (CourseSession.session_id session) = Some candidates
    ∧ (st' = Heuristic.skip st (CourseSession.session_id session)
       ∨ ∃ instructor r t slot,
           PyDict.get (instructor_by_id data) (CourseSession.instructor_id session)
           = Some instructor
           ∧ (r, t) ∈ candidates
           ∧ PyDict.get (slot_by_id data) t = Some slot
           ∧ excluded st session instructor r t slot = false
           ∧ st' = commit st session r t slot).
Proof.
  intros Hplace.
  apply place_session_cases in Hplace as (candidates & Hc & [[-> _]|Hcommit]).
  { exists candidates. split; [done|]. by left. }
  destruct Hcommit as (instructor & r & t & score & slot & Hinstr & Hfirst & Hslot & ->).
  destruct Hfirst as (before & after & Heq & _).
  assert ((r, t, score) ∈ survivors data st session instructor candidates) as Hin.
  { rewrite Heq. apply elem_of_app. right. apply list_elem_of_here. }
  apply elem_of_survivors in Hin as (Hcand & slot' & room & Hslot' & _ & Hex & _).
  rewrite Hslot in Hslot'. injection Hslot' as <-.
  exists candidates. split; [done|]. right. by exists instructor, r, t, slot.
Qed.

Lemma instructor_day_load_snoc (data : SchedulingInput.t)
    (assignments : list ScheduleAssignment.t) (a : ScheduleAssignment.t)
    (instructor_id : string) (day : Day) :
  instructor_day_load data (assignments ++ [a]) instructor_id day
  = (instructor_day_load data assignments instructor_id day
     + (if decide (ScheduleAssignment.instructor_id a = instructor_id
                   ∧ assignment_day data a = Some day) then 1 else 0))%nat.
Proof.
  unfold instructor_day_load. rewrite filter_app, length_app, filter_cons, filter_nil.
  by destruct (decide _).
Qed.

Lemma course_days_snoc (data : SchedulingInput.t)
    (assignments : list ScheduleAssignment.t) (a : ScheduleAssignment.t)
    (course_id : string) :
  course_days data (assignments ++ [a]) course_id
  = course_days data assignments course_id
    ++ (if decide (ScheduleAssignment.course_id a = course_id)
        then option_list (assignment_day data a) else []).
Proof.
  unfold course_days. rewrite filter_app, omap_app, filter_cons, filter_nil.
  destruct (decide _); [|done]. cbn. by destruct (assignment_day data a).
Qed.

Lemma excluded_false_days (st : Heuristic.t) (session : CourseSession.t)
    (instructor : Instructor.t) (r t : string) (slot : TimeSlot.t) :
  excluded st session instructor r t slot = false →
  (CourseSession.avoid_same_day_sessions session = true →
   TimeSlot.day slot
     ∉ PyDict.get_default (Heuristic.course_days_used st)
         (CourseSession.course_id session) ∅)
  ∧ (∀ max_per_day,
       Instructor.max_sessions_per_day instructor = Some max_per_day →
       PyDict.get_default (Heuristic.instructor_day_count st)
         (CourseSession.instructor_id session, TimeSlot.day slot) 0
       < max_per_day).
Proof.
  unfold excluded. rewrite !orb_false_iff. intros [[_ Havoid] Hmax]. split.
  - intros Hflag. rewrite Hflag in Havoid. cbn in Havoid.
    by apply bool_decide_eq_false in Havoid.
  - intros m Hm. rewrite Hm in Hmax. apply bool_decide_eq_false in Hmax. lia.
Qed.

Lemma heuristic_ledger_init (data : SchedulingInput.t) :
  heuristic_ledger data Heuristic.init [].
Proof.
  unfold heuristic_ledger. cbn. split; [done|]. split; [by intros a ?%elem_of_nil|].
  split; [done|]. split; [by left|]. split; [|intros; constructor].
  intros c d. unfold course_days. cbn. set_solver.
Qed.

Lemma heuristic_ledger_step (data : SchedulingInput.t) (st st' : Heuristic.t)
    (processed : list CourseSession.t) (session : CourseSession.t) :
  let sessions := expand_course_sessions (SchedulingInput.courses data) in
  session ∈ sessions →
  heuristic_ledger data st processed →
  place_session data (_build_feasible_candidates data sessions) st session = Some st' →
  heuristic_ledger data st' (processed ++ [session]).
Proof.
  intros sessions Hsession (Hacc & Hprov & Hcount & Hmax & Hdays & Hdistinct) Hplace.
  apply place_session_outcome in Hplace as (candidates & Hc & [->|Hcommit]).
  { unfold heuristic_ledger. cbn. split; [|done].
    rewrite map_app, app_assoc, Hacc. done. }
  destruct Hcommit as (instructor & r & t & slot & Hinstr & Hcand & Hslot & Hex & ->).
  apply excluded_false_days in Hex as [Havoid Hbelow].
  set (a := ScheduleAssignment.mk (CourseSession.session_id session)
              (CourseSession.course_id session) (CourseSession.instructor_id session)
              r t).
  assert (assignment_day data a = Some (TimeSlot.day slot)) as Hday.
  { unfold assignment_day. cbn. by rewrite Hslot. }
  unfold heuristic_ledger. cbn [commit Heuristic.assignments Heuristic.unscheduled
    Heuristic.instructor_day_count Heuristic.course_days_used]. fold a.
  split; [|split; [|split; [|split; [|split]]]].
  - rewrite !map_app. cbn. rewrite <- Hacc, <- !app_assoc.
    apply Permutation_app_head, Permutation_app_comm.
  - intros a' [Ha'| ->%list_elem_of_singleton]%elem_of_app; [by apply Hprov|].
    exists session, instructor, candidates. done.
  - intros iid d. rewrite instructor_day_load_snoc. unfold PyDict.get_default at 1.
    rewrite get_update. cbn [ScheduleAssignment.instructor_id a]. rewrite Hday.
    destruct (decide ((CourseSession.instructor_id session, TimeSlot.day slot)
                      = (iid, d))) as [[= <- <-]|Hne].
    + rewrite decide_True by done. cbn [default]. unfold id. rewrite Hcount. lia.
    + rewrite decide_False by (intros [? [= ?]]; congruence).
      fold (PyDict.get_default (Heuristic.instructor_day_count st) (iid, d) 0).
      rewrite Hcount. lia.
  - intros iid d instructor' m Hinstr' Hm. rewrite instructor_day_load_snoc.
    cbn [ScheduleAssignment.instructor_id a]. rewrite Hday.
    destruct (decide (CourseSession.instructor_id session = iid
                      ∧ Some (TimeSlot.day slot) = Some d)) as [[<- [= <-]]|Hne].
    + right. rewrite Hinstr in Hinstr'. injection Hinstr' as <-.
      specialize (Hbelow m Hm). rewrite Hcount in Hbelow. lia.
    + destruct (Hmax iid d instructor' m Hinstr' Hm); [left|right]; lia.
  - intros c d. rewrite course_days_snoc. cbn [ScheduleAssignment.course_id a].
    rewrite Hday. change (option_list (Some (TimeSlot.day slot))) with [TimeSlot.day slot].
    unfold PyDict.get_default. rewrite get_update, elem_of_app.
    destruct (decide (CourseSession.course_id session = c)) as [<-|Hne].
    + cbn [default option_list]. unfold id. rewrite elem_of_union, elem_of_singleton.
      fold (PyDict.get_default (Heuristic.course_days_used st)
              (CourseSession.course_id session) ∅).
      rewrite Hdays, list_elem_of_singleton. tauto.
    + fold (PyDict.get_default (Heuristic.course_days_used st) c ∅).
      rewrite Hdays. split; [tauto|]. intros [?|?%elem_of_nil]; done.
  - intros c Hall. rewrite course_days_snoc. cbn [ScheduleAssignment.course_id a].
    rewrite Hday. change (option_list (Some (TimeSlot.day slot))) with [TimeSlot.day slot].
    destruct (decide (CourseSession.course_id session = c)) as [<-|Hne].
    + cbn [option_list]. apply NoDup_app. split; [by apply Hdistinct|].
      split; [|apply NoDup_singleton].
      intros d Hd ->%list_elem_of_singleton.
      apply (Havoid (Hall session Hsession eq_refl)). by apply Hdays.
    + rewrite app_nil_r. by apply Hdistinct.
Qed.

(** The run of the heuristic with everything its loop keeps. *)
Lemma solve_with_heuristic_ledger (runtime : PyFloat.float)
    (data : SchedulingInput.t) :
  ∃ out st sorted_sessions,
    solve_with_heuristic runtime data = Some out
    ∧ sorted_sessions ≡ₚ expand_course_sessions (SchedulingInput.courses data)
    ∧ heuristic_invariant data st
    ∧ heuristic_ledger data st sorted_sessions
    ∧ HeuristicSolveOutput.assignments out = Heuristic.assignments st
    ∧ HeuristicSolveOutput.status out
      = (if decide (Heuristic.unscheduled st = []) then "fallback"
         else "fallback_partial")
    ∧ HeuristicSolveOutput.notes out
      = [ "Fallback heuristic solver executed.";
          "Sessions are scheduled greedily by constrainedness and local weighted score." ]
        ++ (if decide (Heuristic.unscheduled st = []) then []
            else [pretty (Z.of_nat (length (Heuristic.unscheduled st)))
                  +:+ " session(s) were left unscheduled due to constraint overload."]).
Proof.
  destruct (heuristic_run_with runtime data
    (λ st pre, heuristic_invariant data st ∧ heuristic_ledger data st pre))
    as (out & st & sorted_sessions & Hout & Hperm & [Hinv Hledger] & Hrest).
  - split; [apply heuristic_invariant_init|apply heuristic_ledger_init].
  - intros st pre s st' Hs [Hinv Hledger] Hplace. split.
    + by eapply place_session_invariant.
    + by eapply heuristic_ledger_step.
  - by exists out, st, sorted_sessions.
Qed.

Lemma slot_permitted_spec (xs : list string) (t : string) :
  slot_permitted (list_to_set xs) t = true ↔ xs = [] ∨ t ∈ xs.
Proof.
  unfold slot_permitted. rewrite negb_true_iff, andb_false_iff.
  rewrite !bool_decide_eq_false. split.
  - intros [Hempty|Hin].
    + left. apply dec_stable in Hempty. destruct xs as [|x xs]; [done|].
      assert (x ∈ (list_to_set (x :: xs) : gset string)) as Hx by set_solver.
      rewrite Hempty in Hx. by apply elem_of_empty in Hx.
    + right. apply dec_stable in Hin. by apply elem_of_list_to_set in Hin.
  - intros [->|Hin]; [left|right].
    + intros Hne. by apply Hne.
    + intros Hnin. apply Hnin. by apply elem_of_list_to_set.
Qed.

Lemma session_options_ok (data : SchedulingInput.t) (instructor : Instructor.t)
    (session : CourseSession.t) (r t : string) :
  (r, t) ∈ session_options data instructor session →
  (∃ room,
     PyDict.get (room_by_id data) r = Some room
     ∧ CourseSession.enrollment session ≤ Room.capacity room
     ∧ ∀ feature, feature ∈ CourseSession.required_features session →
         feature ∈ Room.features room)
  ∧ is_Some (PyDict.get (slot_by_id data) t)
  ∧ (Instructor.available_time_slots instructor = []
     ∨ t ∈ Instructor.available_time_slots instructor)
  ∧ (CourseSession.allowed_time_slots session = []
     ∨ t ∈ CourseSession.allowed_time_slots session).
Proof.
  unfold session_options. intros (room & Hroom & Hin)%elem_of_flat_map.
  case_bool_decide as Hcap; [by apply elem_of_nil in Hin|].
  destruct (issubset _ _) eqn:Hsub; cbn [negb] in Hin; [|by apply elem_of_nil in Hin].
  apply elem_of_flat_map in Hin as (slot & Hslot & Hin).
  destruct (slot_permitted (list_to_set (Instructor.available_time_slots instructor)) _)
    eqn:Havail; cbn [negb] in Hin; [|by apply elem_of_nil in Hin].
  destruct (slot_permitted (list_to_set (CourseSession.allowed_time_slots session)) _)
    eqn:Hallowed; cbn [negb] in Hin; [|by apply elem_of_nil in Hin].
  apply list_elem_of_singleton in Hin. injection Hin as -> ->.
  split; [|split; [|split]].
  - exists room. split; [|split; [lia|]].
    + unfold room_by_id in *. by apply (values_comprehension_get Room.id).
    + exact (proj1 (issubset_spec _ _) Hsub).
  - unfold slots_by_order in Hslot.
    rewrite (elem_of_sorted Z.ltb TimeSlot.order) in Hslot.
    unfold slot_by_id. by apply (get_comprehension_is_Some TimeSlot.id id).
  - by apply slot_permitted_spec.
  - by apply slot_permitted_spec.
Qed.

(** X6: in every output of the heuristic no session is assigned more often
    than it occurs among the expanded sessions; the status is [fallback]
    with the two standard notes when every session is assigned, and
    [fallback_partial] with a third note that gives the number of sessions
    left out otherwise. *)
Theorem heuristic_accounts_for_sessions (runtime : PyFloat.float)
    (data : SchedulingInput.t) (out : HeuristicSolveOutput.t) :
  solve_with_heuristic runtime data = Some out →
  let sessions := expand_course_sessions (SchedulingInput.courses data) in
  let notes :=
    [ "Fallback heuristic solver executed.";
      "Sessions are scheduled greedily by constrainedness and local weighted score." ] in
  map ScheduleAssignment.session_id (HeuristicSolveOutput.assignments out)
    ⊆+ map CourseSession.session_id sessions
  ∧ ((HeuristicSolveOutput.status out = "fallback"
      ∧ length (HeuristicSolveOutput.assignments out) = length sessions
      ∧ HeuristicSolveOutput.notes out = notes)
     ∨ (HeuristicSolveOutput.status out = "fallback_partial"
        ∧ (length (HeuristicSolveOutput.assignments out) < length sessions)%nat
        ∧ HeuristicSolveOutput.notes out
          = notes
            ++ [pretty (Z.of_nat (length sessions
                                  - length (HeuristicSolveOutput.assignments out)))
                +:+ " session(s) were left unscheduled due to constraint overload."])).
Proof.
  intros Hsolve sessions notes.
  destruct (solve_with_heuristic_ledger runtime data)
    as (out' & st & sorted_sessions & Hout & Hperm & _ & (Hacc & _) & Has & Hstatus
        & Hnotes).
  rewrite Hout in Hsolve. injection Hsolve as <-.
  fold sessions in Hperm. rewrite Hperm in Hacc.
  rewrite Has.
  pose proof (Permutation_length Hacc) as Hlen.
  rewrite length_app, !length_map in Hlen. split.
  - rewrite <- Hacc. by apply submseteq_inserts_r.
  - destruct (decide (Heuristic.unscheduled st = [])) as [Hnone|Hsome].
    + left. rewrite Hnone in Hlen. cbn in Hlen. split; [done|]. split; [lia|].
      rewrite Hnotes. by rewrite app_nil_r.
    + right. split; [done|].
      destruct (Heuristic.unscheduled st) as [|u us]; [done|]. cbn [length] in *.
      split; [lia|]. rewrite Hnotes. do 4 f_equal. lia.
Qed.

(** X7: for an input with distinct instructor ids, in every schedule of
    the heuristic an instructor of the input who has a daily maximum holds
    on no day more assignments than that maximum (when the instructor holds
    any that day). *)
Theorem heuristic_respects_daily_maximum (runtime : PyFloat.float)
    (data : SchedulingInput.t) (out : HeuristicSolveOutput.t) :
  NoDup (map Instructor.id (SchedulingInput.instructors data)) →
  solve_with_heuristic runtime data = Some out →
  ∀ instructor max_per_day day,
    instructor ∈ SchedulingInput.instructors data →
    Instructor.max_sessions_per_day instructor = Some max_per_day →
    instructor_day_load data (HeuristicSolveOutput.assignments out)
      (Instructor.id instructor) day = 0%nat
    ∨ Z.of_nat (instructor_day_load data (HeuristicSolveOutput.assignments out)
                  (Instructor.id instructor) day) ≤ max_per_day.
Proof.
  intros Hinstructors Hsolve instructor max_per_day day Hinstructor Hmax_per_day.
  destruct (solve_with_heuristic_ledger runtime data)
    as (out' & st & sorted_sessions & Hout & _ & _ & (_ & _ & _ & Hmax & _) & Has & _).
  rewrite Hout in Hsolve. injection Hsolve as <-.
  rewrite Has. apply (Hmax (Instructor.id instructor) day instructor); [|done].
  by apply (get_comprehension_NoDup Instructor.id).
Qed.

(** X8: when every session of a course avoids same-day sessions, every
    schedule of the heuristic places the sessions of the course on pairwise
    distinct days. *)
Theorem heuristic_avoids_same_day (runtime : PyFloat.float)
    (data : SchedulingInput.t) (course_id : string) (out : HeuristicSolveOutput.t) :
  Forall (λ session,
            CourseSession.course_id session = course_id →
            CourseSession.avoid_same_day_sessions session = true)
    (expand_course_sessions (SchedulingInput.courses data)) →
  solve_with_heuristic runtime data = Some out →
  NoDup (course_days data (HeuristicSolveOutput.assignments out) course_id).
Proof.
  intros Hall Hsolve.
  destruct (solve_with_heuristic_ledger runtime data)
    as (out' & st & sorted_sessions & Hout & _ & _ & (_ & _ & _ & _ & _ & Hdistinct)
        & Has & _).
  rewrite Hout in Hsolve. injection Hsolve as <-.
  rewrite Has. apply Hdistinct.
  exact (proj1 (Forall_forall _ _) Hall).
Qed.

Lemma clean_schedule_issues (data : SchedulingInput.t)
    (l : list ScheduleAssignment.t) :
  let sessions := expand_course_sessions (SchedulingInput.courses data) in
  NoDup (map ScheduleAssignment.session_id l) →
  (∀ a, a ∈ l →
     ∃ session,
       PyDict.get (session_by_id sessions) (ScheduleAssignment.session_id a)
       = Some session
       ∧ record_ok data session a) →
  NoDup (map room_slot_key l) →
  NoDup (map instructor_slot_key l) →
  ValidationReport.issues (validate_schedule data l)
  = missing_session_issues sessions
      (list_to_set (map ScheduleAssignment.session_id l) ∪ ∅).
Proof.
  intros sessions Hids Hrecords Hroom Hinstructor.
  rewrite validate_schedule_issues. unfold accepted_records.
  destruct (clean_classify data ∅ l Hids) as [Hissues Haccepted]; [set_solver|done|].
  rewrite Hissues, Haccepted.
  rewrite (proj2 (room_conflict_issues_nil l) Hroom).
  by rewrite (proj2 (instructor_conflict_issues_nil l) Hinstructor).
Qed.

(** The records of the heuristic pass every check of the validator on a
    single record. *)
Lemma heuristic_record_ok (data : SchedulingInput.t) (st : Heuristic.t)
    (processed : list CourseSession.t) (a : ScheduleAssignment.t) :
  let sessions := expand_course_sessions (SchedulingInput.courses data) in
  NoDup (map CourseSession.session_id sessions) →
  heuristic_ledger data st processed →
  a ∈ Heuristic.assignments st →
  ∃ session,
    PyDict.get (session_by_id sessions) (ScheduleAssignment.session_id a) = Some session
    ∧ record_ok data session a.
Proof.
  intros sessions Hids (_ & Hprov & _) Ha.
  destruct (Hprov a Ha) as (session & instructor & candidates & Hsession & Heq & Hinstr
                            & Hfeasible & Hcand).
  fold sessions in Hsession, Hfeasible.
  assert (PyDict.get (session_by_id sessions) (CourseSession.session_id session)
          = Some session) as Hget.
  { by apply (get_comprehension_NoDup CourseSession.session_id). }
  rewrite feasible_candidates_get, Hget in Hfeasible. cbn in Hfeasible.
  injection Hfeasible as <-. unfold session_candidates in Hcand. rewrite Hinstr in Hcand.
  apply session_options_ok in Hcand
    as ((room & Hroom & Hcap & Hfeatures) & [slot Hslot] & Havail & Hallowed).
  exists session. rewrite Heq. cbn [ScheduleAssignment.session_id]. split; [done|].
  unfold record_ok. cbn. split; [done|]. split; [done|]. split.
  - by exists room.
  - by exists slot, instructor.
Qed.

(** X9: for an input with distinct course ids, the report on a schedule
    of the heuristic holds no issue other than [MISSING_SESSION_ASSIGNMENT],
    and the schedule is valid exactly when the heuristic's status is
    [fallback]. *)
Theorem heuristic_schedule_only_misses (runtime : PyFloat.float)
    (data : SchedulingInput.t) (out : HeuristicSolveOutput.t) :
  NoDup (map Course.id (SchedulingInput.courses data)) →
  solve_with_heuristic runtime data = Some out →
  Forall (λ i, ValidationIssue.code i = "MISSING_SESSION_ASSIGNMENT")
    (ValidationReport.issues
       (validate_schedule data (HeuristicSolveOutput.assignments out)))
  ∧ (ValidationReport.valid
       (validate_schedule data (HeuristicSolveOutput.assignments out)) = true
     ↔ HeuristicSolveOutput.status out = "fallback").
Proof.
  intros Hcourses Hsolve. pose proof (sessions_distinct data Hcourses) as Hids.
  set (sessions := expand_course_sessions (SchedulingInput.courses data)) in *.
  destruct (solve_with_heuristic_ledger runtime data)
    as (out' & st & sorted_sessions & Hout & Hperm & (_ & Hroom & Hinstructor) & Hledger
        & Has & Hstatus & _).
  rewrite Hout in Hsolve. injection Hsolve as <-.
  fold sessions in Hperm.
  rewrite Has.
  pose proof Hledger as (Hacc & _). rewrite Hperm in Hacc.
  assert (NoDup (map ScheduleAssignment.session_id (Heuristic.assignments st))) as Hnodup.
  { rewrite <- Hacc in Hids. by apply NoDup_app in Hids as (? & _). }
  pose proof (clean_schedule_issues data (Heuristic.assignments st) Hnodup) as Hissues.
  cbn zeta in Hissues. fold sessions in Hissues.
  rewrite Hissues; [|by intros a Ha; eapply heuristic_record_ok|done|done].
  split.
  - apply Forall_forall. intros i Hi. by apply missing_session_issue_code in Hi.
  - rewrite valid_iff_no_issue, Hissues;
      [|by intros a Ha; eapply heuristic_record_ok|done|done].
    rewrite missing_session_issues_nil, Hstatus.
    pose proof (Permutation_length Hacc) as Hlen.
    rewrite length_app, !length_map in Hlen. split.
    + intros Hcover.
      assert (length sessions ≤ length (Heuristic.assignments st))%nat as Hle.
      { rewrite <- (length_map CourseSession.session_id),
          <- (length_map ScheduleAssignment.session_id).
        apply submseteq_length, NoDup_submseteq; [done|].
        intros s (session & -> & Hsession)%list_elem_of_fmap.
        specialize (Hcover session Hsession). set_solver. }
      destruct (Heuristic.unscheduled st) as [|u us]; [done|]. cbn in Hlen. lia.
    + destruct (decide (Heuristic.unscheduled st = [])) as [Hnone|]; [|done].
      intros _ session Hsession. rewrite Hnone, app_nil_r in Hacc.
      apply elem_of_union. left. apply elem_of_list_to_set. rewrite Hacc.
      apply list_elem_of_fmap. by exists session.
Qed.

(** ** The exact path: what a solution of the model is *)

Lemma session_triples_ok (data : SchedulingInput.t) (instructor : Instructor.t)
    (session : CourseSession.t) (t : Triple.t) :
  t ∈ session_triples data instructor session →
  CourseSession.enrollment session ≤ Room.capacity (Triple.room t)
  ∧ (∀ feature, feature ∈ CourseSession.required_features session →
       feature ∈ Room.features (Triple.room t))
  ∧ (Instructor.available_time_slots instructor = []
     ∨ TimeSlot.id (Triple.slot t) ∈ Instructor.available_time_slots instructor)
  ∧ (CourseSession.allowed_time_slots session = []
     ∨ TimeSlot.id (Triple.slot t) ∈ CourseSession.allowed_time_slots session).
Proof.
  unfold session_triples. intros (room & _ & Hin)%elem_of_flat_map.
  case_bool_decide as Hcap; [by apply elem_of_nil in Hin|].
  destruct (issubset _ _) eqn:Hsub; cbn [negb] in Hin; [|by apply elem_of_nil in Hin].
  apply elem_of_flat_map in Hin as (slot & _ & Hin).
  destruct (slot_permitted (list_to_set (Instructor.available_time_slots instructor)) _)
    eqn:Havail; cbn [negb] in Hin; [|by apply elem_of_nil in Hin].
  destruct (slot_permitted (list_to_set (CourseSession.allowed_time_slots session)) _)
    eqn:Hallowed; cbn [negb] in Hin; [|by apply elem_of_nil in Hin].
  apply list_elem_of_singleton in Hin as ->. cbn.
  split; [lia|]. split; [exact (proj1 (issubset_spec _ _) Hsub)|].
  split; by apply slot_permitted_spec.
Qed.

Lemma triple_record_ok (data : SchedulingInput.t) (t : Triple.t) :
  NoDup (map Room.id (SchedulingInput.rooms data)) →
  NoDup (map TimeSlot.id (SchedulingInput.time_slots data)) →
  t ∈ all_triples data (expand_course_sessions (SchedulingInput.courses data)) →
  record_ok data (Triple.session t) (Triple.key t).
Proof.
  intros Hrooms Hslots Ht.
  pose proof (elem_of_all_triples _ _ _ Ht) as (_ & Hinstr & Hroom & Hslot).
  unfold all_triples in Ht. apply elem_of_flat_map in Ht as (session & _ & Ht).
  destruct (PyDict.get (instructor_by_id data) (CourseSession.instructor_id session))
    as [instructor|] eqn:Hinstr'; [|by apply elem_of_nil in Ht].
  pose proof (elem_of_session_triples _ _ _ _ Ht) as [Hs Hi].
  apply session_triples_ok in Ht as (Hcap & Hfeatures & Havail & Hallowed).
  rewrite <- Hs, <- Hi in *. unfold record_ok. cbn. split; [done|]. split; [done|]. split.
  - exists (Triple.room t). split; [|done].
    by apply (get_comprehension_NoDup Room.id).
  - exists (Triple.slot t), (Triple.instructor t). split; [|done].
    by apply (get_comprehension_NoDup TimeSlot.id).
Qed.

(** At most one true variable in each group of a constraint
    [sum(vars) <= 1]. *)
Lemma at_most_one_true {K : Type} `{EqDecision K} (keyf : nat * Triple.t → K)
    (its : list (nat * Triple.t)) (sol : cp_model.Solution) (k : K) :
  Forall (cp_model.holds sol)
    (at_most_one_constraints (grouped keyf Triple.var PyDict.empty its)) →
  (length (filter (λ it, keyf it = k)
             (filter (λ it : nat * Triple.t, sol it.1 = true) its)) ≤ 1)%nat.
Proof.
  intros Hholds.
  rewrite list_filter_filter.
  rewrite (list_filter_iff _ (λ it : nat * Triple.t, sol it.1 = true ∧ keyf it = k))
    by (intros; tauto).
  rewrite <- list_filter_filter.
  set (group := filter (λ it, keyf it = k) its).
  destruct (decide (1 < length group)%nat) as [Hmany|Hfew].
  - rewrite Forall_forall in Hholds.
    specialize (Hholds (cp_model.SumLe (map Triple.var group) 1)).
    cbn in Hholds. rewrite sum_vars_triples in Hholds.
    assert (Z.of_nat (length (filter (λ it : nat * Triple.t, sol it.1 = true) group)) ≤ 1);
      [|lia].
    apply Hholds. unfold at_most_one_constraints. apply elem_of_flat_map.
    exists (map Triple.var group). split.
    + unfold PyDict.values. apply list_elem_of_fmap. exists (k, map Triple.var group).
      split; [done|]. apply elem_of_grouped_iff. split; [done|].
      destruct group as [|it group'] eqn:Hgroup; [cbn in Hmany; lia|].
      exists it. apply and_comm, (list_elem_of_filter (λ it, keyf it = k)).
      fold group. rewrite Hgroup. apply list_elem_of_here.
    + rewrite length_map. rewrite bool_decide_eq_true_2 by done.
      apply list_elem_of_here.
  - etrans; [apply sublist_length, sublist_filter|]. lia.
Qed.

(** The assignments decoded from a truth assignment that satisfies the
    constraints of the model meet every hard constraint of the validator. *)
Lemma decoded_meets_hard_constraints (data : SchedulingInput.t)
    (b : Builder.t) (used : list cp_model.IntVar) (model : cp_model.CpModel)
    (sol : cp_model.Solution) :
  NoDup (map Course.id (SchedulingInput.courses data)) →
  NoDup (map Room.id (SchedulingInput.rooms data)) →
  NoDup (map TimeSlot.id (SchedulingInput.time_slots data)) →
  build_model data = Some (Model b used model) →
  Forall (cp_model.holds sol) (cp_model.constraints model) →
  meets_hard_constraints data (decode b sol)
  ∧ length (decode b sol)
    = length (expand_course_sessions (SchedulingInput.courses data)).
Proof.
  intros Hcourses Hrooms Hslots Hbuilt Hholds.
  apply build_model_Model in Hbuilt as (Hb & one & vars & cc & Hone & Hc & ->).
  set (sessions := expand_course_sessions (SchedulingInput.courses data)) in *.
  set (its := indexed_from 0 (all_triples data sessions)) in *.
  set (counts := cluster_counts_of PyDict.empty sessions) in *.
  set (trues := filter (λ it : nat * Triple.t, sol it.1 = true) its).
  set (placed := map snd trues).
  cbn [cp_model.constraints] in Hholds.
  apply Forall_app in Hholds as [Hones Hholds].
  apply Forall_app in Hholds as [Hroom Hholds].
  apply Forall_app in Hholds as [Hinstructor _].
  pose proof (sessions_distinct data Hcourses) as Hids. fold sessions in Hids.
  assert (∀ s, s ∈ sessions →
    cp_model.sum_vars sol
      (PyDict.get_default (Builder.vars_by_session b) (CourseSession.session_id s) [])
    = 1) as Hsession.
  { intros s Hs. rewrite Forall_forall in Hones.
    apply (Hones (cp_model.SumEq
      (PyDict.get_default (Builder.vars_by_session b) (CourseSession.session_id s) [])
      1)).
    by apply (exactly_one_constraints_elem _ _ _ Hone). }
  assert (decode b sol = map Triple.key placed) as Hdecode.
  { rewrite Hb. apply decode_builder_from. by apply NoDup_keys_all_triples. }
  assert (map Triple.session placed ≡ₚ sessions) as Hperm.
  { rewrite Hb in Hsession.
    by apply (placed_sessions_Permutation data sessions counts sol). }
  assert (map ScheduleAssignment.session_id (decode b sol)
          = map CourseSession.session_id (map Triple.session placed)) as Hsids.
  { rewrite Hdecode, <- !list_fmap_compose. done. }
  split.
  2:{ rewrite Hdecode, length_map, <- (length_map Triple.session). by rewrite Hperm. }
  unfold meets_hard_constraints. fold sessions. rewrite Hsids, Hperm.
  split; [done|]. split; [|split; [|split]].
  - intros session Hsession'. rewrite Hperm. apply list_elem_of_fmap. by exists session.
  - rewrite Hdecode. intros a (t & -> & Ht)%list_elem_of_fmap.
    apply elem_of_placed in Ht. exists (Triple.session t). split.
    + pose proof (elem_of_all_triples _ _ _ Ht) as (Hs & _).
      by apply (get_comprehension_NoDup CourseSession.session_id).
    + by apply triple_record_ok.
  - rewrite Hdecode. unfold placed. rewrite <- !list_fmap_compose.
    apply NoDup_fmap_at_most_one. intros k.
    rewrite Hb in Hroom. cbn [builder_from Builder.vars_by_room_slot Builder.init] in Hroom.
    apply (at_most_one_true
             (λ it : nat * Triple.t,
                (Room.id (Triple.room it.2), TimeSlot.id (Triple.slot it.2)))
             its sol k Hroom).
  - rewrite Hdecode. unfold placed. rewrite <- !list_fmap_compose.
    apply NoDup_fmap_at_most_one. intros k.
    rewrite Hb in Hinstructor.
    cbn [builder_from Builder.vars_by_instructor_slot Builder.init] in Hinstructor.
    apply (at_most_one_true
             (λ it : nat * Triple.t,
                (CourseSession.instructor_id (Triple.session it.2),
                 TimeSlot.id (Triple.slot it.2)))
             its sol k Hinstructor).
Qed.

Lemma heuristic_status (runtime : PyFloat.float) (data : SchedulingInput.t)
    (out : HeuristicSolveOutput.t) :
  solve_with_heuristic runtime data = Some out →
  HeuristicSolveOutput.status out = "fallback"
  ∨ HeuristicSolveOutput.status out = "fallback_partial".
Proof.
  destruct (solve_with_heuristic_ledger runtime data)
    as (out' & st & _ & -> & _ & _ & _ & _ & Hstatus & _).
  intros [= <-]. rewrite Hstatus. destruct (decide _); [by left|by right].
Qed.

Lemma fallback_statuses_not_ok (status : string) :
  status = "fallback" ∨ status = "fallback_partial" →
  status ∉ ["optimal"; "feasible"].
Proof. intros [->| ->] H%(bool_decide_pack _); by vm_compute in H. Qed.

(** What the exact path has done when it reports [optimal] or
    [feasible]. *)
Lemma solve_with_cp_sat_ok (Solve : Engine) (runtime runtime' : PyFloat.float)
    (data : SchedulingInput.t) (status : string)
    (assignments : list ScheduleAssignment.t) (notes : list string) :
  engine_sound Solve →
  _solve_with_cp_sat Solve runtime data = Some (status, runtime', assignments, notes) →
  status ∈ ["optimal"; "feasible"] →
  ∃ b used model sol,
    build_model data = Some (Model b used model)
    ∧ Forall (cp_model.holds sol) (cp_model.constraints model)
    ∧ assignments = decode b sol
    ∧ notes = [].
Proof.
  intros Hsound. unfold _solve_with_cp_sat.
  destruct (build_model data) as [[status' notes'|b used model]|] eqn:Hbuilt; [| |done].
  - cbn. intros [= <- _ _ _] Hok. exfalso.
    unfold build_model in Hbuilt. destruct (decide _) in Hbuilt.
    + injection Hbuilt as <- _. apply (bool_decide_pack _) in Hok. by vm_compute in Hok.
    + destruct (foldlM _ _ _) as [b|]; [|done]. cbn in Hbuilt.
      destruct (exactly_one_constraints _ _); [|by destruct (cluster_day_indicators b) as [[? ?] ?]].
      injection Hbuilt as <- _. apply (bool_decide_pack _) in Hok. by vm_compute in Hok.
  - cbn. pose proof (Hsound model
      (SolverOptions.time_limit_seconds (SchedulingInput.options data))
      (SolverOptions.num_workers (SchedulingInput.options data))) as Hs.
    destruct (Solve model _ _) as [status_code sol]. cbn in Hs.
    intros [= <- _ <- <-] Hok. rewrite bool_decide_eq_true_2 by done.
    exists b, used, model, sol. split; [done|]. split; [|done].
    apply Hs. by apply cp_status_text_ok.
Qed.

(** A result with status [optimal] or [feasible] is built by the exact
    path from the decoding of a truth assignment that satisfies the
    model. *)
Lemma solve_schedule_exact (Solve : Engine) (clock : Clock.t)
    (data : SchedulingInput.t) (solver_mode : SolverMode)
    (result : ScheduleResult.t) (validation : ValidationReport.t) :
  engine_sound Solve →
  solve_schedule Solve clock data solver_mode = Some (result, validation) →
  ScheduleResult.status result ∈ ["optimal"; "feasible"] →
  ∃ b used model sol status runtime,
    build_model data = Some (Model b used model)
    ∧ Forall (cp_model.holds sol) (cp_model.constraints model)
    ∧ (result, validation)
      = _build_result status "cp_sat" runtime (decode b sol) [] data.
Proof.
  intros Hsound Hsolve Hok.
  assert (∀ cp_status cp_runtime cp_assignments cp_notes,
    _solve_with_cp_sat Solve (Clock.cp_runtime clock) data
    = Some (cp_status, cp_runtime, cp_assignments, cp_notes) →
    (result, validation)
    = _build_result cp_status "cp_sat" cp_runtime cp_assignments cp_notes data →
    ∃ b used model sol status runtime,
      build_model data = Some (Model b used model)
      ∧ Forall (cp_model.holds sol) (cp_model.constraints model)
      ∧ (result, validation)
        = _build_result status "cp_sat" runtime (decode b sol) [] data) as Hexact.
  { intros cp_status cp_runtime cp_assignments cp_notes Hcp Hbuilt.
    assert (cp_status ∈ ["optimal"; "feasible"]) as Hok'
      by (injection Hbuilt as -> _; exact Hok).
    destruct (solve_with_cp_sat_ok _ _ _ _ _ _ _ Hsound Hcp Hok')
      as (b & used & model & sol & Hmodel & Hholds & -> & ->).
    by exists b, used, model, sol, cp_status, cp_runtime. }
  unfold solve_schedule in Hsolve. destruct solver_mode.
  - destruct (_solve_with_cp_sat _ _ _) as [[[[cp_status cp_runtime] cp_as] cp_notes]|]
      eqn:Hcp; [|done]. cbn in Hsolve.
    case_bool_decide as Hcp_ok.
    + apply (inj Some) in Hsolve. exact (Hexact _ _ _ _ eq_refl (eq_sym Hsolve)).
    + destruct (SolverOptions.enable_fallback _); cbn in Hsolve.
      * destruct (solve_with_heuristic _ _) as [out|] eqn:Hout; [|done].
        cbn in Hsolve. injection Hsolve as <- _. cbn in Hok.
        apply heuristic_status in Hout. by apply fallback_statuses_not_ok in Hout.
      * injection Hsolve as <- _. cbn in Hok. done.
  - destruct (_solve_with_cp_sat _ _ _) as [[[[cp_status cp_runtime] cp_as] cp_notes]|]
      eqn:Hcp; [|done]. cbn in Hsolve.
    case_bool_decide as Hcp_ok.
    + apply (inj Some) in Hsolve. exact (Hexact _ _ _ _ eq_refl (eq_sym Hsolve)).
    + cbn in Hsolve. injection Hsolve as <- _. cbn in Hok. done.
  - destruct (solve_with_heuristic _ _) as [out|] eqn:Hout; [|done].
    cbn in Hsolve. injection Hsolve as <- _. cbn in Hok.
    apply heuristic_status in Hout. by apply fallback_statuses_not_ok in Hout.
Qed.

(** X10: with an engine that keeps its promise and an input with distinct
    course, room and time-slot ids, a result with status [optimal] or
    [feasible] comes from the exact path, its schedule is valid, it has no
    hard violation, and every expanded session is scheduled. *)
Theorem exact_result_is_valid (Solve : Engine) (clock : Clock.t)
    (data : SchedulingInput.t) (solver_mode : SolverMode)
    (result : ScheduleResult.t) (validation : ValidationReport.t) :
  engine_sound Solve →
  NoDup (map Course.id (SchedulingInput.courses data)) →
  NoDup (map Room.id (SchedulingInput.rooms data)) →
  NoDup (map TimeSlot.id (SchedulingInput.time_slots data)) →
  solve_schedule Solve clock data solver_mode = Some (result, validation) →
  ScheduleResult.status result ∈ ["optimal"; "feasible"] →
  ScheduleResult.solver result = "cp_sat"
  ∧ ValidationReport.valid validation = true
  ∧ ValidationReport.issues validation = []
  ∧ ScheduleMetrics.hard_violations (ScheduleResult.metrics result) = 0
  ∧ ScheduleMetrics.sessions_scheduled (ScheduleResult.metrics result)
    = ScheduleMetrics.sessions_required (ScheduleResult.metrics result).
Proof.
  intros Hsound Hcourses Hrooms Hslots Hsolve Hok.
  destruct (solve_schedule_exact _ _ _ _ _ _ Hsound Hsolve Hok)
    as (b & used & model & sol & status & runtime & Hbuilt & Hholds & [= -> ->]).
  destruct (decoded_meets_hard_constraints data b used model sol)
    as [Hmeets Hlen]; try done.
  apply valid_meets_hard_constraints in Hmeets.
  pose proof (proj1 (valid_iff_no_issue _ _) Hmeets) as Hnone.
  unfold _build_result, build_metrics.
  cbn [fst snd ScheduleResult.solver ScheduleResult.metrics
       ScheduleMetrics.hard_violations ScheduleMetrics.sessions_scheduled
       ScheduleMetrics.sessions_required].
  rewrite Hnone, Hlen. done.
Qed.

(** ** The exact path: the returns before the engine is called *)

Lemma NoDup_sorted_strings (s : gset string) : NoDup (sorted_strings s).
Proof.
  unfold sorted_strings.
  eapply NoDup_Permutation_proper; [apply sorted_Permutation|apply NoDup_elements].
Qed.

Lemma exactly_one_constraints_inl
    (vars_by_session : PyDict.t string (list cp_model.IntVar))
    (sessions : list CourseSession.t) (session_id : string) :
  exactly_one_constraints vars_by_session sessions = inl session_id →
  ∃ session, session ∈ sessions
    ∧ session_id = CourseSession.session_id session
    ∧ PyDict.get_default vars_by_session session_id [] = [].
Proof.
  induction sessions as [|s sessions IH]; cbn; [done|].
  destruct (PyDict.get_default vars_by_session (CourseSession.session_id s) [])
    as [|v vs] eqn:Hvars.
  - intros [= <-]. exists s. split; [apply list_elem_of_here|done].
  - destruct (exactly_one_constraints vars_by_session sessions) as [sid|cs]; [|done].
    intros [= <-]. destruct (IH eq_refl) as (s' & Hs' & Hid & Hnone).
    exists s'. split; [by apply list_elem_of_further|done].
Qed.

Lemma exactly_one_constraints_inr
    (vars_by_session : PyDict.t string (list cp_model.IntVar))
    (sessions : list CourseSession.t) (constraints : list cp_model.Constraint) :
  exactly_one_constraints vars_by_session sessions = inr constraints →
  ∀ session, session ∈ sessions →
    PyDict.get_default vars_by_session (CourseSession.session_id session) [] ≠ [].
Proof.
  revert constraints. induction sessions as [|s sessions IH]; intros constraints; cbn.
  - intros _ session Hin. by apply elem_of_nil in Hin.
  - destruct (PyDict.get_default vars_by_session (CourseSession.session_id s) [])
      as [|v vs] eqn:Hvars; [done|].
    destruct (exactly_one_constraints vars_by_session sessions) as [sid|cs]; [done|].
    intros _ session [->|Hin]%elem_of_cons; [by rewrite Hvars|by eapply IH].
Qed.

Lemma session_triples_fits (data : SchedulingInput.t) (instructor : Instructor.t)
    (session : CourseSession.t) (t : Triple.t) :
  t ∈ session_triples data instructor session ↔
  t = Triple.mk session instructor (Triple.room t) (Triple.slot t)
  ∧ Triple.room t ∈ SchedulingInput.rooms data
  ∧ Triple.slot t ∈ SchedulingInput.time_slots data
  ∧ fits instructor session (Triple.room t) (Triple.slot t).
Proof.
  unfold session_triples, fits. rewrite elem_of_flat_map. split.
  - intros (room & Hroom & Ht).
    case_bool_decide as Hcap; [by apply elem_of_nil in Ht|].
    destruct (issubset _ _) eqn:Hsub; cbn [negb] in Ht; [|by apply elem_of_nil in Ht].
    apply elem_of_flat_map in Ht as (slot & Hslot & Ht).
    destruct (slot_permitted (list_to_set (Instructor.available_time_slots instructor)) _)
      eqn:Havail; cbn [negb] in Ht; [|by apply elem_of_nil in Ht].
    destruct (slot_permitted (list_to_set (CourseSession.allowed_time_slots session)) _)
      eqn:Hallowed; cbn [negb] in Ht; [|by apply elem_of_nil in Ht].
    apply list_elem_of_singleton in Ht as ->. cbn.
    unfold slots_by_order in Hslot. apply elem_of_sorted in Hslot.
    split; [done|]. split; [done|]. split; [done|]. split; [lia|].
    split; [exact (proj1 (issubset_spec _ _) Hsub)|].
    split; by apply slot_permitted_spec.
  - intros (Ht & Hroom & Hslot & Hcap & Hfeatures & Havail & Hallowed).
    exists (Triple.room t). split; [done|].
    rewrite bool_decide_eq_false_2 by lia.
    rewrite (proj2 (issubset_spec _ _) Hfeatures). cbn [negb].
    apply elem_of_flat_map. exists (Triple.slot t).
    split; [unfold slots_by_order; by apply elem_of_sorted|].
    rewrite (proj2 (slot_permitted_spec _ _) Havail).
    rewrite (proj2 (slot_permitted_spec _ _) Hallowed). cbn [negb].
    apply list_elem_of_singleton. exact Ht.
Qed.

(** The variables the model holds for a session id, when every course names
    a known instructor. *)
Lemma vars_of_session_nil (data : SchedulingInput.t) (b : Builder.t)
    (session_id : string) :
  let sessions := expand_course_sessions (SchedulingInput.courses data) in
  foldlM (add_session data) Builder.init sessions = Some b →
  (PyDict.get_default (Builder.vars_by_session b) session_id [] = [] ↔
   ∀ session instructor room slot,
     session ∈ sessions →
     CourseSession.session_id session = session_id →
     PyDict.get (instructor_by_id data) (CourseSession.instructor_id session)
     = Some instructor →
     room ∈ SchedulingInput.rooms data →
     slot ∈ SchedulingInput.time_slots data →
     ¬ fits instructor session room slot).
Proof.
  intros sessions Hb. apply add_sessions_builder in Hb. rewrite Hb.
  unfold builder_from, Builder.init. cbn [Builder.vars_by_session Builder.variables length].
  rewrite get_default_grouped. cbn [app].
  set (its := indexed_from 0 (all_triples data sessions)).
  split.
  - intros Hnone session instructor room slot Hsession Hid Hinstr Hroom Hslot Hfits.
    assert (Triple.mk session instructor room slot ∈ all_triples data sessions) as Hin.
    { unfold all_triples. apply elem_of_flat_map. exists session. split; [done|].
      rewrite Hinstr. apply session_triples_fits. cbn. done. }
    rewrite <- (map_snd_indexed_from 0 (all_triples data sessions)) in Hin.
    apply list_elem_of_fmap in Hin as ([i t] & Ht & Hi). cbn in Ht. subst t.
    apply map_eq_nil in Hnone.
    assert ((i, Triple.mk session instructor room slot)
            ∈ filter (λ it : nat * Triple.t,
                CourseSession.session_id (Triple.session it.2) = session_id) its) as Hf.
    { apply list_elem_of_filter. split; [done|done]. }
    rewrite Hnone in Hf. by apply elem_of_nil in Hf.
  - intros Hnone.
    destruct (filter _ its) as [|[i t] rest] eqn:Hf; [done|]. exfalso.
    assert ((i, t) ∈ filter (λ it : nat * Triple.t,
              CourseSession.session_id (Triple.session it.2) = session_id) its) as Hin
      by (rewrite Hf; apply list_elem_of_here).
    apply list_elem_of_filter in Hin as [Hid Hin]. cbn in Hid.
    apply elem_of_indexed_from in Hin as [_ Hin].
    unfold all_triples in Hin. apply elem_of_flat_map in Hin as (session & Hsession & Hin).
    destruct (PyDict.get (instructor_by_id data) (CourseSession.instructor_id session))
      as [instructor|] eqn:Hinstr; [|by apply elem_of_nil in Hin].
    apply session_triples_fits in Hin as (Ht & Hroom & Hslot & Hfits).
    rewrite Ht in Hid. cbn in Hid.
    by apply (Hnone session instructor (Triple.room t) (Triple.slot t)).
Qed.

(** X11: when a course names an instructor that is not in the input, the
    exact path returns [model_invalid] with no assignment, whatever the
    engine would answer; its one note lists the unknown instructor ids of
    the courses, each once. *)
Theorem exact_path_rejects_unknown_instructor (Solve : Engine)
    (runtime : PyFloat.float) (data : SchedulingInput.t) (course : Course.t) :
  course ∈ SchedulingInput.courses data →
  PyDict.get (instructor_by_id data) (Course.instructor_id course) = None →
  ∃ ids,
    _solve_with_cp_sat Solve runtime data
    = Some ("model_invalid", runtime, [],
            ["Unknown instructor id(s) detected in course input: " +:+ join ", " ids])
    ∧ NoDup ids
    ∧ ∀ id, id ∈ ids ↔
        ∃ c, c ∈ SchedulingInput.courses data
          ∧ Course.instructor_id c = id
          ∧ PyDict.get (instructor_by_id data) id = None.
Proof.
  intros Hcourse Hunknown.
  set (unknown := (list_to_set
    (map Course.instructor_id
       (filter (λ course,
                  PyDict.get (instructor_by_id data) (Course.instructor_id course) = None)
          (SchedulingInput.courses data))) : gset string)).
  assert (∀ id, id ∈ unknown ↔
            ∃ c, c ∈ SchedulingInput.courses data
              ∧ Course.instructor_id c = id
              ∧ PyDict.get (instructor_by_id data) id = None) as Hin.
  { intros id. unfold unknown. rewrite elem_of_list_to_set, list_elem_of_fmap. split.
    - intros (c & -> & [Hnone Hc]%list_elem_of_filter). by exists c.
    - intros (c & Hc & <- & Hnone). exists c. split; [done|].
      by apply list_elem_of_filter. }
  exists (sorted_strings unknown). split; [|split].
  - unfold _solve_with_cp_sat, build_model. fold unknown.
    destruct (decide (unknown ≠ ∅)) as [_|Hempty]; [done|].
    apply dec_stable in Hempty.
    assert (Course.instructor_id course ∈ unknown) as Hc
      by (apply Hin; by exists course).
    rewrite Hempty in Hc. by apply elem_of_empty in Hc.
  - apply NoDup_sorted_strings.
  - intros id. by rewrite elem_of_sorted_strings.
Qed.

(** X12: when every course names a known instructor and the course ids are
    distinct, a session that fits no room and slot of the input makes the
    exact path return [infeasible] with no assignment, whatever the engine
    would answer; the note names a session that fits no room and slot. *)
Theorem exact_path_reports_session_without_option (Solve : Engine)
    (runtime : PyFloat.float) (data : SchedulingInput.t)
    (session : CourseSession.t) (instructor : Instructor.t) :
  NoDup (map Course.id (SchedulingInput.courses data)) →
  (∀ course, course ∈ SchedulingInput.courses data →
     is_Some (PyDict.get (instructor_by_id data) (Course.instructor_id course))) →
  session ∈ expand_course_sessions (SchedulingInput.courses data) →
  PyDict.get (instructor_by_id data) (CourseSession.instructor_id session)
  = Some instructor →
  (∀ room slot, room ∈ SchedulingInput.rooms data →
     slot ∈ SchedulingInput.time_slots data → ¬ fits instructor session room slot) →
  ∃ session' instructor',
    session' ∈ expand_course_sessions (SchedulingInput.courses data)
    ∧ PyDict.get (instructor_by_id data) (CourseSession.instructor_id session')
      = Some instructor'
    ∧ (∀ room slot, room ∈ SchedulingInput.rooms data →
         slot ∈ SchedulingInput.time_slots data → ¬ fits instructor' session' room slot)
    ∧ _solve_with_cp_sat Solve runtime data
      = Some ("infeasible", runtime, [],
              ["No feasible assignment exists for session '"
               +:+ CourseSession.session_id session' +:+ "'."]).
Proof.
  intros Hcourses Hknown Hsession Hinstr Hnone.
  pose proof (sessions_distinct data Hcourses) as Hids.
  set (sessions := expand_course_sessions (SchedulingInput.courses data)) in *.
  assert ((list_to_set
    (map Course.instructor_id
       (filter (λ course,
                  PyDict.get (instructor_by_id data) (Course.instructor_id course) = None)
          (SchedulingInput.courses data))) : gset string) = ∅) as Hempty.
  { apply elem_of_equiv_empty_L. intros id Hid.
    apply elem_of_list_to_set, list_elem_of_fmap in Hid
      as (c & -> & [Hc_none Hc]%list_elem_of_filter).
    destruct (Hknown c Hc) as [i Hi]. congruence. }
  destruct (add_sessions_total data sessions Builder.init
              (sessions_have_instructors data Hempty)) as [b Hb].
  pose proof (vars_of_session_nil data b) as Hvars. cbv zeta in Hvars.
  fold sessions in Hvars.
  destruct (exactly_one_constraints (Builder.vars_by_session b) sessions)
    as [sid|one_per_session] eqn:Hone.
  - destruct (exactly_one_constraints_inl _ _ _ Hone)
      as (session' & Hsession' & Hsid & Hnil). subst sid.
    destruct (sessions_have_instructors data Hempty session' Hsession')
      as [instructor' Hinstr'].
    exists session', instructor'. split; [done|]. split; [done|]. split.
    + intros room slot Hroom Hslot.
      exact (proj1 (Hvars _ Hb) Hnil session' instructor' room slot
               Hsession' eq_refl Hinstr' Hroom Hslot).
    + unfold _solve_with_cp_sat, build_model.
      destruct (decide _) as [Hne|_]; [by destruct Hne|].
      fold sessions. rewrite Hb. cbn [mbind option_bind]. by rewrite Hone.
  - exfalso. apply (exactly_one_constraints_inr _ _ _ Hone session Hsession).
    apply (Hvars _ Hb).
    intros session' instructor' room slot Hsession' Hid Hinstr' Hroom Hslot.
    assert (session' = session) as ->
      by (by apply (NoDup_fmap_inj_on CourseSession.session_id sessions)).
    assert (instructor' = instructor) as -> by congruence.
    by apply Hnone.
Qed.

(** ** The exact path: the days of a solution *)

Lemma elem_of_sorted_days (slots : list TimeSlot.t) (day : Day) :
  day ∈ sorted_days slots ↔ ∃ slot, slot ∈ slots ∧ TimeSlot.day slot = day.
Proof.
  unfold sorted_days. rewrite (elem_of_sorted String.ltb Day_str).
  rewrite elem_of_elements, elem_of_list_to_set, list_elem_of_fmap.
  split; intros (slot & ? & ?); by exists slot.
Qed.

Lemma length_filter_fmap_on {A B : Type} (f : A → B) (P : B → Prop) (Q : A → Prop)
    `{∀ y, Decision (P y)} `{∀ x, Decision (Q x)} (l : list A) :
  (∀ x, x ∈ l → P (f x) ↔ Q x) →
  length (filter P (map f l)) = length (filter Q l).
Proof.
  induction l as [|x l IH]; intros Hl; [done|]. cbn [map]. rewrite !filter_cons.
  pose proof (Hl x (list_elem_of_here _ _)) as Hx.
  assert (length (filter P (map f l)) = length (filter Q l)) as IH'.
  { apply IH. intros y Hy. apply Hl. by apply list_elem_of_further. }
  destruct (decide (P (f x))) as [HP|HP], (decide (Q x)) as [HQ|HQ]; cbn; try tauto.
  by rewrite IH'.
Qed.

Lemma assignment_day_key (data : SchedulingInput.t) (t : Triple.t) :
  NoDup (map TimeSlot.id (SchedulingInput.time_slots data)) →
  Triple.slot t ∈ SchedulingInput.time_slots data →
  assignment_day data (Triple.key t) = Some (Triple.day t).
Proof.
  intros Hslots Hslot. unfold assignment_day, Triple.key. cbn.
  unfold slot_by_id. by rewrite (get_comprehension_NoDup TimeSlot.id).
Qed.

Lemma course_days_keys (data : SchedulingInput.t) (placed : list Triple.t)
    (course_id : string) :
  NoDup (map TimeSlot.id (SchedulingInput.time_slots data)) →
  (∀ t, t ∈ placed → Triple.slot t ∈ SchedulingInput.time_slots data) →
  course_days data (map Triple.key placed) course_id
  = map Triple.day
      (filter (λ t, CourseSession.course_id (Triple.session t) = course_id) placed).
Proof.
  intros Hslots. unfold course_days.
  induction placed as [|t placed IH]; intros Hin; [done|].
  cbn [map]. rewrite !filter_cons.
  change (ScheduleAssignment.course_id (Triple.key t))
    with (CourseSession.course_id (Triple.session t)).
  assert (omap (assignment_day data)
            (filter (λ a, ScheduleAssignment.course_id a = course_id)
               (map Triple.key placed))
          = map Triple.day
              (filter (λ t, CourseSession.course_id (Triple.session t) = course_id)
                 placed)) as IH'.
  { apply IH. intros t' Ht'. apply Hin. by apply list_elem_of_further. }
  destruct (decide (CourseSession.course_id (Triple.session t) = course_id)); [|done].
  cbn [omap list_omap map].
  rewrite (assignment_day_key data t Hslots (Hin t (list_elem_of_here _ _))).
  by rewrite <- IH'.
Qed.

(** A bound on the sum of the variables of a group bounds the number of
    true triples of the group. *)
Lemma group_bound {K : Type} `{EqDecision K} (keyf : nat * Triple.t → K)
    (its : list (nat * Triple.t)) (sol : cp_model.Solution) (k : K) (bound : Z) :
  cp_model.holds sol
    (cp_model.SumLe (PyDict.get_default (grouped keyf Triple.var PyDict.empty its) k [])
       bound) →
  Z.of_nat (length (filter (λ it, keyf it = k)
                      (filter (λ it : nat * Triple.t, sol it.1 = true) its))) ≤ bound.
Proof.
  cbn. rewrite get_default_grouped, sum_vars_triples, !list_filter_filter.
  rewrite (list_filter_iff _ (λ it : nat * Triple.t, keyf it = k ∧ sol it.1 = true))
    by (intros; tauto).
  done.
Qed.

Lemma sessions_of_single_course (data : SchedulingInput.t) (course : Course.t)
    (s1 s2 : CourseSession.t) :
  NoDup (map Course.id (SchedulingInput.courses data)) →
  course ∈ SchedulingInput.courses data →
  Course.sessions_per_week course ≤ 1 →
  s1 ∈ expand_course_sessions (SchedulingInput.courses data) →
  s2 ∈ expand_course_sessions (SchedulingInput.courses data) →
  CourseSession.course_id s1 = Course.id course →
  CourseSession.course_id s2 = Course.id course →
  s1 = s2.
Proof.
  intros Hcourses Hcourse Hone Hs1 Hs2 H1 H2.
  rewrite expand_course_sessions_flat_map in Hs1, Hs2.
  apply elem_of_sessions_in_order in Hs1 as (c1 & i1 & Hc1 & Hi1 & ->).
  apply elem_of_sessions_in_order in Hs2 as (c2 & i2 & Hc2 & Hi2 & ->).
  cbn in H1, H2.
  assert (c1 = course) as -> by (by apply (NoDup_fmap_inj_on Course.id _ _ _ Hcourses)).
  assert (c2 = course) as -> by (by apply (NoDup_fmap_inj_on Course.id _ _ _ Hcourses)).
  f_equal. lia.
Qed.

(** The assignments decoded from a truth assignment that satisfies the
    constraints of the model respect the daily maximum of every instructor
    and keep the sessions of a course that avoids same-day sessions on
    distinct days. *)
Lemma decoded_respects_days (data : SchedulingInput.t)
    (b : Builder.t) (used : list cp_model.IntVar) (model : cp_model.CpModel)
    (sol : cp_model.Solution) :
  NoDup (map Course.id (SchedulingInput.courses data)) →
  NoDup (map Room.id (SchedulingInput.rooms data)) →
  NoDup (map TimeSlot.id (SchedulingInput.time_slots data)) →
  build_model data = Some (Model b used model) →
  Forall (cp_model.holds sol) (cp_model.constraints model) →
  (∀ instructor max_per_day day,
     instructor ∈ SchedulingInput.instructors data →
     Instructor.max_sessions_per_day instructor = Some max_per_day →
     instructor_day_load data (decode b sol) (Instructor.id instructor) day = 0%nat
     ∨ Z.of_nat (instructor_day_load data (decode b sol) (Instructor.id instructor) day)
       ≤ max_per_day)
  ∧ (∀ course,
       course ∈ SchedulingInput.courses data →
       Course.avoid_same_day_sessions course = true →
       NoDup (course_days data (decode b sol) (Course.id course))).
Proof.
  intros Hcourses Hrooms Hslots Hbuilt Hholds.
  apply build_model_Model in Hbuilt as (Hb & one & vars & cc & Hone & Hc & ->).
  set (sessions := expand_course_sessions (SchedulingInput.courses data)) in *.
  set (its := indexed_from 0 (all_triples data sessions)) in *.
  set (counts := cluster_counts_of PyDict.empty sessions) in *.
  set (trues := filter (λ it : nat * Triple.t, sol it.1 = true) its).
  set (placed := map snd trues).
  cbn [cp_model.constraints] in Hholds.
  apply Forall_app in Hholds as [Hones Hholds].
  apply Forall_app in Hholds as [_ Hholds].
  apply Forall_app in Hholds as [_ Hholds].
  apply Forall_app in Hholds as [Hcourse_day Hholds].
  apply Forall_app in Hholds as [Hinstructor_day _].
  pose proof (sessions_distinct data Hcourses) as Hids. fold sessions in Hids.
  assert (decode b sol = map Triple.key placed) as Hdecode.
  { rewrite Hb. apply decode_builder_from. by apply NoDup_keys_all_triples. }
  assert (∀ t, t ∈ placed → Triple.slot t ∈ SchedulingInput.time_slots data) as Hslot.
  { intros t Ht%elem_of_placed. by apply elem_of_all_triples in Ht as (_ & _ & _ & ?). }
  assert (∀ it, it ∈ its → TimeSlot.day (Triple.slot it.2)
                            ∈ sorted_days (slots_by_order data)) as Hday.
  { intros [i t] Hit. apply elem_of_indexed_from in Hit as [_ Ht].
    apply elem_of_all_triples in Ht as (_ & _ & _ & Hs). cbn.
    apply elem_of_sorted_days. exists (Triple.slot t). split; [|done].
    unfold slots_by_order. by apply elem_of_sorted. }
  rewrite Hdecode. split.
  - intros instructor max_per_day day Hinstructor Hmax.
    set (keyf := λ it : nat * Triple.t,
           (CourseSession.instructor_id (Triple.session it.2), Triple.day it.2)).
    assert (instructor_day_load data (map Triple.key placed) (Instructor.id instructor) day
            = length (filter (λ it, keyf it = (Instructor.id instructor, day)) trues))
      as ->.
    { unfold instructor_day_load, placed. rewrite <- list_fmap_compose.
      apply length_filter_fmap_on. intros [i t] Hit. cbn.
      rewrite (assignment_day_key data t Hslots).
      2:{ apply Hslot. unfold placed. apply list_elem_of_fmap. by exists (i, t). }
      unfold keyf. cbn. split.
      - intros [-> [= ->]]. done.
      - intros [= -> ->]. done. }
    destruct (filter (λ it, keyf it = (Instructor.id instructor, day)) its)
      as [|it0 group'] eqn:Hgroup.
    + left. unfold trues. rewrite list_filter_filter.
      rewrite (list_filter_iff _
        (λ it : nat * Triple.t, sol it.1 = true ∧ keyf it = (Instructor.id instructor, day)))
        by (intros; tauto).
      rewrite <- list_filter_filter, Hgroup. done.
    + right. apply group_bound.
      rewrite Forall_forall in Hinstructor_day. apply Hinstructor_day.
      unfold instructor_day_constraints. apply elem_of_flat_map.
      exists instructor. split; [done|]. rewrite Hmax.
      apply elem_of_flat_map. exists day. split.
      * assert (it0 ∈ filter (λ it, keyf it = (Instructor.id instructor, day)) its)
          as Hit0 by (rewrite Hgroup; apply list_elem_of_here).
        apply list_elem_of_filter in Hit0 as [Hk Hit0]. injection Hk as _ <-.
        by apply Hday.
      * rewrite Hb. cbn [builder_from Builder.vars_by_instructor_day Builder.init].
        rewrite !get_default_grouped. unfold keyf in Hgroup |- *. cbv beta in Hgroup.
        rewrite !Hgroup. cbn [map].
        apply list_elem_of_here.
  - intros course Hcourse Havoid.
    rewrite (course_days_keys data placed (Course.id course) Hslots Hslot).
    destruct (decide (Course.sessions_per_week course ≤ 1)) as [Hsingle|Hmany].
    + assert (∀ t1 t2,
        t1 ∈ filter (λ t, CourseSession.course_id (Triple.session t) = Course.id course)
               placed →
        t2 ∈ filter (λ t, CourseSession.course_id (Triple.session t) = Course.id course)
               placed →
        Triple.session t1 = Triple.session t2) as Hsame.
      { intros t1 t2 [H1 Ht1]%list_elem_of_filter [H2 Ht2]%list_elem_of_filter.
        apply elem_of_placed, elem_of_all_triples in Ht1 as (Hs1 & _).
        apply elem_of_placed, elem_of_all_triples in Ht2 as (Hs2 & _).
        by apply (sessions_of_single_course data course). }
      assert (NoDup (map Triple.session placed)) as Hplaced.
      { assert (∀ s, s ∈ sessions →
          cp_model.sum_vars sol
            (PyDict.get_default (Builder.vars_by_session b)
               (CourseSession.session_id s) []) = 1) as Hsession.
        { intros s Hs. rewrite Forall_forall in Hones.
          apply (Hones (cp_model.SumEq
            (PyDict.get_default (Builder.vars_by_session b)
               (CourseSession.session_id s) []) 1)).
          by apply (exactly_one_constraints_elem _ _ _ Hone). }
        rewrite Hb in Hsession.
        pose proof (placed_sessions_Permutation data sessions counts sol Hids Hsession)
          as Hperm. cbv zeta in Hperm. fold its trues placed in Hperm.
        rewrite Hperm. by apply NoDup_fmap_1 in Hids. }
      assert (NoDup (map Triple.session
        (filter (λ t, CourseSession.course_id (Triple.session t) = Course.id course)
           placed))) as Hfiltered.
      { eapply sublist_NoDup; [exact Hplaced|apply fmap_sublist, sublist_filter]. }
      destruct (filter (λ t, CourseSession.course_id (Triple.session t) = Course.id course)
                  placed) as [|t1 [|t2 rest]]; cbn.
      * constructor.
      * apply NoDup_singleton.
      * exfalso. cbn in Hfiltered. apply NoDup_cons in Hfiltered as [Hnot _].
        apply Hnot. rewrite (Hsame t1 t2).
        -- apply list_elem_of_here.
        -- apply list_elem_of_here.
        -- apply list_elem_of_further, list_elem_of_here.
    + apply NoDup_fmap_at_most_one. intros day.
      set (keyf := λ it : nat * Triple.t,
             (CourseSession.course_id (Triple.session it.2), Triple.day it.2)).
      assert (length (filter (λ t, Triple.day t = day)
                (filter (λ t, CourseSession.course_id (Triple.session t) = Course.id course)
                   placed))
              = length (filter (λ it, keyf it = (Course.id course, day)) trues)) as ->.
      { rewrite list_filter_filter. unfold placed.
        apply length_filter_fmap_on. intros [i t] _. unfold keyf. cbn. split.
        - intros [-> ->]. done.
        - intros [= -> ->]. done. }
      destruct (filter (λ it, keyf it = (Course.id course, day)) its)
        as [|it0 group'] eqn:Hgroup.
      * unfold trues. rewrite list_filter_filter.
        rewrite (list_filter_iff _
          (λ it : nat * Triple.t, sol it.1 = true ∧ keyf it = (Course.id course, day)))
          by (intros; tauto).
        rewrite <- list_filter_filter, Hgroup. cbn. lia.
      * apply Nat2Z.inj_le. apply group_bound.
        rewrite Forall_forall in Hcourse_day. apply Hcourse_day.
        unfold course_day_constraints. apply elem_of_flat_map.
        exists course. split; [done|]. rewrite Havoid. cbn [negb orb].
        rewrite bool_decide_eq_false_2 by done.
        apply elem_of_flat_map. exists day. split.
        -- assert (it0 ∈ filter (λ it, keyf it = (Course.id course, day)) its)
             as Hit0 by (rewrite Hgroup; apply list_elem_of_here).
           apply list_elem_of_filter in Hit0 as [Hk Hit0]. injection Hk as _ <-.
           by apply Hday.
        -- rewrite Hb. cbn [builder_from Builder.vars_by_course_day Builder.init].
           rewrite !get_default_grouped. unfold keyf in Hgroup |- *. cbv beta in Hgroup.
        rewrite !Hgroup. cbn [map].
           apply list_elem_of_here.
Qed.

Lemma instructor_day_load_Permutation (data : SchedulingInput.t)
    (l l' : list ScheduleAssignment.t) (instructor_id : string) (day : Day) :
  l ≡ₚ l' →
  instructor_day_load data l instructor_id day
  = instructor_day_load data l' instructor_id day.
Proof. intros Hperm. unfold instructor_day_load. by rewrite Hperm. Qed.

Lemma course_days_Permutation (data : SchedulingInput.t)
    (l l' : list ScheduleAssignment.t) (course_id : string) :
  l ≡ₚ l' → course_days data l course_id ≡ₚ course_days data l' course_id.
Proof. intros Hperm. unfold course_days. by rewrite Hperm. Qed.

(** X13: with an engine that keeps its promise and an input with distinct
    course, room and time-slot ids, the schedule of a result with status
    [optimal] or [feasible] gives no instructor more assignments on a day
    than the instructor's daily maximum, and places the sessions of a course
    that avoids same-day sessions on pairwise distinct days. *)
Theorem exact_result_respects_days (Solve : Engine) (clock : Clock.t)
    (data : SchedulingInput.t) (solver_mode : SolverMode)
    (result : ScheduleResult.t) (validation : ValidationReport.t) :
  engine_sound Solve →
  NoDup (map Course.id (SchedulingInput.courses data)) →
  NoDup (map Room.id (SchedulingInput.rooms data)) →
  NoDup (map TimeSlot.id (SchedulingInput.time_slots data)) →
  solve_schedule Solve clock data solver_mode = Some (result, validation) →
  ScheduleResult.status result ∈ ["optimal"; "feasible"] →
  (∀ instructor max_per_day day,
     instructor ∈ SchedulingInput.instructors data →
     Instructor.max_sessions_per_day instructor = Some max_per_day →
     instructor_day_load data (ScheduleResult.assignments result)
       (Instructor.id instructor) day = 0%nat
     ∨ Z.of_nat (instructor_day_load data (ScheduleResult.assignments result)
                   (Instructor.id instructor) day) ≤ max_per_day)
  ∧ (∀ course,
       course ∈ SchedulingInput.courses data →
       Course.avoid_same_day_sessions course = true →
       NoDup (course_days data (ScheduleResult.assignments result) (Course.id course))).
Proof.
  intros Hsound Hcourses Hrooms Hslots Hsolve Hok.
  destruct (solve_schedule_exact _ _ _ _ _ _ Hsound Hsolve Hok)
    as (b & used & model & sol & status & runtime & Hbuilt & Hholds & [= -> ->]).
  destruct (decoded_respects_days data b used model sol) as [Hmax Hdays]; try done.
  unfold _build_result. cbn [ScheduleResult.assignments].
  pose proof (sorted_Permutation String.ltb ScheduleAssignment.session_id (decode b sol))
    as Hperm.
  split.
  - intros instructor max_per_day day Hinstructor Hsome.
    rewrite (instructor_day_load_Permutation data _ _ _ _ Hperm). by apply Hmax.
  - intros course Hcourse Havoid.
    rewrite (course_days_Permutation data _ _ _ Hperm). by apply Hdays.
Qed.

(** ** The objective: the order of the assignments *)

(** The penalty units of the loop, from the tags and days of the placed
    sessions alone. *)
Lemma cluster_penalty_units_placed (tds : list (string * Day)) (i r p : Z) :
  cluster_penalty_units
    (Breakdown.mk i r p (days_from PyDict.empty tds) (counts_from PyDict.empty tds))
  = Z.of_nat (size (list_to_set
      (filter (λ td : string * Day,
                 (1 < length (filter (λ td' : string * Day, td'.1 = td.1) tds))%nat)
         tds) : gset (string * Day))).
Proof.
  unfold cluster_penalty_units, PyDict.items.
  cbn [Breakdown.cluster_days Breakdown.cluster_counts].
  change (days_from PyDict.empty tds)
    with (days_from (map (prod_map id (list_to_set (C:=gset Day))) PyDict.empty) tds).
  rewrite days_from_grouped.
  rewrite (list_filter_iff _
    (λ item : string * gset Day,
       (1 < length (filter (λ td' : string * Day, td'.1 = item.1) tds))%nat)).
  - pose proof (sum_sizes_grouped
      (λ tag, (1 < length (filter (λ td' : string * Day, td'.1 = tag) tds))%nat) tds)
      as Hs.
    cbv beta in Hs. unfold sum_Z in Hs. exact Hs.
  - intros [tag days]. cbn [fst]. rewrite get_default_counts_from.
    unfold PyDict.get_default. cbn. lia.
Qed.

Lemma cluster_penalty_units_Permutation (tds tds' : list (string * Day))
    (i r p i' r' p' : Z) :
  tds ≡ₚ tds' →
  cluster_penalty_units
    (Breakdown.mk i r p (days_from PyDict.empty tds) (counts_from PyDict.empty tds))
  = cluster_penalty_units
      (Breakdown.mk i' r' p' (days_from PyDict.empty tds')
         (counts_from PyDict.empty tds')).
Proof.
  intros Hperm. rewrite !cluster_penalty_units_placed. do 2 f_equal.
  apply set_eq. intros td. rewrite !elem_of_list_to_set, !list_elem_of_filter.
  rewrite Hperm. done.
Qed.

(** X14: the objective breakdown does not depend on the order of the
    assignments; so the objective value of a result, which [_build_result]
    computes before it sorts the assignments, is the one of the schedule the
    result carries. *)
Theorem objective_breakdown_order_independent (data : SchedulingInput.t)
    (weights : ObjectiveWeights.t) (l l' : list ScheduleAssignment.t) :
  l ≡ₚ l' →
  compute_objective_breakdown data l weights
  = compute_objective_breakdown data l' weights.
Proof.
  intros Hperm. unfold compute_objective_breakdown. rewrite !breakdown_loop.
  cbn [Breakdown.instructor_component Breakdown.room_component
       Breakdown.priority_component Breakdown.init].
  assert (omap (resolve data) l ≡ₚ omap (resolve data) l') as Hplaced
    by (by rewrite Hperm).
  assert (tag_days (omap (resolve data) l) ≡ₚ tag_days (omap (resolve data) l'))
    as Htags by (unfold tag_days; by rewrite Hplaced).
  rewrite (cluster_penalty_units_Permutation _ _ _ _ _
    (0 + ObjectiveWeights.instructor_preference weights * 100
         * Z.of_nat (length (filter Triple.instructor_preferred
                               (omap (resolve data) l'))))
    (0 + ObjectiveWeights.room_efficiency weights
         * sum_Z (map Triple.utilization (omap (resolve data) l')))
    (0 + ObjectiveWeights.course_priority weights
         * sum_Z (map (λ t, CourseSession.priority (Triple.session t) * 20)
                    (filter Triple.course_preferred (omap (resolve data) l'))))
    Htags).
  rewrite (sum_Z_Permutation (map Triple.utilization (omap (resolve data) l))
             (map Triple.utilization (omap (resolve data) l')))
    by (by rewrite Hplaced).
  rewrite (sum_Z_Permutation
             (map (λ t, CourseSession.priority (Triple.session t) * 20)
                (filter Triple.course_preferred (omap (resolve data) l)))
             (map (λ t, CourseSession.priority (Triple.session t) * 20)
                (filter Triple.course_preferred (omap (resolve data) l'))))
    by (by rewrite Hplaced).
  assert (length (filter Triple.instructor_preferred (omap (resolve data) l))
          = length (filter Triple.instructor_preferred (omap (resolve data) l'))) as ->
    by (by rewrite Hplaced).
  done.
Qed.

(** ** [solve_schedule]: the solver and the status of a result *)

Lemma cp_status_text_literal (status_code : cp_model.Status) :
  _cp_status_to_text status_code
  ∈ ["optimal"; "feasible"; "infeasible"; "unknown"; "model_invalid"].
Proof. destruct status_code; apply (bool_decide_unpack _); by vm_compute. Qed.

(** What the exact path returns: a status of the exact path, and no
    assignment unless the status is [optimal] or [feasible]. *)
Lemma solve_with_cp_sat_status (Solve : Engine) (runtime : PyFloat.float)
    (data : SchedulingInput.t) :
  ∃ status assignments notes,
    _solve_with_cp_sat Solve runtime data = Some (status, runtime, assignments, notes)
    ∧ status ∈ ["optimal"; "feasible"; "infeasible"; "unknown"; "model_invalid"]
    ∧ (status ∉ ["optimal"; "feasible"] → assignments = []).
Proof.
  unfold _solve_with_cp_sat. destruct (build_model_total data) as [built Hbuilt].
  rewrite Hbuilt. cbn. destruct built as [status notes|b used model].
  - exists status, [], notes. split; [done|]. split; [|done].
    unfold build_model in Hbuilt. destruct (decide _) in Hbuilt.
    + injection Hbuilt as <- _. apply (bool_decide_unpack _). by vm_compute.
    + destruct (foldlM _ _ _) as [b|]; [|done]. cbn in Hbuilt.
      destruct (exactly_one_constraints _ _);
        [|by destruct (cluster_day_indicators b) as [[? ?] ?]].
      injection Hbuilt as <- _. apply (bool_decide_unpack _). by vm_compute.
  - destruct (Solve model _ _) as [status_code sol].
    eexists _, _, _. split; [done|]. split; [apply cp_status_text_literal|].
    intros Hnot. by rewrite bool_decide_eq_false_2.
Qed.

(** With the exceptions of the overflow and of the CP-SAT library left out
    (see the head of the file), [solve_schedule] gives a result in every
    mode; the solver and the status of that result, by mode. *)
Lemma solve_schedule_solver_status (Solve : Engine) (clock : Clock.t)
    (data : SchedulingInput.t) (solver_mode : SolverMode) :
  ∃ result validation,
    solve_schedule Solve clock data solver_mode = Some (result, validation)
    ∧ (ScheduleResult.solver result = "heuristic"
       ∧ ScheduleResult.status result ∈ ["fallback"; "fallback_partial"]
       ∨ ScheduleResult.solver result = "cp_sat"
         ∧ ScheduleResult.status result
           ∈ ["optimal"; "feasible"; "infeasible"; "unknown"; "model_invalid"])
    ∧ (solver_mode = heuristic_mode → ScheduleResult.solver result = "heuristic")
    ∧ (solver_mode = cp_sat_mode → ScheduleResult.solver result = "cp_sat")
    ∧ (ScheduleResult.solver result = "cp_sat" →
       ScheduleResult.status result ∉ ["optimal"; "feasible"] →
       ScheduleResult.assignments result = []
       ∧ ScheduleMetrics.sessions_scheduled (ScheduleResult.metrics result) = 0).
Proof.
  destruct (solve_with_cp_sat_status Solve (Clock.cp_runtime clock) data)
    as (cp_status & cp_assignments & cp_notes & Hcp & Hliteral & Hempty).
  destruct (solve_with_heuristic_ledger (Clock.heuristic_runtime clock) data)
    as (out & st & sorted_sessions & Hout & _).
  pose proof (heuristic_status _ _ _ Hout) as Hstatus.
  assert (HeuristicSolveOutput.status out ∈ ["fallback"; "fallback_partial"]) as Hfallback.
  { destruct Hstatus as [-> | ->]; apply (bool_decide_unpack _); by vm_compute. }
  assert (∀ runtime notes,
    let built := _build_result (HeuristicSolveOutput.status out) "heuristic" runtime
                   (HeuristicSolveOutput.assignments out) notes data in
    (ScheduleResult.solver built.1 = "heuristic"
     ∧ ScheduleResult.status built.1 ∈ ["fallback"; "fallback_partial"]
     ∨ ScheduleResult.solver built.1 = "cp_sat"
       ∧ ScheduleResult.status built.1
         ∈ ["optimal"; "feasible"; "infeasible"; "unknown"; "model_invalid"])
    ∧ ScheduleResult.solver built.1 = "heuristic"
    ∧ (ScheduleResult.solver built.1 = "cp_sat" →
       ScheduleResult.status built.1 ∉ ["optimal"; "feasible"] →
       ScheduleResult.assignments built.1 = []
       ∧ ScheduleMetrics.sessions_scheduled (ScheduleResult.metrics built.1) = 0))
    as Hheuristic.
  { intros runtime notes. cbn. split; [by left|]. split; [done|]. done. }
  assert (
    let built := _build_result cp_status "cp_sat" (Clock.cp_runtime clock)
                   cp_assignments cp_notes data in
    (ScheduleResult.solver built.1 = "heuristic"
     ∧ ScheduleResult.status built.1 ∈ ["fallback"; "fallback_partial"]
     ∨ ScheduleResult.solver built.1 = "cp_sat"
       ∧ ScheduleResult.status built.1
         ∈ ["optimal"; "feasible"; "infeasible"; "unknown"; "model_invalid"])
    ∧ ScheduleResult.solver built.1 = "cp_sat"
    ∧ (ScheduleResult.solver built.1 = "cp_sat" →
       ScheduleResult.status built.1 ∉ ["optimal"; "feasible"] →
       ScheduleResult.assignments built.1 = []
       ∧ ScheduleMetrics.sessions_scheduled (ScheduleResult.metrics built.1) = 0))
    as Hexact.
  { cbn. split; [by right|]. split; [done|]. intros _ Hnot.
    rewrite (Hempty Hnot). done. }
  unfold solve_schedule. destruct solver_mode.
  - rewrite Hcp. cbn [mbind option_bind]. case_bool_decide as Hok.
    + eexists _, _. rewrite (surjective_pairing (_build_result _ _ _ _ _ _)).
      split; [done|]. destruct Hexact as (? & ? & ?). done.
    + destruct (SolverOptions.enable_fallback _); cbn.
      * rewrite Hout. cbn.
        eexists _, _. rewrite (surjective_pairing (_build_result _ _ _ _ _ _)).
        split; [done|].
        destruct (Hheuristic
          (PyFloat.add (Clock.cp_runtime clock) (HeuristicSolveOutput.runtime_seconds out))
          (["CP-SAT status: " +:+ cp_status +:+ ". Triggering fallback heuristic."]
           ++ cp_notes ++ HeuristicSolveOutput.notes out)) as (? & ? & ?). done.
      * eexists _, _. rewrite (surjective_pairing (_build_result _ _ _ _ _ _)).
        split; [done|]. destruct Hexact as (? & ? & ?). done.
  - rewrite Hcp. cbn [mbind option_bind]. case_bool_decide as Hok.
    + eexists _, _. rewrite (surjective_pairing (_build_result _ _ _ _ _ _)).
      split; [done|]. destruct Hexact as (? & ? & ?). done.
    + cbn. eexists _, _. rewrite (surjective_pairing (_build_result _ _ _ _ _ _)).
      split; [done|]. destruct Hexact as (? & ? & ?). done.
  - rewrite Hout. cbn.
    eexists _, _. rewrite (surjective_pairing (_build_result _ _ _ _ _ _)).
    split; [done|].
    destruct (Hheuristic (HeuristicSolveOutput.runtime_seconds out)
                (HeuristicSolveOutput.notes out)) as (? & ? & ?). done.
Qed.

(** X15: in every result that [solve_schedule] returns, the solver and the
    status go together: [heuristic] with [fallback] or [fallback_partial],
    [cp_sat] with one of the five statuses of the exact path.  The mode
    [heuristic] gives the solver [heuristic], the mode [cp_sat] the solver
    [cp_sat]; and a result of [cp_sat] whose status is neither [optimal] nor
    [feasible] carries no assignment. *)
Theorem result_solver_and_status (Solve : Engine) (clock : Clock.t)
    (data : SchedulingInput.t) (solver_mode : SolverMode)
    (result : ScheduleResult.t) (validation : ValidationReport.t) :
  solve_schedule Solve clock data solver_mode = Some (result, validation) →
  (ScheduleResult.solver result = "heuristic"
   ∧ ScheduleResult.status result ∈ ["fallback"; "fallback_partial"]
   ∨ ScheduleResult.solver result = "cp_sat"
     ∧ ScheduleResult.status result
       ∈ ["optimal"; "feasible"; "infeasible"; "unknown"; "model_invalid"])
  ∧ (solver_mode = heuristic_mode → ScheduleResult.solver result = "heuristic")
  ∧ (solver_mode = cp_sat_mode → ScheduleResult.solver result = "cp_sat")
  ∧ (ScheduleResult.solver result = "cp_sat" →
     ScheduleResult.status result ∉ ["optimal"; "feasible"] →
     ScheduleResult.assignments result = []
     ∧ ScheduleMetrics.sessions_scheduled (ScheduleResult.metrics result) = 0).
Proof.
  intros Hsolve.
  destruct (solve_schedule_solver_status Solve clock data solver_mode)
    as (result' & validation' & Hsolve' & Hpairs).
  rewrite Hsolve in Hsolve'. injection Hsolve' as <- <-. exact Hpairs.
Qed.

(** ** The heuristic: the sessions it cannot place *)

(** X16: for an input with distinct course ids, a session whose instructor
    is unknown, or that fits no room and slot of the input, gets no
    assignment in an output of the heuristic, and the status of the output
    is [fallback_partial]. *)
Theorem heuristic_leaves_unscheduled (runtime : PyFloat.float)
    (data : SchedulingInput.t) (session : CourseSession.t)
    (out : HeuristicSolveOutput.t) :
  NoDup (map Course.id (SchedulingInput.courses data)) →
  session ∈ expand_course_sessions (SchedulingInput.courses data) →
  (∀ instructor room slot,
     PyDict.get (instructor_by_id data) (CourseSession.instructor_id session)
     = Some instructor →
     room ∈ SchedulingInput.rooms data →
     slot ∈ SchedulingInput.time_slots data →
     ¬ fits instructor session room slot) →
  solve_with_heuristic runtime data = Some out →
  (CourseSession.session_id session
   ∉ map ScheduleAssignment.session_id (HeuristicSolveOutput.assignments out))
  ∧ HeuristicSolveOutput.status out = "fallback_partial".
Proof.
  intros Hcourses Hsession Hnone Hsolve.
  pose proof (sessions_distinct data Hcourses) as Hids.
  set (sessions := expand_course_sessions (SchedulingInput.courses data)) in *.
  destruct (solve_with_heuristic_ledger runtime data)
    as (out' & st & sorted_sessions & Hout & Hperm & _
        & (Haccount & Hprovenance & _) & Has & Hstatus & _).
  rewrite Hout in Hsolve. injection Hsolve as <-.
  fold sessions in Hperm, Hprovenance.
  assert (CourseSession.session_id session
          ∉ map ScheduleAssignment.session_id (Heuristic.assignments st)) as Hnot.
  { intros (a & Hid & Ha)%list_elem_of_fmap.
    destruct (Hprovenance a Ha)
      as (session' & instructor & candidates & Hsession' & Hrecord & Hinstructor
          & Hfeasible & Hkey).
    assert (session' = session) as ->.
    { apply (NoDup_fmap_inj_on CourseSession.session_id sessions); try done.
      rewrite Hid, Hrecord. done. }
    rewrite feasible_candidates_get in Hfeasible.
    unfold session_by_id in Hfeasible.
    rewrite (get_comprehension_NoDup CourseSession.session_id sessions session Hids
               Hsession) in Hfeasible.
    cbn in Hfeasible. injection Hfeasible as <-.
    unfold session_candidates in Hkey. rewrite Hinstructor in Hkey.
    destruct (room_slot_key a) as [r t].
    apply session_options_ok in Hkey
      as ((room & Hroom & Hcap & Hfeatures) & [slot Hslot] & Havail & Hallowed).
    apply get_comprehension_Some in Hroom as [Hroom _].
    apply get_comprehension_Some in Hslot as [Hslot Ht]. cbn in Ht. subst t.
    by apply (Hnone instructor room slot). }
  rewrite Has. split; [done|].
  rewrite Hstatus. destruct (decide (Heuristic.unscheduled st = [])) as [Hempty|]; [|done].
  exfalso. apply Hnot. rewrite Hempty, app_nil_r in Haccount. rewrite Haccount, Hperm.
  apply list_elem_of_fmap. by exists session.
Qed.

(** ** Instances *)

Lemma heuristic_leaves_unscheduled_witness :
  let data := Sample.crowded_input in
  let session := make_session Sample.lecture 1 in
  NoDup (map Course.id (SchedulingInput.courses data))
  ∧ session ∈ expand_course_sessions (SchedulingInput.courses data)
  ∧ (∀ instructor room slot,
       PyDict.get (instructor_by_id data) (CourseSession.instructor_id session)
       = Some instructor →
       room ∈ SchedulingInput.rooms data →
       slot ∈ SchedulingInput.time_slots data →
       ¬ fits instructor session room slot)
  ∧ ∃ out,
      solve_with_heuristic (Clock.heuristic_runtime Sample.quick_clock) data = Some out
      ∧ (CourseSession.session_id session
         ∉ map ScheduleAssignment.session_id (HeuristicSolveOutput.assignments out))
      ∧ HeuristicSolveOutput.status out = "fallback_partial".
Proof.
  intros data session.
  assert (NoDup (map Course.id (SchedulingInput.courses data))) as Hcourses.
  { apply (bool_decide_unpack _). vm_compute. reflexivity. }
  assert (session ∈ expand_course_sessions (SchedulingInput.courses data)) as Hsession
    by apply list_elem_of_here.
  assert (∀ instructor room slot,
            PyDict.get (instructor_by_id data) (CourseSession.instructor_id session)
            = Some instructor →
            room ∈ SchedulingInput.rooms data →
            slot ∈ SchedulingInput.time_slots data →
            ¬ fits instructor session room slot) as Hnone.
  { intros instructor room slot _ Hroom _ [Hcap _]. apply list_elem_of_singleton in Hroom.
    subst room. cbn in Hcap. lia. }
  do 3 (split; [done|]).
  destruct (solve_with_heuristic (Clock.heuristic_runtime Sample.quick_clock) data)
    as [out|] eqn:Hout; [|by vm_compute in Hout].
  exists out. split; [done|].
  exact (heuristic_leaves_unscheduled (Clock.heuristic_runtime Sample.quick_clock)
           data session out Hcourses Hsession Hnone Hout).
Defined.

(** Three sessions, one room and two slots: one session is left out. *)
Lemma heuristic_accounts_for_sessions_witness :
  let data := Sample.week_input in
  let sessions := expand_course_sessions (SchedulingInput.courses data) in
  let notes :=
    [ "Fallback heuristic solver executed.";
      "Sessions are scheduled greedily by constrainedness and local weighted score." ] in
  ∃ out,
    solve_with_heuristic (Clock.heuristic_runtime Sample.quick_clock) data = Some out
    ∧ HeuristicSolveOutput.status out = "fallback_partial"
    ∧ length (HeuristicSolveOutput.assignments out) = 2%nat
    ∧ map ScheduleAssignment.session_id (HeuristicSolveOutput.assignments out)
        ⊆+ map CourseSession.session_id sessions
    ∧ ((HeuristicSolveOutput.status out = "fallback"
        ∧ length (HeuristicSolveOutput.assignments out) = length sessions
        ∧ HeuristicSolveOutput.notes out = notes)
       ∨ (HeuristicSolveOutput.status out = "fallback_partial"
          ∧ (length (HeuristicSolveOutput.assignments out) < length sessions)%nat
          ∧ HeuristicSolveOutput.notes out
            = notes
              ++ [pretty (Z.of_nat (length sessions
                                    - length (HeuristicSolveOutput.assignments out)))
                  +:+ " session(s) were left unscheduled due to constraint overload."])).
Proof.
  intros data sessions notes.
  assert ((λ out, (HeuristicSolveOutput.status out,
                   length (HeuristicSolveOutput.assignments out)))
            <$> solve_with_heuristic (Clock.heuristic_runtime Sample.quick_clock) data
          = Some ("fallback_partial", 2%nat)) as Hvalue by (vm_compute; reflexivity).
  destruct (solve_with_heuristic (Clock.heuristic_runtime Sample.quick_clock) data)
    as [out|] eqn:Hout; [|done].
  cbn in Hvalue. injection Hvalue as Hstatus Hlength.
  exists out. split; [done|]. split; [exact Hstatus|]. split; [exact Hlength|].
  exact (heuristic_accounts_for_sessions (Clock.heuristic_runtime Sample.quick_clock)
           data out Hout).
Defined.

(** An instructor with at most one session a day and a course of two
    sessions: the second session goes to Tuesday although a Monday slot is
    free and comes first. *)
Lemma heuristic_respects_daily_maximum_witness :
  let data := Sample.studio_input in
  NoDup (map Instructor.id (SchedulingInput.instructors data))
  ∧ ∃ out,
      solve_with_heuristic (Clock.heuristic_runtime Sample.quick_clock) data = Some out
      ∧ HeuristicSolveOutput.assignments out
        = [ ScheduleAssignment.mk "AR110::S1" "AR110" "I3" "R101" "T1";
            ScheduleAssignment.mk "AR110::S2" "AR110" "I3" "R101" "T4" ]
      ∧ instructor_day_load data (HeuristicSolveOutput.assignments out) "I3" Mon = 1%nat
      ∧ ∀ instructor max_per_day day,
          instructor ∈ SchedulingInput.instructors data →
          Instructor.max_sessions_per_day instructor = Some max_per_day →
          instructor_day_load data (HeuristicSolveOutput.assignments out)
            (Instructor.id instructor) day = 0%nat
          ∨ Z.of_nat (instructor_day_load data (HeuristicSolveOutput.assignments out)
                        (Instructor.id instructor) day) ≤ max_per_day.
Proof.
  intros data.
  assert (NoDup (map Instructor.id (SchedulingInput.instructors data))) as Hinstructors.
  { apply (bool_decide_unpack _). vm_compute. reflexivity. }
  split; [exact Hinstructors|].
  assert (HeuristicSolveOutput.assignments
            <$> solve_with_heuristic (Clock.heuristic_runtime Sample.quick_clock) data
          = Some [ ScheduleAssignment.mk "AR110::S1" "AR110" "I3" "R101" "T1";
                   ScheduleAssignment.mk "AR110::S2" "AR110" "I3" "R101" "T4" ])
    as Hvalue by (vm_compute; reflexivity).
  destruct (solve_with_heuristic (Clock.heuristic_runtime Sample.quick_clock) data)
    as [out|] eqn:Hout; [|done].
  cbn in Hvalue. injection Hvalue as Hvalue.
  exists out. split; [done|]. split; [exact Hvalue|].
  split; [rewrite Hvalue; reflexivity|].
  exact (heuristic_respects_daily_maximum (Clock.heuristic_runtime Sample.quick_clock)
           data out Hinstructors Hout).
Defined.

Lemma heuristic_avoids_same_day_witness :
  Forall (λ session,
            CourseSession.course_id session = "CS101" →
            CourseSession.avoid_same_day_sessions session = true)
    (expand_course_sessions (SchedulingInput.courses Sample.week_input))
  ∧ ∃ out,
      solve_with_heuristic (Clock.heuristic_runtime Sample.quick_clock) Sample.week_input
      = Some out
      ∧ course_days Sample.week_input (HeuristicSolveOutput.assignments out) "CS101"
        = [Mon; Tue]
      ∧ NoDup (course_days Sample.week_input (HeuristicSolveOutput.assignments out)
                 "CS101").
Proof.
  assert (Forall (λ session,
            CourseSession.course_id session = "CS101" →
            CourseSession.avoid_same_day_sessions session = true)
    (expand_course_sessions (SchedulingInput.courses Sample.week_input))) as Hall.
  { apply Forall_forall. intros session Hsession _. revert session Hsession.
    apply Forall_forall. vm_compute. repeat constructor. }
  split; [exact Hall|].
  assert ((λ out, course_days Sample.week_input (HeuristicSolveOutput.assignments out)
                    "CS101")
            <$> solve_with_heuristic (Clock.heuristic_runtime Sample.quick_clock)
                  Sample.week_input
          = Some [Mon; Tue]) as Hvalue by (vm_compute; reflexivity).
  destruct (solve_with_heuristic (Clock.heuristic_runtime Sample.quick_clock)
              Sample.week_input) as [out|] eqn:Hout; [|done].
  cbn in Hvalue. injection Hvalue as Hvalue.
  exists out. split; [done|]. split; [exact Hvalue|].
  exact (heuristic_avoids_same_day (Clock.heuristic_runtime Sample.quick_clock)
           Sample.week_input "CS101" out Hall Hout).
Defined.

Lemma heuristic_schedule_only_misses_witness :
  NoDup (map Course.id (SchedulingInput.courses Sample.week_input))
  ∧ ∃ out,
      solve_with_heuristic (Clock.heuristic_runtime Sample.quick_clock) Sample.week_input
      = Some out
      ∧ HeuristicSolveOutput.status out = "fallback_partial"
      ∧ Forall (λ i, ValidationIssue.code i = "MISSING_SESSION_ASSIGNMENT")
          (ValidationReport.issues
             (validate_schedule Sample.week_input (HeuristicSolveOutput.assignments out)))
      ∧ (ValidationReport.valid
           (validate_schedule Sample.week_input (HeuristicSolveOutput.assignments out))
         = true
         ↔ HeuristicSolveOutput.status out = "fallback").
Proof.
  assert (NoDup (map Course.id (SchedulingInput.courses Sample.week_input))) as Hcourses.
  { apply (bool_decide_unpack _). vm_compute. reflexivity. }
  split; [exact Hcourses|].
  assert (HeuristicSolveOutput.status
            <$> solve_with_heuristic (Clock.heuristic_runtime Sample.quick_clock)
                  Sample.week_input
          = Some "fallback_partial") as Hvalue by (vm_compute; reflexivity).
  destruct (solve_with_heuristic (Clock.heuristic_runtime Sample.quick_clock)
              Sample.week_input) as [out|] eqn:Hout; [|done].
  cbn in Hvalue. injection Hvalue as Hvalue.
  exists out. split; [done|]. split; [exact Hvalue|].
  exact (heuristic_schedule_only_misses (Clock.heuristic_runtime Sample.quick_clock)
           Sample.week_input out Hcourses Hout).
Defined.

Lemma exact_result_is_valid_witness :
  let Solve := Sample.cautious_engine Sample.core_courses_guess in
  let data := Sample.core_courses in
  engine_sound Solve
  ∧ NoDup (map Course.id (SchedulingInput.courses data))
  ∧ NoDup (map Room.id (SchedulingInput.rooms data))
  ∧ NoDup (map TimeSlot.id (SchedulingInput.time_slots data))
  ∧ ∃ result validation,
      solve_schedule Solve Sample.quick_clock data cp_sat_mode = Some (result, validation)
      ∧ ScheduleResult.status result ∈ ["optimal"; "feasible"]
      ∧ ScheduleResult.solver result = "cp_sat"
      ∧ ValidationReport.valid validation = true
      ∧ ValidationReport.issues validation = []
      ∧ ScheduleMetrics.hard_violations (ScheduleResult.metrics result) = 0
      ∧ ScheduleMetrics.sessions_scheduled (ScheduleResult.metrics result)
        = ScheduleMetrics.sessions_required (ScheduleResult.metrics result).
Proof.
  intros Solve data.
  assert (engine_sound Solve) as Hsound by apply cautious_engine_sound.
  assert (NoDup (map Course.id (SchedulingInput.courses data))) as Hcourses.
  { apply (bool_decide_unpack _). vm_compute. reflexivity. }
  assert (NoDup (map Room.id (SchedulingInput.rooms data))) as Hrooms.
  { apply (bool_decide_unpack _). vm_compute. reflexivity. }
  assert (NoDup (map TimeSlot.id (SchedulingInput.time_slots data))) as Hslots.
  { apply (bool_decide_unpack _). vm_compute. reflexivity. }
  do 4 (split; [done|]).
  assert ((λ rv : ScheduleResult.t * ValidationReport.t, ScheduleResult.status rv.1)
            <$> solve_schedule Solve Sample.quick_clock data cp_sat_mode
          = Some "feasible") as Hstatus by (vm_compute; reflexivity).
  destruct (solve_schedule Solve Sample.quick_clock data cp_sat_mode)
    as [[result validation]|] eqn:Hsolve; [|done].
  cbn in Hstatus. injection Hstatus as Hstatus.
  assert (ScheduleResult.status result ∈ ["optimal"; "feasible"]) as Hok.
  { rewrite Hstatus. apply list_elem_of_further, list_elem_of_here. }
  exists result, validation. split; [done|]. split; [exact Hok|].
  exact (exact_result_is_valid Solve Sample.quick_clock data cp_sat_mode result validation
           Hsound Hcourses Hrooms Hslots Hsolve Hok).
Defined.

(** An instructor with at most one session a day and a course of two
    sessions that avoids same-day sessions: the exact path, with the engine
    proposing Monday and Tuesday, returns a schedule with one session of the
    instructor on each of the two days. *)
Lemma exact_result_respects_days_witness :
  let Solve := Sample.cautious_engine Sample.atelier_guess in
  let data := Sample.atelier_input in
  engine_sound Solve
  ∧ NoDup (map Course.id (SchedulingInput.courses data))
  ∧ NoDup (map Room.id (SchedulingInput.rooms data))
  ∧ NoDup (map TimeSlot.id (SchedulingInput.time_slots data))
  ∧ Sample.cara ∈ SchedulingInput.instructors data
  ∧ Instructor.max_sessions_per_day Sample.cara = Some 1
  ∧ Sample.painting ∈ SchedulingInput.courses data
  ∧ Course.avoid_same_day_sessions Sample.painting = true
  ∧ Course.sessions_per_week Sample.painting = 2
  ∧ ∃ result validation,
      solve_schedule Solve Sample.quick_clock data auto_mode = Some (result, validation)
      ∧ ScheduleResult.status result ∈ ["optimal"; "feasible"]
      ∧ ScheduleResult.assignments result
        = [ ScheduleAssignment.mk "AR120::S1" "AR120" "I3" "R101" "T1";
            ScheduleAssignment.mk "AR120::S2" "AR120" "I3" "R101" "T4" ]
      ∧ instructor_day_load data (ScheduleResult.assignments result) "I3" Mon = 1%nat
      ∧ course_days data (ScheduleResult.assignments result) "AR120" = [Mon; Tue]
      ∧ (∀ instructor max_per_day day,
           instructor ∈ SchedulingInput.instructors data →
           Instructor.max_sessions_per_day instructor = Some max_per_day →
           instructor_day_load data (ScheduleResult.assignments result)
             (Instructor.id instructor) day = 0%nat
           ∨ Z.of_nat (instructor_day_load data (ScheduleResult.assignments result)
                         (Instructor.id instructor) day) ≤ max_per_day)
      ∧ (∀ course,
           course ∈ SchedulingInput.courses data →
           Course.avoid_same_day_sessions course = true →
           NoDup (course_days data (ScheduleResult.assignments result)
                    (Course.id course))).
Proof.
  intros Solve data.
  assert (engine_sound Solve) as Hsound by apply cautious_engine_sound.
  assert (NoDup (map Course.id (SchedulingInput.courses data))) as Hcourses.
  { apply (bool_decide_unpack _). vm_compute. reflexivity. }
  assert (NoDup (map Room.id (SchedulingInput.rooms data))) as Hrooms.
  { apply (bool_decide_unpack _). vm_compute. reflexivity. }
  assert (NoDup (map TimeSlot.id (SchedulingInput.time_slots data))) as Hslots.
  { apply (bool_decide_unpack _). vm_compute. reflexivity. }
  do 4 (split; [done|]).
  split; [apply list_elem_of_here|]. split; [reflexivity|].
  split; [apply list_elem_of_here|]. split; [reflexivity|]. split; [reflexivity|].
  assert ((λ rv : ScheduleResult.t * ValidationReport.t,
             (ScheduleResult.status rv.1, ScheduleResult.assignments rv.1))
            <$> solve_schedule Solve Sample.quick_clock data auto_mode
          = Some ("feasible",
                  [ ScheduleAssignment.mk "AR120::S1" "AR120" "I3" "R101" "T1";
                    ScheduleAssignment.mk "AR120::S2" "AR120" "I3" "R101" "T4" ]))
    as Hvalue by (vm_compute; reflexivity).
  destruct (solve_schedule Solve Sample.quick_clock data auto_mode)
    as [[result validation]|] eqn:Hsolve; [|done].
  cbn in Hvalue. injection Hvalue as Hstatus Hassignments.
  assert (ScheduleResult.status result ∈ ["optimal"; "feasible"]) as Hok.
  { rewrite Hstatus. apply list_elem_of_further, list_elem_of_here. }
  exists result, validation. split; [done|]. split; [exact Hok|].
  split; [exact Hassignments|].
  split; [rewrite Hassignments; reflexivity|].
  split; [rewrite Hassignments; reflexivity|].
  exact (exact_result_respects_days Solve Sample.quick_clock data auto_mode result
           validation Hsound Hcourses Hrooms Hslots Hsolve Hok).
Defined.

Lemma exact_path_rejects_unknown_instructor_witness :
  let data := Sample.physics_input in
  Sample.physics ∈ SchedulingInput.courses data
  ∧ PyDict.get (instructor_by_id data) (Course.instructor_id Sample.physics) = None
  ∧ ∃ ids,
      _solve_with_cp_sat Sample.idle_engine (Clock.cp_runtime Sample.quick_clock) data
      = Some ("model_invalid", Clock.cp_runtime Sample.quick_clock, [],
              ["Unknown instructor id(s) detected in course input: " +:+ join ", " ids])
      ∧ NoDup ids
      ∧ ∀ id, id ∈ ids ↔
          ∃ c, c ∈ SchedulingInput.courses data
            ∧ Course.instructor_id c = id
            ∧ PyDict.get (instructor_by_id data) id = None.
Proof.
  intros data.
  assert (Sample.physics ∈ SchedulingInput.courses data) as Hcourse
    by apply list_elem_of_here.
  assert (PyDict.get (instructor_by_id data) (Course.instructor_id Sample.physics) = None)
    as Hunknown by reflexivity.
  split; [exact Hcourse|]. split; [exact Hunknown|].
  exact (exact_path_rejects_unknown_instructor Sample.idle_engine
           (Clock.cp_runtime Sample.quick_clock) data Sample.physics Hcourse Hunknown).
Defined.

Lemma exact_path_reports_session_without_option_witness :
  let data := Sample.crowded_input in
  let session := make_session Sample.lecture 1 in
  NoDup (map Course.id (SchedulingInput.courses data))
  ∧ (∀ course, course ∈ SchedulingInput.courses data →
       is_Some (PyDict.get (instructor_by_id data) (Course.instructor_id course)))
  ∧ session ∈ expand_course_sessions (SchedulingInput.courses data)
  ∧ PyDict.get (instructor_by_id data) (CourseSession.instructor_id session)
    = Some Sample.ann
  ∧ (∀ room slot, room ∈ SchedulingInput.rooms data →
       slot ∈ SchedulingInput.time_slots data → ¬ fits Sample.ann session room slot)
  ∧ ∃ session' instructor',
      session' ∈ expand_course_sessions (SchedulingInput.courses data)
      ∧ PyDict.get (instructor_by_id data) (CourseSession.instructor_id session')
        = Some instructor'
      ∧ (∀ room slot, room ∈ SchedulingInput.rooms data →
           slot ∈ SchedulingInput.time_slots data →
           ¬ fits instructor' session' room slot)
      ∧ _solve_with_cp_sat Sample.idle_engine (Clock.cp_runtime Sample.quick_clock) data
        = Some ("infeasible", Clock.cp_runtime Sample.quick_clock, [],
                ["No feasible assignment exists for session '"
                 +:+ CourseSession.session_id session' +:+ "'."]).
Proof.
  intros data session.
  assert (NoDup (map Course.id (SchedulingInput.courses data))) as Hcourses.
  { apply (bool_decide_unpack _). vm_compute. reflexivity. }
  assert (∀ course, course ∈ SchedulingInput.courses data →
            is_Some (PyDict.get (instructor_by_id data) (Course.instructor_id course)))
    as Hknown.
  { intros course Hin. apply list_elem_of_singleton in Hin. subst course. by eexists. }
  assert (session ∈ expand_course_sessions (SchedulingInput.courses data)) as Hsession
    by apply list_elem_of_here.
  assert (PyDict.get (instructor_by_id data) (CourseSession.instructor_id session)
          = Some Sample.ann) as Hinstructor by reflexivity.
  assert (∀ room slot, room ∈ SchedulingInput.rooms data →
            slot ∈ SchedulingInput.time_slots data →
            ¬ fits Sample.ann session room slot) as Hnone.
  { intros room slot Hroom _ [Hcap _]. apply list_elem_of_singleton in Hroom.
    subst room. cbn in Hcap. lia. }
  do 5 (split; [done|]).
  exact (exact_path_reports_session_without_option Sample.idle_engine
           (Clock.cp_runtime Sample.quick_clock) data session Sample.ann
           Hcourses Hknown Hsession Hinstructor Hnone).
Defined.

Lemma objective_breakdown_order_independent_witness :
  let data := Sample.two_courses in
  let weights := SolverOptions.objective_weights (SchedulingInput.options data) in
  [Sample.lab_record; Sample.calculus_record]
  ≡ₚ [Sample.calculus_record; Sample.lab_record]
  ∧ compute_objective_breakdown data [Sample.lab_record; Sample.calculus_record] weights
    = compute_objective_breakdown data [Sample.calculus_record; Sample.lab_record]
        weights.
Proof.
  intros data weights.
  assert ([Sample.lab_record; Sample.calculus_record]
          ≡ₚ [Sample.calculus_record; Sample.lab_record]) as Hperm by apply perm_swap.
  split; [exact Hperm|].
  exact (objective_breakdown_order_independent data weights _ _ Hperm).
Defined.

(** With an engine that gives up: the mode [cp_sat] returns the empty
    result of the exact path under the status [unknown]. *)
Lemma result_solver_and_status_witness :
  let data := Sample.two_courses in
  ∃ result validation,
    solve_schedule Sample.idle_engine Sample.quick_clock data cp_sat_mode
    = Some (result, validation)
    ∧ ScheduleResult.status result = "unknown"
    ∧ (ScheduleResult.solver result = "heuristic"
       ∧ ScheduleResult.status result ∈ ["fallback"; "fallback_partial"]
       ∨ ScheduleResult.solver result = "cp_sat"
         ∧ ScheduleResult.status result
           ∈ ["optimal"; "feasible"; "infeasible"; "unknown"; "model_invalid"])
    ∧ (cp_sat_mode = heuristic_mode → ScheduleResult.solver result = "heuristic")
    ∧ (cp_sat_mode = cp_sat_mode → ScheduleResult.solver result = "cp_sat")
    ∧ (ScheduleResult.solver result = "cp_sat" →
       ScheduleResult.status result ∉ ["optimal"; "feasible"] →
       ScheduleResult.assignments result = []
       ∧ ScheduleMetrics.sessions_scheduled (ScheduleResult.metrics result) = 0).
Proof.
  intros data.
  assert ((λ rv : ScheduleResult.t * ValidationReport.t, ScheduleResult.status rv.1)
            <$> solve_schedule Sample.idle_engine Sample.quick_clock data cp_sat_mode
          = Some "unknown") as Hvalue by (vm_compute; reflexivity).
  destruct (solve_schedule Sample.idle_engine Sample.quick_clock data cp_sat_mode)
    as [[result validation]|] eqn:Hsolve; [|done].
  cbn in Hvalue. injection Hvalue as Hstatus.
  exists result, validation. split; [done|]. split; [exact Hstatus|].
  exact (result_solver_and_status Sample.idle_engine Sample.quick_clock data
           cp_sat_mode result validation Hsolve).
Defined.
